(** * LexAgents: a shallow embedding of the extraction pipeline

    The development follows the Python sources of the repository:
    - [agents/convergencia.py]      the convergence engine,
    - [agents/extractor_agent_*.py] the three extractor agents,
    - [agents/validator_agent.py]   the BOE validator,
    - [agents/context_resolver_agent.py] the context resolver,
    - [agents/title_resolver_agent.py] the title resolver,
    - [modules/boe_downloader.py]   the consolidated-law downloader,
    - [modules/boe_article_fetcher.py] the article fetcher,
    - [modules/eurlex_fetcher.py]   CELEX synthesis,
    - [pipeline_optimizado.py]      the orchestrator.

    Conventions.  Python [str] values are byte strings holding UTF-8; case
    folding and white space are those of ASCII and of the Latin-1 letters
    (two-byte sequences led by 0xC3), which covers Spanish legal texts.
    Python [int] is [Z].  A [dict] that plays the role of a record is a
    [Record] with optional fields.  The dicts come from JSON written by an
    LLM, so a key can be absent or hold [null].  For [texto_completo] and
    [confianza] the code tells the two apart ([d.get(k, v)] gives [None]
    for [null], and the operation that follows raises), so these two fields
    are a [Campo]; the other keys are read as [d.get(k) or v], tested for
    truth, or copied into a prompt, a log line or a [dict] entry that is
    not read again, all of which treat both alike, and [None] stands for
    either.  A key that holds a value holds one of the type of its field,
    and a reference carries no key besides the fields of [Referencia].
    The keys whose name starts with an underscore are the program's own:
    they are absent or hold what the program wrote.
    A [dict] or [set] used as a container is a [gmap] or a [gset].  Dicts
    are shared, not copied, where the code shares them: the places where
    an assignment is seen through another list are modelled with a store.
    Remote services (the LLM, the BOE web site, the BOE searcher), the
    clock, the file system, the XML and HTML parsers and thread completion
    order are parameters of the model. *)

From Stdlib Require Import ZArith String Ascii List Lia Bool.
From Stdlib Require Import Decimal DecimalString DecimalZ DecimalN DecimalPos.
From stdpp Require Import base decidable option list strings gmap.

Local Open Scope string_scope.
Local Open Scope list_scope.
Local Open Scope Z_scope.

(* ===================================================================== *)
(** ** Exceptions *)
(* ===================================================================== *)

(** The Python exceptions that the modelled code can raise or absorb. *)
Inductive excepcion : Type :=
| IndexError
| ZeroDivisionError
| ValueError
| AttributeError
| TypeError
| OSError (mensaje : string)
| ErrorProveedor (mensaje : string).

(** [str(e)] for the exceptions of the outside world, which carry their
    message.  The message of a built-in exception depends on the site that
    raises it; none of them reaches a [str(e)] of the modelled code. *)
Definition str_excepcion (e : excepcion) : option string :=
  match e with
  | OSError mensaje | ErrorProveedor mensaje => Some mensaje
  | IndexError | ZeroDivisionError | ValueError | AttributeError | TypeError => None
  end.

(** A computation that returns a value or raises. *)
Inductive Exc (A : Type) : Type :=
| Ok (a : A)
| Raise (e : excepcion).
Arguments Ok {A} a.
Arguments Raise {A} e.

Definition exc_bind {A B} (m : Exc A) (k : A -> Exc B) : Exc B :=
  match m with
  | Ok a => k a
  | Raise e => Raise e
  end.

Declare Scope exc_scope.
Delimit Scope exc_scope with exc.
Notation "'let*' x ':=' m 'in' k" := (exc_bind m (fun x => k))
  (at level 10, x name, m at level 100, k at level 200) : exc_scope.

(** [try: m  except Exception: h]. *)
Definition try_except {A} (m : Exc A) (h : excepcion -> A) : A :=
  match m with
  | Ok a => a
  | Raise e => h e
  end.

(** A list comprehension [[x for x in l if p(x)]] whose condition can
    raise: the first exception leaves the comprehension. *)
Fixpoint exc_filter {A} (p : A -> Exc bool) (l : list A) : Exc (list A) :=
  match l with
  | [] => Ok []
  | x :: l' =>
      match p x with
      | Raise e => Raise e
      | Ok b =>
          match exc_filter p l' with
          | Raise e => Raise e
          | Ok ys => Ok (if b then x :: ys else ys)
          end
      end
  end.

(** A loop that maps a raising function over a list, stopping at the first
    exception. *)
Fixpoint exc_mapM {A B} (f : A -> Exc B) (l : list A) : Exc (list B) :=
  match l with
  | [] => Ok []
  | x :: l' =>
      match f x with
      | Raise e => Raise e
      | Ok y =>
          match exc_mapM f l' with
          | Raise e => Raise e
          | Ok ys => Ok (y :: ys)
          end
      end
  end.

(* ===================================================================== *)
(** ** Python strings *)
(* ===================================================================== *)

Module PyStr.

Definition codigo (c : ascii) : N := N_of_ascii c.

(** [str.isspace] on one ASCII character: TAB..CR, FS..US and space. *)
Definition es_espacio (c : ascii) : bool :=
  let n := codigo c in
  ((9 <=? n) && (n <=? 13) || (28 <=? n) && (n <=? 32))%N.

(** ASCII decimal digit, the [\d] of the patterns below. *)
Definition es_digito (c : ascii) : bool :=
  let n := codigo c in ((48 <=? n) && (n <=? 57))%N.

Definition es_minuscula (c : ascii) : bool :=
  let n := codigo c in ((97 <=? n) && (n <=? 122))%N.

Definition es_mayuscula (c : ascii) : bool :=
  let n := codigo c in ((65 <=? n) && (n <=? 90))%N.

Definition lower_ascii (c : ascii) : ascii :=
  if es_mayuscula c then ascii_of_N (codigo c + 32) else c.

Definition upper_ascii (c : ascii) : ascii :=
  if es_minuscula c then ascii_of_N (codigo c - 32) else c.

(** Second byte of a two-byte sequence led by 0xC3: the capital letters
    U+00C0..U+00DE except the multiplication sign U+00D7. *)
Definition lower_latin1 (c : ascii) : ascii :=
  let n := codigo c in
  if ((128 <=? n) && (n <=? 158) && negb (n =? 151))%N
  then ascii_of_N (n + 32) else c.

Definition upper_latin1 (c : ascii) : ascii :=
  let n := codigo c in
  if ((160 <=? n) && (n <=? 190) && negb (n =? 183))%N
  then ascii_of_N (n - 32) else c.

(** [str.lower]. *)
Fixpoint lower_aux (tras_c3 : bool) (s : string) : string :=
  match s with
  | EmptyString => EmptyString
  | String c s' =>
      if tras_c3 then String (lower_latin1 c) (lower_aux false s')
      else String (lower_ascii c) (lower_aux (codigo c =? 195)%N s')
  end.
Definition lower (s : string) : string := lower_aux false s.

(** [str.upper]. *)
Fixpoint upper_aux (tras_c3 : bool) (s : string) : string :=
  match s with
  | EmptyString => EmptyString
  | String c s' =>
      if tras_c3 then String (upper_latin1 c) (upper_aux false s')
      else String (upper_ascii c) (upper_aux (codigo c =? 195)%N s')
  end.
Definition upper (s : string) : string := upper_aux false s.

Fixpoint lstrip_con (p : ascii -> bool) (s : string) : string :=
  match s with
  | EmptyString => EmptyString
  | String c s' => if p c then lstrip_con p s' else s
  end.

Definition invertir (s : string) : string :=
  string_of_list_ascii (rev (list_ascii_of_string s)).

Definition rstrip_con (p : ascii -> bool) (s : string) : string :=
  invertir (lstrip_con p (invertir s)).

(** [str.strip()]. *)
Definition strip (s : string) : string :=
  rstrip_con es_espacio (lstrip_con es_espacio s).

(** [str.lstrip('0')]. *)
Definition lstrip_ceros (s : string) : string :=
  lstrip_con (fun c => (codigo c =? 48)%N) s.

(** Truthiness of a string. *)
Definition no_vacia (s : string) : bool :=
  match s with EmptyString => false | _ => true end.

(** [s.split(sep)[0]] for a one-character separator. *)
Fixpoint antes_de (sep : ascii) (s : string) : string :=
  match s with
  | EmptyString => EmptyString
  | String c s' =>
      if (codigo c =? codigo sep)%N then EmptyString
      else String c (antes_de sep s')
  end.

(** [s.split()]: the maximal runs of non-space characters. *)
Fixpoint split_ws_aux (actual : string) (s : string) : list string :=
  match s with
  | EmptyString =>
      if no_vacia actual then [invertir actual] else []
  | String c s' =>
      if es_espacio c
      then (if no_vacia actual then invertir actual :: split_ws_aux "" s'
            else split_ws_aux "" s')
      else split_ws_aux (String c actual) s'
  end.
Definition split_ws (s : string) : list string := split_ws_aux "" s.

(** [' '.join(l)]. *)
Fixpoint join_espacio (l : list string) : string :=
  match l with
  | [] => ""
  | [x] => x
  | x :: l' => x +:+ " " +:+ join_espacio l'
  end.

(** [str(n)] and [f"{n}"] for an integer. *)
Definition str_of_Z (z : Z) : string :=
  NilZero.string_of_int (Z.to_int z).

(** All characters are ASCII digits and there is at least one. *)
Definition solo_digitos (s : string) : bool :=
  no_vacia s && forallb es_digito (list_ascii_of_string s).

(** Value of a run of ASCII digits, leading zeros allowed. *)
Definition valor_digitos (s : string) : option Z :=
  if solo_digitos s
  then match NilZero.uint_of_string s with
       | Some d => Some (Z.of_uint d)
       | None => None
       end
  else None.

(** Removes single underscores that sit between two digits, as the
    integer literal grammar of [int()] allows; [None] when an underscore
    is misplaced. *)
Fixpoint quitar_guiones (previo_digito : bool) (s : string) : option string :=
  match s with
  | EmptyString => Some EmptyString
  | String c s' =>
      if (codigo c =? 95)%N then
        match s' with
        | String d _ =>
            if previo_digito && es_digito d then quitar_guiones false s'
            else None
        | EmptyString => None
        end
      else match quitar_guiones (es_digito c) s' with
           | Some r => Some (String c r)
           | None => None
           end
  end.

(** [int(s)] in base 10: surrounding white space, an optional sign, digits
    with optional single underscores.  [None] stands for [ValueError]. *)
Definition py_int (s : string) : option Z :=
  let t := strip s in
  let '(negativo, cuerpo) :=
    match t with
    | String c r =>
        if (codigo c =? 45)%N then (true, r)
        else if (codigo c =? 43)%N then (false, r)
        else (false, t)
    | EmptyString => (false, t)
    end in
  match quitar_guiones false cuerpo with
  | Some ds =>
      match valor_digitos ds with
      | Some v => Some (if negativo then - v else v)
      | None => None
      end
  | None => None
  end.

(** [f"{n:04d}"]: sign, then zeros up to a total width of four. *)
Definition formato_04d (n : Z) : string :=
  let signo := if (n <? 0)%Z then "-" else "" in
  let cifras := str_of_Z (Z.abs n) in
  let ancho := (String.length signo + String.length cifras)%nat in
  signo +:+ string_of_list_ascii (repeat "0"%char (4 - ancho)) +:+ cifras.

(** [s.startswith(p)]. *)
Definition startswith (p s : string) : bool := String.prefix p s.

(** [sub in s] for strings. *)
Fixpoint contiene (sub s : string) : bool :=
  String.prefix sub s ||
  match s with
  | EmptyString => false
  | String _ s' => contiene sub s'
  end.

(** [s[i:j]]. *)
Definition rebanada (i j : nat) (s : string) : string :=
  String.substring i (j - i) s.

End PyStr.

(* ===================================================================== *)
(** ** Regular expressions (the subset of Python's [re] used by the code) *)
(* ===================================================================== *)

Module Re.
Import PyStr.

(** Pattern syntax.  Matching is the backtracking one of [re]: ordered
    alternation, greedy repetition, leftmost match for [search]. *)
Inductive regex : Type :=
| Vacio                              (* the empty pattern *)
| Car (c : ascii)                    (* one literal byte *)
| Clase (p : ascii -> bool)          (* a character class *)
| Seq (a b : regex)
| Alt (a b : regex)                  (* a|b *)
| Estrella (a : regex)               (* a*  greedy *)
| Grupo (i : nat) (a : regex)        (* capturing group number i *)
| Inicio                             (* ^ *)
| Fin.                               (* $ *)

Definition Mas (a : regex) : regex := Seq a (Estrella a).      (* a+ *)
Definition Opc (a : regex) : regex := Alt a Vacio.             (* a? *)

Fixpoint Lit (s : string) : regex :=                           (* literal text *)
  match s with
  | EmptyString => Vacio
  | String c s' => Seq (Car c) (Lit s')
  end.

Fixpoint Rep (n : nat) (a : regex) : regex :=                  (* a{n} *)
  match n with
  | O => Vacio
  | S n' => Seq a (Rep n' a)
  end.

Definition d : regex := Clase es_digito.                       (* \d *)
Definition s_ : regex := Clase es_espacio.                     (* \s *)

(** Spans of the capturing groups, latest first. *)
Definition capturas : Type := list (nat * (nat * nat)).

(** Outcome of a matching attempt; [SinCombustible] never shows up when
    the fuel covers the text length and the pattern size. *)
Inductive salida : Type :=
| Casa (fin : nat) (caps : capturas)
| NoCasa
| SinCombustible.

(** [casar n r s pos caps k]: match [r] at offset [pos], where [s] is the
    text from [pos] on, then continue with [k]. *)
Fixpoint casar (n : nat) (r : regex) (s : string) (pos : nat)
         (caps : capturas) (k : string -> nat -> capturas -> salida) : salida :=
  match n with
  | O => SinCombustible
  | S n' =>
      match r with
      | Vacio => k s pos caps
      | Car c =>
          match s with
          | String x s' =>
              if (codigo x =? codigo c)%N then k s' (S pos) caps else NoCasa
          | EmptyString => NoCasa
          end
      | Clase p =>
          match s with
          | String x s' => if p x then k s' (S pos) caps else NoCasa
          | EmptyString => NoCasa
          end
      | Seq a b =>
          casar n' a s pos caps (fun s1 p1 c1 => casar n' b s1 p1 c1 k)
      | Alt a b =>
          match casar n' a s pos caps k with
          | NoCasa => casar n' b s pos caps k
          | otra => otra
          end
      | Estrella a =>
          match casar n' a s pos caps
                  (fun s1 p1 c1 =>
                     if (p1 =? pos)%nat then NoCasa
                     else casar n' (Estrella a) s1 p1 c1 k) with
          | NoCasa => k s pos caps
          | otra => otra
          end
      | Grupo i a =>
          casar n' a s pos caps (fun s1 p1 c1 => k s1 p1 ((i, (pos, p1)) :: c1))
      | Inicio => if (pos =? 0)%nat then k s pos caps else NoCasa
      | Fin =>
          match s with
          | EmptyString => k s pos caps
          | String x EmptyString =>
              if (codigo x =? 10)%N then k s pos caps else NoCasa
          | _ => NoCasa
          end
      end
  end.

Fixpoint talla (r : regex) : nat :=
  match r with
  | Seq a b | Alt a b => S (talla a + talla b)
  | Estrella a | Grupo _ a => S (talla a)
  | _ => 1%nat
  end.

Definition combustible (r : regex) (s : string) : nat :=
  (2 * (talla r + String.length s) + 4)%nat.

(** A successful match: its span and the spans of its groups. *)
Record coincidencia : Type := {
  m_inicio : nat;
  m_fin : nat;
  m_capturas : capturas
}.

(** Match attempt anchored at offset [pos] of the text. *)
Definition casar_en (n : nat) (r : regex) (resto : string) (pos : nat) : salida :=
  casar n r resto pos [] (fun _ p c => Casa p c).

(** [re.match(r, s)]. *)
Definition re_match (r : regex) (s : string) : option coincidencia :=
  match casar_en (combustible r s) r s 0 with
  | Casa f c => Some {| m_inicio := 0; m_fin := f; m_capturas := c |}
  | _ => None
  end.

(** Scan of the start offsets from left to right. *)
Fixpoint buscar_desde (n : nat) (r : regex) (resto : string) (pos : nat)
  : option coincidencia :=
  match casar_en n r resto pos with
  | Casa f c => Some {| m_inicio := pos; m_fin := f; m_capturas := c |}
  | _ =>
      match resto with
      | EmptyString => None
      | String _ resto' => buscar_desde n r resto' (S pos)
      end
  end.

(** [re.search(r, s)]. *)
Definition re_search (r : regex) (s : string) : option coincidencia :=
  buscar_desde (combustible r s) r s 0.

(** [re.search(r, s, re.IGNORECASE)] for a pattern written in lower case:
    the match is computed on the folded text; spans index the original. *)
Definition re_search_i (r : regex) (s : string) : option coincidencia :=
  re_search r (lower s).

(** [m.group(0)]. *)
Definition group0 (s : string) (m : coincidencia) : string :=
  rebanada (m_inicio m) (m_fin m) s.

Fixpoint span_de (i : nat) (c : capturas) : option (nat * nat) :=
  match c with
  | [] => None
  | (j, sp) :: c' => if (i =? j)%nat then Some sp else span_de i c'
  end.

(** [m.group(i)] for a group that took part in the match. *)
Definition group (i : nat) (s : string) (m : coincidencia) : option string :=
  match span_de i (m_capturas m) with
  | Some (a, b) => Some (rebanada a b s)
  | None => None
  end.

End Re.

(* ===================================================================== *)
(** ** The reference record *)
(* ===================================================================== *)

(** [ref['_metadata']]: provenance stamped by the convergence engine;
    [timestamp] is [datetime.now().isoformat()]. *)
Record Metadata : Type := {
  encontrado_por : string;
  ronda : Z;
  timestamp : string
}.

(** [ref['_metadata_validacion']]: what the validator records. *)
Record MetadataValidacion : Type := {
  validada : option bool;
  motivo : option string;
  mv_boe_id : option string;
  boe_url : option string;
  articulo_formato_valido : option bool;
  articulo_verificado_boe : option bool;
  articulo_existe_boe : option bool;
  articulo_texto_oficial : option string;
  error_verificacion : option string
}.

(** The value under a key of a dict read from JSON, where the code tells
    an absent key from [null]. *)
Inductive Campo (A : Type) : Type :=
| Ausente
| Nulo
| Valor (a : A).
Arguments Ausente {A}.
Arguments Nulo {A}.
Arguments Valor {A} a.

(** [d.get(k)]: Python's [None] for an absent key and for [null]. *)
Definition campo_get {A : Type} (c : Campo A) : option A :=
  match c with
  | Valor a => Some a
  | Ausente | Nulo => None
  end.

(** [d.get(k, v)]: the default replaces an absent key only; the result
    [None] is Python's [None], read from a [null]. *)
Definition campo_get_o {A : Type} (c : Campo A) (v : A) : option A :=
  match c with
  | Ausente => Some v
  | Nulo => None
  | Valor a => Some a
  end.

(** A key that is set or absent. *)
Definition campo_de {A : Type} (o : option A) : Campo A :=
  match o with
  | Some a => Valor a
  | None => Ausente
  end.

(** A legal reference: the keys of the [dict] that the modelled code reads
    or writes; a reference is taken to carry no other key. *)
Record Referencia : Type := {
  campo_texto_completo : Campo string;
  texto : option string;
  tipo : option string;
  ley : option string;
  articulo : option string;
  campo_confianza : Campo Z;
  ley_normalizada : option string;
  ley_titulo_completo : option string;
  boe_id : option string;
  _validada : option bool;
  texto_oficial_boe : option string;
  _contexto_resuelto : option bool;
  _razonamiento_contexto : option string;
  _metadata : option Metadata;
  _metadata_validacion : option MetadataValidacion
}.

(** [ref.get('texto_completo')] and [ref.get('confianza')]. *)
Definition texto_completo (r : Referencia) : option string :=
  campo_get (campo_texto_completo r).
Definition confianza (r : Referencia) : option Z :=
  campo_get (campo_confianza r).

#[global] Instance excepcion_eq_dec : EqDecision excepcion.
Proof. solve_decision. Defined.
#[global] Instance Campo_eq_dec {A : Type} `{EqDecision A} : EqDecision (Campo A).
Proof. solve_decision. Defined.
#[global] Instance Metadata_eq_dec : EqDecision Metadata.
Proof. solve_decision. Defined.
#[global] Instance MetadataValidacion_eq_dec : EqDecision MetadataValidacion.
Proof. solve_decision. Defined.
#[global] Instance Referencia_eq_dec : EqDecision Referencia.
Proof. solve_decision. Defined.


(** The reference with no key set, and one built from the keys an
    extractor returns ([None] for a key it leaves out). *)
Definition ref_vacia : Referencia :=
  {| campo_texto_completo := Ausente; texto := None; tipo := None; ley := None;
     articulo := None; campo_confianza := Ausente; ley_normalizada := None;
     ley_titulo_completo := None; boe_id := None; _validada := None;
     texto_oficial_boe := None; _contexto_resuelto := None;
     _razonamiento_contexto := None; _metadata := None;
     _metadata_validacion := None |}.

#[global] Instance Referencia_inhabited : Inhabited Referencia := populate ref_vacia.

Definition mk_ref (tc : option string) (l a : option string) (c : option Z)
  : Referencia :=
  {| campo_texto_completo := campo_de tc; texto := None; tipo := None; ley := l;
     articulo := a; campo_confianza := campo_de c; ley_normalizada := None;
     ley_titulo_completo := None; boe_id := None; _validada := None;
     texto_oficial_boe := None; _contexto_resuelto := None;
     _razonamiento_contexto := None; _metadata := None;
     _metadata_validacion := None |}.

(** Item assignments [ref[k] = v]. *)
Definition set_texto_completo (v : Campo string) (r : Referencia) : Referencia :=
  {| campo_texto_completo := v; texto := texto r; tipo := tipo r; ley := ley r;
     articulo := articulo r; campo_confianza := campo_confianza r;
     ley_normalizada := ley_normalizada r;
     ley_titulo_completo := ley_titulo_completo r; boe_id := boe_id r;
     _validada := _validada r; texto_oficial_boe := texto_oficial_boe r;
     _contexto_resuelto := _contexto_resuelto r;
     _razonamiento_contexto := _razonamiento_contexto r;
     _metadata := _metadata r; _metadata_validacion := _metadata_validacion r |}.

Definition set_ley (v : option string) (r : Referencia) : Referencia :=
  {| campo_texto_completo := campo_texto_completo r; texto := texto r; tipo := tipo r; ley := v;
     articulo := articulo r; campo_confianza := campo_confianza r;
     ley_normalizada := ley_normalizada r;
     ley_titulo_completo := ley_titulo_completo r; boe_id := boe_id r;
     _validada := _validada r; texto_oficial_boe := texto_oficial_boe r;
     _contexto_resuelto := _contexto_resuelto r;
     _razonamiento_contexto := _razonamiento_contexto r;
     _metadata := _metadata r; _metadata_validacion := _metadata_validacion r |}.

Definition set_confianza (v : Campo Z) (r : Referencia) : Referencia :=
  {| campo_texto_completo := campo_texto_completo r; texto := texto r; tipo := tipo r; ley := ley r;
     articulo := articulo r; campo_confianza := v;
     ley_normalizada := ley_normalizada r;
     ley_titulo_completo := ley_titulo_completo r; boe_id := boe_id r;
     _validada := _validada r; texto_oficial_boe := texto_oficial_boe r;
     _contexto_resuelto := _contexto_resuelto r;
     _razonamiento_contexto := _razonamiento_contexto r;
     _metadata := _metadata r; _metadata_validacion := _metadata_validacion r |}.

Definition set_boe_id (v : option string) (r : Referencia) : Referencia :=
  {| campo_texto_completo := campo_texto_completo r; texto := texto r; tipo := tipo r; ley := ley r;
     articulo := articulo r; campo_confianza := campo_confianza r;
     ley_normalizada := ley_normalizada r;
     ley_titulo_completo := ley_titulo_completo r; boe_id := v;
     _validada := _validada r; texto_oficial_boe := texto_oficial_boe r;
     _contexto_resuelto := _contexto_resuelto r;
     _razonamiento_contexto := _razonamiento_contexto r;
     _metadata := _metadata r; _metadata_validacion := _metadata_validacion r |}.

Definition set_validada (v : option bool) (r : Referencia) : Referencia :=
  {| campo_texto_completo := campo_texto_completo r; texto := texto r; tipo := tipo r; ley := ley r;
     articulo := articulo r; campo_confianza := campo_confianza r;
     ley_normalizada := ley_normalizada r;
     ley_titulo_completo := ley_titulo_completo r; boe_id := boe_id r;
     _validada := v; texto_oficial_boe := texto_oficial_boe r;
     _contexto_resuelto := _contexto_resuelto r;
     _razonamiento_contexto := _razonamiento_contexto r;
     _metadata := _metadata r; _metadata_validacion := _metadata_validacion r |}.

Definition set_texto_oficial_boe (v : option string) (r : Referencia) : Referencia :=
  {| campo_texto_completo := campo_texto_completo r; texto := texto r; tipo := tipo r; ley := ley r;
     articulo := articulo r; campo_confianza := campo_confianza r;
     ley_normalizada := ley_normalizada r;
     ley_titulo_completo := ley_titulo_completo r; boe_id := boe_id r;
     _validada := _validada r; texto_oficial_boe := v;
     _contexto_resuelto := _contexto_resuelto r;
     _razonamiento_contexto := _razonamiento_contexto r;
     _metadata := _metadata r; _metadata_validacion := _metadata_validacion r |}.

Definition set_contexto (resuelto : option bool) (razon : option string)
           (r : Referencia) : Referencia :=
  {| campo_texto_completo := campo_texto_completo r; texto := texto r; tipo := tipo r; ley := ley r;
     articulo := articulo r; campo_confianza := campo_confianza r;
     ley_normalizada := ley_normalizada r;
     ley_titulo_completo := ley_titulo_completo r; boe_id := boe_id r;
     _validada := _validada r; texto_oficial_boe := texto_oficial_boe r;
     _contexto_resuelto := resuelto;
     _razonamiento_contexto := razon;
     _metadata := _metadata r; _metadata_validacion := _metadata_validacion r |}.

Definition set_metadata (v : option Metadata) (r : Referencia) : Referencia :=
  {| campo_texto_completo := campo_texto_completo r; texto := texto r; tipo := tipo r; ley := ley r;
     articulo := articulo r; campo_confianza := campo_confianza r;
     ley_normalizada := ley_normalizada r;
     ley_titulo_completo := ley_titulo_completo r; boe_id := boe_id r;
     _validada := _validada r; texto_oficial_boe := texto_oficial_boe r;
     _contexto_resuelto := _contexto_resuelto r;
     _razonamiento_contexto := _razonamiento_contexto r;
     _metadata := v; _metadata_validacion := _metadata_validacion r |}.

Definition set_metadata_validacion (v : option MetadataValidacion)
           (r : Referencia) : Referencia :=
  {| campo_texto_completo := campo_texto_completo r; texto := texto r; tipo := tipo r; ley := ley r;
     articulo := articulo r; campo_confianza := campo_confianza r;
     ley_normalizada := ley_normalizada r;
     ley_titulo_completo := ley_titulo_completo r; boe_id := boe_id r;
     _validada := _validada r; texto_oficial_boe := texto_oficial_boe r;
     _contexto_resuelto := _contexto_resuelto r;
     _razonamiento_contexto := _razonamiento_contexto r;
     _metadata := _metadata r; _metadata_validacion := v |}.

(** [d.get(k) or '']. *)
Definition o_cadena (o : option string) : string := default "" o.

(** [ref.get('confianza', v)] for a confidence that is not [null], and as
    the operand of a comparison with an [int], where Python's [None], read
    from a [null], raises [TypeError]. *)
Definition get_confianza (r : Referencia) (por_defecto : Z) : Z :=
  default por_defecto (confianza r).

Definition leer_confianza (r : Referencia) (por_defecto : Z) : Exc Z :=
  match campo_get_o (campo_confianza r) por_defecto with
  | Some c => Ok c
  | None => Raise TypeError
  end.

(** The log lines that slice [ref.get('texto_completo', '')]: the slice
    of the [None] read from a [null] raises [TypeError]. *)
Definition registrar_texto (ref : Referencia) : Exc unit :=
  match campo_get_o (campo_texto_completo ref) "" with
  | Some _ => Ok tt
  | None => Raise TypeError
  end.

(** Truthiness of an optional string: set and not empty. *)
Definition verdadero (o : option string) : bool :=
  match o with
  | Some s => PyStr.no_vacia s
  | None => false
  end.

(** [a or b] on optional strings. *)
Definition o_bien (a b : option string) : option string :=
  if verdadero a then a else b.

(* ===================================================================== *)
(** ** Extractor agents A, B and C  ([agents/extractor_agent_*.py]) *)
(* ===================================================================== *)

(** What lies outside the engine and its agents.  [generar nombre texto
    ronda previas] is the outcome of [generar_contenido] followed by
    [_parsear_respuesta] for the agent called [nombre]: the parsed batch, a
    list of fresh dicts, or the exception that left the [try] block.
    [ia_deduplicar ronda refs] is the deduplication call of the convergence
    engine in round [ronda]: [Raise] when the call fails, [Ok None] when
    the reply is not the expected JSON, [Ok (Some l)] for a reply whose
    [indices_unicos] is [l].  [reloj ronda k] is what
    [datetime.now().isoformat()] returns for the stamp that follows [k]
    stamps of round [ronda]. *)
Record Proveedor : Type := {
  generar : string -> string -> Z -> list Referencia -> Exc (list Referencia);
  ia_deduplicar : Z -> list Referencia -> Exc (option (list Z));
  reloj : Z -> nat -> string
}.

(** The [dict] returned by [procesar]. *)
Record ResultadoAgente : Type := {
  ra_referencias : list Referencia;
  ra_total : Z;
  ra_agente : string;
  ra_ronda : Z;
  ra_error : option excepcion
}.

Module Extractor.
Import PyStr.

Definition nombre_a : string := "Agente1A-Conservador".
Definition nombre_b : string := "Agente1B-Agresivo".
Definition nombre_c : string := "Agente1C-Sabueso".

(** [(ref.get('texto_completo') or ref.get('texto') or '').lower().strip()] *)
Definition texto_norm (ref : Referencia) : string :=
  strip (lower (o_cadena (o_bien (texto_completo ref) (texto ref)))).

(** [(ref.get('ley') or '').lower().strip()] *)
Definition ley_norm (ref : Referencia) : string :=
  strip (lower (o_cadena (ley ref))).

(** Agent A, [_filtrar_duplicados]. *)
Definition textos_previos_a (referencias_previas : list Referencia) : gset string :=
  fold_left
    (fun (textos_previos : gset string) ref =>
       let texto := texto_norm ref in
       if no_vacia texto then textos_previos ∪ {[ texto ]} else textos_previos)
    referencias_previas ∅.

Fixpoint filtrar_bucle_a (textos_previos : gset string)
         (referencias_nuevas : list Referencia) : list Referencia :=
  match referencias_nuevas with
  | [] => []
  | ref :: resto =>
      let texto := texto_norm ref in
      if no_vacia texto && bool_decide (texto ∉ textos_previos)
      then ref :: filtrar_bucle_a (textos_previos ∪ {[ texto ]}) resto
      else filtrar_bucle_a textos_previos resto
  end.

Definition _filtrar_duplicados_a (referencias_nuevas referencias_previas : list Referencia)
  : list Referencia :=
  filtrar_bucle_a (textos_previos_a referencias_previas) referencias_nuevas.

(** Agent B, [_filtrar_duplicados]: laws count as seen texts too. *)
Definition textos_previos_b (referencias_previas : list Referencia) : gset string :=
  fold_left
    (fun (textos_previos : gset string) ref =>
       let texto := texto_norm ref in
       let s1 := if no_vacia texto then textos_previos ∪ {[ texto ]}
                 else textos_previos in
       let ley := ley_norm ref in
       if no_vacia ley then s1 ∪ {[ ley ]} else s1)
    referencias_previas ∅.

Fixpoint filtrar_bucle_b (textos_previos : gset string)
         (referencias_nuevas : list Referencia) : list Referencia :=
  match referencias_nuevas with
  | [] => []
  | ref :: resto =>
      let texto := texto_norm ref in
      let ley := ley_norm ref in
      if bool_decide (texto ∉ textos_previos) && bool_decide (ley ∉ textos_previos)
      then
        let s1 := textos_previos ∪ {[ texto ]} in
        let s2 := if no_vacia ley then s1 ∪ {[ ley ]} else s1 in
        ref :: filtrar_bucle_b s2 resto
      else filtrar_bucle_b textos_previos resto
  end.

Definition _filtrar_duplicados_b (referencias_nuevas referencias_previas : list Referencia)
  : list Referencia :=
  filtrar_bucle_b (textos_previos_b referencias_previas) referencias_nuevas.

(** Agent C, [_filtrar_duplicados]: the text is
    [ref.get('texto_completo', ref.get('texto', ''))], folded with
    [' '.join(texto.lower().split())].  [texto_c] is that text as the test
    [if texto:] sees it: a [null] is as false as the empty string. *)
Definition texto_c (ref : Referencia) : string :=
  match campo_texto_completo ref with
  | Valor t => t
  | Nulo => ""
  | Ausente => o_cadena (texto ref)
  end.

Definition texto_norm_c (t : string) : string :=
  join_espacio (split_ws (lower t)).

Definition textos_previos_c (referencias_previas : list Referencia) : gset string :=
  fold_left
    (fun (textos_previos : gset string) ref =>
       let texto := texto_c ref in
       if no_vacia texto then textos_previos ∪ {[ texto_norm_c texto ]}
       else textos_previos)
    referencias_previas ∅.

Fixpoint filtrar_bucle_c (textos_previos : gset string)
         (referencias_nuevas : list Referencia) : list Referencia :=
  match referencias_nuevas with
  | [] => []
  | ref :: resto =>
      let texto := texto_c ref in
      if no_vacia texto then
        let texto_n := texto_norm_c texto in
        if bool_decide (texto_n ∉ textos_previos)
        then ref :: filtrar_bucle_c (textos_previos ∪ {[ texto_n ]}) resto
        else filtrar_bucle_c textos_previos resto
      else filtrar_bucle_c textos_previos resto
  end.

Definition _filtrar_duplicados_c (referencias_nuevas referencias_previas : list Referencia)
  : list Referencia :=
  filtrar_bucle_c (textos_previos_c referencias_previas) referencias_nuevas.

(** [procesar], shared by the three agents up to the name and the
    duplicate filter: the provider call, the parsing and the filtering sit
    in one [try] whose handler returns an empty batch carrying the
    error. *)
Definition procesar (nombre : string)
           (filtrar : list Referencia -> list Referencia -> list Referencia)
           (prov : Proveedor) (texto : string) (ronda : Z)
           (referencias_previas : list Referencia) : ResultadoAgente :=
  try_except
    (let* referencias := generar prov nombre texto ronda referencias_previas in
     let referencias_nuevas :=
       match referencias_previas with
       | [] => referencias
       | _ :: _ => filtrar referencias referencias_previas
       end in
     Ok {| ra_referencias := referencias_nuevas;
           ra_total := Z.of_nat (length referencias_nuevas);
           ra_agente := nombre; ra_ronda := ronda; ra_error := None |})%exc
    (fun e =>
       {| ra_referencias := []; ra_total := 0;
          ra_agente := nombre; ra_ronda := ronda; ra_error := Some e |}).

Definition procesar_a := procesar nombre_a _filtrar_duplicados_a.
Definition procesar_b := procesar nombre_b _filtrar_duplicados_b.
Definition procesar_c := procesar nombre_c _filtrar_duplicados_c.

End Extractor.

(* ===================================================================== *)
(** ** The convergence engine  ([agents/convergencia.py]) *)
(* ===================================================================== *)

Module Convergencia.
Import PyStr.

(** Defaults of [SistemaConvergencia.__init__]. *)
Definition max_rondas_defecto : Z := 7.
Definition umbral_confianza_minima_defecto : Z := 60.

(** The [dict] returned by [_ejecutar_ronda]. *)
Record ResultadoRonda : Type := {
  rr_ronda : Z;
  resultado_agente_a : ResultadoAgente;
  resultado_agente_b : ResultadoAgente;
  resultado_agente_c : ResultadoAgente;
  total_candidatas : Z;
  referencias_unicas : Z;
  referencias_nuevas : Z;
  total_acumuladas : Z;
  rr_convergencia_alcanzada : bool
}.

(** [self.referencias_totales] and [self.historial_rondas]. *)
Record Estado : Type := {
  referencias_totales : list Referencia;
  historial_rondas : list ResultadoRonda
}.

(** The [dict] returned by [ejecutar] (metrics and time stamps left out). *)
Record Resultado : Type := {
  referencias : list Referencia;
  total_referencias : Z;
  total_rondas : Z;
  convergencia_alcanzada : bool;
  historial : list ResultadoRonda
}.

(** Keys compared by [_es_duplicado]. *)
Definition clave_texto (ref : Referencia) : string :=
  strip (lower (o_cadena (texto_completo ref))).
Definition clave_ley (ref : Referencia) : string :=
  strip (lower (o_cadena (ley ref))).

(** [_es_duplicado]: same non-empty full text, or same non-empty law. *)
Fixpoint _es_duplicado (totales : list Referencia) (referencia : Referencia) : bool :=
  let texto_nuevo := clave_texto referencia in
  let ley_nueva := clave_ley referencia in
  match totales with
  | [] => false
  | ref_existente :: resto =>
      let texto_existente := clave_texto ref_existente in
      let ley_existente := clave_ley ref_existente in
      if no_vacia texto_nuevo && String.eqb texto_nuevo texto_existente then true
      else if no_vacia ley_nueva && String.eqb ley_nueva ley_existente then true
      else _es_duplicado resto referencia
  end.

(** [_filtrar_por_confianza]: a reference without [confianza] counts as
    100; a [null] confidence raises in the comparison. *)
Definition _filtrar_por_confianza (umbral_confianza_minima : Z)
           (refs : list Referencia) : Exc (list Referencia) :=
  exc_filter
    (fun ref => (let* c := leer_confianza ref 100 in
                 Ok (umbral_confianza_minima <=? c))%exc)
    refs.

(** [_parsear_respuesta_deduplicacion]: the indices within range, or all
    of them when the reply cannot be parsed. *)
Definition _parsear_respuesta_deduplicacion (respuesta : option (list Z))
           (total_refs : nat) : list Z :=
  match respuesta with
  | Some indices =>
      List.filter (fun i => (0 <=? i) && (i <? Z.of_nat total_refs)) indices
  | None => List.map Z.of_nat (seq 0 total_refs)
  end.

(** The lists that deduplication handles hold dicts, which it hands on
    without copying them: [T] names the dicts and [valor] gives their
    content. *)
Section Objetos.
Context {T : Type} (valor : T -> Referencia).

(** [_deduplicar_simple]: first occurrence of each non-empty folded text.
    The text is [ref.get('texto_completo', '')]: on a [null] the call of
    [lower] raises [AttributeError]. *)
Fixpoint dedup_simple_bucle (textos_vistos : gset string)
         (refs : list T) : Exc (list T) :=
  match refs with
  | [] => Ok []
  | ref :: resto =>
      match campo_get_o (campo_texto_completo (valor ref)) "" with
      | None => Raise AttributeError
      | Some t =>
          let texto := strip (lower t) in
          if no_vacia texto && bool_decide (texto ∉ textos_vistos)
          then (let* unicas := dedup_simple_bucle (textos_vistos ∪ {[ texto ]}) resto in
                Ok (ref :: unicas))%exc
          else dedup_simple_bucle textos_vistos resto
      end
  end.

Definition _deduplicar_simple (refs : list T) : Exc (list T) :=
  dedup_simple_bucle ∅ refs.

(** [referencias[i]] on a Python list: a negative index counts from the
    end, an index out of range raises. *)
Definition indexar_ref (refs : list T) (i : Z) : Exc T :=
  let n := Z.of_nat (length refs) in
  let j := if i <? 0 then i + n else i in
  if (0 <=? j) && (j <? n)
  then match refs !! Z.to_nat j with
       | Some r => Ok r
       | None => Raise IndexError
       end
  else Raise IndexError.

(** [[referencias[i] for i in indices_unicos if i < len(referencias)]]. *)
Definition seleccionar (refs : list T) (indices : list Z) : Exc (list T) :=
  exc_mapM (indexar_ref refs)
           (List.filter (fun i => i <? Z.of_nat (length refs)) indices).

(** [_deduplicar_con_ia]; any failure falls back to [_deduplicar_simple],
    which runs in the handler, so what it raises leaves the function. *)
Definition _deduplicar_con_ia (ia : list Referencia -> Exc (option (list Z)))
           (refs : list T) : Exc (list T) :=
  if (length refs <=? 1)%nat then Ok refs
  else
    match (let* respuesta := ia (valor <$> refs) in
           let indices_unicos :=
             _parsear_respuesta_deduplicacion respuesta (length refs) in
           seleccionar refs indices_unicos)%exc with
    | Ok unicas => Ok unicas
    | Raise _ => _deduplicar_simple refs
    end.

(** [_deduplicar_semanticamente]. *)
Definition _deduplicar_semanticamente
           (ia : list Referencia -> Exc (option (list Z)))
           (refs : list T) : Exc (list T) :=
  if (length refs <=? 1)%nat then Ok refs
  else if (length refs <=? 20)%nat then _deduplicar_con_ia ia refs
  else
    (let* unicas_simples := _deduplicar_simple refs in
     if (20 <? length unicas_simples)%nat then Ok unicas_simples
     else _deduplicar_con_ia ia unicas_simples)%exc.

End Objetos.

(** The dicts of a round.  The batches of the three agents, the list that
    deduplication returns and [self.referencias_totales] hold the same
    objects, and the loop of [_ejecutar_ronda] assigns [ref['_metadata']]
    in place.  So an object of the round is named by its position in
    [referencias_ronda]; [valores] holds the dicts as they stand and
    [anexadas] lists the objects appended to [self.referencias_totales],
    in order.  The references of earlier rounds are not assigned to any
    more and are kept as values. *)
Record Memoria : Type := {
  valores : list Referencia;
  anexadas : list nat
}.

Definition valor_en (valores : list Referencia) (objeto : nat) : Referencia :=
  valores !!! objeto.

(** [ref in lista] on a list of dicts: an element is the object itself or
    equals it as a dict, in both cases with the contents they have now. *)
Definition esta_en (valores : list Referencia) (lista : list nat) (objeto : nat)
  : bool :=
  existsb (fun otro => bool_decide (valor_en valores otro = valor_en valores objeto))
          lista.

(** [self.referencias_totales] during the round. *)
Definition totales_de (referencias_previas : list Referencia) (m : Memoria)
  : list Referencia :=
  referencias_previas ++ (valor_en (valores m) <$> anexadas m).

(** One step of the loop that adds the round's references: attribution
    A before B before C, and the stamp and the append guarded by
    [_es_duplicado].  [ahora k] is the time read for the stamp that
    follows [k] stamps. *)
Definition agregar_si_nueva (objetos_a objetos_b : list nat) (numero_ronda : Z)
           (ahora : nat -> string) (referencias_previas : list Referencia)
           (m : Memoria) (ref : nat) : Memoria :=
  let agente :=
    if esta_en (valores m) objetos_a ref then Extractor.nombre_a
    else if esta_en (valores m) objetos_b ref then Extractor.nombre_b
    else Extractor.nombre_c in
  if negb (_es_duplicado (totales_de referencias_previas m) (valor_en (valores m) ref))
  then {| valores :=
            <[ ref := set_metadata
                        (Some {| encontrado_por := agente; ronda := numero_ronda;
                                 timestamp := ahora (length (anexadas m)) |})
                        (valor_en (valores m) ref) ]> (valores m);
          anexadas := anexadas m ++ [ref] |}
  else m.

(** The [dict] of an agent with its list as it stands after the loop. *)
Definition con_referencias (referencias : list Referencia) (resultado : ResultadoAgente)
  : ResultadoAgente :=
  {| ra_referencias := referencias; ra_total := ra_total resultado;
     ra_agente := ra_agente resultado; ra_ronda := ra_ronda resultado;
     ra_error := ra_error resultado |}.

(** [_ejecutar_ronda].  The parallel and the sequential branch call the
    same three [procesar] on the same [entrada].  The three batches hold
    the objects [0 .. n_a - 1], [n_a .. n_a + n_b - 1] and the rest. *)
Definition _ejecutar_ronda (prov : Proveedor) (texto : string)
           (numero_ronda : Z) (st : Estado) : Exc (Estado * ResultadoRonda) :=
  let referencias_previas := referencias_totales st in
  let total_antes := Z.of_nat (length (referencias_totales st)) in
  let resultado_a := Extractor.procesar_a prov texto numero_ronda referencias_previas in
  let resultado_b := Extractor.procesar_b prov texto numero_ronda referencias_previas in
  let resultado_c := Extractor.procesar_c prov texto numero_ronda referencias_previas in
  let referencias_ronda :=
    ra_referencias resultado_a ++ ra_referencias resultado_b
      ++ ra_referencias resultado_c in
  let n_a := length (ra_referencias resultado_a) in
  let n_b := length (ra_referencias resultado_b) in
  (let* unicas :=
     _deduplicar_semanticamente (valor_en referencias_ronda)
       (ia_deduplicar prov numero_ronda) (seq 0 (length referencias_ronda)) in
   let m :=
     fold_left
       (agregar_si_nueva (seq 0 n_a) (seq n_a n_b) numero_ronda
          (reloj prov numero_ronda) referencias_previas)
       unicas {| valores := referencias_ronda; anexadas := [] |} in
   let totales := totales_de referencias_previas m in
   let total_despues := Z.of_nat (length totales) in
   let referencias_realmente_nuevas := total_despues - total_antes in
   let convergencia := referencias_realmente_nuevas =? 0 in
   Ok ({| referencias_totales := totales;
          historial_rondas := historial_rondas st |},
       {| rr_ronda := numero_ronda;
          resultado_agente_a := con_referencias (take n_a (valores m)) resultado_a;
          resultado_agente_b :=
            con_referencias (take n_b (drop n_a (valores m))) resultado_b;
          resultado_agente_c :=
            con_referencias (drop (n_a + n_b) (valores m)) resultado_c;
          total_candidatas := Z.of_nat (length referencias_ronda);
          referencias_unicas := Z.of_nat (length unicas);
          referencias_nuevas := referencias_realmente_nuevas;
          total_acumuladas := total_despues;
          rr_convergencia_alcanzada := convergencia |}))%exc.

(** The [for ronda in range(...)] loop of [ejecutar] with its [break];
    [pendientes] is the number of values of [ronda] still to visit. *)
Fixpoint bucle_rondas (prov : Proveedor) (texto : string)
         (pendientes : nat) (ronda_actual : Z) (st : Estado) : Exc Estado :=
  match pendientes with
  | O => Ok st
  | S pendientes' =>
      match _ejecutar_ronda prov texto ronda_actual st with
      | Raise e => Raise e
      | Ok (st1, resultado_ronda) =>
          let st2 := {| referencias_totales := referencias_totales st1;
                        historial_rondas := historial_rondas st1 ++ [resultado_ronda] |} in
          if rr_convergencia_alcanzada resultado_ronda then Ok st2
          else bucle_rondas prov texto pendientes' (ronda_actual + 1) st2
      end
  end.

Definition estado_inicial : Estado :=
  {| referencias_totales := []; historial_rondas := [] |}.

(** [ejecutar]: [range(1, max_rondas + 1)] has [max_rondas] values, none
    when [max_rondas <= 0]; the filter runs before
    [self.historial_rondas[-1]], which raises [IndexError] on an empty
    history. *)
Definition ejecutar (prov : Proveedor) (max_rondas umbral_confianza_minima : Z)
           (texto : string) : Exc Resultado :=
  (let* st := bucle_rondas prov texto (Z.to_nat max_rondas) 1 estado_inicial in
   let* referencias_filtradas :=
     _filtrar_por_confianza umbral_confianza_minima (referencias_totales st) in
   match last (historial_rondas st) with
   | None => Raise IndexError
   | Some ultima =>
       Ok {| referencias := referencias_filtradas;
             total_referencias := Z.of_nat (length referencias_filtradas);
             total_rondas := Z.of_nat (length (historial_rondas st));
             convergencia_alcanzada := rr_convergencia_alcanzada ultima;
             historial := historial_rondas st |}
   end)%exc.

End Convergencia.

(* ===================================================================== *)
(** ** The context resolver's update of a reference
       ([agents/context_resolver_agent.py], [_parsear_respuesta]) *)
(* ===================================================================== *)

Module ContextResolver.

(** One entry of the [resoluciones] list of the LLM reply.  The code
    reads [confianza] and [razonamiento] with a default, which a [null]
    bypasses. *)
Record Resolucion : Type := {
  index : option Z;
  ley_identificada : option string;
  res_confianza : Campo Z;
  razonamiento : Campo string
}.

(** [next((r for r in resoluciones if r.get('index', 0) == i + 1), None)] *)
Definition buscar_resolucion (resoluciones : list Resolucion) (i : nat)
  : option Resolucion :=
  List.find (fun r => default 0 (index r) =? Z.of_nat i + 1) resoluciones.

(** [ref[k] = d.get(k2, v)]: an absent [k2] writes the default, a [null]
    writes [None]. *)
Definition campo_escrito {A : Type} (c : Campo A) (v : A) : Campo A :=
  match c with
  | Ausente => Valor v
  | Nulo => Nulo
  | Valor a => Valor a
  end.

(** Body of the loop of [_parsear_respuesta] for the reference at
    position [i], up to its log line.  The text rewrite guarded by
    [ref_copia.get('articulo') and not ref_copia.get('ley')] runs after
    [ley] was assigned. *)
Definition actualizar (resoluciones : list Resolucion) (i : nat)
           (ref : Referencia) : Referencia :=
  match buscar_resolucion resoluciones i with
  | Some resolucion =>
      if verdadero (ley_identificada resolucion) then
        let ley_v := ley_identificada resolucion in
        let conf := campo_escrito (res_confianza resolucion) 90 in
        let r1 := set_ley ley_v ref in
        let r2 := set_confianza conf r1 in
        let r3 := set_contexto (Some true)
                    (campo_get (campo_escrito (razonamiento resolucion) "")) r2 in
        if verdadero (articulo r3) && negb (verdadero (ley r3))
        then set_texto_completo
               (Valor ("Artículo " +:+ o_cadena (articulo r3) +:+ " de la "
                       +:+ o_cadena ley_v)) r3
        else r3
      else ref
  | None => ref
  end.

(** Either branch of the loop body ends with a log line that slices the
    text of the original reference. *)
Definition con_registro (ref : Referencia) (actualizada : Referencia)
  : Exc Referencia :=
  match registrar_texto ref with
  | Ok _ => Ok actualizada
  | Raise e => Raise e
  end.

Fixpoint actualizar_desde (resoluciones : list Resolucion) (i : nat)
         (referencias : list Referencia) : Exc (list Referencia) :=
  match referencias with
  | [] => Ok []
  | ref :: resto =>
      (let* ref_copia := con_registro ref (actualizar resoluciones i ref) in
       let* actualizadas := actualizar_desde resoluciones (S i) resto in
       Ok (ref_copia :: actualizadas))%exc
  end.

(** [_parsear_respuesta]: [None] is a reply that is not valid JSON or not
    of the expected shape.  Whatever is raised inside the [try], the
    originals are returned. *)
Definition _parsear_respuesta (respuesta : option (list Resolucion))
           (referencias_originales : list Referencia) : list Referencia :=
  match respuesta with
  | Some resoluciones =>
      try_except (actualizar_desde resoluciones 0 referencias_originales)
                 (fun _ => referencias_originales)
  | None => referencias_originales
  end.

End ContextResolver.

(* ===================================================================== *)
(** ** The BOE downloader  ([modules/boe_downloader.py]) *)
(* ===================================================================== *)

Module BOEDownloader.
Import PyStr.

(** Value of [articulos[numero]]. *)
Record ArticuloData : Type := {
  ad_titulo : string;
  ad_texto_completo : option string
}.

(** The [dict] returned by [descargar_ley]. *)
Record LeyData : Type := {
  ld_boe_id : string;
  ld_articulos : gmap string ArticuloData;
  ld_cached : bool;
  ld_url : string
}.

(** Outcome of [requests.get]. *)
Inductive RespuestaHTTP : Type :=
| ErrorRed (mensaje : string)
| Respuesta (status_code : Z) (text : string).

(** What lies outside the program: the web site (the n-th request of the
    run to a URL), the HTML parser ([_parsear_html], which absorbs its own
    errors), whether a cache file can be written, and the file system
    under the cache directory: [error_de_cache id] is the message of the
    [OSError] that [cache_path.exists()] or [cache_path.stat()] raises for
    the cache file of [id], when they raise. *)
Record Entorno : Type := {
  requests_get : nat -> string -> RespuestaHTTP;
  _parsear_html : string -> string -> gmap string ArticuloData;
  escritura_posible : string -> bool;
  error_de_cache : string -> option string
}.

(** Mutable state: the fresh entries of the cache directory and the
    number of requests that the downloader has sent so far. *)
Record Mundo : Type := {
  cache : gmap string LeyData;
  peticiones : nat
}.

Definition base_url : string := "https://www.boe.es/buscar/act.php".

(** [_get_from_cache]: the file is examined outside the [try], which only
    covers the reading. *)
Definition _get_from_cache (env : Entorno) (w : Mundo) (id : string)
  : Exc (option LeyData) :=
  match error_de_cache env id with
  | Some mensaje => Raise (OSError mensaje)
  | None =>
      match cache w !! id with
      | Some data =>
          Ok (Some {| ld_boe_id := ld_boe_id data; ld_articulos := ld_articulos data;
                      ld_cached := true; ld_url := ld_url data |})
      | None => Ok None
      end
  end.

(** [_save_to_cache]; a failed write is logged and ignored. *)
Definition _save_to_cache (env : Entorno) (id : string) (data : LeyData)
           (w : Mundo) : Mundo :=
  if escritura_posible env id
  then {| cache := <[ id := data ]> (cache w); peticiones := peticiones w |}
  else w.

(** [descargar_ley]: the cache is consulted before the [try] that covers
    the download. *)
Definition descargar_ley (env : Entorno) (id : string) (force_refresh : bool)
           (w : Mundo) : Exc (option LeyData) * Mundo :=
  match (if force_refresh then Ok None else _get_from_cache env w id) with
  | Raise e => (Raise e, w)
  | Ok (Some cached) => (Ok (Some cached), w)
  | Ok None =>
      let url := base_url +:+ "?id=" +:+ id in
      let w1 := {| cache := cache w; peticiones := S (peticiones w) |} in
      match requests_get env (peticiones w) url with
      | ErrorRed _ => (Ok None, w1)
      | Respuesta status_code html_content =>
          if negb (status_code =? 200) then (Ok None, w1)
          else
            let articulos := _parsear_html env html_content id in
            let result := {| ld_boe_id := id; ld_articulos := articulos;
                             ld_cached := false; ld_url := url |} in
            (Ok (Some result), _save_to_cache env id result w1)
      end
  end.

(** [verificar_articulo_existe]. *)
Definition verificar_articulo_existe (env : Entorno) (id numero_articulo : string)
           (w : Mundo) : Exc bool * Mundo :=
  match descargar_ley env id false w with
  | (Raise e, w1) => (Raise e, w1)
  | (Ok None, w1) => (Ok false, w1)
  | (Ok (Some ley_data), w1) =>
      let articulos := ld_articulos ley_data in
      let numero_norm := lstrip_ceros (strip numero_articulo) in
      (Ok (bool_decide (is_Some (articulos !! numero_norm))), w1)
  end.

(** [obtener_texto_articulo]. *)
Definition obtener_texto_articulo (env : Entorno) (id numero_articulo : string)
           (w : Mundo) : Exc (option string) * Mundo :=
  match descargar_ley env id false w with
  | (Raise e, w1) => (Raise e, w1)
  | (Ok None, w1) => (Ok None, w1)
  | (Ok (Some ley_data), w1) =>
      let numero_norm := lstrip_ceros (strip numero_articulo) in
      match ld_articulos ley_data !! numero_norm with
      | Some articulo_data => (Ok (ad_texto_completo articulo_data), w1)
      | None => (Ok None, w1)
      end
  end.

End BOEDownloader.

(* ===================================================================== *)
(** ** The validator  ([agents/validator_agent.py]) *)
(* ===================================================================== *)

Module Validator.
Import PyStr Re BOEDownloader.

(** The [dict] built by [_extraer_info_ley]. *)
Record LeyInfo : Type := {
  li_referencia : string;
  li_anio : option string;
  li_tipo : string;
  li_titulo_completo : option string
}.

(** The [dict] returned by [_verificar_articulo_en_boe]. *)
Record Verificacion : Type := {
  existe : option bool;
  texto_oficial : option string;
  verificado_boe : bool;
  v_error : option string
}.

(** The agent: [boe_searcher.buscar_ley(referencia, año, titulo_completo)]
    is a lookup in another module, kept as a parameter; the requests it
    sends on its own are not part of [Mundo].  [verificar_articulos] is
    the constructor flag; the downloader exists exactly when the flag is
    set. *)
Record Agente : Type := {
  buscar_ley : string -> option string -> option string -> Exc (option string);
  verificar_articulos : bool;
  downloader : BOEDownloader.Entorno
}.

(** Patterns of [_extraer_ley_de_texto], searched with [re.IGNORECASE]:
    [Ley\s+(?:Orgánica\s+)?(\d+/\d{4})],
    [Real\s+Decreto\s+(?:Ley\s+)?(\d+/\d{4})],
    [Constitución\s+Española]. *)
Definition numero_barra_anio : regex :=
  Grupo 1 (Seq (Mas d) (Seq (Car "/") (Rep 4 d))).
Definition patron_ley : regex :=
  Seq (Lit "ley") (Seq (Mas s_)
    (Seq (Opc (Seq (Lit "orgánica") (Mas s_))) numero_barra_anio)).
Definition patron_real_decreto : regex :=
  Seq (Lit "real") (Seq (Mas s_) (Seq (Lit "decreto") (Seq (Mas s_)
    (Seq (Opc (Seq (Lit "ley") (Mas s_))) numero_barra_anio)))).
Definition patron_constitucion : regex :=
  Seq (Lit "constitución") (Seq (Mas s_) (Lit "española")).

Fixpoint primer_patron (patrones : list regex) (texto : string) : option string :=
  match patrones with
  | [] => None
  | patron :: resto =>
      match re_search_i patron texto with
      | Some m => Some (group0 texto m)
      | None => primer_patron resto texto
      end
  end.

Definition _extraer_ley_de_texto (texto : string) : option string :=
  primer_patron [patron_ley; patron_real_decreto; patron_constitucion] texto.

(** [_extraer_info_ley]; the year is the first [(\d{4})] of the law.
    Without a law the text is [referencia.get('texto_completo', '')], and
    [re.search] raises [TypeError] on the [None] read from a [null].  The
    entry [tipo] of the dict is written here and read nowhere. *)
Definition _extraer_info_ley (referencia : Referencia) : Exc (option LeyInfo) :=
  let ley0 := o_bien (ley_normalizada referencia) (ley referencia) in
  (let* ley1 :=
     if verdadero ley0 then Ok ley0
     else match campo_get_o (campo_texto_completo referencia) "" with
          | Some texto => Ok (_extraer_ley_de_texto texto)
          | None => Raise TypeError
          end in
   if verdadero ley1 then
     let l := o_cadena ley1 in
     let anio :=
       match re_search (Grupo 1 (Rep 4 d)) l with
       | Some m => group 1 l m
       | None => None
       end in
     Ok (Some {| li_referencia := l; li_anio := anio;
                 li_tipo := default "desconocido" (tipo referencia);
                 li_titulo_completo := ley_titulo_completo referencia |})
   else Ok None)%exc.

(** [_buscar_boe_id]: an exception of the searcher gives [None]. *)
Definition _buscar_boe_id (ag : Agente) (ley_info : LeyInfo) : option string :=
  try_except
    (buscar_ley ag (li_referencia ley_info) (li_anio ley_info)
                (li_titulo_completo ley_info))
    (fun _ => None).

(** [_validar_formato_articulo]: [^\d+(?:\.\d+)?(?:\.[a-z])?$]. *)
Definition patron_articulo : regex :=
  Seq Inicio (Seq (Mas d) (Seq (Opc (Seq (Car ".") (Mas d)))
    (Seq (Opc (Seq (Car ".") (Clase es_minuscula))) Fin))).

Definition _validar_formato_articulo (articulo : string) : bool :=
  bool_decide (is_Some (re_match patron_articulo articulo)).

(** The [dict] of the [except] branch of [_verificar_articulo_en_boe]. *)
Definition verificacion_fallida (e : excepcion) : Verificacion :=
  {| existe := None; texto_oficial := None; verificado_boe := false;
     v_error := str_excepcion e |}.

(** [_verificar_articulo_en_boe]: both calls into the downloader sit in
    one [try]. *)
Definition _verificar_articulo_en_boe (ag : Agente) (id articulo : string)
           (w : Mundo) : Verificacion * Mundo :=
  if negb (verificar_articulos ag) then
    ({| existe := None; texto_oficial := None; verificado_boe := false;
        v_error := Some "Verificación de artículos deshabilitada" |}, w)
  else
    match verificar_articulo_existe (downloader ag) id articulo w with
    | (Raise e, w1) => (verificacion_fallida e, w1)
    | (Ok true, w1) =>
        match obtener_texto_articulo (downloader ag) id articulo w1 with
        | (Raise e, w2) => (verificacion_fallida e, w2)
        | (Ok texto_of, w2) =>
            ({| existe := Some true; texto_oficial := texto_of;
                verificado_boe := true; v_error := None |}, w2)
        end
    | (Ok false, w1) =>
        ({| existe := Some false; texto_oficial := None; verificado_boe := true;
            v_error := Some ("Artículo " +:+ articulo +:+ " NO existe en " +:+ id) |},
         w1)
    end.

Definition validacion_vacia : MetadataValidacion :=
  {| validada := None; motivo := None; mv_boe_id := None; boe_url := None;
     articulo_formato_valido := None; articulo_verificado_boe := None;
     articulo_existe_boe := None; articulo_texto_oficial := None;
     error_verificacion := None |}.

(** Assignments to [validacion[...]]. *)
Definition mv_validada (v : bool) (mot : option string) (m : MetadataValidacion)
  : MetadataValidacion :=
  {| validada := Some v;
     motivo := match mot with Some _ => mot | None => motivo m end;
     mv_boe_id := mv_boe_id m; boe_url := boe_url m;
     articulo_formato_valido := articulo_formato_valido m;
     articulo_verificado_boe := articulo_verificado_boe m;
     articulo_existe_boe := articulo_existe_boe m;
     articulo_texto_oficial := articulo_texto_oficial m;
     error_verificacion := error_verificacion m |}.

Definition mv_boe (id url : string) (m : MetadataValidacion) : MetadataValidacion :=
  {| validada := validada m; motivo := motivo m;
     mv_boe_id := Some id; boe_url := Some url;
     articulo_formato_valido := articulo_formato_valido m;
     articulo_verificado_boe := articulo_verificado_boe m;
     articulo_existe_boe := articulo_existe_boe m;
     articulo_texto_oficial := articulo_texto_oficial m;
     error_verificacion := error_verificacion m |}.

Definition mv_formato (v : bool) (m : MetadataValidacion) : MetadataValidacion :=
  {| validada := validada m; motivo := motivo m;
     mv_boe_id := mv_boe_id m; boe_url := boe_url m;
     articulo_formato_valido := Some v;
     articulo_verificado_boe := articulo_verificado_boe m;
     articulo_existe_boe := articulo_existe_boe m;
     articulo_texto_oficial := articulo_texto_oficial m;
     error_verificacion := error_verificacion m |}.

Definition mv_verificacion (v : Verificacion) (m : MetadataValidacion)
  : MetadataValidacion :=
  {| validada := validada m; motivo := motivo m;
     mv_boe_id := mv_boe_id m; boe_url := boe_url m;
     articulo_formato_valido := articulo_formato_valido m;
     articulo_verificado_boe := Some (verificado_boe v);
     articulo_existe_boe := existe v;
     articulo_texto_oficial := articulo_texto_oficial m;
     error_verificacion := error_verificacion m |}.

Definition mv_texto_oficial (t : option string) (m : MetadataValidacion)
  : MetadataValidacion :=
  {| validada := validada m; motivo := motivo m;
     mv_boe_id := mv_boe_id m; boe_url := boe_url m;
     articulo_formato_valido := articulo_formato_valido m;
     articulo_verificado_boe := articulo_verificado_boe m;
     articulo_existe_boe := articulo_existe_boe m;
     articulo_texto_oficial := t;
     error_verificacion := error_verificacion m |}.

Definition mv_error (e : option string) (m : MetadataValidacion)
  : MetadataValidacion :=
  {| validada := validada m; motivo := motivo m;
     mv_boe_id := mv_boe_id m; boe_url := boe_url m;
     articulo_formato_valido := articulo_formato_valido m;
     articulo_verificado_boe := articulo_verificado_boe m;
     articulo_existe_boe := articulo_existe_boe m;
     articulo_texto_oficial := articulo_texto_oficial m;
     error_verificacion := e |}.

Definition motivo_sin_ley : string := "No se pudo extraer información de ley".
Definition motivo_sin_boe_id : string := "No se encontró BOE-ID".
Definition motivo_articulo_inexistente (articulo : string) : string :=
  "Artículo " +:+ articulo +:+ " NO existe en el BOE oficial".

(** Step 4 of [_validar_referencia]: the article against the BOE. *)
Definition paso_verificacion (ag : Agente) (id art : string)
           (rv : Referencia) (val : MetadataValidacion) (w : Mundo)
  : Referencia * MetadataValidacion * Mundo :=
  let '(verificacion_boe, w1) := _verificar_articulo_en_boe ag id art w in
  let val1 := mv_verificacion verificacion_boe val in
  let '(rv2, val2) :=
    match existe verificacion_boe with
    | Some true =>
        (set_texto_oficial_boe (texto_oficial verificacion_boe) rv,
         mv_texto_oficial (texto_oficial verificacion_boe) val1)
    | Some false =>
        (set_validada (Some false) rv,
         mv_validada false (Some (motivo_articulo_inexistente art)) val1)
    | None => (rv, val1)
    end in
  let val3 :=
    if verdadero (v_error verificacion_boe)
    then mv_error (v_error verificacion_boe) val2 else val2 in
  (rv2, val3, w1).

(** [_validar_referencia].  The function works on a shallow copy and
    returns it; a [_metadata_validacion] that the reference already had is
    shared between the two, and the model follows the copy. *)
Definition _validar_referencia (ag : Agente) (referencia : Referencia)
           (w : Mundo) : Exc Referencia * Mundo :=
  let ref_validada := referencia in
  let validacion := default validacion_vacia (_metadata_validacion ref_validada) in
  match _extraer_info_ley referencia with
  | Raise e => (Raise e, w)
  | Ok None =>
      (Ok (set_validada (Some false)
             (set_metadata_validacion
                (Some (mv_validada false (Some motivo_sin_ley) validacion))
                ref_validada)), w)
  | Ok (Some ley_info) =>
      let id_opt := _buscar_boe_id ag ley_info in
      let '(rv1, val1) :=
        if verdadero id_opt then
          let id := o_cadena id_opt in
          (set_validada (Some true) (set_boe_id (Some id) ref_validada),
           mv_boe id ("https://www.boe.es/buscar/act.php?id=" +:+ id)
                  (mv_validada true None validacion))
        else
          (set_validada (Some false) ref_validada,
           mv_validada false (Some motivo_sin_boe_id) validacion) in
      if verdadero (articulo rv1) then
        let art := o_cadena (articulo rv1) in
        let val2 := mv_formato (_validar_formato_articulo art) val1 in
        if verdadero id_opt && verificar_articulos ag then
          let '(rv3, val3, w1) :=
            paso_verificacion ag (o_cadena id_opt) art rv1 val2 w in
          (Ok (set_metadata_validacion (Some val3) rv3), w1)
        else (Ok (set_metadata_validacion (Some val2) rv1), w)
      else (Ok (set_metadata_validacion (Some val1) rv1), w)
  end.

(** The loop of [procesar]: an exception of [_validar_referencia] leaves
    it. *)
Fixpoint validar_todas (ag : Agente) (refs : list Referencia) (w : Mundo)
  : Exc (list Referencia) * Mundo :=
  match refs with
  | [] => (Ok [], w)
  | ref :: resto =>
      match _validar_referencia ag ref w with
      | (Raise e, w1) => (Raise e, w1)
      | (Ok ref_validada, w1) =>
          match validar_todas ag resto w1 with
          | (Raise e, w2) => (Raise e, w2)
          | (Ok validadas, w2) => (Ok (ref_validada :: validadas), w2)
          end
      end
  end.

(** [procesar]: after the loop, the log line divides by
    [len(referencias)]. *)
Definition procesar (ag : Agente) (refs : list Referencia) (w : Mundo)
  : Exc (list Referencia) * Mundo :=
  match validar_todas ag refs w with
  | (Raise e, w1) => (Raise e, w1)
  | (Ok referencias_validadas, w1) =>
      match refs with
      | [] => (Raise ZeroDivisionError, w1)
      | _ :: _ => (Ok referencias_validadas, w1)
      end
  end.

End Validator.

(* ===================================================================== *)
(** ** CELEX identifiers  ([modules/eurlex_fetcher.py]) *)
(* ===================================================================== *)

Module Eurlex.
Import PyStr Re.

Definition TIPO_REGLAMENTO : string := "R".
Definition TIPO_DIRECTIVA : string := "L".
Definition TIPO_DECISION : string := "D".

(** [generar_celex(tipo, año, numero)]: [f"3{año}{tipo_upper}{numero:04d}"],
    an unknown kind being replaced by ["R"]. *)
Definition generar_celex (tipo : string) (anio numero : Z) : string :=
  let tipo_upper := upper tipo in
  let tipo_upper :=
    if bool_decide (tipo_upper ∈ ["R"; "L"; "D"]) then tipo_upper else "R" in
  "3" +:+ str_of_Z anio +:+ tipo_upper +:+ formato_04d numero.

(** The three patterns of [extraer_celex_de_texto], searched with
    [re.IGNORECASE]:
    [<palabra>\s*(?:\(UE\)|\(CE\)|UE|CE)?\s*(?:No|N[oº]|n[oº])?\s*(\d+)/(\d+)]
    with <palabra> one of Reglamento, Directiva, Decisión. *)
Definition o_ordinal : regex := Alt (Car "o") (Lit "º").
Definition marca_ue : regex :=
  Opc (Alt (Lit "(ue)") (Alt (Lit "(ce)") (Alt (Lit "ue") (Lit "ce")))).
Definition marca_no : regex :=
  Opc (Alt (Lit "no") (Alt (Seq (Car "n") o_ordinal) (Seq (Car "n") o_ordinal))).
Definition patron_acto (palabra : string) : regex :=
  Seq (Lit palabra) (Seq (Estrella s_) (Seq marca_ue (Seq (Estrella s_)
    (Seq marca_no (Seq (Estrella s_)
      (Seq (Grupo 1 (Mas d)) (Seq (Car "/") (Grupo 2 (Mas d))))))))).

Definition patron_reglamento : regex := patron_acto "reglamento".
Definition patron_directiva : regex := patron_acto "directiva".
Definition patron_decision : regex := patron_acto "decisión".

(** [int(match.group(1)), int(match.group(2))]. *)
Definition numeros_del_acto (patron : regex) (texto : string) : option (Z * Z) :=
  match re_search_i patron texto with
  | Some m =>
      match group 1 texto m, group 2 texto m with
      | Some g1, Some g2 =>
          match valor_digitos g1, valor_digitos g2 with
          | Some num1, Some num2 => Some (num1, num2)
          | _, _ => None
          end
      | _, _ => None
      end
  | None => None
  end.

(** The branch shared by the three kinds: which side is the year. *)
Definition celex_de_par (tipo : string) (num1 num2 : Z) : string :=
  if 1000 <=? num1
  then generar_celex tipo num1 num2     (* año, numero = num1, num2 *)
  else generar_celex tipo num2 num1.    (* numero, año = num1, num2 *)

(** [extraer_celex_de_texto]. *)
Definition extraer_celex_de_texto (texto : string) : option string :=
  match numeros_del_acto patron_reglamento texto with
  | Some (num1, num2) => Some (celex_de_par "R" num1 num2)
  | None =>
      match numeros_del_acto patron_directiva texto with
      | Some (num1, num2) => Some (celex_de_par "L" num1 num2)
      | None =>
          match numeros_del_acto patron_decision texto with
          | Some (num1, num2) => Some (celex_de_par "D" num1 num2)
          | None => None
          end
      end
  end.

(** Reading of a CELEX number of the documented shape [3YYYYTNNNN]: sector
    digit 3, four year digits, the kind letter, then the act number
    written with at least four digits.  The repository has no CELEX
    parser; this one states the format of the docstring of
    [generar_celex] and of the specification. *)
Definition parsear_celex (celex : string) : option (string * Z * Z) :=
  match celex with
  | String c3 (String y1 (String y2 (String y3 (String y4 (String t resto))))) =>
      let anio_txt := String y1 (String y2 (String y3 (String y4 ""))) in
      let tipo := String t "" in
      if (codigo c3 =? 51)%N
         && bool_decide (tipo ∈ ["R"; "L"; "D"])
         && (4 <=? String.length resto)%nat
      then
        match valor_digitos anio_txt, valor_digitos resto with
        | Some anio, Some numero => Some (tipo, anio, numero)
        | _, _ => None
        end
      else None
  | _ => None
  end.

End Eurlex.

(* ===================================================================== *)
(** ** The article fetcher  ([modules/boe_article_fetcher.py]) *)
(* ===================================================================== *)

Module Fetcher.
Import PyStr Re BOEDownloader.

(** The [dict] returned for an article. *)
Record Articulo : Type := {
  a_numero : string;
  a_titulo : string;
  a_texto : string;
  a_boe_id : string;
  a_url : string
}.

(** Outside world of the fetcher: the block endpoint of the BOE API and
    the reading of its XML reply ([code] 200, first [bloque], first
    [version]) as the block title and the HTML of the version; [None]
    when any of them is missing or the XML is malformed. *)
Record Entorno : Type := {
  session_get : string -> RespuestaHTTP;
  leer_bloque : string -> option (string * string)
}.

Definition BOE_API_BASE : string := "https://www.boe.es/datosabiertos/api".

(** [l[i]] on a Python list. *)
Definition indexar (l : list string) (i : Z) : Exc string :=
  let n := Z.of_nat (length l) in
  let j := if i <? 0 then i + n else i in
  if (0 <=? j) && (j <? n)
  then match l !! Z.to_nat j with
       | Some x => Ok x
       | None => Raise IndexError
       end
  else Raise IndexError.

Definition unidades : list string :=
  [""; "uno"; "dos"; "tres"; "cuatro"; "cinco"; "seis"; "siete"; "ocho"; "nueve"].
Definition especiales : list string :=
  ["diez"; "once"; "doce"; "trece"; "catorce"; "quince"; "dieciséis";
   "diecisiete"; "dieciocho"; "diecinueve"].
Definition decenas : list string :=
  [""; ""; "veint"; "treinta"; "cuarenta"; "cincuenta";
   "sesenta"; "setenta"; "ochenta"; "noventa"].
Definition centenas : list string :=
  [""; "ciento"; "doscientos"; "trescientos"; "cuatrocientos"; "quinientos";
   "seiscientos"; "setecientos"; "ochocientos"; "novecientos"].

Definition ordinales_lopj : list (Z * string) :=
  [(1, "aprimero"); (2, "asegundo"); (3, "atercero"); (4, "acuarto");
   (5, "aquinto"); (6, "asexto"); (7, "aseptimo"); (8, "aoctavo");
   (9, "anoveno")].

Fixpoint asociado (k : Z) (l : list (Z * string)) : option string :=
  match l with
  | [] => None
  | (k', v) :: l' => if k =? k' then Some v else asociado k l'
  end.

(** The part of [_numero_a_palabras_lopj] after the special cases:
    hundreds, then tens and units; [//] and [%] are floor division and
    its remainder. *)
Definition palabras_generales (numero : Z) : Exc string :=
  let c := numero / 100 in
  (let* resultado :=
     (if 0 <? c
      then (if numero =? 100 then Ok "cien" else indexar centenas c)
      else Ok "") in
   let resto := numero mod 100 in
   let* resultado :=
     (if (10 <=? resto) && (resto <? 20) then
        let* e := indexar especiales (resto - 10) in Ok (resultado +:+ e)
      else if 20 <=? resto then
        let dd := resto / 10 in
        let u := resto mod 10 in
        if (20 <=? resto) && (resto <=? 29) then
          if u =? 0 then Ok (resultado +:+ "veinte")
          else
            let* dec := indexar decenas dd in
            let* uni := indexar unidades u in
            Ok (resultado +:+ dec +:+ "i" +:+ uni)
        else
          let* dec := indexar decenas dd in
          if 0 <? u then
            let* uni := indexar unidades u in
            Ok (resultado +:+ dec +:+ "y" +:+ uni)
          else Ok (resultado +:+ dec)
      else
        if 0 <? resto then
          let* uni := indexar unidades resto in Ok (resultado +:+ uni)
        else Ok resultado) in
   Ok ("a" +:+ resultado))%exc.

(** [_numero_a_palabras_lopj]. *)
Definition _numero_a_palabras_lopj (numero : Z) : Exc string :=
  if numero =? 0 then Ok "acero"
  else
    match (if numero <? 10 then asociado numero ordinales_lopj else None) with
    | Some palabra => Ok palabra
    | None => palabras_generales numero
    end.

(** [_normalizar_numero_articulo]:
    [re.sub(r'^(art\.?|artículo|art)\s*', '', numero.lower())], [strip],
    then the prefix matched by [^(\d+(?:\.\d+)?)] if there is one. *)
Definition patron_prefijo_art : regex :=
  Seq Inicio
      (Seq (Grupo 1 (Alt (Seq (Lit "art") (Opc (Car ".")))
                         (Alt (Lit "artículo") (Lit "art"))))
           (Estrella s_)).
Definition patron_numero : regex :=
  Seq Inicio (Grupo 1 (Seq (Mas d) (Opc (Seq (Car ".") (Mas d))))).

Definition _normalizar_numero_articulo (numero : string) : string :=
  let minus := lower numero in
  let sin_prefijo :=
    match re_match patron_prefijo_art minus with
    | Some m => rebanada (m_fin m) (String.length minus) minus
    | None => minus
    end in
  let numero1 := strip sin_prefijo in
  match re_match patron_numero numero1 with
  | Some m => default numero1 (group 1 numero1 m)
  | None => numero1
  end.

(** [list.insert(1, x)]. *)
Definition insertar_en_1 (x : string) (l : list string) : list string :=
  match l with
  | [] => [x]
  | y :: l' => y :: x :: l'
  end.

(** The list [patrones_id] of [_intentar_descarga_directa] once the LOPJ
    pattern has been inserted; [int(num_base)] failing with [ValueError]
    leaves the five basic patterns, any other exception escapes. *)
Definition patrones_id (id_bloque numero_articulo : string) : Exc (list string) :=
  let num_norm := _normalizar_numero_articulo numero_articulo in
  let num_base := antes_de "." num_norm in
  let patrones :=
    ["a" +:+ num_base; "art" +:+ num_base; "a" +:+ num_base +:+ "bis";
     "art" +:+ num_base +:+ "bis"; id_bloque] in
  match py_int num_base with
  | Some num_int =>
      (let* patron_lopj := _numero_a_palabras_lopj num_int in
       Ok (insertar_en_1 patron_lopj patrones))%exc
  | None => Ok patrones
  end.

(** [_descargar_bloque_articulo]: the body of a 200 reply. *)
Definition _descargar_bloque_articulo (env : Entorno) (id id_bloque : string)
  : option string :=
  let url := BOE_API_BASE +:+ "/legislacion-consolidada/id/" +:+ id
               +:+ "/texto/bloque/" +:+ id_bloque in
  match session_get env url with
  | Respuesta status_code text => if status_code =? 200 then Some text else None
  | ErrorRed _ => None
  end.

(** [_extraer_articulo_bloque]. *)
Definition _extraer_articulo_bloque (env : Entorno)
           (xml_content numero_articulo id : string) : option Articulo :=
  match leer_bloque env xml_content with
  | Some (titulo, texto_html) =>
      let num_base := _normalizar_numero_articulo numero_articulo in
      Some {| a_numero := num_base; a_titulo := titulo; a_texto := texto_html;
              a_boe_id := id;
              a_url := "https://www.boe.es/buscar/act.php?id=" +:+ id
                         +:+ "#a" +:+ num_base |}
  | None => None
  end.

(** One iteration of [for id_test in patrones_id]. *)
Definition probar_id (env : Entorno) (id numero_articulo id_test : string)
  : option Articulo :=
  match _descargar_bloque_articulo env id id_test with
  | Some xml_content =>
      if no_vacia xml_content
      then _extraer_articulo_bloque env xml_content numero_articulo id
      else None
  | None => None
  end.

(** The loop, with the list of block ids requested so far. *)
Fixpoint probar_patrones (env : Entorno) (id numero_articulo : string)
         (patrones : list string) : list string * option Articulo :=
  match patrones with
  | [] => ([], None)
  | id_test :: resto =>
      match probar_id env id numero_articulo id_test with
      | Some articulo => ([id_test], Some articulo)
      | None =>
          let '(pedidos, r) := probar_patrones env id numero_articulo resto in
          (id_test :: pedidos, r)
      end
  end.

(** [_intentar_descarga_directa]: the block ids requested, in order, and
    the article found. *)
Definition _intentar_descarga_directa (env : Entorno)
           (id id_bloque numero_articulo : string)
  : Exc (list string * option Articulo) :=
  (let* patrones := patrones_id id_bloque numero_articulo in
   Ok (probar_patrones env id numero_articulo patrones))%exc.

(** An article as [obtener_articulo] returns it: the dict of
    [_extraer_articulo_bloque], and the two keys that strategy 3 adds when
    the article stands for one of its sub-points. *)
Record ArticuloObtenido : Type := {
  ao_articulo : Articulo;
  es_subapartado : option bool;
  numero_subapartado : option string
}.

Definition sin_marcas (articulo : Articulo) : ArticuloObtenido :=
  {| ao_articulo := articulo; es_subapartado := None; numero_subapartado := None |}.

(** [numero_articulo.split('.')[0].split(')')[0]]. *)
Definition articulo_base (numero_articulo : string) : string :=
  antes_de ")" (antes_de "." numero_articulo).

(** [obtener_articulo]: the direct attempt, then the index, then the base
    article of a sub-point; any exception gives [None].  The search of the
    index, [_buscar_en_indice boe_id numero_articulo], is a parameter: its
    patterns use word boundaries, which the regular expressions above do
    not have.  [profundidad] bounds the nesting of the recursive call of
    strategy 3.  The method's [lru_cache] is left out: this is a call on
    an empty cache. *)
Fixpoint obtener_articulo (profundidad : nat)
         (_buscar_en_indice : string -> string -> Exc (option Articulo))
         (env : Entorno) (id numero_articulo : string) : option ArticuloObtenido :=
  match profundidad with
  | O => None
  | S profundidad' =>
      try_except
        (let num_norm := _normalizar_numero_articulo numero_articulo in
         let id_bloque_directo := "a" +:+ num_norm in
         let* directa :=
           _intentar_descarga_directa env id id_bloque_directo numero_articulo in
         match snd directa with
         | Some articulo => Ok (Some (sin_marcas articulo))
         | None =>
             let* por_indice := _buscar_en_indice id numero_articulo in
             match por_indice with
             | Some articulo => Ok (Some (sin_marcas articulo))
             | None =>
                 if contiene "." numero_articulo || contiene ")" numero_articulo
                 then
                   if negb (String.eqb (articulo_base numero_articulo) numero_articulo)
                   then
                     match obtener_articulo profundidad' _buscar_en_indice env id
                                            (articulo_base numero_articulo) with
                     | Some articulo =>
                         Ok (Some {| ao_articulo := ao_articulo articulo;
                                     es_subapartado := Some true;
                                     numero_subapartado := Some numero_articulo |})
                     | None => Ok None
                     end
                   else Ok None
                 else Ok None
             end
         end)%exc
        (fun _ => None)
  end.

End Fetcher.

(* ===================================================================== *)
(** ** The orchestrator  ([pipeline_optimizado.py]) *)
(* ===================================================================== *)

Module Pipeline.

(** Defaults of [PipelineOptimizado.__init__] and of [procesar_tema]. *)
Definition max_rondas_convergencia_defecto : Z := 3.
Definition umbral_confianza_init_defecto : Z := 70.
Definition max_workers_defecto : Z := 4.
Definition umbral_confianza_defecto : Z := 70.

(** The two per-reference stages as the orchestrator uses them: what
    [NormalizerAgent._normalizar_referencia] and
    [ValidatorAgent._validar_referencia] return for a reference, or the
    exception they let escape. *)
Record Etapas : Type := {
  normalizar_ref : Referencia -> Exc Referencia;
  validar_ref : Referencia -> Exc Referencia
}.

(** [NormalizerAgent.procesar(...)['referencias_normalizadas']]: the loop
    over the references. *)
Definition procesar_normalizador (et : Etapas) (refs : list Referencia)
  : Exc (list Referencia) :=
  exc_mapM (normalizar_ref et) refs.

(** [ValidatorAgent.procesar(...)['referencias_validadas']]: the loop,
    then the log line that divides by [len(referencias)]. *)
Definition procesar_validador (et : Etapas) (refs : list Referencia)
  : Exc (list Referencia) :=
  (let* validadas := exc_mapM (validar_ref et) refs in
   match refs with
   | [] => Raise ZeroDivisionError
   | _ :: _ => Ok validadas
   end)%exc.

(** [_validar_referencia]: [procesar] on a one-element list, then [[0]]. *)
Definition _validar_referencia (et : Etapas) (referencia : Referencia)
  : Exc Referencia :=
  (let* validadas := procesar_validador et [referencia] in
   match validadas with
   | r :: _ => Ok r
   | [] => Raise IndexError
   end)%exc.

(** Body of [for future in as_completed(futures)] in [_validar_paralelo]:
    the result goes to its own index; a failed task keeps the original. *)
Definition recoger_validada (et : Etapas) (refs : list Referencia)
           (resultados : list (option Referencia)) (idx : nat)
  : list (option Referencia) :=
  match refs !! idx with
  | Some ref =>
      <[ idx := Some (try_except (_validar_referencia et ref) (fun _ => ref)) ]>
        resultados
  | None => resultados
  end.

(** [_validar_paralelo]; [orden] lists the task indices in the order in
    which the tasks complete.  [ThreadPoolExecutor] rejects a pool size
    that is not positive. *)
Definition _validar_paralelo (et : Etapas) (max_workers : Z) (orden : list nat)
           (refs : list Referencia) : Exc (list Referencia) :=
  if (length refs <? 5)%nat then procesar_validador et refs
  else if max_workers <=? 0 then Raise ValueError
  else
    let resultados :=
      fold_left (recoger_validada et refs) orden (replicate (length refs) None) in
    Ok (omap id resultados).

(** [[referencias[i:i + batch_size] for i in range(0, len, batch_size)]];
    [n] bounds the number of slices. *)
Fixpoint trocear (n : nat) (batch_size : nat) (refs : list Referencia)
  : list (list Referencia) :=
  match n, refs with
  | _, [] => []
  | O, _ => []
  | S n', _ => take batch_size refs :: trocear n' batch_size (drop batch_size refs)
  end.

(** [_normalizar_batch]. *)
Definition _normalizar_batch (et : Etapas) (batch : list Referencia)
  : Exc (list Referencia) :=
  procesar_normalizador et batch.

(** Body of [for future in as_completed(futures)] in
    [_normalizar_paralelo]: the batch result is appended on arrival; a
    failed batch is logged and dropped. *)
Definition recoger_batch (et : Etapas) (batches : list (list Referencia))
           (referencias_normalizadas : list Referencia) (idx : nat)
  : list Referencia :=
  match batches !! idx with
  | Some batch =>
      try_except
        (let* batch_result := _normalizar_batch et batch in
         Ok (referencias_normalizadas ++ batch_result))%exc
        (fun _ => referencias_normalizadas)
  | None => referencias_normalizadas
  end.

(** [_normalizar_paralelo]; [orden] lists the batch indices in the order
    in which the batches complete. *)
Definition _normalizar_paralelo (et : Etapas) (max_workers : Z) (orden : list nat)
           (refs : list Referencia) : Exc (list Referencia) :=
  if (length refs <? 5)%nat then procesar_normalizador et refs
  else if max_workers =? 0 then Raise ZeroDivisionError
  else
    let batch_size := Z.to_nat (Z.max 1 (Z.of_nat (length refs) / max_workers)) in
    let batches := trocear (length refs) batch_size refs in
    if max_workers <=? 0 then Raise ValueError
    else Ok (fold_left (recoger_batch et batches) orden []).

(** The filter of [procesar_tema] after validation: a reference without
    [confianza] counts as 0; a [null] confidence raises in the
    comparison. *)
Definition filtrar_por_umbral (umbral_confianza : Z) (refs : list Referencia)
  : Exc (list Referencia) :=
  exc_filter
    (fun ref => (let* c := leer_confianza ref 0 in Ok (umbral_confianza <=? c))%exc)
    refs.

(** The extraction phase as wired by [__init__]:
    [SistemaConvergencia(max_rondas=max_rondas_convergencia,
                         umbral_confianza_minima=umbral_confianza)]. *)
Definition fase_convergencia (prov : Proveedor)
           (max_rondas_convergencia umbral_confianza_init : Z) (texto : string)
  : Exc Convergencia.Resultado :=
  Convergencia.ejecutar prov max_rondas_convergencia umbral_confianza_init texto.

(** Phase 4 of [procesar_tema]: parallel validation, then the confidence
    filter; its result is the [referencias] entry of the final report. *)
Definition fase_validacion (et : Etapas) (max_workers : Z) (orden : list nat)
           (umbral_confianza : Z) (referencias_normalizadas : list Referencia)
  : Exc (list Referencia) :=
  (let* referencias_validadas :=
     _validar_paralelo et max_workers orden referencias_normalizadas in
   filtrar_por_umbral umbral_confianza referencias_validadas)%exc.

End Pipeline.

(* ===================================================================== *)
(** ** The context resolver, whole  ([agents/context_resolver_agent.py]) *)
(* ===================================================================== *)

Module ResolucionContexto.
Import PyStr ContextResolver.

(** An entry of the list built by [_extraer_contextos]. *)
Record Contexto : Type := {
  ctx_referencia : Referencia;
  ctx_contexto : string;
  ctx_posicion : nat
}.

(** What lies outside the agent.  [buscar_en_texto texto_ref texto] is
    the search of [_encontrar_posicion] for a reference text that is not
    empty, with two patterns built from it, the second of which need not
    be a well-formed pattern: the position found, [None], or the exception
    of [re].  [resolver contextos] is the LLM call on the prompt built from
    [contextos], read as JSON: [Raise] when the call fails, [Ok None] when
    the reply is not the expected JSON, and the [resoluciones] list
    otherwise.  [detectar contexto] is the LLM call of
    [_detectar_ley_principal_documento], read as JSON: the entries
    [ley_principal] and [confianza] of the reply. *)
Record Entorno : Type := {
  buscar_en_texto : string -> string -> Exc (option nat);
  resolver : list Contexto -> Exc (option (list Resolucion));
  detectar : string -> Exc (option string * option Z)
}.

(** The [dict] returned by [procesar]; [metricas] lists the keys of the
    metrics entry, whose values are only written to the log. *)
Record Resultado : Type := {
  referencias_resueltas : list Referencia;
  resueltas : Z;
  no_resueltas : Z;
  metricas : list string
}.

Definition claves_metricas : list string :=
  ["tiempo_segundos"; "llamadas_ia"; "confianza_promedio_antes";
   "confianza_promedio_despues"].

(** [_resultado_vacio]. *)
Definition _resultado_vacio : Resultado :=
  {| referencias_resueltas := []; resueltas := 0; no_resueltas := 0;
     metricas := claves_metricas |}.

(** [_encontrar_posicion]: no search for a text that is absent, [null] or
    empty. *)
Definition _encontrar_posicion (env : Entorno) (referencia : Referencia)
           (texto : string) : Exc (option nat) :=
  match campo_get_o (campo_texto_completo referencia) "" with
  | Some texto_ref =>
      if no_vacia texto_ref then buscar_en_texto env texto_ref texto else Ok None
  | None => Ok None
  end.

(** [_extraer_chunk]: [max(0, posicion - ventana)] is the truncated
    subtraction of [nat]. *)
Definition _extraer_chunk (texto : string) (posicion ventana : nat) : string :=
  let inicio := (posicion - ventana)%nat in
  let fin := Nat.min (String.length texto) (posicion + ventana) in
  let chunk := rebanada inicio fin texto in
  let chunk := if (0 <? inicio)%nat then "..." +:+ chunk else chunk in
  if (fin <? String.length texto)%nat then chunk +:+ "..." else chunk.

(** [_extraer_contextos]: a reference whose position is not found is
    skipped, after a log line that slices its text. *)
Fixpoint _extraer_contextos (env : Entorno) (referencias : list Referencia)
         (texto_original : string) : Exc (list Contexto) :=
  match referencias with
  | [] => Ok []
  | ref :: resto =>
      (let* posicion := _encontrar_posicion env ref texto_original in
       match posicion with
       | None =>
           match registrar_texto ref with
           | Raise e => Raise e
           | Ok _ => _extraer_contextos env resto texto_original
           end
       | Some p =>
           let* contextos := _extraer_contextos env resto texto_original in
           Ok ({| ctx_referencia := ref;
                  ctx_contexto := _extraer_chunk texto_original p 1500;
                  ctx_posicion := p |} :: contextos)
       end)%exc
  end.

(** Body of the loop over the batches: the batch as it is appended to
    [referencias_mejoradas]. *)
Definition procesar_batch (env : Entorno) (texto_original : string)
           (batch : list Referencia) : list Referencia :=
  try_except
    (let* contextos := _extraer_contextos env batch texto_original in
     match contextos with
     | [] => Ok batch
     | _ :: _ =>
         let* respuesta := resolver env contextos in
         Ok (_parsear_respuesta respuesta batch)
     end)%exc
    (fun _ => batch).

(** [_detectar_ley_principal_documento]. *)
Definition _detectar_ley_principal_documento (env : Entorno)
           (contexto_documento : string) : option string :=
  try_except
    (let* datos := detectar env contexto_documento in
     let ley_v := fst datos in
     let confianza_v := default 0 (snd datos) in
     if verdadero ley_v && (80 <=? confianza_v) then Ok ley_v else Ok None)%exc
    (fun _ => None).

(** The assignments of the body of the second-pass loop.  The references
    it visits have a confidence that is not [null]. *)
Definition segunda_pasada (ley_principal : option string) (ref : Referencia)
  : Referencia :=
  if verdadero ley_principal && negb (verdadero (ley ref)) then
    set_contexto (Some true)
      (Some ("Asignado por contexto del documento completo (ley principal: "
             +:+ o_cadena ley_principal +:+ ")"))
      (set_confianza (Valor 100) (set_ley ley_principal ref))
  else if 95 <=? get_confianza ref 0 then set_confianza (Valor 100) ref
  else ref.

(** Whether the body takes one of its two branches, each of which ends
    with a log line that slices the text of the reference. *)
Definition con_linea_de_registro (ley_principal : option string) (ref : Referencia)
  : bool :=
  (verdadero ley_principal && negb (verdadero (ley ref)))
  || (95 <=? get_confianza ref 0).

(** The loop of the second pass over dicts that it assigns in place: the
    references it appended, the dicts of [refs] as they stand when the
    loop ends, and whether a log line raised, which ends the loop after
    the assignments to the reference at hand and before its append. *)
Fixpoint bucle_segunda_pasada (ley_principal : option string)
         (refs : list Referencia) : list Referencia * list Referencia * bool :=
  match refs with
  | [] => ([], [], false)
  | ref :: resto =>
      let asignada := segunda_pasada ley_principal ref in
      match (if con_linea_de_registro ley_principal ref
             then registrar_texto ref else Ok tt) with
      | Raise _ => ([], asignada :: resto, true)
      | Ok _ =>
          let '(anexadas, estado, fallo) := bucle_segunda_pasada ley_principal resto in
          (asignada :: anexadas, asignada :: estado, fallo)
      end
  end.

(** [procesar], for a list of distinct dicts.  The two partitions compare
    [confianza] outside any [try].  The second pass works on the dicts of
    [referencias_mejoradas]; its handler appends the whole of
    [refs_aun_incompletas] after what the loop had appended; and the
    counts taken afterwards see the assignments. *)
Definition procesar (env : Entorno) (referencias : list Referencia)
           (texto_original : string) : Exc Resultado :=
  match referencias with
  | [] => Ok _resultado_vacio
  | _ :: _ =>
      (let* refs_incompletas :=
         exc_filter (fun ref => let* c := leer_confianza ref 100 in Ok (c <? 100))
                    referencias in
       let refs_completas :=
         List.filter (fun ref => negb (get_confianza ref 100 <? 100)) referencias in
       match refs_incompletas with
       | [] =>
           Ok {| referencias_resueltas := referencias; resueltas := 0;
                 no_resueltas := 0; metricas := claves_metricas |}
       | _ :: _ =>
           let batch_size := 10%nat in
           let referencias_mejoradas :=
             concat (List.map (procesar_batch env texto_original)
                       (Pipeline.trocear (length refs_incompletas) batch_size
                                         refs_incompletas)) in
           let* refs_aun_incompletas :=
             exc_filter (fun ref => let* c := leer_confianza ref 0 in Ok (c <? 100))
                        referencias_mejoradas in
           let referencias_segunda_pasada :=
             List.filter (fun ref => negb (get_confianza ref 0 <? 100))
                         referencias_mejoradas in
           let ley_principal :=
             match refs_aun_incompletas with
             | [] => None
             | _ :: _ =>
                 _detectar_ley_principal_documento env
                   (rebanada 0 5000 texto_original)
             end in
           let '(anexadas, estado, fallo) :=
             bucle_segunda_pasada ley_principal refs_aun_incompletas in
           let referencias_segunda_pasada :=
             referencias_segunda_pasada ++ anexadas
               ++ (if fallo then estado else []) in
           let referencias_finales := refs_completas ++ referencias_segunda_pasada in
           let resueltas :=
             Z.of_nat (length (List.filter (fun r => get_confianza r 0 =? 100)
                                 (List.filter
                                    (fun ref => negb (get_confianza ref 0 <? 100))
                                    referencias_mejoradas))
                       + length (List.filter (fun r => get_confianza r 0 =? 100)
                                             estado)) in
           Ok {| referencias_resueltas := referencias_finales;
                 resueltas := resueltas;
                 no_resueltas := Z.of_nat (length referencias_mejoradas) - resueltas;
                 metricas := claves_metricas |}
       end)%exc
  end.

End ResolucionContexto.

(* ===================================================================== *)
(** ** The title resolver  ([agents/title_resolver_agent.py]) *)
(* ===================================================================== *)

Module Titulos.
Import PyStr.

(** One entry of the [titulos_resueltos] list of the LLM reply. *)
Record TituloInfo : Type := {
  ti_index : option Z;
  titulo_completo : option string;
  ti_confianza : option Z;
  ti_razonamiento : option string
}.

(** A reference as the agent returns it: the reference and the three keys
    the agent adds beside [ley_titulo_completo]. *)
Record Titulada : Type := {
  t_referencia : Referencia;
  _titulo_resuelto : option bool;
  _confianza_titulo : option Z;
  _razonamiento_titulo : option string
}.

(** [generar_contenido] on the prompt built from the batch and the
    context, read as JSON: [Raise] when the call fails, [Ok None] when the
    reply is not the expected JSON. *)
Record Entorno : Type := {
  titular : list Referencia -> string -> Exc (option (list TituloInfo))
}.

(** The [dict] returned by [procesar]; [metricas] as above. *)
Record Resultado : Type := {
  referencias_normalizadas : list Titulada;
  resueltas : Z;
  no_resueltas : Z;
  metricas : list string
}.

Definition set_ley_titulo_completo (v : option string) (r : Referencia) : Referencia :=
  {| campo_texto_completo := campo_texto_completo r; texto := texto r; tipo := tipo r; ley := ley r;
     articulo := articulo r; campo_confianza := campo_confianza r;
     ley_normalizada := ley_normalizada r;
     ley_titulo_completo := v; boe_id := boe_id r;
     _validada := _validada r; texto_oficial_boe := texto_oficial_boe r;
     _contexto_resuelto := _contexto_resuelto r;
     _razonamiento_contexto := _razonamiento_contexto r;
     _metadata := _metadata r; _metadata_validacion := _metadata_validacion r |}.

(** A reference that went through no update. *)
Definition sin_titulo (ref : Referencia) : Titulada :=
  {| t_referencia := ref; _titulo_resuelto := None; _confianza_titulo := None;
     _razonamiento_titulo := None |}.

(** Body of the loop of [_parsear_respuesta] for the reference at
    position [i]. *)
Definition actualizar (titulos : list TituloInfo) (i : nat) (ref : Referencia)
  : Titulada :=
  match List.find (fun t => default 0 (ti_index t) =? Z.of_nat i + 1) titulos with
  | Some titulo_info =>
      if verdadero (titulo_completo titulo_info) then
        {| t_referencia := set_ley_titulo_completo (titulo_completo titulo_info) ref;
           _titulo_resuelto := Some true;
           _confianza_titulo := Some (default 0 (ti_confianza titulo_info));
           _razonamiento_titulo := Some (o_cadena (ti_razonamiento titulo_info)) |}
      else
        {| t_referencia := ref; _titulo_resuelto := Some false;
           _confianza_titulo := None; _razonamiento_titulo := None |}
  | None =>
      {| t_referencia := ref; _titulo_resuelto := Some false;
         _confianza_titulo := None; _razonamiento_titulo := None |}
  end.

(** [_parsear_respuesta]; the originals come back on a reply that is not
    valid JSON. *)
Definition _parsear_respuesta (respuesta : option (list TituloInfo))
           (referencias_originales : list Referencia) : list Titulada :=
  match respuesta with
  | Some titulos => imap (actualizar titulos) referencias_originales
  | None => List.map sin_titulo referencias_originales
  end.

(** Body of the loop over the batches. *)
Definition procesar_batch (env : Entorno) (texto_original : string)
           (batch : list Referencia) : list Titulada :=
  try_except
    (let* respuesta := titular env batch (rebanada 0 3000 texto_original) in
     Ok (_parsear_respuesta respuesta batch))%exc
    (fun _ => List.map sin_titulo batch).

(** [procesar]. *)
Definition procesar (env : Entorno) (referencias : list Referencia)
           (texto_original : string) : Resultado :=
  match referencias with
  | [] =>
      {| referencias_normalizadas := []; resueltas := 0; no_resueltas := 0;
         metricas := [] |}
  | _ :: _ =>
      let batch_size := 15%nat in
      let referencias_resueltas :=
        concat (List.map (procesar_batch env texto_original)
                  (Pipeline.trocear (length referencias) batch_size referencias)) in
      let resueltas :=
        Z.of_nat (length (List.filter
                            (fun r => bool_decide (_titulo_resuelto r = Some true))
                            referencias_resueltas)) in
      {| referencias_normalizadas := referencias_resueltas;
         resueltas := resueltas;
         no_resueltas := Z.of_nat (length referencias_resueltas) - resueltas;
         metricas := ["confianza_promedio"; "tiempo_segundos"; "llamadas_ia"] |}
  end.

End Titulos.

(* ===================================================================== *)
(** ** [procesar_tema], from the extracted text to the filtered list
       ([pipeline_optimizado.py]) *)
(* ===================================================================== *)

Module Orquestador.
Import PyStr.

(** How [procesar_tema] can end before its report: a missing key of one
    of the result dicts, or an exception of a stage. *)
Inductive Fallo : Type :=
| KeyError (clave : string)
| Excepcion (e : excepcion).

Definition elevar {A : Type} (m : Exc A) : Fallo + A :=
  match m with
  | Ok a => inr a
  | Raise e => inl (Excepcion e)
  end.

(** [d[clave]] on an entry that may be absent, and on a dict of which
    only the keys are kept. *)
Definition leer {A : Type} (clave : string) (v : option A) : Fallo + A :=
  match v with
  | Some a => inr a
  | None => inl (KeyError clave)
  end.

Definition leer_metrica (clave : string) (claves : list string) : Fallo + unit :=
  if bool_decide (clave ∈ claves) then inr tt else inl (KeyError clave).

Definition ligar {A B : Type} (m : Fallo + A) (k : A -> Fallo + B) : Fallo + B :=
  match m with
  | inr a => k a
  | inl f => inl f
  end.

(** [resultado_contexto]: the dict returned by the context resolver, or
    the literal built when the phase is skipped. *)
Record DiccContexto : Type := {
  dc_referencias : option (list Referencia);
  dc_referencias_resueltas : option (list Referencia);
  dc_resueltas : option Z;
  dc_no_resueltas : option Z;
  dc_metricas : option (list string)
}.

Definition dicc_del_resolutor (r : ResolucionContexto.Resultado) : DiccContexto :=
  {| dc_referencias := None;
     dc_referencias_resueltas := Some (ResolucionContexto.referencias_resueltas r);
     dc_resueltas := Some (ResolucionContexto.resueltas r);
     dc_no_resueltas := Some (ResolucionContexto.no_resueltas r);
     dc_metricas := Some (ResolucionContexto.metricas r) |}.

Definition dicc_fase_omitida (referencias : list Referencia) : DiccContexto :=
  {| dc_referencias := Some referencias;
     dc_referencias_resueltas := None;
     dc_resueltas := Some 0;
     dc_no_resueltas := None;
     dc_metricas := Some ["confianza_promedio_antes"; "confianza_promedio_despues"] |}.

(** Phase 2.3 with its log lines. *)
Definition fase_contexto (ctx : ResolucionContexto.Entorno)
           (use_context_agent : bool) (referencias : list Referencia)
           (texto_procesado : string) : Fallo + DiccContexto :=
  if use_context_agent then
    ligar (elevar (ResolucionContexto.procesar ctx referencias texto_procesado))
          (fun resultado =>
    let resultado_contexto := dicc_del_resolutor resultado in
    ligar (leer "resueltas" (dc_resueltas resultado_contexto)) (fun resueltas =>
    ligar (if 0 <? resueltas then
             ligar (leer "metricas" (dc_metricas resultado_contexto)) (fun m =>
             ligar (leer_metrica "confianza_promedio_antes" m) (fun _ =>
             leer_metrica "confianza_promedio_despues" m))
           else inr tt) (fun _ =>
    inr resultado_contexto)))
  else inr (dicc_fase_omitida referencias).

(** Phase 2.5 with its log lines. *)
Definition fase_titulos (tit : Titulos.Entorno) (resultado_contexto : DiccContexto)
           (texto_procesado : string) : Fallo + list Titulos.Titulada :=
  ligar (leer "referencias_resueltas" (dc_referencias_resueltas resultado_contexto))
        (fun referencias =>
  let resultado_titulos :=
    Titulos.procesar tit referencias (rebanada 0 3000 texto_procesado) in
  ligar (leer_metrica "confianza_promedio" (Titulos.metricas resultado_titulos))
        (fun _ =>
  inr (Titulos.referencias_normalizadas resultado_titulos))).

(** [procesar_tema] from the text of phase 1 to the list that phase 4
    hands to the later phases.  [max_rondas_convergencia] and
    [umbral_confianza_init] are the arguments of [__init__];
    [umbral_confianza] is the argument of [procesar_tema]; [orden_n] and
    [orden_v] are the completion orders of the two parallel stages. *)
Definition procesar_tema (prov : Proveedor) (ctx : ResolucionContexto.Entorno)
           (tit : Titulos.Entorno) (et : Pipeline.Etapas)
           (max_rondas_convergencia umbral_confianza_init max_workers : Z)
           (orden_n orden_v : list nat)
           (use_context_agent : bool) (umbral_confianza : Z)
           (texto_procesado : string) : Fallo + list Referencia :=
  ligar (elevar (Pipeline.fase_convergencia prov max_rondas_convergencia
                   umbral_confianza_init texto_procesado))
        (fun resultado_convergencia =>
  ligar (fase_contexto ctx use_context_agent
           (Convergencia.referencias resultado_convergencia) texto_procesado)
        (fun resultado_contexto =>
  ligar (fase_titulos tit resultado_contexto texto_procesado)
        (fun tituladas =>
  let referencias := List.map Titulos.t_referencia tituladas in
  ligar (elevar (Pipeline._normalizar_paralelo et max_workers orden_n referencias))
        (fun referencias_normalizadas =>
  elevar (Pipeline.fase_validacion et max_workers orden_v umbral_confianza
            referencias_normalizadas))))).

End Orquestador.

(* ===================================================================== *)
(** ** The response cache  ([pipeline_optimizado.py], [CacheManager]) *)
(* ===================================================================== *)

Module CacheManager.

(** Outcome of [open(cache_file, 'w')] followed by [json.dump]: the file
    is written; it could not be opened and stays as it was; or the dump
    failed and left a file that is not valid JSON. *)
Inductive Escritura : Type := Escrito | NoAbierto | Truncado.

Section Valores.
(** The cached values: JSON values, which [json.dump] and [json.load]
    give back unchanged. *)
Variable V : Type.

(** [self.memory_cache] and the files of [self.cache_dir]: [Some v] is a
    file holding [v], [None] a file that cannot be read as JSON. *)
Record Estado : Type := {
  memory_cache : gmap string V;
  disco : gmap string (option V)
}.

(** [get]. *)
Definition get (st : Estado) (key : string) : option V * Estado :=
  match memory_cache st !! key with
  | Some v => (Some v, st)
  | None =>
      match disco st !! key with
      | Some (Some data) =>
          (Some data,
           {| memory_cache := <[ key := data ]> (memory_cache st);
              disco := disco st |})
      | Some None => (None, st)
      | None => (None, st)
      end
  end.

(** [set]; [escribir key value] is the fate of the write. *)
Definition set (escribir : string -> V -> Escritura) (st : Estado)
           (key : string) (value : V) : Estado :=
  {| memory_cache := <[ key := value ]> (memory_cache st);
     disco := match escribir key value with
              | Escrito => <[ key := Some value ]> (disco st)
              | NoAbierto => disco st
              | Truncado => <[ key := None ]> (disco st)
              end |}.

End Valores.

Arguments memory_cache {V} _.
Arguments disco {V} _.
Arguments get {V} _ _.
Arguments set {V} _ _ _ _.

End CacheManager.

(* ===================================================================== *)
(** ** Predicates used in the statements *)
(* ===================================================================== *)

(** The semantic key of the specification: the folded law and the article. *)
Definition clave_semantica (r : Referencia) : string * option string :=
  (Convergencia.clave_ley r, articulo r).

(** Two references are semantically distinct in the sense of the
    specification: different registry ids when both have one, different
    (law, article) keys when neither has one. *)
Definition semanticamente_distintas (r1 r2 : Referencia) : Prop :=
  match boe_id r1, boe_id r2 with
  | Some a, Some b => a <> b
  | None, None => clave_semantica r1 <> clave_semantica r2
  | _, _ => True
  end.

(** Two references are distinct for [_es_duplicado]: they share neither a
    non-empty folded text nor a non-empty folded law. *)
Definition distintas_para_el_motor (r1 r2 : Referencia) : Prop :=
  (Convergencia.clave_texto r1 = Convergencia.clave_texto r2 ->
   Convergencia.clave_texto r1 = "")
  /\ (Convergencia.clave_ley r1 = Convergencia.clave_ley r2 ->
      Convergencia.clave_ley r1 = "").

(** The reference [_validar_referencia] returns once the BOE id [id] was
    found and the lookup of article [art] answered [False]: the steps of
    the function on that path, written out. *)
Definition referencia_degradada (ref : Referencia) (id art : string) : Referencia :=
  let validacion :=
    default Validator.validacion_vacia (_metadata_validacion ref) in
  let val1 :=
    Validator.mv_boe id ("https://www.boe.es/buscar/act.php?id=" +:+ id)
      (Validator.mv_validada true None validacion) in
  let val2 := Validator.mv_formato (Validator._validar_formato_articulo art) val1 in
  let verificacion :=
    {| Validator.existe := Some false; Validator.texto_oficial := None;
       Validator.verificado_boe := true;
       Validator.v_error :=
         Some ("Artículo " +:+ art +:+ " NO existe en " +:+ id) |} in
  let val3 :=
    Validator.mv_error (Validator.v_error verificacion)
      (Validator.mv_validada false
         (Some (Validator.motivo_articulo_inexistente art))
         (Validator.mv_verificacion verificacion val2)) in
  set_metadata_validacion (Some val3)
    (set_validada (Some false)
       (set_validada (Some true) (set_boe_id (Some id) ref))).

(** What a validation task of [_validar_paralelo] leaves at its index: the
    validated reference, or the original when the task raised. *)
Definition validada_o_original (et : Pipeline.Etapas) (ref : Referencia) : Referencia :=
  try_except (Pipeline._validar_referencia et ref) (fun _ => ref).

(** A download that cannot succeed: a network error or a status other
    than 200. *)
Definition descarga_fallida (r : BOEDownloader.RespuestaHTTP) : Prop :=
  match r with
  | BOEDownloader.ErrorRed _ => True
  | BOEDownloader.Respuesta status_code _ => status_code <> 200
  end.

(** The scan shared by the duplicate filters of the agents and by
    [_deduplicar_simple]: a reference is kept when it is accepted and its
    key is not among the keys seen so far, and its key is then recorded. *)
Fixpoint primeras_por_clave {T : Type} (aceptada : T -> bool)
         (clave : T -> string) (vistas : gset string)
         (refs : list T) : list T :=
  match refs with
  | [] => []
  | ref :: resto =>
      if aceptada ref && bool_decide (clave ref ∉ vistas)
      then ref :: primeras_por_clave aceptada clave (vistas ∪ {[ clave ref ]}) resto
      else primeras_por_clave aceptada clave vistas resto
  end.

(** A reference whose text is not [null], and one whose text and
    confidence are not. *)
Definition con_texto_no_nulo (r : Referencia) : Prop :=
  campo_texto_completo r <> Nulo.
Definition sin_nulos (r : Referencia) : Prop :=
  campo_texto_completo r <> Nulo /\ campo_confianza r <> Nulo.

(** The keys agent B records for a reference it keeps: its folded text,
    and its folded law when that is not empty. *)
Definition claves_b (r : Referencia) : list string :=
  Extractor.texto_norm r
  :: (if PyStr.no_vacia (Extractor.ley_norm r) then [Extractor.ley_norm r] else []).

(** [r] is new for agent B after [anterior]: neither its folded text nor
    its folded law is one of the keys recorded for [anterior]. *)
Definition nueva_para_b (anterior r : Referencia) : Prop :=
  (Extractor.texto_norm r ∉ claves_b anterior)
  /\ (Extractor.ley_norm r ∉ claves_b anterior).

(** [r'] is [r] up to the provenance stamp. *)
Definition salvo_procedencia (r r' : Referencia) : Prop :=
  set_metadata None r' = set_metadata None r.

(** Two references have the keys that [_es_duplicado] compares in
    common. *)
Definition mismas_claves (r r' : Referencia) : Prop :=
  Convergencia.clave_texto r = Convergencia.clave_texto r'
  /\ Convergencia.clave_ley r = Convergencia.clave_ley r'.

(** The stamp of a reference names round [numero_ronda] and an agent
    whose batch, of [n_a], [n_b] or [n_c] references, is not empty. *)
Definition sello_de_la_ronda (n_a n_b n_c : nat) (numero_ronda : Z)
           (r : Referencia) : Prop :=
  exists m, _metadata r = Some m /\ ronda m = numero_ronda
            /\ ((encontrado_por m = Extractor.nombre_a /\ n_a <> 0%nat)
                \/ (encontrado_por m = Extractor.nombre_b /\ n_b <> 0%nat)
                \/ (encontrado_por m = Extractor.nombre_c /\ n_c <> 0%nat)).

(** The names of the three extractor agents. *)
Definition nombres_de_agentes : list string :=
  [Extractor.nombre_a; Extractor.nombre_b; Extractor.nombre_c].

(** What an agent contributes to a round: the references of the provider
    call that are new with respect to the earlier rounds, and nothing
    when the call raised. *)
Definition lote_de (prov : Proveedor) (texto : string) (numero_ronda : Z)
           (referencias_previas : list Referencia) (nombre : string)
           (filtrar : list Referencia -> list Referencia -> list Referencia)
  : list Referencia :=
  match generar prov nombre texto numero_ronda referencias_previas with
  | Ok referencias =>
      match referencias_previas with
      | [] => referencias
      | _ :: _ => filtrar referencias referencias_previas
      end
  | Raise _ => []
  end.

(** The candidates of a round: the batches of the three agents, in the
    order A, B, C. *)
Definition candidatas_de_la_ronda (prov : Proveedor) (texto : string)
           (numero_ronda : Z) (referencias_previas : list Referencia)
  : list Referencia :=
  lote_de prov texto numero_ronda referencias_previas
          Extractor.nombre_a Extractor._filtrar_duplicados_a
  ++ lote_de prov texto numero_ronda referencias_previas
          Extractor.nombre_b Extractor._filtrar_duplicados_b
  ++ lote_de prov texto numero_ronda referencias_previas
          Extractor.nombre_c Extractor._filtrar_duplicados_c.

(** The entry of an agent in the result of a round. *)
Definition resultado_del_agente (nombre : string)
           (rr : Convergencia.ResultadoRonda) : ResultadoAgente :=
  if String.eqb nombre Extractor.nombre_a then Convergencia.resultado_agente_a rr
  else if String.eqb nombre Extractor.nombre_b then Convergencia.resultado_agente_b rr
  else Convergencia.resultado_agente_c rr.

(** A provider none of whose references has a [null] text, or a [null]
    text or confidence. *)
Definition proveedor_con_textos (prov : Proveedor) (texto : string) : Prop :=
  forall nombre ronda previas referencias,
    generar prov nombre texto ronda previas = Ok referencias ->
    Forall con_texto_no_nulo referencias.
Definition proveedor_sin_nulos (prov : Proveedor) (texto : string) : Prop :=
  forall nombre ronda previas referencias,
    generar prov nombre texto ronda previas = Ok referencias ->
    Forall sin_nulos referencias.

(** The provenance stamp of a reference names one of the three extractor
    agents and a round between 1 and [rondas]. *)
Definition con_procedencia (rondas : Z) (r : Referencia) : Prop :=
  exists m, _metadata r = Some m
            /\ encontrado_por m ∈ [Extractor.nombre_a; Extractor.nombre_b;
                                    Extractor.nombre_c]
            /\ 1 <= ronda m <= rondas.

(** The invariant of the loop of rounds for the stamps: the next round
    is numbered after those recorded, every reference is stamped with a
    round that was recorded, and the rounds are numbered from 1 on. *)
Definition con_rondas_numeradas (r : Z) (st : Convergencia.Estado) : Prop :=
  r = Z.of_nat (length (Convergencia.historial_rondas st)) + 1
  /\ Forall (con_procedencia (Z.of_nat (length (Convergencia.historial_rondas st))))
            (Convergencia.referencias_totales st)
  /\ (forall i rr, Convergencia.historial_rondas st !! i = Some rr ->
                   Convergencia.rr_ronda rr = Z.of_nat i + 1).

#[global] Instance Exc_eq_dec {A : Type} `{EqDecision A} : EqDecision (Exc A).
Proof. solve_decision. Defined.

(** A word form was produced and starts with the letter of block ids. *)
Definition forma_con_a (r : Exc string) : bool :=
  match r with
  | Ok palabra => PyStr.startswith "a" palabra
  | Raise _ => false
  end.

(** A check that the outcomes of a list are word forms no two of which
    are equal. *)
Fixpoint aparece (x : Exc string) (l : list (Exc string)) : bool :=
  match l with
  | [] => false
  | y :: l' =>
      match x, y with
      | Ok a, Ok b => String.eqb a b
      | _, _ => true
      end || aparece x l'
  end.

Fixpoint sin_repetidos (l : list (Exc string)) : bool :=
  match l with
  | [] => true
  | x :: l' => negb (aparece x l') && sin_repetidos l'
  end.

(** The outcomes of [_numero_a_palabras_lopj] on 0, 1, ..., 999. *)
Definition formas_lopj : list (Exc string) :=
  List.map (fun k => Fetcher._numero_a_palabras_lopj (Z.of_nat k)) (seq 0 1000).

(** For an article number [n]: its decimal string reaches
    [_numero_a_palabras_lopj] as [n], and the exception raised there
    leaves [patrones_id]. *)
Definition articulo_sin_forma (n : Z) : bool :=
  bool_decide (Fetcher.patrones_id "" (PyStr.str_of_Z n) = Raise IndexError).

(** The prefixes of an article number: "artículo " stays in part, "Art. "
    and "art " are removed; what is left of "artículo <n>" has no dot and
    is not read as an integer. *)
Definition prefijos_de_articulo (n : Z) : bool :=
  let s := PyStr.str_of_Z n in
  String.eqb (Fetcher._normalizar_numero_articulo ("artículo " +:+ s)) ("ículo " +:+ s)
  && String.eqb (Fetcher._normalizar_numero_articulo ("Artículo " +:+ s)) ("ículo " +:+ s)
  && String.eqb (Fetcher._normalizar_numero_articulo ("Art. " +:+ s)) s
  && String.eqb (Fetcher._normalizar_numero_articulo ("art " +:+ s)) s
  && String.eqb (Fetcher._normalizar_numero_articulo s) s
  && String.eqb (PyStr.antes_de "." ("ículo " +:+ s)) ("ículo " +:+ s)
  && bool_decide (PyStr.py_int ("ículo " +:+ s) = None).

(** The batches [_normalizar_paralelo] submits for [refs]. *)
Definition lotes (max_workers : Z) (refs : list Referencia) : list (list Referencia) :=
  Pipeline.trocear (length refs)
    (Z.to_nat (Z.max 1 (Z.of_nat (length refs) / max_workers))) refs.

(** What a batch contributes to the output of [_normalizar_paralelo]: its
    normalized references, or nothing when the batch raised. *)
Definition aporte_del_lote (et : Pipeline.Etapas) (batches : list (list Referencia))
           (idx : nat) : list Referencia :=
  match batches !! idx with
  | Some batch =>
      match Pipeline._normalizar_batch et batch with
      | Ok batch_result => batch_result
      | Raise _ => []
      end
  | None => []
  end.

(** The context resolver and the title resolver leave every key of a
    reference as it was, except those they are meant to write. *)
Definition igual_salvo_ley_y_confianza (o u : Referencia) : Prop :=
  campo_texto_completo u = campo_texto_completo o /\ texto u = texto o
  /\ tipo u = tipo o
  /\ articulo u = articulo o /\ ley_normalizada u = ley_normalizada o
  /\ ley_titulo_completo u = ley_titulo_completo o /\ boe_id u = boe_id o
  /\ _validada u = _validada o /\ texto_oficial_boe u = texto_oficial_boe o
  /\ _metadata u = _metadata o /\ _metadata_validacion u = _metadata_validacion o.

(** What a reference [o] may look like after the LLM pass of the context
    resolver: unchanged, or updated from a resolution of a reply of the
    LLM call. *)
Definition tras_la_resolucion (env : ResolucionContexto.Entorno)
           (o u : Referencia) : Prop :=
  igual_salvo_ley_y_confianza o u
  /\ (u = o
      \/ exists resoluciones i resolucion,
          u = ContextResolver.actualizar resoluciones i o
          /\ ContextResolver.buscar_resolucion resoluciones i = Some resolucion
          /\ verdadero (ContextResolver.ley_identificada resolucion) = true
          /\ campo_confianza u
             = ContextResolver.campo_escrito
                 (ContextResolver.res_confianza resolucion) 90
          /\ exists contextos,
              ResolucionContexto.resolver env contextos = Ok (Some resoluciones)).

(** What the title resolver may do to a reference [o]: [t] is [o] up to
    [ley_titulo_completo]; when [t] is marked as resolved the title is
    not empty, and otherwise [o] is unchanged. *)
Definition titulada_de (o : Referencia) (t : Titulos.Titulada) : Prop :=
  Titulos.set_ley_titulo_completo None (Titulos.t_referencia t)
  = Titulos.set_ley_titulo_completo None o
  /\ (Titulos._titulo_resuelto t = Some true ->
      verdadero (ley_titulo_completo (Titulos.t_referencia t)) = true)
  /\ (Titulos._titulo_resuelto t <> Some true -> Titulos.t_referencia t = o).

(** The running total after the rounds [hs], starting from [previas]. *)
Definition ultimo_total (previas : Z) (hs : list Convergencia.ResultadoRonda) : Z :=
  match last hs with
  | Some rr => Convergencia.total_acumuladas rr
  | None => previas
  end.

(** The counts of the rounds [hs] add up from [previas]: each round adds
    a number of references that is not negative, and reports the total of
    the round before plus that number. *)
Fixpoint cuentas_desde (previas : Z) (hs : list Convergencia.ResultadoRonda) : Prop :=
  match hs with
  | [] => True
  | rr :: hs' =>
      0 <= Convergencia.referencias_nuevas rr
      /\ Convergencia.total_acumuladas rr
         = previas + Convergencia.referencias_nuevas rr
      /\ cuentas_desde (Convergencia.total_acumuladas rr) hs'
  end.

(* ===================================================================== *)
(** ** Concrete scenarios used by the examples below *)
(* ===================================================================== *)

(** A check over the integers of [desde, desde + cuantos), for the finite
    case analyses on years and article numbers. *)
Definition todos_en_rango (p : Z -> bool) (desde cuantos : Z) : bool :=
  forallb (fun k => p (desde + Z.of_nat k)) (seq 0 (Z.to_nat cuantos)).

(** For an article number [n]: its decimal string goes through
    [_normalizar_numero_articulo] and [split('.')[0]] unchanged, [int]
    reads it back and the LOPJ word form exists. *)
Definition articulo_regular (n : Z) : bool :=
  let s := PyStr.str_of_Z n in
  String.eqb (Fetcher._normalizar_numero_articulo s) s
  && String.eqb (PyStr.antes_de "." s) s
  && bool_decide (PyStr.py_int s = Some n)
  && match Fetcher._numero_a_palabras_lopj n with Ok _ => true | Raise _ => false end.

(** [pedidos] and [resultado] are what a left-to-right scan of [ids] gives
    when it stops at the first id on which [f] succeeds. *)
Definition primer_exito {A : Type} (f : string -> option A) (ids : list string)
           (pedidos : list string) (resultado : option A) : Prop :=
  (exists antes x despues a,
      ids = antes ++ x :: despues /\ Forall (fun y => f y = None) antes /\
      f x = Some a /\ pedidos = antes ++ [x] /\ resultado = Some a)
  \/ (Forall (fun y => f y = None) ids /\ pedidos = ids /\ resultado = None).

Module Escenarios.
Import BOEDownloader.

(** A clock that gives every stamp of a run its own time. *)
Definition reloj_de_prueba (ronda : Z) (k : nat) : string :=
  "2025-01-01T10:0" +:+ PyStr.str_of_Z ronda +:+ ":00."
  +:+ PyStr.str_of_Z (Z.of_nat k).

(** Two mentions of an article 24 whose law is not named. *)
Definition ref_articulo_24 : Referencia :=
  mk_ref (Some "artículo 24") None (Some "24") (Some 90).
Definition ref_art_24 : Referencia :=
  mk_ref (Some "art. 24 de dicha norma") None (Some "24") (Some 85).

(** A provider for which agent A finds the first mention, agent C the
    second, agent B's call times out and the deduplication call fails. *)
Definition proveedor_b_caido : Proveedor :=
  {| generar := fun nombre _ _ _ =>
       if String.eqb nombre Extractor.nombre_a then Ok [ref_articulo_24]
       else if String.eqb nombre Extractor.nombre_c then Ok [ref_art_24]
       else Raise (ErrorProveedor "timeout");
     ia_deduplicar := fun _ _ => Raise (ErrorProveedor "modelo no disponible");
     reloj := reloj_de_prueba |}.

(** Stages that leave a reference as it is. *)
Definition etapas_identidad : Pipeline.Etapas :=
  {| Pipeline.normalizar_ref := fun r => Ok r;
     Pipeline.validar_ref := fun r => Ok r |}.

(** Six references with confidences around the thresholds. *)
Definition seis_referencias : list Referencia :=
  [mk_ref (Some "Ley 39/2015") (Some "Ley 39/2015") None (Some 100);
   mk_ref (Some "Ley 40/2015") (Some "Ley 40/2015") None (Some 69);
   mk_ref (Some "Ley 29/1998") (Some "Ley 29/1998") None (Some 70);
   mk_ref (Some "Ley 1/2000") (Some "Ley 1/2000") None None;
   mk_ref (Some "Ley 15/2015") (Some "Ley 15/2015") None (Some 59);
   mk_ref (Some "Ley 19/2013") (Some "Ley 19/2013") None (Some 60)].

(** A provider whose agent A returns the six references at once. *)
Definition proveedor_seis : Proveedor :=
  {| generar := fun nombre _ _ _ =>
       if String.eqb nombre Extractor.nombre_a then Ok seis_referencias else Ok [];
     ia_deduplicar := fun _ _ => Ok None;
     reloj := reloj_de_prueba |}.

(** The Penal Code as the BOE site serves it, reduced to two articles. *)
Definition articulos_cp : gmap string ArticuloData :=
  <[ "1" := {| ad_titulo := "Artículo 1"; ad_texto_completo := Some "Artículo 1. No será castigada..." |} ]>
  (<[ "138" := {| ad_titulo := "Artículo 138"; ad_texto_completo := Some "Artículo 138. El que matare a otro..." |} ]> ∅).

Definition boe_en_linea : BOEDownloader.Entorno :=
  {| requests_get := fun _ _ => Respuesta 200 "<html>Código Penal</html>";
     _parsear_html := fun _ _ => articulos_cp;
     escritura_posible := fun _ => true;
     error_de_cache := fun _ => None |}.

(** The same site answering 503 to every request. *)
Definition boe_caido : BOEDownloader.Entorno :=
  {| requests_get := fun _ _ => Respuesta 503 "";
     _parsear_html := fun _ _ => ∅;
     escritura_posible := fun _ => true;
     error_de_cache := fun _ => None |}.

Definition buscador_cp (referencia : string) (anio titulo : option string)
  : Exc (option string) :=
  if PyStr.contiene "Código Penal" referencia || String.eqb referencia "CP"
  then Ok (Some "BOE-A-1995-25444")
  else Ok None.

Definition validador_en_linea : Validator.Agente :=
  {| Validator.buscar_ley := buscador_cp;
     Validator.verificar_articulos := true;
     Validator.downloader := boe_en_linea |}.

Definition validador_boe_caido : Validator.Agente :=
  {| Validator.buscar_ley := buscador_cp;
     Validator.verificar_articulos := true;
     Validator.downloader := boe_caido |}.

Definition mundo_inicial : Mundo := {| cache := ∅; peticiones := 0 |}.

(** The site on line, on a machine where the cache files cannot be
    examined: [cache_path.exists()] raises. *)
Definition boe_cache_ilegible : BOEDownloader.Entorno :=
  {| requests_get := fun _ _ => Respuesta 200 "<html>Código Penal</html>";
     _parsear_html := fun _ _ => articulos_cp;
     escritura_posible := fun _ => true;
     error_de_cache := fun _ => Some "Permission denied" |}.

Definition validador_cache_ilegible : Validator.Agente :=
  {| Validator.buscar_ley := buscador_cp;
     Validator.verificar_articulos := true;
     Validator.downloader := boe_cache_ilegible |}.

(** The site on line, on a machine whose cache directory cannot be
    written. *)
Definition boe_sin_disco : BOEDownloader.Entorno :=
  {| requests_get := fun _ _ => Respuesta 200 "<html>Código Penal</html>";
     _parsear_html := fun _ _ => articulos_cp;
     escritura_posible := fun _ => false;
     error_de_cache := fun _ => None |}.

Definition validador_sin_disco : Validator.Agente :=
  {| Validator.buscar_ley := buscador_cp;
     Validator.verificar_articulos := true;
     Validator.downloader := boe_sin_disco |}.

(** "artículo 999 del Código Penal", extracted with confidence 95, and
    the existing article 138. *)
Definition ref_cp_999 : Referencia :=
  mk_ref (Some "artículo 999 del Código Penal") (Some "Código Penal")
         (Some "999") (Some 95).
Definition ref_cp_138 : Referencia :=
  mk_ref (Some "artículo 138 del Código Penal") (Some "Código Penal")
         (Some "138") (Some 95).

(** The same article cited through the abbreviation of the code, and a
    provider whose agents A and B return one citation each. *)
Definition ref_cp_138_sigla : Referencia :=
  mk_ref (Some "art. 138 CP") (Some "CP") (Some "138") (Some 90).
Definition proveedor_cp : Proveedor :=
  {| generar := fun nombre _ _ _ =>
       if String.eqb nombre Extractor.nombre_a then Ok [ref_cp_138]
       else if String.eqb nombre Extractor.nombre_b then Ok [ref_cp_138_sigla]
       else Ok [];
     ia_deduplicar := fun _ _ => Ok None;
     reloj := reloj_de_prueba |}.

(** An incomplete reference and the reply of the context resolver's LLM
    call, which names the law without stating a confidence. *)
Definition ref_art_2 : Referencia :=
  mk_ref (Some "art. 2") None (Some "2") (Some 95).
Definition resolucion_sin_confianza : ContextResolver.Resolucion :=
  {| ContextResolver.index := Some 1;
     ContextResolver.ley_identificada := Some "Ley 15/2015";
     ContextResolver.res_confianza := Ausente;
     ContextResolver.razonamiento := Valor "El documento trata de la LJV" |}.

(** A normalizer that records the canonical law name and a validator
    that marks the reference as validated. *)
Definition etapas_marcadoras : Pipeline.Etapas :=
  {| Pipeline.normalizar_ref := fun r => Ok (set_texto_oficial_boe (ley r) r);
     Pipeline.validar_ref := fun r => Ok (set_validada (Some true) r) |}.

(** Eight references in extraction order. *)
Definition ocho_referencias : list Referencia :=
  List.map (fun l => mk_ref (Some l) (Some l) None (Some 100))
    ["Ley 1/2000"; "Ley 2/2000"; "Ley 3/2000"; "Ley 4/2000";
     "Ley 5/2000"; "Ley 6/2000"; "Ley 7/2000"; "Ley 8/2000"].

(** The same stages with a normalizer that fails on "Ley 3/2000". *)
Definition etapas_con_fallo : Pipeline.Etapas :=
  {| Pipeline.normalizar_ref := fun r =>
       if bool_decide (ley r = Some "Ley 3/2000")
       then Raise (ErrorProveedor "429")
       else Ok (set_texto_oficial_boe (ley r) r);
     Pipeline.validar_ref := fun r => Ok (set_validada (Some true) r) |}.

(** A provider that is down for every call. *)
Definition proveedor_caido : Proveedor :=
  {| generar := fun _ _ _ _ => Raise (ErrorProveedor "503");
     ia_deduplicar := fun _ _ => Raise (ErrorProveedor "503");
     reloj := reloj_de_prueba |}.

(** A norm that publishes article 117 under the LOPJ word id and under
    the Civil Code id, and nothing under [a117]. *)
Definition api_lopj : Fetcher.Entorno :=
  {| Fetcher.session_get := fun url =>
       if String.eqb url
            "https://www.boe.es/datosabiertos/api/legislacion-consolidada/id/BOE-A-1985-12666/texto/bloque/acientodiecisiete"
       then Respuesta 200 "<bloque palabras/>"
       else if String.eqb url
            "https://www.boe.es/datosabiertos/api/legislacion-consolidada/id/BOE-A-1985-12666/texto/bloque/art117"
       then Respuesta 200 "<bloque art/>"
       else Respuesta 404 "";
     Fetcher.leer_bloque := fun xml =>
       if String.eqb xml "<bloque palabras/>" then Some ("Artículo 117", "<p>palabras</p>")
       else if String.eqb xml "<bloque art/>" then Some ("Artículo 117", "<p>art</p>")
       else None |}.

(** A text in which "art. 7" can be located and "art. 5" cannot, and a
    reply of the resolver's LLM about the only reference of its prompt. *)
Definition ref_art_5 : Referencia :=
  mk_ref (Some "art. 5") None (Some "5") (Some 80).
Definition ref_art_7 : Referencia :=
  mk_ref (Some "art. 7") None (Some "7") (Some 80).
Definition resolucion_de_la_primera : ContextResolver.Resolucion :=
  {| ContextResolver.index := Some 1;
     ContextResolver.ley_identificada := Some "Ley 39/2015";
     ContextResolver.res_confianza := Valor 100;
     ContextResolver.razonamiento := Valor "El contexto cita la LPAC" |}.
Definition resolutor_art_7 : ResolucionContexto.Entorno :=
  {| ResolucionContexto.buscar_en_texto := fun texto_ref _ =>
       if String.eqb texto_ref "art. 7" then Ok (Some 10%nat) else Ok None;
     ResolucionContexto.resolver := fun _ => Ok (Some [resolucion_de_la_primera]);
     ResolucionContexto.detectar := fun _ => Ok (None, None) |}.

(** A title resolver whose LLM call fails. *)
Definition titulos_caido : Titulos.Entorno :=
  {| Titulos.titular := fun _ _ => Raise (ErrorProveedor "503") |}.

(** A title resolver that names the title of every reference of its
    batch, and a context resolver that finds nothing. *)
Definition titulos_en_linea : Titulos.Entorno :=
  {| Titulos.titular := fun batch _ =>
       Ok (Some (imap (fun i (ref : Referencia) =>
                         {| Titulos.ti_index := Some (Z.of_nat i + 1);
                            Titulos.titulo_completo := ley ref;
                            Titulos.ti_confianza := Some 100;
                            Titulos.ti_razonamiento := None |}) batch)) |}.
Definition resolutor_mudo : ResolucionContexto.Entorno :=
  {| ResolucionContexto.buscar_en_texto := fun _ _ => Ok None;
     ResolucionContexto.resolver := fun _ => Ok None;
     ResolucionContexto.detectar := fun _ => Ok (None, None) |}.

End Escenarios.

(* ===================================================================== *)
(** * Properties *)
(* ===================================================================== *)

(** ** The pattern matcher never runs out of fuel *)

Section Combustible.
Import PyStr Re.

(** With more fuel than the size of the pattern plus the length of the
    text left, a matching attempt ends in [Casa] or [NoCasa], provided its
    continuation does on every suffix it can be called on. *)
Lemma casar_con_combustible (r : regex) :
  forall (n : nat) (s : string) (pos : nat) (caps : capturas)
         (k : string -> nat -> capturas -> salida),
    (talla r + String.length s < n)%nat ->
    (forall s1 p1 c1,
        (String.length s1 <= String.length s)%nat ->
        (p1 + String.length s1 = pos + String.length s)%nat ->
        k s1 p1 c1 <> SinCombustible) ->
    casar n r s pos caps k <> SinCombustible.
Proof.
  induction r as [| c | p | a IHa b IHb | a IHa b IHb | a IHa | i a IHa | | ];
    intros n s pos caps k Hn Hk;
    (destruct n as [|n']; [simpl in Hn; lia|]); cbn [casar].
  - apply Hk; lia.
  - destruct s as [|x s']; [discriminate|].
    destruct (codigo x =? codigo c)%N; [|discriminate].
    apply Hk; simpl; lia.
  - destruct s as [|x s']; [discriminate|].
    destruct (p x); [|discriminate].
    apply Hk; simpl; lia.
  - simpl in Hn. apply IHa; [lia|].
    intros s1 p1 c1 Hl Hp. apply IHb; [lia|].
    intros s2 p2 c2 Hl2 Hp2. apply Hk; lia.
  - simpl in Hn.
    pose proof (IHa n' s pos caps k) as Ha.
    destruct (casar n' a s pos caps k) eqn:E.
    + discriminate.
    + apply IHb; [lia|]. exact Hk.
    + exfalso. apply Ha; [lia|exact Hk|reflexivity].
  - (* greedy star: inner induction on the length of the text left *)
    simpl in Hn.
    remember (String.length s) as m eqn:Hm.
    revert n' s pos caps k Hn Hk Hm.
    induction m as [m IHm] using lt_wf_ind.
    intros n' s pos caps k Hn Hk Hm.
    assert (Hcuerpo :
              casar n' a s pos caps
                (fun s1 p1 c1 =>
                   if (p1 =? pos)%nat then NoCasa
                   else casar n' (Estrella a) s1 p1 c1 k) <> SinCombustible).
    { apply IHa; [lia|].
      intros s1 p1 c1 Hl Hp.
      destruct (p1 =? pos)%nat eqn:Ep; [discriminate|].
      apply Nat.eqb_neq in Ep.
      destruct n' as [|n'']; [lia|].
      apply (IHm (String.length s1)); try lia; try reflexivity.
      intros s2 p2 c2 Hl2 Hp2. apply Hk; lia. }
    destruct (casar n' a s pos caps _) eqn:E.
    + discriminate.
    + apply Hk; lia.
    + contradiction.
  - simpl in Hn. apply IHa; [lia|].
    intros s1 p1 c1 Hl Hp. apply Hk; lia.
  - destruct (pos =? 0)%nat; [|discriminate]. apply Hk; lia.
  - destruct s as [|x [|y s']].
    + apply Hk; lia.
    + destruct (codigo x =? 10)%N; [|discriminate]. apply Hk; lia.
    + discriminate.
Qed.

(** The fuel computed for a text covers the attempts at every offset of
    it, so [None] from [re_match] or [re_search] means that the pattern
    does not match. *)
Lemma casar_en_decide (r : regex) (s resto : string) (pos : nat) :
  (String.length resto <= String.length s)%nat ->
  casar_en (combustible r s) r resto pos <> SinCombustible.
Proof.
  intros H. unfold casar_en. apply casar_con_combustible.
  - unfold combustible. lia.
  - discriminate.
Qed.

End Combustible.

(** ** Decimal strings *)

Section Decimales.
Import PyStr.

Lemma es_digito_de_cifra (d : uint) :
  forallb es_digito (list_ascii_of_string (NilEmpty.string_of_uint d)) = true.
Proof. induction d; simpl; auto. Qed.

Lemma string_of_uint_no_vacia (d : uint) :
  no_vacia (NilZero.string_of_uint d) = true.
Proof. destruct d; reflexivity. Qed.

Lemma solo_digitos_string_of_uint (d : uint) :
  solo_digitos (NilZero.string_of_uint d) = true.
Proof.
  unfold solo_digitos. rewrite string_of_uint_no_vacia. simpl.
  destruct d; try apply (es_digito_de_cifra (_ d)); reflexivity.
Qed.

Lemma str_of_Z_no_negativo (n : Z) :
  0 <= n -> str_of_Z n = NilZero.string_of_uint (N.to_uint (Z.to_N n)).
Proof.
  intros Hn. unfold str_of_Z.
  destruct n as [|p|p]; try reflexivity. lia.
Qed.

Lemma to_uint_no_nil (n : Z) : 0 <= n -> N.to_uint (Z.to_N n) <> Nil.
Proof.
  intros Hn. destruct n as [|p|p]; simpl; try discriminate.
  apply Unsigned.to_uint_nonnil.
Qed.

Lemma of_uint_to_uint (n : Z) : 0 <= n -> Z.of_uint (N.to_uint (Z.to_N n)) = n.
Proof.
  intros Hn. destruct n as [|p|p]; try reflexivity; try lia.
  unfold Z.of_uint. simpl. now rewrite Unsigned.of_to.
Qed.

(** [int(str(n)) = n] on the digits of a natural number. *)
Lemma valor_digitos_str_of_Z (n : Z) :
  0 <= n -> valor_digitos (str_of_Z n) = Some n.
Proof.
  intros Hn. rewrite str_of_Z_no_negativo by assumption.
  unfold valor_digitos. rewrite solo_digitos_string_of_uint.
  rewrite NilZero.usu by now apply to_uint_no_nil.
  now rewrite of_uint_to_uint.
Qed.

Lemma solo_digitos_str_of_Z (n : Z) : 0 <= n -> solo_digitos (str_of_Z n) = true.
Proof.
  intros Hn. rewrite str_of_Z_no_negativo by assumption.
  apply solo_digitos_string_of_uint.
Qed.

(** Zeros in front do not change the value. *)
Lemma valor_digitos_cero_delante (s : string) (v : Z) :
  valor_digitos s = Some v -> valor_digitos (String "0" s) = Some v.
Proof.
  unfold valor_digitos, solo_digitos. intros H.
  destruct (no_vacia s) eqn:Hs; simpl in H; [|discriminate].
  destruct (forallb es_digito (list_ascii_of_string s)) eqn:Hd; [|discriminate].
  destruct s as [|c s]; [discriminate|].
  simpl. simpl in Hd. rewrite Hd.
  unfold NilZero.uint_of_string in H. simpl in H.
  destruct (uint_of_char c (NilEmpty.uint_of_string s)) as [u|]; [|discriminate].
  simpl. exact H.
Qed.

Lemma valor_digitos_ceros_delante (k : nat) (s : string) (v : Z) :
  valor_digitos s = Some v ->
  valor_digitos (string_of_list_ascii (repeat "0"%char k) +:+ s) = Some v.
Proof.
  intros H. induction k as [|k IH]; simpl; [exact H|].
  now apply valor_digitos_cero_delante.
Qed.

Lemma longitud_append (a b : string) :
  String.length (a +:+ b) = (String.length a + String.length b)%nat.
Proof. induction a; simpl; auto. Qed.

Lemma longitud_ceros (k : nat) :
  String.length (string_of_list_ascii (repeat "0"%char k)) = k.
Proof. induction k; simpl; auto. Qed.

(** [f"{n:04d}"] on a natural number: its digits, zero-filled on the left
    up to four characters. *)
Lemma formato_04d_no_negativo (n : Z) :
  0 <= n ->
  formato_04d n =
    string_of_list_ascii (repeat "0"%char (4 - String.length (str_of_Z n)))
      +:+ str_of_Z n.
Proof.
  intros Hn. unfold formato_04d.
  destruct (n <? 0) eqn:E; [lia|]. simpl.
  now rewrite Z.abs_eq by assumption.
Qed.

Lemma valor_formato_04d (n : Z) :
  0 <= n -> valor_digitos (formato_04d n) = Some n.
Proof.
  intros Hn. rewrite formato_04d_no_negativo by assumption.
  apply valor_digitos_ceros_delante. now apply valor_digitos_str_of_Z.
Qed.

Lemma longitud_formato_04d (n : Z) :
  0 <= n -> (4 <= String.length (formato_04d n))%nat.
Proof.
  intros Hn. rewrite formato_04d_no_negativo by assumption.
  rewrite longitud_append, longitud_ceros. lia.
Qed.

Lemma todos_en_rango_spec (p : Z -> bool) (desde cuantos : Z) (n : Z) :
  todos_en_rango p desde cuantos = true ->
  desde <= n < desde + cuantos -> p n = true.
Proof.
  unfold todos_en_rango. rewrite forallb_forall. intros H Hn.
  specialize (H (Z.to_nat (n - desde))).
  replace (desde + Z.of_nat (Z.to_nat (n - desde))) with n in H by lia.
  apply H. apply in_seq. lia.
Qed.

Lemma longitud_anio (anio : Z) :
  1000 <= anio <= 9999 -> String.length (str_of_Z anio) = 4%nat.
Proof.
  intros H.
  assert (Hc : todos_en_rango
                 (fun y => (String.length (str_of_Z y) =? 4)%nat) 1000 9000 = true)
    by (vm_compute; reflexivity).
  apply (todos_en_rango_spec _ _ _ anio) in Hc; [|lia].
  now apply Nat.eqb_eq in Hc.
Qed.

Lemma longitud_formato_04d_corto (n : Z) :
  0 <= n <= 9999 -> String.length (formato_04d n) = 4%nat.
Proof.
  intros H.
  assert (Hc : todos_en_rango
                 (fun y => (String.length (formato_04d y) =? 4)%nat) 0 10000 = true)
    by (vm_compute; reflexivity).
  apply (todos_en_rango_spec _ _ _ n) in Hc; [|lia].
  now apply Nat.eqb_eq in Hc.
Qed.

End Decimales.

(** ** CELEX synthesis *)

Section Celex.
Import PyStr Eurlex.

Lemma generar_celex_tipo_valido (tipo : string) (anio numero : Z) :
  tipo ∈ ["R"; "L"; "D"] ->
  generar_celex tipo anio numero
  = "3" +:+ str_of_Z anio +:+ tipo +:+ formato_04d numero.
Proof.
  intros Ht. unfold generar_celex.
  repeat (apply elem_of_cons in Ht as [-> | Ht]); try reflexivity.
  now apply elem_of_nil in Ht.
Qed.

Lemma cuatro_caracteres (s : string) :
  String.length s = 4%nat ->
  exists a b c e, s = String a (String b (String c (String e ""))).
Proof.
  destruct s as [|a [|b [|c [|e [|f s]]]]]; simpl; try discriminate.
  intros _. now exists a, b, c, e.
Qed.

Lemma parsear_celex_de_partes (y : string) (tipo : string) (resto : string)
      (anio numero : Z) :
  String.length y = 4%nat ->
  tipo ∈ ["R"; "L"; "D"] ->
  valor_digitos y = Some anio ->
  valor_digitos resto = Some numero ->
  (4 <= String.length resto)%nat ->
  parsear_celex ("3" +:+ y +:+ tipo +:+ resto) = Some (tipo, anio, numero).
Proof.
  intros Hy Ht Hva Hvn Hlen.
  destruct (cuatro_caracteres y Hy) as (a & b & c & e & ->).
  assert (Hleb : (4 <=? String.length resto)%nat = true) by now apply Nat.leb_le.
  repeat (apply elem_of_cons in Ht as [-> | Ht]);
    try (now apply elem_of_nil in Ht);
    match goal with
    | |- parsear_celex (_ +:+ _ +:+ ?t +:+ _) = _ =>
        change (parsear_celex
                  (String "3" (String a (String b (String c (String e
                     (t +:+ resto)))))) = Some (t, anio, numero))
    end;
    unfold parsear_celex; cbv [String.append];
    rewrite Hva, Hvn, Hleb; reflexivity.
Qed.

End Celex.

(** C6.  For every kind in {R, L, D}, every four-digit year and every act
    number, [generar_celex] returns "3", the year, the kind letter and the
    number zero-filled to four digits, and reading that string back by the
    CELEX format gives the kind, the year and the number again. *)
Theorem C6_celex_round_trip (tipo : string) (anio numero : Z) :
  tipo ∈ ["R"; "L"; "D"] ->
  1000 <= anio <= 9999 ->
  0 <= numero ->
  Eurlex.generar_celex tipo anio numero
    = "3" +:+ PyStr.str_of_Z anio +:+ tipo +:+ PyStr.formato_04d numero
  /\ PyStr.formato_04d numero
     = string_of_list_ascii
         (repeat "0"%char (4 - String.length (PyStr.str_of_Z numero)))
       +:+ PyStr.str_of_Z numero
  /\ Eurlex.parsear_celex (Eurlex.generar_celex tipo anio numero)
     = Some (tipo, anio, numero).
Proof.
  intros Ht Ha Hn. split; [|split].
  - now apply generar_celex_tipo_valido.
  - now apply formato_04d_no_negativo.
  - rewrite generar_celex_tipo_valido by assumption.
    apply parsear_celex_de_partes; auto.
    + now apply longitud_anio.
    + apply valor_digitos_str_of_Z. lia.
    + now apply valor_formato_04d.
    + now apply longitud_formato_04d.
Qed.

(** The GDPR: regulation 2016/679. *)
Lemma C6_celex_round_trip_witness :
  ("R" ∈ ["R"; "L"; "D"]) /\ (1000 <= 2016 <= 9999) /\ (0 <= 679) /\
  (Eurlex.generar_celex "R" 2016 679
     = "3" +:+ PyStr.str_of_Z 2016 +:+ "R" +:+ PyStr.formato_04d 679
   /\ PyStr.formato_04d 679
      = string_of_list_ascii
          (repeat "0"%char (4 - String.length (PyStr.str_of_Z 679)))
        +:+ PyStr.str_of_Z 679
   /\ Eurlex.parsear_celex (Eurlex.generar_celex "R" 2016 679)
      = Some ("R", 2016, 679)).
Proof.
  assert (Ht : "R" ∈ ["R"; "L"; "D"]) by (apply elem_of_cons; now left).
  assert (Ha : 1000 <= 2016 <= 9999) by lia.
  assert (Hn : 0 <= 679) by lia.
  split; [exact Ht|]. split; [exact Ha|]. split; [exact Hn|].
  exact (C6_celex_round_trip "R" 2016 679 Ht Ha Hn).
Defined.

Example celex_rgpd :
  Eurlex.generar_celex "R" 2016 679 = "32016R0679"
  /\ Eurlex.parsear_celex "32016R0679" = Some ("R", 2016, 679).
Proof. split; vm_compute; reflexivity. Qed.

(* ===================================================================== *)
(** ** Which side of N1/N2 is the year *)
(* ===================================================================== *)

Section LadoDelAnio.
Import PyStr Eurlex.

(** The result of [extraer_celex_de_texto] for a regulation is decided by
    [celex_de_par] on the two numbers the pattern captured. *)
Lemma extraer_celex_reglamento (texto : string) (num1 num2 : Z) :
  numeros_del_acto patron_reglamento texto = Some (num1, num2) ->
  extraer_celex_de_texto texto = Some (celex_de_par "R" num1 num2).
Proof. intros H. unfold extraer_celex_de_texto. now rewrite H. Qed.

(** With a first number below 10000 the year is the four-digit side. *)
Lemma celex_de_par_lado_de_cuatro_cifras (tipo : string) (num1 num2 : Z) :
  0 <= num1 < 10000 ->
  (1000 <= num1 <= 9999 -> ~ 1000 <= num2 <= 9999 ->
   celex_de_par tipo num1 num2 = generar_celex tipo num1 num2)
  /\ (~ 1000 <= num1 <= 9999 -> 1000 <= num2 <= 9999 ->
      celex_de_par tipo num1 num2 = generar_celex tipo num2 num1).
Proof.
  intros H1. unfold celex_de_par. split; intros Ha Hb.
  - destruct (1000 <=? num1) eqn:E; [reflexivity|lia].
  - destruct (1000 <=? num1) eqn:E; [lia|reflexivity].
Qed.

Example extraer_celex_anio_primero :
  extraer_celex_de_texto "Reglamento (UE) 2016/679" = Some "32016R0679".
Proof. vm_compute. reflexivity. Qed.

Example extraer_celex_anio_segundo :
  extraer_celex_de_texto "Reglamento (CE) No 593/2008" = Some "32008R0593".
Proof. vm_compute. reflexivity. Qed.

Example extraer_celex_directiva :
  extraer_celex_de_texto "Directiva (UE) 2016/680" = Some "32016L0680".
Proof. vm_compute. reflexivity. Qed.

Example extraer_celex_decision :
  extraer_celex_de_texto "DECISIÓN (UE) 2020/2053 del Consejo" = Some "32020D2053".
Proof. vm_compute. reflexivity. Qed.

End LadoDelAnio.

(** C7.  In "Reglamento (UE) 12345/2016" exactly one side of the pair,
    2016, has four digits, so 2016 is the year and 12345 the act number,
    which is CELEX 32016R12345; [extraer_celex_de_texto] tests only
    [num1 >= 1000], takes 12345 for the year and returns 312345R2016. *)
Theorem C7_anio_de_cinco_cifras :
  Eurlex.numeros_del_acto Eurlex.patron_reglamento "Reglamento (UE) 12345/2016"
    = Some (12345, 2016)
  /\ ~ (1000 <= 12345 <= 9999) /\ (1000 <= 2016 <= 9999)
  /\ Eurlex.extraer_celex_de_texto "Reglamento (UE) 12345/2016" = Some "312345R2016"
  /\ Eurlex.generar_celex "R" 2016 12345 = "32016R12345"
  /\ Eurlex.extraer_celex_de_texto "Reglamento (UE) 12345/2016"
     <> Some (Eurlex.generar_celex "R" 2016 12345).
Proof.
  split; [vm_compute; reflexivity|].
  split; [lia|]. split; [lia|].
  split; [vm_compute; reflexivity|].
  split; [vm_compute; reflexivity|].
  vm_compute. discriminate.
Qed.

(* ===================================================================== *)
(** ** The direct attempt of the article fetcher *)
(* ===================================================================== *)

Section DescargaDirecta.
Import PyStr Fetcher.

Lemma articulo_regular_hasta_999 (n : Z) :
  0 <= n <= 999 -> articulo_regular n = true.
Proof.
  intros H.
  assert (Hc : todos_en_rango articulo_regular 0 1000 = true)
    by (vm_compute; reflexivity).
  apply (todos_en_rango_spec _ _ _ n) in Hc; [assumption|lia].
Qed.

(** The id list for a plain article number that has a word form. *)
Lemma patrones_id_regular (n : Z) (id_bloque : string) :
  articulo_regular n = true ->
  exists palabra,
    _numero_a_palabras_lopj n = Ok palabra /\
    patrones_id id_bloque (str_of_Z n) =
      Ok ["a" +:+ str_of_Z n; palabra; "art" +:+ str_of_Z n;
          "a" +:+ str_of_Z n +:+ "bis"; "art" +:+ str_of_Z n +:+ "bis";
          id_bloque].
Proof.
  unfold articulo_regular. intros H.
  apply andb_true_iff in H as [H Hp].
  apply andb_true_iff in H as [H Hi].
  apply andb_true_iff in H as [Hn Ha].
  apply String.eqb_eq in Hn, Ha. apply bool_decide_eq_true in Hi.
  destruct (_numero_a_palabras_lopj n) as [palabra|] eqn:Hw; [|discriminate].
  exists palabra. split; [reflexivity|].
  unfold patrones_id. rewrite Hn, Ha, Hi, Hw. reflexivity.
Qed.

(** The loop stops at the first id that yields an article. *)
Lemma probar_patrones_primer_exito (env : Entorno) (id numero : string)
      (ids : list string) :
  primer_exito (probar_id env id numero) ids
               (fst (probar_patrones env id numero ids))
               (snd (probar_patrones env id numero ids)).
Proof.
  induction ids as [|x ids IH]; simpl.
  - right. repeat split. constructor.
  - destruct (probar_id env id numero x) as [a|] eqn:Hx.
    + left. exists [], x, ids, a. simpl. repeat split; auto.
    + destruct (probar_patrones env id numero ids) as [pedidos r] eqn:Hr.
      simpl in *. destruct IH as [(antes & y & despues & a & -> & Hf & Hy & -> & ->)
                                 | (Hf & -> & ->)].
      * left. exists (x :: antes), y, despues, a. repeat split; auto.
      * right. repeat split; auto.
Qed.

End DescargaDirecta.

(** C9, as the code has it.  For an article number n from 0 to 999 the
    direct attempt requests the block ids a<n>, the Spanish-word form,
    art<n>, a<n>bis, art<n>bis and the caller's hint, in that order, and
    stops at the first id whose download and extraction succeed; that id
    determines the result. *)
Theorem C9_orden_de_identificadores (env : Fetcher.Entorno)
        (id pista : string) (n : Z) :
  0 <= n <= 999 ->
  exists palabra pedidos resultado,
    Fetcher._numero_a_palabras_lopj n = Ok palabra /\
    Fetcher._intentar_descarga_directa env id pista (PyStr.str_of_Z n)
      = Ok (pedidos, resultado) /\
    primer_exito (Fetcher.probar_id env id (PyStr.str_of_Z n))
      ["a" +:+ PyStr.str_of_Z n; palabra; "art" +:+ PyStr.str_of_Z n;
       "a" +:+ PyStr.str_of_Z n +:+ "bis"; "art" +:+ PyStr.str_of_Z n +:+ "bis";
       pista]
      pedidos resultado.
Proof.
  intros Hn.
  destruct (patrones_id_regular n pista (articulo_regular_hasta_999 n Hn))
    as (palabra & Hw & Hp).
  eexists palabra, _, _. split; [exact Hw|]. split.
  - unfold Fetcher._intentar_descarga_directa. rewrite Hp. simpl.
    rewrite <- surjective_pairing. reflexivity.
  - apply probar_patrones_primer_exito.
Qed.

(** Article 117 of the LOPJ. *)
Lemma C9_orden_de_identificadores_witness :
  0 <= 117 <= 999 /\
  exists palabra pedidos resultado,
    Fetcher._numero_a_palabras_lopj 117 = Ok palabra /\
    Fetcher._intentar_descarga_directa Escenarios.api_lopj "BOE-A-1985-12666"
      "a117" (PyStr.str_of_Z 117) = Ok (pedidos, resultado) /\
    primer_exito
      (Fetcher.probar_id Escenarios.api_lopj "BOE-A-1985-12666" (PyStr.str_of_Z 117))
      ["a" +:+ PyStr.str_of_Z 117; palabra; "art" +:+ PyStr.str_of_Z 117;
       "a" +:+ PyStr.str_of_Z 117 +:+ "bis"; "art" +:+ PyStr.str_of_Z 117 +:+ "bis";
       "a117"]
      pedidos resultado.
Proof.
  split; [lia|].
  apply (C9_orden_de_identificadores Escenarios.api_lopj "BOE-A-1985-12666" "a117" 117).
  lia.
Defined.

(** Beyond 999 the word form does not exist: [centenas[c]] is out of range
    and the exception leaves the direct attempt before any request. *)
Example articulo_1902_sin_intentos :
  Fetcher._numero_a_palabras_lopj 1902 = Raise IndexError
  /\ Fetcher._intentar_descarga_directa Escenarios.api_lopj "BOE-A-1889-4763"
       "a1902" "1902" = Raise IndexError.
Proof. split; vm_compute; reflexivity. Qed.

(** C9 as stated fails: for article 117 the word form is the second id
    requested, before art117; when both blocks exist the article comes from
    the word-form block. *)
Lemma C9_contraejemplo :
  Fetcher.patrones_id "a117" "117"
    = Ok ["a117"; "acientodiecisiete"; "art117"; "a117bis"; "art117bis"; "a117"]
  /\ Fetcher.patrones_id "a117" "117"
     <> Ok ["a117"; "art117"; "a117bis"; "art117bis"; "acientodiecisiete"; "a117"]
  /\ (exists a,
        Fetcher._intentar_descarga_directa Escenarios.api_lopj
          "BOE-A-1985-12666" "a117" "117"
        = Ok (["a117"; "acientodiecisiete"], Some a)
        /\ Fetcher.a_texto a = "<p>palabras</p>"
        /\ Fetcher.probar_id Escenarios.api_lopj "BOE-A-1985-12666" "117" "art117"
           <> None).
Proof.
  split; [vm_compute; reflexivity|].
  split; [vm_compute; discriminate|].
  eexists. split; [vm_compute; reflexivity|].
  split; [reflexivity|vm_compute; discriminate].
Qed.


(* ===================================================================== *)
(** ** Duplicate filters *)
(* ===================================================================== *)

Section PrimerasPorClave.
Context {T : Type}.
Variable aceptada : T -> bool.
Variable clave : T -> string.

(** What the scan guarantees, whatever the keys already seen. *)
Lemma primeras_por_clave_spec (vistas : gset string) (refs : list T) :
  sublist (primeras_por_clave aceptada clave vistas refs) refs
  /\ NoDup (clave <$> primeras_por_clave aceptada clave vistas refs)
  /\ (forall r, r ∈ primeras_por_clave aceptada clave vistas refs ->
                aceptada r = true /\ (clave r ∉ vistas))
  /\ (forall r, r ∈ refs -> aceptada r = true ->
                clave r ∈ vistas
                \/ clave r ∈ (clave <$> primeras_por_clave aceptada clave vistas refs)).
Proof.
  revert vistas. induction refs as [|ref resto IH]; intros vistas.
  - cbn. split; [apply sublist_nil|]. split; [apply NoDup_nil_2|].
    split; intros r Hr; inversion Hr.
  - cbn [primeras_por_clave].
    destruct (aceptada ref) eqn:Ha; cbn [andb].
    + destruct (bool_decide (clave ref ∉ vistas)) eqn:Hv.
      * apply bool_decide_eq_true in Hv.
        destruct (IH (vistas ∪ {[ clave ref ]})) as (Hs & Hn & Hin & Hcov).
        split; [now apply sublist_skip|].
        split.
        { rewrite fmap_cons. apply NoDup_cons. split; [|assumption].
          intros Hc. apply list_elem_of_fmap in Hc as (r & Hr & Hrin).
          destruct (Hin r Hrin) as [_ Hnot]. apply Hnot.
          apply elem_of_union. right. apply elem_of_singleton. congruence. }
        split.
        { intros r Hr. apply elem_of_cons in Hr as [->|Hr]; [now split|].
          destruct (Hin r Hr) as [Har Hnot]. split; [assumption|].
          intros Hc. apply Hnot. apply elem_of_union. now left. }
        intros r Hr Har. apply elem_of_cons in Hr as [->|Hr].
        { right. rewrite fmap_cons. apply elem_of_cons. now left. }
        destruct (Hcov r Hr Har) as [Hc|Hc].
        { apply elem_of_union in Hc as [Hc|Hc]; [now left|].
          apply elem_of_singleton in Hc. right. rewrite fmap_cons.
          apply elem_of_cons. now left. }
        right. rewrite fmap_cons. apply elem_of_cons. now right.
      * apply bool_decide_eq_false in Hv.
        destruct (IH vistas) as (Hs & Hn & Hin & Hcov).
        split; [now apply sublist_cons|]. split; [assumption|].
        split; [assumption|].
        intros r Hr Har. apply elem_of_cons in Hr as [->|Hr].
        { left. destruct (decide (clave ref ∈ vistas)); [assumption|contradiction]. }
        now apply Hcov.
    + destruct (IH vistas) as (Hs & Hn & Hin & Hcov).
      split; [now apply sublist_cons|]. split; [assumption|].
      split; [assumption|].
      intros r Hr Har. apply elem_of_cons in Hr as [->|Hr]; [congruence|].
      now apply Hcov.
Qed.

End PrimerasPorClave.

Section FiltrosDeDuplicados.
Import PyStr Extractor Convergencia.

Lemma no_vacia_true (s : string) : no_vacia s = true <-> s <> "".
Proof. destruct s; cbn; split; congruence. Qed.

(** The folded text that [_deduplicar_simple] computes is the key of
    [_es_duplicado] when the text is not [null]. *)
Lemma texto_de_dedup (r : Referencia) (t : string) :
  campo_get_o (campo_texto_completo r) "" = Some t ->
  strip (lower t) = clave_texto r.
Proof.
  unfold clave_texto, texto_completo.
  destruct (campo_texto_completo r); cbn [campo_get_o campo_get];
    intros [= <-]; reflexivity.
Qed.

Lemma texto_nulo (r : Referencia) :
  campo_get_o (campo_texto_completo r) "" = None <-> campo_texto_completo r = Nulo.
Proof. destruct (campo_texto_completo r); cbn; split; congruence. Qed.

Section DedupSimple.
Context {T : Type} (valor : T -> Referencia).

(** Without a [null] text the loop is the scan by folded text. *)
Lemma dedup_simple_bucle_scan (vistas : gset string) (refs : list T) :
  Forall (fun x => con_texto_no_nulo (valor x)) refs ->
  dedup_simple_bucle valor vistas refs
  = Ok (primeras_por_clave (fun x => no_vacia (clave_texto (valor x)))
                           (fun x => clave_texto (valor x)) vistas refs).
Proof.
  intros H. revert vistas.
  induction H as [|ref resto Hn _ IH]; intros vistas; [reflexivity|].
  cbn [dedup_simple_bucle primeras_por_clave].
  destruct (campo_get_o (campo_texto_completo (valor ref)) "") as [t|] eqn:E.
  - rewrite (texto_de_dedup _ _ E), !IH.
    now destruct (no_vacia (clave_texto (valor ref))
                  && bool_decide (clave_texto (valor ref) ∉ vistas)).
  - apply texto_nulo in E. contradiction.
Qed.

(** With one the loop raises [AttributeError], wherever the text is. *)
Lemma dedup_simple_bucle_nulo (vistas : gset string) (refs : list T) :
  Exists (fun x => campo_texto_completo (valor x) = Nulo) refs ->
  dedup_simple_bucle valor vistas refs = Raise AttributeError.
Proof.
  intros H. revert vistas.
  induction refs as [|ref resto IH]; intros vistas; [inversion H|].
  cbn [dedup_simple_bucle].
  destruct (campo_get_o (campo_texto_completo (valor ref)) "") as [t|] eqn:E;
    [|reflexivity].
  assert (Hr : Exists (fun x => campo_texto_completo (valor x) = Nulo) resto).
  { inversion H as [? ? Hx|]; subst; [|assumption].
    apply texto_nulo in Hx. congruence. }
  destruct (no_vacia (strip (lower t)) && bool_decide (strip (lower t) ∉ vistas)).
  - now rewrite IH.
  - now apply IH.
Qed.

Lemma nulo_o_ninguno (refs : list T) :
  Exists (fun x => campo_texto_completo (valor x) = Nulo) refs
  \/ Forall (fun x => con_texto_no_nulo (valor x)) refs.
Proof.
  induction refs as [|x refs [IH|IH]].
  - right. constructor.
  - left. now right.
  - destruct (decide (campo_texto_completo (valor x) = Nulo)) as [Hx|Hx].
    + left. now left.
    + right. now constructor.
Qed.

End DedupSimple.

Lemma filtrar_bucle_a_scan (vistas : gset string) (refs : list Referencia) :
  filtrar_bucle_a vistas refs
  = primeras_por_clave (fun r => no_vacia (texto_norm r)) texto_norm vistas refs.
Proof.
  revert vistas. induction refs as [|ref resto IH]; intros vistas; [reflexivity|].
  cbn [filtrar_bucle_a primeras_por_clave]. now rewrite !IH.
Qed.

Lemma filtrar_bucle_c_scan (vistas : gset string) (refs : list Referencia) :
  filtrar_bucle_c vistas refs
  = primeras_por_clave (fun r => no_vacia (texto_c r))
                       (fun r => texto_norm_c (texto_c r)) vistas refs.
Proof.
  revert vistas. induction refs as [|ref resto IH]; intros vistas; [reflexivity|].
  cbn [filtrar_bucle_c primeras_por_clave]. rewrite !IH.
  now destruct (no_vacia (texto_c ref)).
Qed.

(** The set built from the earlier references by agent A. *)
Lemma textos_previos_a_spec (previas : list Referencia) (x : string) :
  x ∈ textos_previos_a previas
  <-> exists p, p ∈ previas /\ texto_norm p <> "" /\ texto_norm p = x.
Proof.
  unfold textos_previos_a.
  assert (H : forall s : gset string,
             x ∈ fold_left
                   (fun (textos_previos : gset string) ref =>
                      let texto := texto_norm ref in
                      if no_vacia texto then textos_previos ∪ {[ texto ]}
                      else textos_previos) previas s
             <-> x ∈ s \/ exists p, p ∈ previas /\ texto_norm p <> ""
                                    /\ texto_norm p = x).
  { induction previas as [|q previas IH]; intros s; cbn [fold_left].
    - split; [now left|]. intros [H|(p & Hp & _)]; [assumption|inversion Hp].
    - rewrite IH. cbn zeta. split.
      + intros [H|(p & Hp & Hne & He)].
        * destruct (no_vacia (texto_norm q)) eqn:Hq; [|now left].
          apply elem_of_union in H as [H|H]; [now left|].
          apply elem_of_singleton in H. right. exists q.
          split; [apply elem_of_cons; now left|].
          split; [now apply no_vacia_true|congruence].
        * right. exists p. split; [apply elem_of_cons; now right|now split].
      + intros [H|(p & Hp & Hne & He)].
        * left. destruct (no_vacia (texto_norm q)); [|assumption].
          apply elem_of_union. now left.
        * apply elem_of_cons in Hp as [->|Hp].
          -- left. apply no_vacia_true in Hne. rewrite Hne.
             apply elem_of_union. right. now apply elem_of_singleton.
          -- right. exists p. now repeat split. }
  rewrite H. split; [intros [Hx|Hx]; [set_solver|assumption]|now right].
Qed.

(** The set built from the earlier references by agent C. *)
Lemma textos_previos_c_spec (previas : list Referencia) (x : string) :
  x ∈ textos_previos_c previas
  <-> exists p, p ∈ previas /\ texto_c p <> "" /\ texto_norm_c (texto_c p) = x.
Proof.
  unfold textos_previos_c.
  assert (H : forall s : gset string,
             x ∈ fold_left
                   (fun (textos_previos : gset string) ref =>
                      let texto := texto_c ref in
                      if no_vacia texto then textos_previos ∪ {[ texto_norm_c texto ]}
                      else textos_previos) previas s
             <-> x ∈ s \/ exists p, p ∈ previas /\ texto_c p <> ""
                                    /\ texto_norm_c (texto_c p) = x).
  { induction previas as [|q previas IH]; intros s; cbn [fold_left].
    - split; [now left|]. intros [H|(p & Hp & _)]; [assumption|inversion Hp].
    - rewrite IH. cbn zeta. split.
      + intros [H|(p & Hp & Hne & He)].
        * destruct (no_vacia (texto_c q)) eqn:Hq; [|now left].
          apply elem_of_union in H as [H|H]; [now left|].
          apply elem_of_singleton in H. right. exists q.
          split; [apply elem_of_cons; now left|].
          split; [now apply no_vacia_true|congruence].
        * right. exists p. split; [apply elem_of_cons; now right|now split].
      + intros [H|(p & Hp & Hne & He)].
        * left. destruct (no_vacia (texto_c q)); [|assumption].
          apply elem_of_union. now left.
        * apply elem_of_cons in Hp as [->|Hp].
          -- left. apply no_vacia_true in Hne. rewrite Hne.
             apply elem_of_union. right. now apply elem_of_singleton.
          -- right. exists p. now repeat split. }
  rewrite H. split; [intros [Hx|Hx]; [set_solver|assumption]|now right].
Qed.

(** The set built from the earlier references by agent B. *)
Lemma textos_previos_b_spec (previas : list Referencia) (x : string) :
  x ∈ textos_previos_b previas
  <-> exists p, p ∈ previas
                /\ ((texto_norm p <> "" /\ texto_norm p = x)
                    \/ (ley_norm p <> "" /\ ley_norm p = x)).
Proof.
  unfold textos_previos_b.
  assert (H : forall s : gset string,
             x ∈ fold_left
                   (fun (textos_previos : gset string) ref =>
                      let texto := texto_norm ref in
                      let s1 := if no_vacia texto then textos_previos ∪ {[ texto ]}
                                else textos_previos in
                      let ley := ley_norm ref in
                      if no_vacia ley then s1 ∪ {[ ley ]} else s1) previas s
             <-> x ∈ s \/ exists p, p ∈ previas
                                    /\ ((texto_norm p <> "" /\ texto_norm p = x)
                                        \/ (ley_norm p <> "" /\ ley_norm p = x))).
  { induction previas as [|q previas IH]; intros s; cbn [fold_left].
    - split; [now left|]. intros [H|(p & Hp & _)]; [assumption|inversion Hp].
    - rewrite IH. cbn zeta. split.
      + intros [H|(p & Hp & Hd)].
        * destruct (no_vacia (ley_norm q)) eqn:Hl.
          -- apply elem_of_union in H as [H|H].
             ++ destruct (no_vacia (texto_norm q)) eqn:Hq; [|now left].
                apply elem_of_union in H as [H|H]; [now left|].
                apply elem_of_singleton in H. right. exists q.
                split; [apply elem_of_cons; now left|]. left.
                split; [now apply no_vacia_true|congruence].
             ++ apply elem_of_singleton in H. right. exists q.
                split; [apply elem_of_cons; now left|]. right.
                split; [now apply no_vacia_true|congruence].
          -- destruct (no_vacia (texto_norm q)) eqn:Hq; [|now left].
             apply elem_of_union in H as [H|H]; [now left|].
             apply elem_of_singleton in H. right. exists q.
             split; [apply elem_of_cons; now left|]. left.
             split; [now apply no_vacia_true|congruence].
        * right. exists p. split; [apply elem_of_cons; now right|assumption].
      + intros [H|(p & Hp & Hd)].
        * left. destruct (no_vacia (ley_norm q)), (no_vacia (texto_norm q));
            set_solver.
        * apply elem_of_cons in Hp as [->|Hp].
          -- left. destruct Hd as [[Hne He]|[Hne He]];
               apply no_vacia_true in Hne; rewrite Hne.
             ++ destruct (no_vacia (ley_norm q)); set_solver.
             ++ set_solver.
          -- right. exists p. now split. }
  rewrite H. split; [intros [Hx|Hx]; [set_solver|assumption]|now right].
Qed.

(** The loop of agent B, for any set of keys seen so far. *)
Lemma filtrar_bucle_b_spec (vistas : gset string) (refs : list Referencia) :
  sublist (filtrar_bucle_b vistas refs) refs
  /\ (forall r, r ∈ filtrar_bucle_b vistas refs ->
                (texto_norm r ∉ vistas) /\ (ley_norm r ∉ vistas))
  /\ ForallOrdPairs nueva_para_b (filtrar_bucle_b vistas refs).
Proof.
  revert vistas. induction refs as [|ref resto IH]; intros vistas.
  - cbn. split; [apply sublist_nil|]. split; [|constructor].
    intros r Hr. inversion Hr.
  - cbn [filtrar_bucle_b].
    destruct (bool_decide (texto_norm ref ∉ vistas)
              && bool_decide (ley_norm ref ∉ vistas)) eqn:Hc.
    + apply andb_true_iff in Hc as [Ht Hl].
      apply bool_decide_eq_true in Ht. apply bool_decide_eq_true in Hl.
      cbn zeta.
      match goal with
      | |- context [filtrar_bucle_b ?s2 resto] =>
          destruct (IH s2) as (Hs & Hin & Hp);
          assert (Hsub : forall x, x ∈ vistas \/ x ∈ claves_b ref -> x ∈ s2)
      end.
      { intros x [Hx|Hx].
        - destruct (no_vacia (ley_norm ref)); set_solver.
        - unfold claves_b in Hx.
          destruct (no_vacia (ley_norm ref)); set_solver. }
      split; [now apply sublist_skip|]. split.
      * intros r Hr. apply elem_of_cons in Hr as [->|Hr]; [now split|].
        destruct (Hin r Hr) as [H1 H2].
        split; intros Hx; [apply H1|apply H2]; apply Hsub; now left.
      * constructor; [|assumption].
        apply List.Forall_forall. intros r Hr.
        apply list_elem_of_In in Hr. destruct (Hin r Hr) as [H1 H2].
        split; intros Hx; [apply H1|apply H2]; apply Hsub; now right.
    + destruct (IH vistas) as (Hs & Hin & Hp).
      split; [now apply sublist_cons|]. now split.
Qed.

End FiltrosDeDuplicados.

(** X1.  [_deduplicar_simple] raises [AttributeError] exactly when a
    reference of its input has a [null] text.  Otherwise it returns a
    sub-list of its input, in the same order, in which no two references
    have the same folded text and none has an empty one; and it loses no
    text: every non-empty folded text of the input is the text of a
    reference that is kept.  Without a [null], a reference whose
    [texto_completo] is missing or blank is therefore always dropped. *)
Theorem X1_deduplicar_simple (refs : list Referencia) :
  match Convergencia._deduplicar_simple (fun r => r) refs with
  | Raise e =>
      e = AttributeError
      /\ Exists (fun r => campo_texto_completo r = Nulo) refs
  | Ok unicas =>
      Forall (fun r => campo_texto_completo r <> Nulo) refs
      /\ sublist unicas refs
      /\ NoDup (Convergencia.clave_texto <$> unicas)
      /\ (forall r, r ∈ unicas -> Convergencia.clave_texto r <> "")
      /\ (forall r, r ∈ refs -> Convergencia.clave_texto r <> "" ->
            exists u, u ∈ unicas
                      /\ Convergencia.clave_texto u = Convergencia.clave_texto r)
  end.
Proof.
  unfold Convergencia._deduplicar_simple.
  destruct (nulo_o_ninguno (fun r : Referencia => r) refs) as [Hn|Hn].
  - rewrite (dedup_simple_bucle_nulo _ _ _ Hn). now split.
  - rewrite (dedup_simple_bucle_scan _ _ _ Hn).
    destruct (primeras_por_clave_spec
                (fun r => PyStr.no_vacia (Convergencia.clave_texto r))
                Convergencia.clave_texto ∅ refs) as (Hs & Hnd & Hin & Hcov).
    split; [exact Hn|]. split; [assumption|]. split; [assumption|]. split.
    + intros r Hr. destruct (Hin r Hr) as [Ha _]. now apply no_vacia_true.
    + intros r Hr Hne. apply no_vacia_true in Hne.
      destruct (Hcov r Hr Hne) as [Hc|Hc]; [set_solver|].
      apply list_elem_of_fmap in Hc as (u & Hu & Huin). exists u. now split.
Qed.

(** X2.  Agent A's [_filtrar_duplicados] returns a sub-list of the new
    references in which every reference has a non-empty folded text, no
    two share it, and none has the folded text of an earlier
    reference. *)
Theorem X2_filtrar_duplicados_a (referencias_nuevas referencias_previas : list Referencia) :
  let unicas :=
    Extractor._filtrar_duplicados_a referencias_nuevas referencias_previas in
  sublist unicas referencias_nuevas
  /\ NoDup (Extractor.texto_norm <$> unicas)
  /\ (forall r, r ∈ unicas ->
        Extractor.texto_norm r <> ""
        /\ forall p, p ∈ referencias_previas ->
                     Extractor.texto_norm p <> Extractor.texto_norm r).
Proof.
  cbn zeta. unfold Extractor._filtrar_duplicados_a.
  rewrite filtrar_bucle_a_scan.
  destruct (primeras_por_clave_spec
              (fun r => PyStr.no_vacia (Extractor.texto_norm r))
              Extractor.texto_norm
              (Extractor.textos_previos_a referencias_previas)
              referencias_nuevas) as (Hs & Hn & Hin & _).
  split; [assumption|]. split; [assumption|].
  intros r Hr. destruct (Hin r Hr) as [Ha Hnot].
  apply no_vacia_true in Ha. split; [assumption|].
  intros p Hp He. apply Hnot. apply textos_previos_a_spec.
  exists p. split; [assumption|]. split; congruence.
Qed.

(** X3.  Agent C's [_filtrar_duplicados] returns a sub-list of the new
    references in which every reference has a text, no two have the same
    text once lower-cased and with runs of white space collapsed, and
    none has the collapsed text of an earlier reference that has a
    text. *)
Theorem X3_filtrar_duplicados_c (referencias_nuevas referencias_previas : list Referencia) :
  let filtradas :=
    Extractor._filtrar_duplicados_c referencias_nuevas referencias_previas in
  let clave := fun r => Extractor.texto_norm_c (Extractor.texto_c r) in
  sublist filtradas referencias_nuevas
  /\ NoDup (clave <$> filtradas)
  /\ (forall r, r ∈ filtradas ->
        Extractor.texto_c r <> ""
        /\ forall p, p ∈ referencias_previas -> Extractor.texto_c p <> "" ->
                     clave p <> clave r).
Proof.
  cbn zeta. unfold Extractor._filtrar_duplicados_c.
  rewrite filtrar_bucle_c_scan.
  destruct (primeras_por_clave_spec
              (fun r => PyStr.no_vacia (Extractor.texto_c r))
              (fun r => Extractor.texto_norm_c (Extractor.texto_c r))
              (Extractor.textos_previos_c referencias_previas)
              referencias_nuevas) as (Hs & Hn & Hin & _).
  split; [assumption|]. split; [assumption|].
  intros r Hr. destruct (Hin r Hr) as [Ha Hnot].
  apply no_vacia_true in Ha. split; [assumption|].
  intros p Hp Hne He. apply Hnot. apply textos_previos_c_spec.
  exists p. now repeat split.
Qed.

(** X4.  Agent B's [_filtrar_duplicados] compares texts and laws in one
    set.  It returns a sub-list of the new references in which a later
    reference never has, as its folded text or as its folded law, the
    folded text or the non-empty folded law of an earlier one, nor the
    non-empty folded text or law of a reference of an earlier round.  So
    it keeps at most one reference per law, and once it has kept a
    reference without text it drops every later reference without a
    law. *)
Theorem X4_filtrar_duplicados_b (referencias_nuevas referencias_previas : list Referencia) :
  let unicas :=
    Extractor._filtrar_duplicados_b referencias_nuevas referencias_previas in
  sublist unicas referencias_nuevas
  /\ ForallOrdPairs nueva_para_b unicas
  /\ (forall r p, r ∈ unicas -> p ∈ referencias_previas ->
        (Extractor.texto_norm p <> "" ->
         Extractor.texto_norm r <> Extractor.texto_norm p
         /\ Extractor.ley_norm r <> Extractor.texto_norm p)
        /\ (Extractor.ley_norm p <> "" ->
            Extractor.texto_norm r <> Extractor.ley_norm p
            /\ Extractor.ley_norm r <> Extractor.ley_norm p)).
Proof.
  cbn zeta. unfold Extractor._filtrar_duplicados_b.
  destruct (filtrar_bucle_b_spec
              (Extractor.textos_previos_b referencias_previas)
              referencias_nuevas) as (Hs & Hin & Hp).
  split; [assumption|]. split; [assumption|].
  intros r p Hr Hprev. destruct (Hin r Hr) as [H1 H2].
  split; intros Hne; split; intros He.
  - apply H1. apply textos_previos_b_spec. exists p. split; [assumption|].
    left. now split.
  - apply H2. apply textos_previos_b_spec. exists p. split; [assumption|].
    left. now split.
  - apply H1. apply textos_previos_b_spec. exists p. split; [assumption|].
    right. now split.
  - apply H2. apply textos_previos_b_spec. exists p. split; [assumption|].
    right. now split.
Qed.


(* ===================================================================== *)
(** ** Semantic deduplication *)
(* ===================================================================== *)

Section DeduplicacionSemantica.
Import PyStr Convergencia.
Context {T : Type} (valor : T -> Referencia).

Lemma exc_mapM_elem {A B : Type} (f : A -> Exc B) (l : list A) (out : list B) :
  exc_mapM f l = Ok out ->
  Forall (fun y => exists x, x ∈ l /\ f x = Ok y) out.
Proof.
  revert out. induction l as [|a l IH]; intros out H; cbn in H.
  - inversion H; subst. constructor.
  - destruct (f a) as [y|e] eqn:Ha; [|discriminate].
    destruct (exc_mapM f l) as [ys|e]; [|discriminate].
    inversion H; subst. constructor.
    + exists a. split; [apply elem_of_cons; now left|assumption].
    + eapply Forall_impl; [apply IH; reflexivity|].
      intros z (x & Hx & Hz). exists x. split; [apply elem_of_cons; now right|assumption].
Qed.

Lemma indexar_ref_elem (refs : list T) (i : Z) (r : T) :
  indexar_ref refs i = Ok r -> r ∈ refs.
Proof.
  unfold indexar_ref. intros H.
  destruct ((0 <=? (if i <? 0 then i + Z.of_nat (length refs) else i))
            && ((if i <? 0 then i + Z.of_nat (length refs) else i)
                <? Z.of_nat (length refs))); [|discriminate].
  destruct (refs !! Z.to_nat (if i <? 0 then i + Z.of_nat (length refs) else i))
    as [x|] eqn:Hx; [|discriminate].
  inversion H; subst. eapply list_elem_of_lookup_2. exact Hx.
Qed.

Lemma indexar_ref_en_rango (refs : list T) (i : Z) :
  0 <= i < Z.of_nat (length refs) ->
  exists r, indexar_ref refs i = Ok r /\ refs !! Z.to_nat i = Some r.
Proof.
  intros Hi. unfold indexar_ref.
  replace (i <? 0) with false by (symmetry; apply Z.ltb_ge; lia).
  replace (0 <=? i) with true by (symmetry; apply Z.leb_le; lia).
  replace (i <? Z.of_nat (length refs)) with true by (symmetry; apply Z.ltb_lt; lia).
  cbn [andb].
  destruct (refs !! Z.to_nat i) as [r|] eqn:Hr.
  - exists r. now split.
  - apply lookup_ge_None in Hr. lia.
Qed.

Lemma seleccionar_elem (refs : list T) (indices : list Z) (out : list T) :
  seleccionar refs indices = Ok out -> forall r, r ∈ out -> r ∈ refs.
Proof.
  unfold seleccionar. intros H r Hr.
  apply exc_mapM_elem in H.
  rewrite Forall_forall in H. destruct (H r Hr) as (i & _ & Hi).
  eapply indexar_ref_elem. exact Hi.
Qed.

(** What [_deduplicar_simple] returns and when it raises. *)
Lemma deduplicar_simple_casos (refs : list T) :
  match _deduplicar_simple valor refs with
  | Ok unicas =>
      Forall (fun x => con_texto_no_nulo (valor x)) refs /\ sublist unicas refs
  | Raise e =>
      e = AttributeError
      /\ Exists (fun x => campo_texto_completo (valor x) = Nulo) refs
  end.
Proof.
  unfold _deduplicar_simple.
  destruct (nulo_o_ninguno valor refs) as [Hn|Hn].
  - rewrite (dedup_simple_bucle_nulo _ _ _ Hn). now split.
  - rewrite (dedup_simple_bucle_scan _ _ _ Hn). split; [exact Hn|].
    apply (primeras_por_clave_spec
             (fun x => no_vacia (clave_texto (valor x)))
             (fun x => clave_texto (valor x)) ∅ refs).
Qed.

Lemma deduplicar_con_ia_casos (ia : list Referencia -> Exc (option (list Z)))
      (refs : list T) :
  match _deduplicar_con_ia valor ia refs with
  | Ok unicas => forall r, r ∈ unicas -> r ∈ refs
  | Raise e =>
      e = AttributeError
      /\ Exists (fun x => campo_texto_completo (valor x) = Nulo) refs
  end.
Proof.
  unfold _deduplicar_con_ia.
  destruct (length refs <=? 1)%nat; [auto|].
  assert (Hs : match _deduplicar_simple valor refs with
               | Ok unicas => forall r, r ∈ unicas -> r ∈ refs
               | Raise e =>
                   e = AttributeError
                   /\ Exists (fun x => campo_texto_completo (valor x) = Nulo) refs
               end).
  { pose proof (deduplicar_simple_casos refs) as H.
    destruct (_deduplicar_simple valor refs); [|exact H].
    destruct H as [_ Hsub]. intros r Hr. eapply elem_of_sublist; eassumption. }
  destruct (ia (valor <$> refs)) as [respuesta|e]; cbn [exc_bind]; [|exact Hs].
  destruct (seleccionar refs
              (_parsear_respuesta_deduplicacion respuesta (length refs)))
    as [out|e] eqn:Hsel; [|exact Hs].
  now apply seleccionar_elem with (1 := Hsel).
Qed.

Lemma deduplicar_semanticamente_casos
      (ia : list Referencia -> Exc (option (list Z))) (refs : list T) :
  match _deduplicar_semanticamente valor ia refs with
  | Ok unicas => forall r, r ∈ unicas -> r ∈ refs
  | Raise e =>
      e = AttributeError
      /\ Exists (fun x => campo_texto_completo (valor x) = Nulo) refs
  end.
Proof.
  unfold _deduplicar_semanticamente.
  destruct (length refs <=? 1)%nat; [auto|].
  destruct (length refs <=? 20)%nat; [apply deduplicar_con_ia_casos|].
  pose proof (deduplicar_simple_casos refs) as Hs.
  destruct (_deduplicar_simple valor refs) as [simples|e]; cbn [exc_bind];
    [|exact Hs].
  destruct Hs as [_ Hsub].
  destruct (20 <? length simples)%nat.
  - intros r Hr. eapply elem_of_sublist; eassumption.
  - pose proof (deduplicar_con_ia_casos ia simples) as Hc.
    destruct (_deduplicar_con_ia valor ia simples) as [unicas|e].
    + intros r Hr. eapply elem_of_sublist; [|exact Hsub]. now apply Hc.
    + destruct Hc as [-> Hex]. split; [reflexivity|].
      apply Exists_exists in Hex as (x & Hx & Hnul).
      apply Exists_exists. exists x. split; [|assumption].
      eapply elem_of_sublist; eassumption.
Qed.

(** Without a [null] text the deduplication returns. *)
Lemma deduplicar_semanticamente_devuelve
      (ia : list Referencia -> Exc (option (list Z))) (refs : list T) :
  Forall (fun x => con_texto_no_nulo (valor x)) refs ->
  exists unicas, _deduplicar_semanticamente valor ia refs = Ok unicas.
Proof.
  intros Hn. pose proof (deduplicar_semanticamente_casos ia refs) as H.
  destruct (_deduplicar_semanticamente valor ia refs) as [unicas|e]; [eauto|].
  destruct H as [_ Hex]. apply Exists_exists in Hex as (x & Hx & Hnul).
  rewrite Forall_forall in Hn. now destruct (Hn x Hx).
Qed.

(** Selecting every index in order gives the list back. *)
Lemma mapM_indexar_rango (pre l : list T) :
  exc_mapM (indexar_ref (pre ++ l))
           (List.map Z.of_nat (seq (length pre) (length l))) = Ok l.
Proof.
  revert pre. induction l as [|x l IH]; intros pre; [reflexivity|].
  cbn [length seq List.map exc_mapM].
  destruct (indexar_ref_en_rango (pre ++ x :: l) (Z.of_nat (length pre)))
    as (r & Hr & Hl).
  { rewrite length_app. cbn. lia. }
  rewrite Hr. rewrite Nat2Z.id in Hl.
  rewrite lookup_app_r in Hl by lia. rewrite Nat.sub_diag in Hl.
  cbn in Hl. inversion Hl; subst r.
  specialize (IH (pre ++ [x])). rewrite <- app_assoc in IH. cbn in IH.
  rewrite length_app in IH. cbn in IH.
  replace (length pre + 1)%nat with (S (length pre)) in IH by lia.
  now rewrite IH.
Qed.

Lemma seleccionar_todo (refs : list T) :
  seleccionar refs (_parsear_respuesta_deduplicacion None (length refs)) = Ok refs.
Proof.
  unfold seleccionar, _parsear_respuesta_deduplicacion.
  assert (Hf : List.filter (fun i => i <? Z.of_nat (length refs))
                 (List.map Z.of_nat (seq 0 (length refs)))
               = List.map Z.of_nat (seq 0 (length refs))).
  { apply List.forallb_filter_id. apply List.forallb_forall.
    intros i Hi. apply List.in_map_iff in Hi as (k & <- & Hk).
    apply List.in_seq in Hk. apply Z.ltb_lt. lia. }
  rewrite Hf. exact (mapM_indexar_rango [] refs).
Qed.

(** The indices kept from a parsed reply never make the selection
    raise. *)
Lemma seleccionar_validos (refs : list T) (indices : list Z) :
  exists out,
    seleccionar refs
      (_parsear_respuesta_deduplicacion (Some indices) (length refs)) = Ok out.
Proof.
  unfold seleccionar, _parsear_respuesta_deduplicacion.
  induction indices as [|i indices IH]; [now exists []|].
  cbn [List.filter].
  destruct ((0 <=? i) && (i <? Z.of_nat (length refs))) eqn:Hi; [|exact IH].
  cbn [List.filter].
  apply andb_true_iff in Hi as [H0 Hn].
  rewrite Hn. cbn [exc_mapM].
  destruct (indexar_ref_en_rango refs i) as (r & Hr & _).
  { apply Z.leb_le in H0. apply Z.ltb_lt in Hn. lia. }
  rewrite Hr. destruct IH as (out & Ho). rewrite Ho. now eexists.
Qed.

(** Deduplication looks at the contents only: on the list of the contents
    it returns the contents of what it returns on the dicts. *)
Lemma primeras_por_clave_fmap (aceptada : Referencia -> bool)
      (clave : Referencia -> string) (vistas : gset string) (refs : list T) :
  valor <$> primeras_por_clave (fun x => aceptada (valor x))
                               (fun x => clave (valor x)) vistas refs
  = primeras_por_clave aceptada clave vistas (valor <$> refs).
Proof.
  revert vistas. induction refs as [|x refs IH]; intros vistas; [reflexivity|].
  cbn [primeras_por_clave fmap list_fmap].
  destruct (aceptada (valor x) && bool_decide (clave (valor x) ∉ vistas)).
  - cbn [fmap list_fmap]. f_equal. apply IH.
  - apply IH.
Qed.

Lemma deduplicar_simple_fmap (refs : list T) :
  _deduplicar_simple (fun r => r) (valor <$> refs)
  = match _deduplicar_simple valor refs with
    | Ok unicas => Ok (valor <$> unicas)
    | Raise e => Raise e
    end.
Proof.
  unfold _deduplicar_simple.
  destruct (nulo_o_ninguno valor refs) as [Hn|Hn].
  - rewrite (dedup_simple_bucle_nulo valor _ _ Hn).
    apply dedup_simple_bucle_nulo. apply Exists_fmap. exact Hn.
  - rewrite (dedup_simple_bucle_scan valor _ _ Hn).
    rewrite dedup_simple_bucle_scan by (apply Forall_fmap; exact Hn).
    f_equal. symmetry.
    apply (primeras_por_clave_fmap (fun r => no_vacia (clave_texto r)) clave_texto).
Qed.

Lemma indexar_ref_fmap (refs : list T) (i : Z) :
  indexar_ref (valor <$> refs) i
  = match indexar_ref refs i with
    | Ok r => Ok (valor r)
    | Raise e => Raise e
    end.
Proof.
  unfold indexar_ref. rewrite length_fmap, list_lookup_fmap.
  destruct ((0 <=? (if i <? 0 then i + Z.of_nat (length refs) else i))
            && ((if i <? 0 then i + Z.of_nat (length refs) else i)
                <? Z.of_nat (length refs))); [|reflexivity].
  now destruct (refs !! Z.to_nat (if i <? 0 then i + Z.of_nat (length refs) else i)).
Qed.

Lemma seleccionar_fmap (refs : list T) (indices : list Z) :
  seleccionar (valor <$> refs) indices
  = match seleccionar refs indices with
    | Ok out => Ok (valor <$> out)
    | Raise e => Raise e
    end.
Proof.
  unfold seleccionar. rewrite length_fmap.
  generalize (List.filter (fun i => i <? Z.of_nat (length refs)) indices).
  intros l. induction l as [|i l IH]; cbn [exc_mapM]; [reflexivity|].
  rewrite indexar_ref_fmap.
  destruct (indexar_ref refs i) as [r|]; [|reflexivity].
  rewrite IH. now destruct (exc_mapM (indexar_ref refs) l).
Qed.

Lemma deduplicar_con_ia_fmap (ia : list Referencia -> Exc (option (list Z)))
      (refs : list T) :
  _deduplicar_con_ia (fun r => r) ia (valor <$> refs)
  = match _deduplicar_con_ia valor ia refs with
    | Ok unicas => Ok (valor <$> unicas)
    | Raise e => Raise e
    end.
Proof.
  unfold _deduplicar_con_ia. rewrite length_fmap, list_fmap_id.
  destruct (length refs <=? 1)%nat; [reflexivity|].
  destruct (ia (valor <$> refs)) as [respuesta|e]; cbn [exc_bind];
    [|apply deduplicar_simple_fmap].
  rewrite seleccionar_fmap.
  destruct (seleccionar refs
              (_parsear_respuesta_deduplicacion respuesta (length refs)));
    [reflexivity|apply deduplicar_simple_fmap].
Qed.

Lemma deduplicar_semanticamente_fmap
      (ia : list Referencia -> Exc (option (list Z))) (refs : list T) :
  _deduplicar_semanticamente (fun r => r) ia (valor <$> refs)
  = match _deduplicar_semanticamente valor ia refs with
    | Ok unicas => Ok (valor <$> unicas)
    | Raise e => Raise e
    end.
Proof.
  unfold _deduplicar_semanticamente. rewrite length_fmap.
  destruct (length refs <=? 1)%nat; [reflexivity|].
  destruct (length refs <=? 20)%nat; [apply deduplicar_con_ia_fmap|].
  rewrite deduplicar_simple_fmap.
  destruct (_deduplicar_simple valor refs) as [simples|e]; cbn [exc_bind];
    [|reflexivity].
  rewrite length_fmap.
  destruct (20 <? length simples)%nat; [reflexivity|].
  apply deduplicar_con_ia_fmap.
Qed.

End DeduplicacionSemantica.

(** X5.  Semantic deduplication never invents a reference: whatever the
    LLM answers (indices out of range, negative or repeated, a reply that
    cannot be parsed, a failed call), every reference returned by
    [_deduplicar_semanticamente] is one of the references it was given.
    It raises only [AttributeError], and only when one of them has a
    [null] text. *)
Theorem X5_deduplicacion_no_inventa
        (ia : list Referencia -> Exc (option (list Z))) (refs : list Referencia) :
  match Convergencia._deduplicar_semanticamente (fun r => r) ia refs with
  | Ok unicas => Forall (fun r => r ∈ refs) unicas
  | Raise e =>
      e = AttributeError
      /\ Exists (fun r => campo_texto_completo r = Nulo) refs
  end.
Proof.
  pose proof (deduplicar_semanticamente_casos (fun r : Referencia => r) ia refs) as H.
  destruct (Convergencia._deduplicar_semanticamente (fun r => r) ia refs);
    [|exact H].
  apply Forall_forall. exact H.
Qed.

(** X6.  In [_deduplicar_con_ia] the textual fallback runs only when the
    LLM call itself fails.  When the call returns, the selection never
    raises; and when the reply cannot be parsed nothing is deduplicated
    at all: the list comes back as it was given, repeated texts
    included. *)
Theorem X6_respuesta_ilegible_no_deduplica
        (ia : list Referencia -> Exc (option (list Z))) (refs : list Referencia) :
  (ia refs = Ok None ->
   Convergencia._deduplicar_con_ia (fun r => r) ia refs = Ok refs)
  /\ (forall indices, ia refs = Ok (Some indices) -> (1 < length refs)%nat ->
        exists unicas,
          Convergencia.seleccionar refs
            (List.filter (fun i => (0 <=? i) && (i <? Z.of_nat (length refs)))
                         indices) = Ok unicas
          /\ Convergencia._deduplicar_con_ia (fun r => r) ia refs = Ok unicas)
  /\ (forall e, ia refs = Raise e -> (1 < length refs)%nat ->
        Convergencia._deduplicar_con_ia (fun r => r) ia refs
        = Convergencia._deduplicar_simple (fun r => r) refs).
Proof.
  unfold Convergencia._deduplicar_con_ia. rewrite list_fmap_id. repeat split.
  - intros H. destruct (length refs <=? 1)%nat; [reflexivity|].
    rewrite H. cbn [exc_bind]. now rewrite seleccionar_todo.
  - intros indices H Hlen.
    replace (length refs <=? 1)%nat with false
      by (symmetry; apply Nat.leb_gt; lia).
    rewrite H. cbn [exc_bind].
    destruct (seleccionar_validos refs indices) as (out & Ho).
    rewrite Ho. exists out. split; [|reflexivity].
    unfold Convergencia._parsear_respuesta_deduplicacion in Ho. exact Ho.
  - intros e H Hlen.
    replace (length refs <=? 1)%nat with false
      by (symmetry; apply Nat.leb_gt; lia).
    now rewrite H.
Qed.

(* ===================================================================== *)
(** ** The store of a round *)
(* ===================================================================== *)

Section MemoriaDeLaRonda.
Import PyStr Convergencia.

Lemma no_vacia_false (s : string) : no_vacia s = false -> s = "".
Proof. destruct s; [reflexivity|discriminate]. Qed.

Lemma ForallOrdPairs_snoc {A : Type} (R : A -> A -> Prop) (l : list A) (a : A) :
  ForallOrdPairs R l -> Forall (fun x => R x a) l -> ForallOrdPairs R (l ++ [a]).
Proof.
  induction 1 as [|x l Hx Hl IH]; intros Ha; simpl.
  - constructor; constructor.
  - inversion Ha; subst. constructor.
    + apply Forall_app. split; [assumption|]. now constructor.
    + now apply IH.
Qed.

Lemma ForallOrdPairs_filter {A : Type} (R : A -> A -> Prop) (p : A -> bool)
      (l : list A) :
  ForallOrdPairs R l -> ForallOrdPairs R (List.filter p l).
Proof.
  induction 1 as [|x l Hx Hl IH]; simpl; [constructor|].
  destruct (p x); [|assumption].
  constructor; [|assumption].
  rewrite List.Forall_forall in *. intros y Hy.
  apply List.filter_In in Hy as [Hy _]. now apply Hx.
Qed.

(** What a negative answer of [_es_duplicado] guarantees. *)
Lemma es_duplicado_false (totales : list Referencia) (ref : Referencia) :
  _es_duplicado totales ref = false ->
  Forall (fun existente => distintas_para_el_motor existente ref) totales.
Proof.
  induction totales as [|e totales IH]; intros H; [constructor|].
  cbn [_es_duplicado] in H.
  destruct (no_vacia (clave_texto ref) && (clave_texto ref =? clave_texto e)%string)
    eqn:Ht; [discriminate|].
  destruct (no_vacia (clave_ley ref) && (clave_ley ref =? clave_ley e)%string)
    eqn:Hl; [discriminate|].
  constructor; [|now apply IH].
  split; intros Heq.
  - apply andb_false_iff in Ht as [Ht|Ht].
    + rewrite Heq. now apply no_vacia_false.
    + apply String.eqb_neq in Ht. congruence.
  - apply andb_false_iff in Hl as [Hl|Hl].
    + rewrite Heq. now apply no_vacia_false.
    + apply String.eqb_neq in Hl. congruence.
Qed.

(** And a positive one: the text or the law is already there. *)
Lemma es_duplicado_true (totales : list Referencia) (ref : Referencia) :
  _es_duplicado totales ref = true ->
  Exists (fun existente => ~ distintas_para_el_motor existente ref) totales.
Proof.
  induction totales as [|e totales IH]; intros H; [discriminate|].
  cbn [_es_duplicado] in H.
  destruct (no_vacia (clave_texto ref) && (clave_texto ref =? clave_texto e)%string)
    eqn:Ht.
  - left. apply andb_true_iff in Ht as [Hn He]. apply String.eqb_eq in He.
    intros [Hd _]. rewrite He in Hn. rewrite Hd in Hn by congruence. discriminate.
  - destruct (no_vacia (clave_ley ref) && (clave_ley ref =? clave_ley e)%string)
      eqn:Hl.
    + left. apply andb_true_iff in Hl as [Hn He]. apply String.eqb_eq in He.
      intros [_ Hd]. rewrite He in Hn. rewrite Hd in Hn by congruence. discriminate.
    + right. now apply IH.
Qed.

(** [_es_duplicado] and the pairwise distinction only look at the folded
    text and law, which a stamp leaves alone. *)
Lemma mismas_claves_refl (r : Referencia) : mismas_claves r r.
Proof. now split. Qed.

Lemma mismas_claves_sello (x : option Metadata) (r : Referencia) :
  mismas_claves r (set_metadata x r).
Proof. now split. Qed.

Lemma salvo_procedencia_claves (r r' : Referencia) :
  salvo_procedencia r r' -> mismas_claves r r'.
Proof.
  unfold salvo_procedencia. intros H.
  destruct (mismas_claves_sello None r) as [H1 H2].
  destruct (mismas_claves_sello None r') as [H3 H4].
  split; congruence.
Qed.

Lemma es_duplicado_claves (l l' : list Referencia) (r r' : Referencia) :
  Forall2 mismas_claves l l' -> mismas_claves r r' ->
  _es_duplicado l r = _es_duplicado l' r'.
Proof.
  intros Hl [Ht Hy]. induction Hl as [|e e' l l' [He1 He2] _ IH]; [reflexivity|].
  cbn [_es_duplicado]. now rewrite IH, Ht, Hy, He1, He2.
Qed.

Lemma distintas_claves (a a' b b' : Referencia) :
  mismas_claves a a' -> mismas_claves b b' ->
  distintas_para_el_motor a b -> distintas_para_el_motor a' b'.
Proof.
  intros [Ha1 Ha2] [Hb1 Hb2] [H1 H2]. split; intros He.
  - rewrite <- Ha1. apply H1. congruence.
  - rewrite <- Ha2. apply H2. congruence.
Qed.

Lemma ForallOrdPairs_claves (l l' : list Referencia) :
  Forall2 mismas_claves l l' ->
  ForallOrdPairs distintas_para_el_motor l ->
  ForallOrdPairs distintas_para_el_motor l'.
Proof.
  intros Hl. induction Hl as [|a a' l l' Ha Hl IH]; intros H; [constructor|].
  inversion H as [|? ? Hx Hr]; subst. constructor; [|now apply IH].
  clear IH H Hr. induction Hl as [|b b' l l' Hb _ IH]; [constructor|].
  inversion Hx; subst. constructor; [|now apply IH].
  eapply distintas_claves; eassumption.
Qed.

Lemma es_duplicado_app (l l' : list Referencia) (r : Referencia) :
  _es_duplicado l r = true -> _es_duplicado (l ++ l') r = true.
Proof.
  induction l as [|e l IH]; intros H; [discriminate|].
  cbn [_es_duplicado app] in *.
  destruct (no_vacia (clave_texto r) && (clave_texto r =? clave_texto e)%string);
    [reflexivity|].
  destruct (no_vacia (clave_ley r) && (clave_ley r =? clave_ley e)%string);
    [reflexivity|].
  now apply IH.
Qed.

(** Reading the store after a stamp. *)
Lemma valor_en_insert (valores : list Referencia) (i j : nat) (v : Referencia) :
  valor_en (<[ i := v ]> valores) j
  = if decide (i = j /\ (i < length valores)%nat) then v else valor_en valores j.
Proof.
  unfold valor_en. destruct (decide (i = j /\ (i < length valores)%nat)) as [[-> H]|H].
  - now apply list_lookup_total_insert_eq.
  - destruct (decide (i = j)) as [->|Hne].
    + rewrite list_insert_ge; [reflexivity|]. lia.
    + now apply list_lookup_total_insert_ne.
Qed.

Lemma valor_en_sello (valores : list Referencia) (i j : nat) (x : option Metadata) :
  mismas_claves (valor_en valores j)
    (valor_en (<[ i := set_metadata x (valor_en valores i) ]> valores) j).
Proof.
  rewrite valor_en_insert.
  destruct (decide (i = j /\ (i < length valores)%nat)) as [[-> _]|_];
    [apply mismas_claves_sello|apply mismas_claves_refl].
Qed.

(** [ref in lista] holds for the objects of the list. *)
Lemma esta_en_elem (valores : list Referencia) (lista : list nat) (i : nat) :
  i ∈ lista -> esta_en valores lista i = true.
Proof.
  intros H. unfold esta_en. apply existsb_exists. exists i.
  split; [now apply list_elem_of_In|]. now apply bool_decide_eq_true.
Qed.

Lemma esta_en_no_vacia (valores : list Referencia) (lista : list nat) (i : nat) :
  esta_en valores lista i = true -> lista <> [].
Proof. intros H ->. discriminate. Qed.

(** The two outcomes of one step of the loop. *)
Lemma agregar_si_nueva_casos (objetos_a objetos_b : list nat) (numero_ronda : Z)
      (ahora : nat -> string) (previas : list Referencia) (m : Memoria) (i : nat) :
  let m' := agregar_si_nueva objetos_a objetos_b numero_ronda ahora previas m i in
  (_es_duplicado (totales_de previas m) (valor_en (valores m) i) = true /\ m' = m)
  \/ (_es_duplicado (totales_de previas m) (valor_en (valores m) i) = false
      /\ exists sello,
          m' = {| valores := <[ i := set_metadata (Some sello) (valor_en (valores m) i) ]>
                               (valores m);
                  anexadas := anexadas m ++ [i] |}
          /\ ronda sello = numero_ronda
          /\ ((encontrado_por sello = Extractor.nombre_a
               /\ esta_en (valores m) objetos_a i = true)
              \/ (encontrado_por sello = Extractor.nombre_b
                  /\ esta_en (valores m) objetos_a i = false
                  /\ esta_en (valores m) objetos_b i = true)
              \/ (encontrado_por sello = Extractor.nombre_c
                  /\ esta_en (valores m) objetos_a i = false
                  /\ esta_en (valores m) objetos_b i = false))).
Proof.
  cbn zeta. unfold agregar_si_nueva.
  destruct (_es_duplicado (totales_de previas m) (valor_en (valores m) i));
    cbn [negb]; [now left|].
  right. split; [reflexivity|]. eexists. split; [reflexivity|].
  split; [reflexivity|]. cbn [encontrado_por].
  destruct (esta_en (valores m) objetos_a i); [now left|].
  destruct (esta_en (valores m) objetos_b i); [right; now left|right; now right].
Qed.

(** The accumulated list after a step, up to stamps: unchanged, or
    extended by the reference at hand. *)
Lemma totales_tras_sello (previas : list Referencia) (m : Memoria) (i : nat)
      (x : option Metadata) :
  let v := set_metadata x (valor_en (valores m) i) in
  exists l v',
    totales_de previas {| valores := <[ i := v ]> (valores m);
                          anexadas := anexadas m ++ [i] |} = l ++ [v']
    /\ Forall2 mismas_claves (totales_de previas m) l
    /\ mismas_claves (valor_en (valores m) i) v'
    /\ length l = length (totales_de previas m)
    /\ ((i < length (valores m))%nat -> v' = v).
Proof.
  cbn zeta. unfold totales_de. cbn [valores anexadas].
  rewrite fmap_app, app_assoc. cbn [fmap list_fmap].
  eexists _, _. split; [reflexivity|]. split.
  { apply Forall2_app.
    - apply Forall_Forall2_diag. apply Forall_forall. intros; apply mismas_claves_refl.
    - apply Forall2_fmap. apply Forall_Forall2_diag. apply Forall_forall.
      intros j _. apply valor_en_sello. }
  split; [apply valor_en_sello|]. split.
  { now rewrite !length_app, !length_fmap. }
  intros Hi. rewrite valor_en_insert.
  destruct (decide (i = i /\ (i < length (valores m))%nat)) as [_|Hn]; [reflexivity|].
  exfalso. apply Hn. now split.
Qed.

End MemoriaDeLaRonda.

Section PasosDeLaRonda.
Import PyStr Convergencia.
Variables (objetos_a objetos_b : list nat) (numero_ronda : Z).
Variables (ahora : nat -> string) (previas : list Referencia).

Local Notation paso :=
  (agregar_si_nueva objetos_a objetos_b numero_ronda ahora previas).

(** The loop only appends objects and keeps the size of the store. *)
Lemma bucle_agregar_anexadas (unicas : list nat) (m : Memoria) :
  length (valores (fold_left paso unicas m)) = length (valores m)
  /\ exists nuevas, anexadas (fold_left paso unicas m) = anexadas m ++ nuevas
                    /\ forall i, i ∈ nuevas -> i ∈ unicas.
Proof.
  revert m. induction unicas as [|i unicas IH]; intros m; cbn [fold_left].
  - split; [reflexivity|]. exists []. split; [now rewrite app_nil_r|].
    intros i Hi. inversion Hi.
  - destruct (IH (paso m i)) as (Hl & nuevas & Hn & Hin).
    destruct (agregar_si_nueva_casos objetos_a objetos_b numero_ronda ahora
                previas m i) as [[_ He]|(_ & sello & He & _)];
      cbn zeta in He; rewrite He in *.
    + split; [exact Hl|]. exists nuevas. split; [exact Hn|].
      intros j Hj. apply elem_of_cons. right. now apply Hin.
    + cbn [valores anexadas] in *. rewrite length_insert in Hl.
      split; [exact Hl|]. exists (i :: nuevas).
      split; [now rewrite Hn, <- app_assoc|].
      intros j Hj. apply elem_of_cons in Hj as [->|Hj];
        apply elem_of_cons; [now left|right; now apply Hin].
Qed.

(** The loop keeps the accumulated list free of pairs that share a text
    or a law. *)
Lemma bucle_agregar_conserva (unicas : list nat) (m : Memoria) :
  ForallOrdPairs distintas_para_el_motor (totales_de previas m) ->
  ForallOrdPairs distintas_para_el_motor
    (totales_de previas (fold_left paso unicas m)).
Proof.
  revert m. induction unicas as [|i unicas IH]; intros m H; cbn [fold_left];
    [assumption|].
  apply IH.
  destruct (agregar_si_nueva_casos objetos_a objetos_b numero_ronda ahora
              previas m i) as [[_ He]|(Hd & sello & He & _)];
    cbn zeta in He; rewrite He; [assumption|].
  destruct (totales_tras_sello previas m i (Some sello))
    as (l & v' & -> & Hl & Hv & _).
  apply ForallOrdPairs_snoc.
  - eapply ForallOrdPairs_claves; eassumption.
  - apply es_duplicado_false in Hd.
    clear -Hd Hl Hv. induction Hl as [|a a' l l' Ha _ IH]; [constructor|].
    inversion Hd; subst. constructor; [|now apply IH].
    eapply distintas_claves; eassumption.
Qed.

(** The loop changes the dicts of the round by their stamp only. *)
Lemma bucle_agregar_salvo (candidatas : list Referencia) (unicas : list nat)
      (m : Memoria) :
  Forall2 salvo_procedencia candidatas (valores m) ->
  Forall2 salvo_procedencia candidatas (valores (fold_left paso unicas m)).
Proof.
  revert m. induction unicas as [|i unicas IH]; intros m H; cbn [fold_left];
    [assumption|].
  apply IH.
  destruct (agregar_si_nueva_casos objetos_a objetos_b numero_ronda ahora
              previas m i) as [[_ He]|(_ & sello & He & _)];
    cbn zeta in He; rewrite He; [assumption|].
  cbn [valores].
  apply Forall2_same_length_lookup_2.
  { rewrite length_insert. now apply Forall2_length in H. }
  intros j x y Hx Hy.
  destruct (decide (i = j)) as [->|Hne].
  - assert (Hj : (j < length (valores m))%nat).
    { apply lookup_lt_Some in Hy. now rewrite length_insert in Hy. }
    rewrite list_lookup_insert_eq in Hy by exact Hj. inversion Hy; subst y.
    destruct (lookup_lt_is_Some_2 (valores m) j Hj) as [v Hv].
    unfold valor_en. rewrite (list_lookup_total_correct _ _ _ Hv).
    pose proof (Forall2_lookup_lr _ _ _ _ _ _ H Hx Hv) as Hs.
    exact Hs.
  - rewrite list_lookup_insert_ne in Hy by exact Hne.
    exact (Forall2_lookup_lr _ _ _ _ _ _ H Hx Hy).
Qed.

(** An object the loop has visited is in the accumulated list, or the
    list holds its text or its law. *)
Lemma paso_sin_perdida (m : Memoria) (i j : nat) :
  _es_duplicado (totales_de previas m) (valor_en (valores m) j) = true
  \/ j ∈ anexadas m \/ j = i ->
  _es_duplicado (totales_de previas (paso m i)) (valor_en (valores (paso m i)) j)
    = true
  \/ j ∈ anexadas (paso m i).
Proof.
  intros H.
  destruct (agregar_si_nueva_casos objetos_a objetos_b numero_ronda ahora
              previas m i) as [[Hd He]|(Hd & sello & He & _)];
    cbn zeta in He; rewrite He.
  - destruct H as [H|[H| ->]]; [now left|now right|now left].
  - cbn [anexadas].
    destruct H as [H|[H| ->]].
    + left. destruct (totales_tras_sello previas m i (Some sello))
        as (l & v' & -> & Hl & _).
      apply es_duplicado_app. rewrite <- H. symmetry.
      apply es_duplicado_claves; [exact Hl|]. cbn [valores]. apply valor_en_sello.
    + right. apply elem_of_app. now left.
    + right. apply elem_of_app. right. now apply list_elem_of_singleton.
Qed.

Lemma bucle_agregar_sin_perdida (unicas : list nat) (m : Memoria) (j : nat) :
  _es_duplicado (totales_de previas m) (valor_en (valores m) j) = true
  \/ j ∈ anexadas m \/ j ∈ unicas ->
  let m' := fold_left paso unicas m in
  _es_duplicado (totales_de previas m') (valor_en (valores m') j) = true
  \/ j ∈ anexadas m'.
Proof.
  cbn zeta. revert m. induction unicas as [|i unicas IH]; intros m H;
    cbn [fold_left].
  - destruct H as [H|[H|H]]; [now left|now right|inversion H].
  - apply IH.
    assert (Hc : _es_duplicado (totales_de previas m) (valor_en (valores m) j) = true
                 \/ j ∈ anexadas m \/ j = i \/ j ∈ unicas).
    { destruct H as [H|[H|H]]; [now left|right; now left|].
      apply elem_of_cons in H as [->|H]; right; right; [now left|now right]. }
    destruct Hc as [Hc|[Hc|[Hc|Hc]]].
    + destruct (paso_sin_perdida m i j) as [H1|H1]; [now left|now left|].
      right. now left.
    + destruct (paso_sin_perdida m i j) as [H1|H1]; [right; now left|now left|].
      right. now left.
    + destruct (paso_sin_perdida m i j) as [H1|H1];
        [right; now right|now left|]. right. now left.
    + right. now right.
Qed.

End PasosDeLaRonda.

Section SellosDeLaRonda.
Import PyStr Convergencia.
Variables (n_a n_b n_c : nat) (numero_ronda : Z).
Variables (ahora : nat -> string) (previas : list Referencia).

Local Notation paso :=
  (agregar_si_nueva (seq 0 n_a) (seq n_a n_b) numero_ronda ahora previas).

(** Every object the loop appends carries a stamp of the round that names
    an agent whose batch is not empty. *)
Lemma bucle_agregar_sellos (unicas : list nat) (m : Memoria) :
  length (valores m) = (n_a + n_b + n_c)%nat ->
  Forall (fun i => (i < n_a + n_b + n_c)%nat) unicas ->
  Forall (fun i => sello_de_la_ronda n_a n_b n_c numero_ronda (valor_en (valores m) i))
         (anexadas m) ->
  let m' := fold_left paso unicas m in
  Forall (fun i => sello_de_la_ronda n_a n_b n_c numero_ronda (valor_en (valores m') i))
         (anexadas m').
Proof.
  cbn zeta. revert m. induction unicas as [|i unicas IH]; intros m Hlen Hu Hs;
    cbn [fold_left]; [assumption|].
  inversion Hu as [|? ? Hi Hu']; subst.
  destruct (agregar_si_nueva_casos (seq 0 n_a) (seq n_a n_b) numero_ronda ahora
              previas m i) as [[_ He]|(_ & sello & He & Hr & Hag)];
    cbn zeta in He; rewrite He; [now apply IH|].
  apply IH; cbn [valores anexadas]; [now rewrite length_insert|assumption|].
  assert (Hnuevo : sello_de_la_ronda n_a n_b n_c numero_ronda
                     (set_metadata (Some sello) (valor_en (valores m) i))).
  { exists sello. split; [reflexivity|]. split; [exact Hr|].
    destruct Hag as [[Hn Ha]|[(Hn & Ha & Hb)|(Hn & Ha & Hb)]].
    - left. split; [exact Hn|]. apply esta_en_no_vacia in Ha.
      destruct n_a; [now contradiction Ha|discriminate].
    - right. left. split; [exact Hn|]. apply esta_en_no_vacia in Hb.
      destruct n_b; [now contradiction Hb|discriminate].
    - right. right. split; [exact Hn|].
      assert (Hia : i ∉ seq 0 n_a).
      { intros Hin. apply (esta_en_elem (valores m)) in Hin. congruence. }
      assert (Hib : i ∉ seq n_a n_b).
      { intros Hin. apply (esta_en_elem (valores m)) in Hin. congruence. }
      rewrite elem_of_seq in Hia, Hib. lia. }
  apply Forall_app. split.
  - eapply Forall_impl; [exact Hs|]. intros j Hj. cbn beta in *.
    rewrite valor_en_insert.
    destruct (decide (i = j /\ (i < length (valores m))%nat)); assumption.
  - constructor; [|constructor]. rewrite valor_en_insert.
    destruct (decide (i = i /\ (i < length (valores m))%nat)) as [_|Hn];
      [exact Hnuevo|].
    exfalso. apply Hn. split; [reflexivity|]. lia.
Qed.

End SellosDeLaRonda.

(* ===================================================================== *)
(** ** The convergence loop *)
(* ===================================================================== *)

Section Rondas.
Import PyStr Convergencia.
Variable prov : Proveedor.
Variable texto : string.

Local Notation lote_a n st :=
  (lote_de prov texto n (referencias_totales st)
           Extractor.nombre_a Extractor._filtrar_duplicados_a).
Local Notation lote_b n st :=
  (lote_de prov texto n (referencias_totales st)
           Extractor.nombre_b Extractor._filtrar_duplicados_b).
Local Notation lote_c n st :=
  (lote_de prov texto n (referencias_totales st)
           Extractor.nombre_c Extractor._filtrar_duplicados_c).
Local Notation candidatas n st := (lote_a n st ++ lote_b n st ++ lote_c n st).
Local Notation memoria_final n st unicas :=
  (fold_left
     (agregar_si_nueva (seq 0 (length (lote_a n st)))
        (seq (length (lote_a n st)) (length (lote_b n st))) n
        (reloj prov n) (referencias_totales st))
     unicas {| valores := candidatas n st; anexadas := [] |}).

(** [procesar] turns a failure of the provider call into an empty batch
    that carries the error. *)
Lemma procesar_absorbe_error (nombre : string)
      (filtrar : list Referencia -> list Referencia -> list Referencia)
      (numero_ronda : Z) (previas : list Referencia) (e : excepcion) :
  generar prov nombre texto numero_ronda previas = Raise e ->
  Extractor.procesar nombre filtrar prov texto numero_ronda previas
  = {| ra_referencias := []; ra_total := 0; ra_agente := nombre;
       ra_ronda := numero_ronda; ra_error := Some e |}.
Proof. intros H. unfold Extractor.procesar. now rewrite H. Qed.

(** [procesar] always reports the size of its batch. *)
Lemma procesar_total (nombre : string)
      (filtrar : list Referencia -> list Referencia -> list Referencia)
      (numero_ronda : Z) (previas : list Referencia) :
  ra_total (Extractor.procesar nombre filtrar prov texto numero_ronda previas)
  = Z.of_nat (length (ra_referencias
       (Extractor.procesar nombre filtrar prov texto numero_ronda previas))).
Proof.
  unfold Extractor.procesar.
  destruct (generar prov nombre texto numero_ronda previas); reflexivity.
Qed.

(** The batch of [procesar] is the provider's list filtered against the
    earlier rounds, or nothing. *)
Lemma procesar_lote (nombre : string)
      (filtrar : list Referencia -> list Referencia -> list Referencia)
      (numero_ronda : Z) (previas : list Referencia) :
  ra_referencias (Extractor.procesar nombre filtrar prov texto numero_ronda previas)
  = lote_de prov texto numero_ronda previas nombre filtrar.
Proof.
  unfold Extractor.procesar, lote_de.
  destruct (generar prov nombre texto numero_ronda previas); [|reflexivity].
  now destruct previas.
Qed.

(** What a round that returns has computed. *)
Lemma ronda_inversion (numero_ronda : Z) (st st' : Estado) (rr : ResultadoRonda) :
  _ejecutar_ronda prov texto numero_ronda st = Ok (st', rr) ->
  exists unicas,
    _deduplicar_semanticamente (valor_en (candidatas numero_ronda st))
      (ia_deduplicar prov numero_ronda)
      (seq 0 (length (candidatas numero_ronda st))) = Ok unicas
    /\ referencias_totales st'
       = totales_de (referencias_totales st) (memoria_final numero_ronda st unicas)
    /\ historial_rondas st' = historial_rondas st
    /\ rr_ronda rr = numero_ronda
    /\ resultado_agente_a rr
       = con_referencias
           (take (length (lote_a numero_ronda st))
                 (valores (memoria_final numero_ronda st unicas)))
           (Extractor.procesar_a prov texto numero_ronda (referencias_totales st))
    /\ resultado_agente_b rr
       = con_referencias
           (take (length (lote_b numero_ronda st))
                 (drop (length (lote_a numero_ronda st))
                       (valores (memoria_final numero_ronda st unicas))))
           (Extractor.procesar_b prov texto numero_ronda (referencias_totales st))
    /\ resultado_agente_c rr
       = con_referencias
           (drop (length (lote_a numero_ronda st) + length (lote_b numero_ronda st))
                 (valores (memoria_final numero_ronda st unicas)))
           (Extractor.procesar_c prov texto numero_ronda (referencias_totales st))
    /\ total_candidatas rr = Z.of_nat (length (candidatas numero_ronda st))
    /\ referencias_unicas rr = Z.of_nat (length unicas)
    /\ referencias_nuevas rr
       = Z.of_nat (length (referencias_totales st'))
         - Z.of_nat (length (referencias_totales st))
    /\ total_acumuladas rr = Z.of_nat (length (referencias_totales st'))
    /\ rr_convergencia_alcanzada rr = (referencias_nuevas rr =? 0).
Proof.
  unfold _ejecutar_ronda, Extractor.procesar_a, Extractor.procesar_b,
    Extractor.procesar_c.
  rewrite !procesar_lote. intros H.
  destruct (_deduplicar_semanticamente _ _ _) as [unicas|e] eqn:Hd;
    cbn [exc_bind] in H; [|discriminate].
  inversion H; subst st' rr; clear H. exists unicas.
  split; [reflexivity|]. cbn. repeat split.
Qed.

(** A round fails only in the deduplication. *)
Lemma ronda_raise (numero_ronda : Z) (st : Estado) (e : excepcion) :
  _ejecutar_ronda prov texto numero_ronda st = Raise e ->
  e = AttributeError
  /\ Exists (fun r => campo_texto_completo r = Nulo) (candidatas numero_ronda st).
Proof.
  unfold _ejecutar_ronda, Extractor.procesar_a, Extractor.procesar_b,
    Extractor.procesar_c.
  rewrite !procesar_lote. intros H.
  pose proof (deduplicar_semanticamente_casos
                (valor_en (candidatas numero_ronda st))
                (ia_deduplicar prov numero_ronda)
                (seq 0 (length (candidatas numero_ronda st)))) as Hc.
  destruct (_deduplicar_semanticamente _ _ _) as [unicas|e'];
    cbn [exc_bind] in H; [discriminate|].
  inversion H; subst e'. destruct Hc as [-> Hex]. split; [reflexivity|].
  apply Exists_exists in Hex as (i & Hi & Hn).
  apply Exists_exists. exists (valor_en (candidatas numero_ronda st) i).
  split; [|exact Hn].
  apply elem_of_seq in Hi. unfold valor_en.
  apply list_elem_of_lookup_total_2. lia.
Qed.

(** And returns when no candidate has a [null] text. *)
Lemma ronda_devuelve (numero_ronda : Z) (st : Estado) :
  Forall con_texto_no_nulo (candidatas numero_ronda st) ->
  exists st' rr, _ejecutar_ronda prov texto numero_ronda st = Ok (st', rr).
Proof.
  intros Hn.
  destruct (_ejecutar_ronda prov texto numero_ronda st) as [[st' rr]|e] eqn:E;
    [eauto|].
  apply ronda_raise in E as [_ Hex].
  apply Exists_exists in Hex as (r & Hr & Hnul).
  rewrite Forall_forall in Hn. now destruct (Hn r Hr).
Qed.

(** What a round does to the state and what it reports. *)
Lemma ronda_spec (numero_ronda : Z) (st st' : Estado) (rr : ResultadoRonda) :
  _ejecutar_ronda prov texto numero_ronda st = Ok (st', rr) ->
  exists nuevas,
    referencias_totales st' = referencias_totales st ++ nuevas
    /\ referencias_nuevas rr = Z.of_nat (length nuevas)
    /\ total_acumuladas rr = Z.of_nat (length (referencias_totales st ++ nuevas))
    /\ rr_convergencia_alcanzada rr = (referencias_nuevas rr =? 0)
    /\ historial_rondas st' = historial_rondas st
    /\ rr_ronda rr = numero_ronda.
Proof.
  intros H.
  destruct (ronda_inversion _ _ _ _ H)
    as (unicas & _ & Ht & Hh & Hr & _ & _ & _ & _ & _ & Hn & Hac & Hc).
  eexists. split; [exact Ht|]. rewrite Hn, Hac, Ht. unfold totales_de.
  split; [rewrite length_app; lia|]. split; [reflexivity|].
  split; [|now split].
  rewrite Hc, Hn, Ht. reflexivity.
Qed.

(** A round converges exactly when it leaves the accumulated list as it
    was. *)
Lemma ronda_convergencia_sii_sin_cambios (numero_ronda : Z) (st st' : Estado)
      (rr : ResultadoRonda) :
  _ejecutar_ronda prov texto numero_ronda st = Ok (st', rr) ->
  rr_convergencia_alcanzada rr = true
  <-> referencias_totales st' = referencias_totales st.
Proof.
  intros H. destruct (ronda_spec _ _ _ _ H) as (nuevas & Ht & Hn & _ & Hc & _).
  rewrite Hc, Ht, Hn. split.
  - intros Hz. apply Z.eqb_eq in Hz. destruct nuevas; [now rewrite app_nil_r|].
    simpl in Hz. lia.
  - intros He. apply Z.eqb_eq.
    rewrite <- (app_nil_r (referencias_totales st)) in He at 2.
    apply app_inv_head in He. now subst.
Qed.

(** The rounds recorded by the loop: at most [pendientes]; all but the
    last did not converge; the loop stops short only on convergence. *)
Lemma bucle_rondas_spec (pendientes : nat) (ronda_actual : Z) (st st' : Estado) :
  bucle_rondas prov texto pendientes ronda_actual st = Ok st' ->
  exists hs,
    historial_rondas st' = historial_rondas st ++ hs
    /\ (length hs <= pendientes)%nat
    /\ (pendientes <> O -> hs <> [])
    /\ Forall (fun rr => rr_convergencia_alcanzada rr = (referencias_nuevas rr =? 0)
                         /\ 0 <= referencias_nuevas rr) hs
    /\ (forall i rr, hs !! i = Some rr -> (S i < length hs)%nat ->
                     rr_convergencia_alcanzada rr = false)
    /\ ((length hs < pendientes)%nat ->
        exists ultima, last hs = Some ultima
                       /\ rr_convergencia_alcanzada ultima = true).
Proof.
  revert ronda_actual st.
  induction pendientes as [|n IH]; intros ronda_actual st Hb.
  - cbn in Hb. inversion Hb; subst st'. exists []. rewrite app_nil_r.
    repeat split; auto; try (cbn; lia); try congruence;
      try (intros i rr H; now rewrite lookup_nil in H).
  - cbn [bucle_rondas] in Hb.
    destruct (_ejecutar_ronda prov texto ronda_actual st) as [[st1 rr]|e] eqn:E;
      [|discriminate].
    destruct (ronda_spec _ _ _ _ E) as (nuevas & _ & Hn & _ & Hc & Hh & _).
    assert (Hpos : 0 <= referencias_nuevas rr) by lia.
    destruct (rr_convergencia_alcanzada rr) eqn:Hconv.
    + inversion Hb; subst st'. exists [rr]. cbn [historial_rondas]. rewrite Hh.
      split; [reflexivity|]. split; [simpl; lia|]. split; [congruence|].
      split.
      { constructor; [|constructor]. split; [congruence|assumption]. }
      split.
      * intros i x Hx Hi. simpl in Hi. lia.
      * intros _. exists rr. split; [reflexivity|assumption].
    + destruct (IH _ _ Hb) as (hs & Hhs & Hlen & Hne & Hall & Hprev & Hlast).
      cbn [historial_rondas] in Hhs. exists (rr :: hs).
      rewrite Hhs, Hh, <- app_assoc.
      split; [reflexivity|]. split; [simpl; lia|]. split; [congruence|].
      split.
      { constructor; [|assumption]. split; [congruence|assumption]. }
      split.
      * intros [|i] x Hx Hi; simpl in Hx.
        -- now inversion Hx; subst.
        -- apply (Hprev i x Hx). simpl in Hi. lia.
      * intros Hlt. assert (Hlt' : (length hs < n)%nat) by (simpl in Hlt; lia).
        destruct (Hlast Hlt') as (ultima & Hu & Hcu).
        exists ultima. split; [|assumption].
        destruct hs as [|h hs']; [discriminate|].
        rewrite last_cons. now rewrite Hu.
Qed.

(** A property of the state that the rounds keep holds when the loop
    returns. *)
Lemma bucle_rondas_inv (P : Z -> Estado -> Prop) :
  (forall r st st1 rr,
      P r st -> _ejecutar_ronda prov texto r st = Ok (st1, rr) ->
      P (r + 1) {| referencias_totales := referencias_totales st1;
                   historial_rondas := historial_rondas st1 ++ [rr] |}) ->
  forall pendientes r st st',
    P r st -> bucle_rondas prov texto pendientes r st = Ok st' ->
    exists r', P r' st'.
Proof.
  intros Hpaso pendientes.
  induction pendientes as [|n IH]; intros r st st' HP Hb; cbn [bucle_rondas] in Hb.
  - inversion Hb; subst. eauto.
  - destruct (_ejecutar_ronda prov texto r st) as [[st1 rr]|e] eqn:E;
      [|discriminate].
    pose proof (Hpaso _ _ _ _ HP E) as HP1.
    destruct (rr_convergencia_alcanzada rr).
    + inversion Hb; subst. eauto.
    + eapply IH; eassumption.
Qed.

(** The loop fails only in a deduplication, on a [null] text. *)
Lemma bucle_rondas_raise (pendientes : nat) (ronda_actual : Z) (st : Estado)
      (e : excepcion) :
  bucle_rondas prov texto pendientes ronda_actual st = Raise e ->
  e = AttributeError.
Proof.
  revert ronda_actual st.
  induction pendientes as [|n IH]; intros r st Hb; cbn [bucle_rondas] in Hb;
    [discriminate|].
  destruct (_ejecutar_ronda prov texto r st) as [[st1 rr]|e'] eqn:E.
  - destruct (rr_convergencia_alcanzada rr); [discriminate|].
    eapply IH. exact Hb.
  - inversion Hb; subst. now apply ronda_raise in E.
Qed.

(** What [ejecutar] returns is built from the state the loop leaves. *)
Lemma ejecutar_inversion (max_rondas umbral : Z) (res : Resultado) :
  ejecutar prov max_rondas umbral texto = Ok res ->
  exists st ultima,
    bucle_rondas prov texto (Z.to_nat max_rondas) 1 estado_inicial = Ok st
    /\ _filtrar_por_confianza umbral (referencias_totales st) = Ok (referencias res)
    /\ last (historial_rondas st) = Some ultima
    /\ total_referencias res = Z.of_nat (length (referencias res))
    /\ total_rondas res = Z.of_nat (length (historial_rondas st))
    /\ convergencia_alcanzada res = rr_convergencia_alcanzada ultima
    /\ historial res = historial_rondas st.
Proof.
  unfold ejecutar. intros H.
  destruct (bucle_rondas prov texto (Z.to_nat max_rondas) 1 estado_inicial)
    as [st|e] eqn:Hb; cbn [exc_bind] in H; [|discriminate].
  destruct (_filtrar_por_confianza umbral (referencias_totales st)) as [f|e]
    eqn:Hf; cbn [exc_bind] in H; [|discriminate].
  destruct (last (historial_rondas st)) as [ultima|] eqn:Hu; [|discriminate].
  inversion H; subst res. exists st, ultima. cbn.
  repeat split; try reflexivity; assumption.
Qed.

(** No round is run for a bound below one, and [ejecutar] then fails on
    the empty history. *)
Lemma ejecutar_sin_rondas (max_rondas umbral : Z) :
  max_rondas <= 0 -> ejecutar prov max_rondas umbral texto = Raise IndexError.
Proof.
  intros H. unfold ejecutar.
  replace (Z.to_nat max_rondas) with O by lia. reflexivity.
Qed.

End Rondas.

(* ===================================================================== *)
(** ** Comparisons of the confidence *)
(* ===================================================================== *)

Section Comparaciones.

Lemma leer_confianza_casos (r : Referencia) (por_defecto : Z) :
  match leer_confianza r por_defecto with
  | Ok c => c = get_confianza r por_defecto /\ campo_confianza r <> Nulo
  | Raise e => e = TypeError /\ campo_confianza r = Nulo
  end.
Proof.
  unfold leer_confianza, get_confianza, confianza.
  destruct (campo_confianza r); cbn; repeat split; congruence.
Qed.

(** A comprehension that compares the confidence of every reference is
    the plain filter when no confidence is [null], and raises [TypeError]
    otherwise. *)
Lemma filtro_de_confianza_casos (f : Z -> bool) (por_defecto : Z)
      (refs : list Referencia) :
  match exc_filter (fun ref => (let* c := leer_confianza ref por_defecto in
                                Ok (f c))%exc) refs with
  | Ok l =>
      l = List.filter (fun ref => f (get_confianza ref por_defecto)) refs
      /\ Forall (fun r => campo_confianza r <> Nulo) refs
  | Raise e =>
      e = TypeError /\ Exists (fun r => campo_confianza r = Nulo) refs
  end.
Proof.
  induction refs as [|r refs IH]; cbn [exc_filter List.filter].
  - split; [reflexivity|constructor].
  - pose proof (leer_confianza_casos r por_defecto) as Hr.
    destruct (leer_confianza r por_defecto) as [c|e]; cbn [exc_bind].
    + destruct Hr as [-> Hn].
      destruct (exc_filter _ refs) as [l|e].
      * destruct IH as [-> Hall]. split; [|now constructor].
        now destruct (f (get_confianza r por_defecto)).
      * destruct IH as [-> Hex]. split; [reflexivity|now right].
    + destruct Hr as [-> Hn]. split; [reflexivity|now left].
Qed.

Lemma filtrar_por_confianza_spec (umbral : Z) (refs filtradas : list Referencia)
      (ref : Referencia) :
  Convergencia._filtrar_por_confianza umbral refs = Ok filtradas ->
  In ref filtradas <-> In ref refs /\ umbral <= get_confianza ref 100.
Proof.
  unfold Convergencia._filtrar_por_confianza. intros H.
  pose proof (filtro_de_confianza_casos (fun c => umbral <=? c) 100 refs) as Hc.
  cbn beta in Hc. rewrite H in Hc. destruct Hc as [-> _].
  rewrite List.filter_In. now rewrite Z.leb_le.
Qed.

Lemma filtrar_por_umbral_spec (umbral : Z) (refs filtradas : list Referencia)
      (ref : Referencia) :
  Pipeline.filtrar_por_umbral umbral refs = Ok filtradas ->
  In ref filtradas <-> In ref refs /\ umbral <= get_confianza ref 0.
Proof.
  unfold Pipeline.filtrar_por_umbral. intros H.
  pose proof (filtro_de_confianza_casos (fun c => umbral <=? c) 0 refs) as Hc.
  cbn beta in Hc. rewrite H in Hc. destruct Hc as [-> _].
  rewrite List.filter_In. now rewrite Z.leb_le.
Qed.

Lemma filtrar_por_confianza_sublista (umbral : Z) (refs filtradas : list Referencia) :
  Convergencia._filtrar_por_confianza umbral refs = Ok filtradas ->
  filtradas = List.filter (fun ref => umbral <=? get_confianza ref 100) refs.
Proof.
  unfold Convergencia._filtrar_por_confianza. intros H.
  pose proof (filtro_de_confianza_casos (fun c => umbral <=? c) 100 refs) as Hc.
  cbn beta in Hc. rewrite H in Hc. now destruct Hc.
Qed.

End Comparaciones.

(* ===================================================================== *)
(** ** What a round adds *)
(* ===================================================================== *)

Section LoQueAnadeUnaRonda.
Import PyStr Convergencia.
Variable prov : Proveedor.
Variable texto : string.

Local Notation lote_a n st :=
  (lote_de prov texto n (referencias_totales st)
           Extractor.nombre_a Extractor._filtrar_duplicados_a).
Local Notation lote_b n st :=
  (lote_de prov texto n (referencias_totales st)
           Extractor.nombre_b Extractor._filtrar_duplicados_b).
Local Notation lote_c n st :=
  (lote_de prov texto n (referencias_totales st)
           Extractor.nombre_c Extractor._filtrar_duplicados_c).
Local Notation candidatas n st := (lote_a n st ++ lote_b n st ++ lote_c n st).

(** The duplicate filters of the agents return references of their
    input. *)
Lemma filtrar_duplicados_a_elem (nuevas previas : list Referencia) (r : Referencia) :
  r ∈ Extractor._filtrar_duplicados_a nuevas previas -> r ∈ nuevas.
Proof.
  unfold Extractor._filtrar_duplicados_a. rewrite filtrar_bucle_a_scan.
  intros H. eapply elem_of_sublist; [exact H|].
  apply (primeras_por_clave_spec (fun r => no_vacia (Extractor.texto_norm r))
           Extractor.texto_norm).
Qed.

Lemma filtrar_duplicados_b_elem (nuevas previas : list Referencia) (r : Referencia) :
  r ∈ Extractor._filtrar_duplicados_b nuevas previas -> r ∈ nuevas.
Proof.
  unfold Extractor._filtrar_duplicados_b.
  intros H. eapply elem_of_sublist; [exact H|]. apply filtrar_bucle_b_spec.
Qed.

Lemma filtrar_duplicados_c_elem (nuevas previas : list Referencia) (r : Referencia) :
  r ∈ Extractor._filtrar_duplicados_c nuevas previas -> r ∈ nuevas.
Proof.
  unfold Extractor._filtrar_duplicados_c. rewrite filtrar_bucle_c_scan.
  intros H. eapply elem_of_sublist; [exact H|].
  apply (primeras_por_clave_spec (fun r => no_vacia (Extractor.texto_c r))
           (fun r => Extractor.texto_norm_c (Extractor.texto_c r))).
Qed.

(** A reference of a batch was returned by the provider call of its
    agent. *)
Lemma lote_elem (numero_ronda : Z) (previas : list Referencia) (nombre : string)
      (filtrar : list Referencia -> list Referencia -> list Referencia)
      (r : Referencia) :
  (forall nuevas p x, x ∈ filtrar nuevas p -> x ∈ nuevas) ->
  r ∈ lote_de prov texto numero_ronda previas nombre filtrar ->
  exists referencias,
    generar prov nombre texto numero_ronda previas = Ok referencias
    /\ r ∈ referencias.
Proof.
  intros Hf. unfold lote_de.
  destruct (generar prov nombre texto numero_ronda previas) as [l|e];
    [|intros H; inversion H].
  intros H. exists l. split; [reflexivity|].
  destruct previas; [exact H|]. eapply Hf. exact H.
Qed.

Lemma candidatas_de_proveedor (P : Referencia -> Prop) (numero_ronda : Z)
      (st : Estado) :
  (forall nombre ronda previas referencias,
      generar prov nombre texto ronda previas = Ok referencias ->
      Forall P referencias) ->
  Forall P (candidatas numero_ronda st).
Proof.
  intros HP. rewrite !Forall_app. repeat split; apply Forall_forall; intros r Hr.
  - apply lote_elem in Hr as (l & Hl & Hin); [|apply filtrar_duplicados_a_elem].
    apply HP in Hl. rewrite Forall_forall in Hl. now apply Hl.
  - apply lote_elem in Hr as (l & Hl & Hin); [|apply filtrar_duplicados_b_elem].
    apply HP in Hl. rewrite Forall_forall in Hl. now apply Hl.
  - apply lote_elem in Hr as (l & Hl & Hin); [|apply filtrar_duplicados_c_elem].
    apply HP in Hl. rewrite Forall_forall in Hl. now apply Hl.
Qed.

Lemma Forall2_salvo_refl (l : list Referencia) : Forall2 salvo_procedencia l l.
Proof. apply Forall_Forall2_diag. now apply Forall_forall. Qed.

(** The references a round appends are references of the three batches,
    each with a stamp of the round that names an agent whose batch is not
    empty. *)
Lemma ronda_nuevas (numero_ronda : Z) (st st' : Estado) (rr : ResultadoRonda) :
  _ejecutar_ronda prov texto numero_ronda st = Ok (st', rr) ->
  exists nuevas,
    referencias_totales st' = referencias_totales st ++ nuevas
    /\ Forall (fun r' =>
                 (exists r, r ∈ candidatas numero_ronda st
                            /\ salvo_procedencia r r')
                 /\ sello_de_la_ronda (length (lote_a numero_ronda st))
                      (length (lote_b numero_ronda st))
                      (length (lote_c numero_ronda st)) numero_ronda r')
              nuevas.
Proof.
  intros H.
  destruct (ronda_inversion prov texto _ _ _ _ H) as (unicas & Hd & Ht & _).
  eexists. split; [exact Ht|].
  pose proof (deduplicar_semanticamente_casos
                (valor_en (candidatas numero_ronda st))
                (ia_deduplicar prov numero_ronda)
                (seq 0 (length (candidatas numero_ronda st)))) as Hu.
  rewrite Hd in Hu.
  match goal with
  | |- context [fold_left ?f unicas ?m0] => set (paso := f); set (inicio := m0)
  end.
  destruct (bucle_agregar_anexadas
              (seq 0 (length (lote_a numero_ronda st)))
              (seq (length (lote_a numero_ronda st)) (length (lote_b numero_ronda st)))
              numero_ronda (reloj prov numero_ronda) (referencias_totales st)
              unicas inicio) as (Hlen & nuevas & Hn & Hin).
  fold paso in Hlen, Hn.
  pose proof (bucle_agregar_salvo
                (seq 0 (length (lote_a numero_ronda st)))
                (seq (length (lote_a numero_ronda st)) (length (lote_b numero_ronda st)))
                numero_ronda (reloj prov numero_ronda) (referencias_totales st)
                (candidatas numero_ronda st) unicas inicio
                (Forall2_salvo_refl _)) as Hs.
  fold paso in Hs.
  assert (Hrango : Forall (fun i => (i < length (lote_a numero_ronda st)
                                         + length (lote_b numero_ronda st)
                                         + length (lote_c numero_ronda st))%nat)
                          unicas).
  { apply Forall_forall. intros i Hi. apply Hu in Hi. apply elem_of_seq in Hi.
    rewrite !length_app in Hi. lia. }
  pose proof (bucle_agregar_sellos
                (length (lote_a numero_ronda st)) (length (lote_b numero_ronda st))
                (length (lote_c numero_ronda st)) numero_ronda
                (reloj prov numero_ronda) (referencias_totales st) unicas inicio)
    as Hsel.
  cbn zeta in Hsel. fold paso in Hsel.
  specialize (Hsel ltac:(subst inicio; cbn [valores]; rewrite !length_app; lia)
                   Hrango ltac:(subst inicio; constructor)).
  apply Forall_fmap. apply Forall_forall. intros i Hi. cbn [compose].
  split.
  - assert (Hi' : (i < length (candidatas numero_ronda st))%nat).
    { rewrite Hn in Hi. subst inicio. cbn [anexadas app] in Hi.
      apply Hin in Hi. apply Hu in Hi. apply elem_of_seq in Hi. lia. }
    destruct (lookup_lt_is_Some_2 _ _ Hi') as [r Hr].
    assert (Hi2 : (i < length (valores (fold_left paso unicas inicio)))%nat).
    { rewrite Hlen. subst inicio. exact Hi'. }
    destruct (lookup_lt_is_Some_2 _ _ Hi2) as [r' Hr'].
    exists r. split; [eapply list_elem_of_lookup_2; exact Hr|].
    unfold valor_en. rewrite (list_lookup_total_correct _ _ _ Hr').
    exact (Forall2_lookup_lr _ _ _ _ _ _ Hs Hr Hr').
  - rewrite Forall_forall in Hsel. now apply Hsel.
Qed.

(** A round keeps the accumulated list free of pairs that share a text or
    a law. *)
Lemma ronda_conserva (numero_ronda : Z) (st st' : Estado) (rr : ResultadoRonda) :
  _ejecutar_ronda prov texto numero_ronda st = Ok (st', rr) ->
  ForallOrdPairs distintas_para_el_motor (referencias_totales st) ->
  ForallOrdPairs distintas_para_el_motor (referencias_totales st').
Proof.
  intros H Hp.
  destruct (ronda_inversion prov texto _ _ _ _ H) as (unicas & _ & -> & _).
  apply bucle_agregar_conserva.
  unfold totales_de. cbn [anexadas fmap list_fmap]. now rewrite app_nil_r.
Qed.

Lemma salvo_procedencia_campos (r r' : Referencia) :
  salvo_procedencia r r' ->
  campo_texto_completo r' = campo_texto_completo r
  /\ campo_confianza r' = campo_confianza r.
Proof.
  unfold salvo_procedencia. intros H. split.
  - exact (f_equal campo_texto_completo H).
  - exact (f_equal campo_confianza H).
Qed.

(** With a provider whose references carry no [null], the loop returns and
    accumulates references without [null]. *)
Lemma ronda_sin_nulos (numero_ronda : Z) (st st' : Estado) (rr : ResultadoRonda) :
  proveedor_sin_nulos prov texto ->
  _ejecutar_ronda prov texto numero_ronda st = Ok (st', rr) ->
  Forall sin_nulos (referencias_totales st) ->
  Forall sin_nulos (referencias_totales st').
Proof.
  intros Hp H Hs. destruct (ronda_nuevas _ _ _ _ H) as (nuevas & -> & Hn).
  apply Forall_app. split; [exact Hs|].
  eapply Forall_impl; [exact Hn|]. intros r' [(r & Hr & Hsalvo) _].
  pose proof (candidatas_de_proveedor sin_nulos numero_ronda st Hp) as Hc.
  rewrite Forall_forall in Hc. destruct (Hc r Hr) as [H1 H2].
  apply salvo_procedencia_campos in Hsalvo as [E1 E2].
  split; congruence.
Qed.

Lemma proveedor_sin_nulos_con_textos :
  proveedor_sin_nulos prov texto -> proveedor_con_textos prov texto.
Proof.
  intros H nombre ronda previas l Hl. apply H in Hl.
  eapply Forall_impl; [exact Hl|]. now intros r [? _].
Qed.

Lemma bucle_rondas_devuelve (pendientes : nat) (ronda_actual : Z) (st : Estado) :
  proveedor_con_textos prov texto ->
  exists st', bucle_rondas prov texto pendientes ronda_actual st = Ok st'.
Proof.
  intros Hp. revert ronda_actual st.
  induction pendientes as [|n IH]; intros r st; cbn [bucle_rondas]; [eauto|].
  destruct (ronda_devuelve prov texto r st) as (st1 & rr & ->).
  { exact (candidatas_de_proveedor con_texto_no_nulo r st Hp). }
  destruct (rr_convergencia_alcanzada rr); [eauto|apply IH].
Qed.

Lemma bucle_rondas_sin_nulos (pendientes : nat) (ronda_actual : Z)
      (st st' : Estado) :
  proveedor_sin_nulos prov texto ->
  Forall sin_nulos (referencias_totales st) ->
  bucle_rondas prov texto pendientes ronda_actual st = Ok st' ->
  Forall sin_nulos (referencias_totales st').
Proof.
  intros Hp Hs Hb.
  destruct (bucle_rondas_inv prov texto
              (fun _ s => Forall sin_nulos (referencias_totales s)))
    with (pendientes := pendientes) (r := ronda_actual) (st := st) (st' := st')
    as [_ H]; try assumption.
  intros r s s1 rr Hs0 Hr. cbn [referencias_totales].
  exact (ronda_sin_nulos _ _ _ _ Hp Hr Hs0).
Qed.

(** With such a provider and a bound of at least one round, [ejecutar]
    returns. *)
Lemma ejecutar_devuelve (max_rondas umbral : Z) :
  1 <= max_rondas ->
  proveedor_sin_nulos prov texto ->
  exists res, ejecutar prov max_rondas umbral texto = Ok res.
Proof.
  intros Hmax Hp. unfold ejecutar.
  destruct (bucle_rondas_devuelve (Z.to_nat max_rondas) 1 estado_inicial
              (proveedor_sin_nulos_con_textos Hp)) as (st & Hb).
  rewrite Hb. cbn [exc_bind].
  assert (Hs : Forall sin_nulos (referencias_totales st)).
  { eapply bucle_rondas_sin_nulos; [exact Hp| |exact Hb]. constructor. }
  pose proof (filtro_de_confianza_casos (fun c => umbral <=? c) 100
                (referencias_totales st)) as Hf.
  cbn beta in Hf. unfold _filtrar_por_confianza.
  destruct (exc_filter _ (referencias_totales st)) as [f|e]; cbn [exc_bind].
  - destruct (bucle_rondas_spec _ _ _ _ _ _ Hb) as (hs & Hhs & _ & Hne & _).
    cbn in Hhs. rewrite Hhs.
    destruct (last hs) eqn:Hu; [eauto|].
    apply last_None in Hu. exfalso. apply Hne; [lia|assumption].
  - destruct Hf as [_ Hex]. apply Exists_exists in Hex as (r & Hr & Hnul).
    rewrite Forall_forall in Hs. now destruct (Hs r Hr).
Qed.

(** And it fails only with the [AttributeError] of a [null] text or the
    [TypeError] of a [null] confidence. *)
Lemma ejecutar_raise (max_rondas umbral : Z) (e : excepcion) :
  1 <= max_rondas ->
  ejecutar prov max_rondas umbral texto = Raise e ->
  e = AttributeError \/ e = TypeError.
Proof.
  intros Hmax. unfold ejecutar.
  destruct (bucle_rondas prov texto (Z.to_nat max_rondas) 1 estado_inicial)
    as [st|e'] eqn:Hb; cbn [exc_bind].
  - pose proof (filtro_de_confianza_casos (fun c => umbral <=? c) 100
                  (referencias_totales st)) as Hf.
    cbn beta in Hf. unfold _filtrar_por_confianza.
    destruct (exc_filter _ (referencias_totales st)) as [f|e']; cbn [exc_bind].
    + destruct (bucle_rondas_spec _ _ _ _ _ _ Hb) as (hs & Hhs & _ & Hne & _).
      cbn in Hhs. rewrite Hhs.
      destruct (last hs) eqn:Hu; [discriminate|].
      apply last_None in Hu. exfalso. apply Hne; [lia|assumption].
    + intros [= <-]. right. now destruct Hf.
  - intros [= <-]. left. eapply bucle_rondas_raise. exact Hb.
Qed.

End LoQueAnadeUnaRonda.



Example convergencia_en_la_segunda_ronda :
  exists res,
    Convergencia.ejecutar Escenarios.proveedor_b_caido 7 60 "tema" = Ok res
    /\ Convergencia.total_rondas res = 2
    /\ Convergencia.convergencia_alcanzada res = true
    /\ length (Convergencia.referencias res) = 2%nat.
Proof. eexists. split; [vm_compute; reflexivity|]. repeat split. Qed.

(* ===================================================================== *)
(** ** Rounds with agents that fail *)
(* ===================================================================== *)

Section AgentesCaidos.
Import PyStr Convergencia.
Variable prov : Proveedor.
Variable texto : string.

Local Notation lote_a n st :=
  (lote_de prov texto n (referencias_totales st)
           Extractor.nombre_a Extractor._filtrar_duplicados_a).
Local Notation lote_b n st :=
  (lote_de prov texto n (referencias_totales st)
           Extractor.nombre_b Extractor._filtrar_duplicados_b).
Local Notation lote_c n st :=
  (lote_de prov texto n (referencias_totales st)
           Extractor.nombre_c Extractor._filtrar_duplicados_c).
Local Notation candidatas n st := (lote_a n st ++ lote_b n st ++ lote_c n st).

Lemma valor_en_seq (l : list Referencia) :
  valor_en l <$> seq 0 (length l) = l.
Proof.
  apply list_eq. intros i. rewrite list_lookup_fmap.
  destruct (decide (i < length l)%nat) as [Hi|Hi].
  - rewrite lookup_seq_lt by lia. cbn.
    destruct (lookup_lt_is_Some_2 l i Hi) as [x Hx]. rewrite Hx. f_equal.
    now apply list_lookup_total_correct.
  - rewrite lookup_seq_ge by lia. symmetry. apply lookup_ge_None_2. lia.
Qed.

Lemma lote_de_agente_caido (numero_ronda : Z) (previas : list Referencia)
      (nombre : string)
      (filtrar : list Referencia -> list Referencia -> list Referencia)
      (e : excepcion) :
  generar prov nombre texto numero_ronda previas = Raise e ->
  lote_de prov texto numero_ronda previas nombre filtrar = [].
Proof. intros H. unfold lote_de. now rewrite H. Qed.

(** The batches recorded in the history are the batches of the agents,
    up to the stamps the round has written on them. *)
Lemma ronda_lotes (numero_ronda : Z) (st st' : Estado) (rr : ResultadoRonda) :
  _ejecutar_ronda prov texto numero_ronda st = Ok (st', rr) ->
  Forall2 salvo_procedencia (lote_a numero_ronda st)
          (ra_referencias (resultado_agente_a rr))
  /\ Forall2 salvo_procedencia (lote_b numero_ronda st)
             (ra_referencias (resultado_agente_b rr))
  /\ Forall2 salvo_procedencia (lote_c numero_ronda st)
             (ra_referencias (resultado_agente_c rr)).
Proof.
  intros H.
  destruct (ronda_inversion prov texto _ _ _ _ H)
    as (unicas & _ & _ & _ & _ & -> & -> & -> & _).
  cbn [con_referencias ra_referencias].
  match goal with
  | |- context [fold_left ?f unicas ?m0] => set (paso := f); set (inicio := m0)
  end.
  pose proof (bucle_agregar_salvo
                (seq 0 (length (lote_a numero_ronda st)))
                (seq (length (lote_a numero_ronda st)) (length (lote_b numero_ronda st)))
                numero_ronda (reloj prov numero_ronda) (referencias_totales st)
                (candidatas numero_ronda st) unicas inicio
                (Forall2_salvo_refl _)) as Hs.
  fold paso in Hs.
  apply Forall2_app_inv_l in Hs as (va & vbc & Ha & Hbc & Hv).
  apply Forall2_app_inv_l in Hbc as (vb & vc & Hb & Hc & ->).
  rewrite Hv.
  pose proof (Forall2_length _ _ _ Ha) as La.
  pose proof (Forall2_length _ _ _ Hb) as Lb.
  rewrite La, Lb.
  rewrite take_app_length, drop_app_length, take_app_length.
  rewrite app_assoc, <- length_app, drop_app_length.
  now repeat split.
Qed.

(** No candidate that the deduplication keeps is lost: it is in the
    accumulated list, or the list holds its text or its law. *)
Lemma ronda_sin_perdida (numero_ronda : Z) (st st' : Estado) (rr : ResultadoRonda)
      (unicas : list Referencia) :
  _ejecutar_ronda prov texto numero_ronda st = Ok (st', rr) ->
  _deduplicar_semanticamente (fun r => r) (ia_deduplicar prov numero_ronda)
    (candidatas numero_ronda st) = Ok unicas ->
  Forall (fun r => _es_duplicado (referencias_totales st') r = true
                   \/ exists r', r' ∈ referencias_totales st'
                                 /\ salvo_procedencia r r')
         unicas.
Proof.
  intros H Hd.
  destruct (ronda_inversion prov texto _ _ _ _ H) as (indices & Hi & -> & _).
  pose proof (deduplicar_semanticamente_fmap
                (valor_en (candidatas numero_ronda st))
                (ia_deduplicar prov numero_ronda)
                (seq 0 (length (candidatas numero_ronda st)))) as Hn.
  rewrite valor_en_seq, Hd, Hi in Hn. injection Hn as ->.
  pose proof (deduplicar_semanticamente_casos
                (valor_en (candidatas numero_ronda st))
                (ia_deduplicar prov numero_ronda)
                (seq 0 (length (candidatas numero_ronda st)))) as Hu.
  rewrite Hi in Hu.
  match goal with
  | |- context [fold_left ?f indices ?m0] => set (paso := f); set (inicio := m0)
  end.
  pose proof (bucle_agregar_salvo
                (seq 0 (length (lote_a numero_ronda st)))
                (seq (length (lote_a numero_ronda st)) (length (lote_b numero_ronda st)))
                numero_ronda (reloj prov numero_ronda) (referencias_totales st)
                (candidatas numero_ronda st) indices inicio
                (Forall2_salvo_refl _)) as Hs.
  fold paso in Hs.
  apply Forall_fmap. apply Forall_forall. intros j Hj. cbn [compose].
  assert (Hj' : (j < length (candidatas numero_ronda st))%nat).
  { apply Hu in Hj. apply elem_of_seq in Hj. lia. }
  destruct (lookup_lt_is_Some_2 _ _ Hj') as [r Hr].
  assert (Hj2 : (j < length (valores (fold_left paso indices inicio)))%nat).
  { rewrite <- (Forall2_length _ _ _ Hs). exact Hj'. }
  destruct (lookup_lt_is_Some_2 _ _ Hj2) as [r' Hr'].
  pose proof (Forall2_lookup_lr _ _ _ _ _ _ Hs Hr Hr') as Hsalvo.
  replace (valor_en (candidatas numero_ronda st) j) with r
    by (unfold valor_en; symmetry; now apply list_lookup_total_correct).
  destruct (bucle_agregar_sin_perdida
              (seq 0 (length (lote_a numero_ronda st)))
              (seq (length (lote_a numero_ronda st)) (length (lote_b numero_ronda st)))
              numero_ronda (reloj prov numero_ronda) (referencias_totales st)
              indices inicio j) as [Hdup|Hin].
  { right. now right. }
  - left. fold paso in Hdup. rewrite <- Hdup.
    apply es_duplicado_claves.
    + apply Forall_Forall2_diag. apply Forall_forall. intros; apply mismas_claves_refl.
    + unfold valor_en. rewrite (list_lookup_total_correct _ _ _ Hr').
      now apply salvo_procedencia_claves.
  - right. fold paso in Hin. exists r'. split; [|exact Hsalvo].
    unfold totales_de. apply elem_of_app. right.
    apply list_elem_of_fmap. exists j. split; [|exact Hin].
    unfold valor_en. symmetry. now apply list_lookup_total_correct.
Qed.

(** When the round returns, the deduplication of its candidates has
    returned, and the round reports the number of references it kept. *)
Lemma ronda_unicas (numero_ronda : Z) (st st' : Estado) (rr : ResultadoRonda) :
  _ejecutar_ronda prov texto numero_ronda st = Ok (st', rr) ->
  exists unicas,
    _deduplicar_semanticamente (fun r => r) (ia_deduplicar prov numero_ronda)
      (candidatas numero_ronda st) = Ok unicas
    /\ referencias_unicas rr = Z.of_nat (length unicas).
Proof.
  intros H.
  destruct (ronda_inversion prov texto _ _ _ _ H)
    as (indices & Hi & _ & _ & _ & _ & _ & _ & _ & Hu & _).
  pose proof (deduplicar_semanticamente_fmap
                (valor_en (candidatas numero_ronda st))
                (ia_deduplicar prov numero_ronda)
                (seq 0 (length (candidatas numero_ronda st)))) as Hn.
  rewrite valor_en_seq, Hi in Hn.
  eexists. split; [exact Hn|]. now rewrite length_fmap.
Qed.

(** The entry of an agent whose provider call raised. *)
Lemma ronda_agente_caido (numero_ronda : Z) (st st' : Estado) (rr : ResultadoRonda)
      (nombre : string) (e : excepcion) :
  nombre ∈ nombres_de_agentes ->
  generar prov nombre texto numero_ronda (referencias_totales st) = Raise e ->
  _ejecutar_ronda prov texto numero_ronda st = Ok (st', rr) ->
  ra_referencias (resultado_del_agente nombre rr) = []
  /\ ra_total (resultado_del_agente nombre rr) = 0
  /\ ra_error (resultado_del_agente nombre rr) = Some e.
Proof.
  intros Hn He H.
  destruct (ronda_lotes _ _ _ _ H) as (Ha & Hb & Hc).
  destruct (ronda_inversion prov texto _ _ _ _ H)
    as (unicas & _ & _ & _ & _ & Ra & Rb & Rc & _).
  unfold nombres_de_agentes in Hn.
  apply elem_of_cons in Hn as [->|Hn];
    [|apply elem_of_cons in Hn as [->|Hn];
      [|apply list_elem_of_singleton in Hn as ->]].
  - replace (resultado_del_agente Extractor.nombre_a rr)
      with (resultado_agente_a rr) by reflexivity.
    rewrite (lote_de_agente_caido _ _ _ _ _ He) in Ha.
    apply Forall2_nil_inv_l in Ha. split; [exact Ha|].
    rewrite Ra. cbn [con_referencias ra_total ra_error].
    unfold Extractor.procesar_a.
    now rewrite (procesar_absorbe_error _ _ _ _ _ _ _ He).
  - replace (resultado_del_agente Extractor.nombre_b rr)
      with (resultado_agente_b rr) by reflexivity.
    rewrite (lote_de_agente_caido _ _ _ _ _ He) in Hb.
    apply Forall2_nil_inv_l in Hb. split; [exact Hb|].
    rewrite Rb. cbn [con_referencias ra_total ra_error].
    unfold Extractor.procesar_b.
    now rewrite (procesar_absorbe_error _ _ _ _ _ _ _ He).
  - replace (resultado_del_agente Extractor.nombre_c rr)
      with (resultado_agente_c rr) by reflexivity.
    rewrite (lote_de_agente_caido _ _ _ _ _ He) in Hc.
    apply Forall2_nil_inv_l in Hc. split; [exact Hc|].
    rewrite Rc. cbn [con_referencias ra_total ra_error].
    unfold Extractor.procesar_c.
    now rewrite (procesar_absorbe_error _ _ _ _ _ _ _ He).
Qed.

(** No reference of the round is attributed to an agent whose provider
    call raised. *)
Lemma sello_sin_agente_caido (numero_ronda : Z) (st : Estado)
      (nombre : string) (e : excepcion) (r : Referencia) :
  generar prov nombre texto numero_ronda (referencias_totales st) = Raise e ->
  sello_de_la_ronda (length (lote_a numero_ronda st))
    (length (lote_b numero_ronda st)) (length (lote_c numero_ronda st))
    numero_ronda r ->
  exists m, _metadata r = Some m /\ ronda m = numero_ronda
            /\ encontrado_por m ∈ nombres_de_agentes
            /\ encontrado_por m <> nombre.
Proof.
  intros He (m & Hm & Hr & Hag). exists m. split; [exact Hm|]. split; [exact Hr|].
  unfold nombres_de_agentes.
  destruct Hag as [[-> Hl]|[[-> Hl]|[-> Hl]]].
  - split; [set_solver|]. intros <-. apply Hl.
    now rewrite (lote_de_agente_caido _ _ _ _ _ He).
  - split; [set_solver|]. intros <-. apply Hl.
    now rewrite (lote_de_agente_caido _ _ _ _ _ He).
  - split; [set_solver|]. intros <-. apply Hl.
    now rewrite (lote_de_agente_caido _ _ _ _ _ He).
Qed.

(** The round with the three agents down. *)
Lemma ronda_sin_agentes (numero_ronda : Z) (st : Estado) (ea eb ec : excepcion) :
  generar prov Extractor.nombre_a texto numero_ronda (referencias_totales st)
    = Raise ea ->
  generar prov Extractor.nombre_b texto numero_ronda (referencias_totales st)
    = Raise eb ->
  generar prov Extractor.nombre_c texto numero_ronda (referencias_totales st)
    = Raise ec ->
  exists rr,
    _ejecutar_ronda prov texto numero_ronda st
    = Ok ({| referencias_totales := referencias_totales st;
             historial_rondas := historial_rondas st |}, rr)
    /\ total_candidatas rr = 0
    /\ referencias_nuevas rr = 0
    /\ rr_convergencia_alcanzada rr = true.
Proof.
  intros Ha Hb Hc.
  destruct (ronda_devuelve prov texto numero_ronda st) as (st' & rr & H).
  { rewrite (lote_de_agente_caido _ _ _ _ _ Ha),
      (lote_de_agente_caido _ _ _ _ _ Hb), (lote_de_agente_caido _ _ _ _ _ Hc).
    constructor. }
  destruct (ronda_nuevas prov texto _ _ _ _ H) as (nuevas & Ht & Hn).
  destruct (ronda_spec prov texto _ _ _ _ H) as (nuevas' & Ht' & Hnn & _ & Hcv & Hh & _).
  destruct (ronda_inversion prov texto _ _ _ _ H)
    as (unicas & _ & _ & _ & _ & _ & _ & _ & Htc & _).
  rewrite (lote_de_agente_caido _ _ _ _ _ Ha),
    (lote_de_agente_caido _ _ _ _ _ Hb), (lote_de_agente_caido _ _ _ _ _ Hc) in *.
  assert (nuevas = []) as ->.
  { destruct nuevas as [|r l]; [reflexivity|].
    inversion Hn as [|? ? [(x & Hx & _) _] _]; subst. inversion Hx. }
  rewrite app_nil_r in Ht.
  assert (nuevas' = []) as ->.
  { rewrite Ht in Ht'. apply (f_equal length) in Ht'. rewrite length_app in Ht'.
    destruct nuevas'; [reflexivity|cbn in Ht'; lia]. }
  exists rr. split.
  - rewrite H. f_equal. f_equal. destruct st' as [t h]. cbn in Ht, Hh. congruence.
  - split; [exact Htc|]. split; [exact Hnn|]. now rewrite Hcv, Hnn.
Qed.

End AgentesCaidos.

(** C4.  Take a round in which the provider call of one extractor agent
    raises.  The round returns unless a batch of another agent carries a
    [null] text, on which the textual deduplication fails with
    [AttributeError].  When it returns, the entry of the failing agent is
    an empty batch with the error; the three entries hold the batches of
    the three agents; every reference the round adds comes from one of
    those batches and is attributed to an agent that did not fail; and no
    candidate that the deduplication keeps is lost: it is in the
    accumulated list, or the list already holds its text or its law.  When
    the three agents fail the round returns with no candidates, adds
    nothing and reports convergence, and the loop stops there: a run whose
    first round fails this way returns an empty, converged result of one
    round. *)
Theorem C4_fallo_de_agentes (prov : Proveedor) (texto : string)
        (numero_ronda : Z) (st : Convergencia.Estado)
        (nombre : string) (e : excepcion) :
  nombre ∈ nombres_de_agentes ->
  generar prov nombre texto numero_ronda (Convergencia.referencias_totales st)
    = Raise e ->
  (Forall con_texto_no_nulo
          (candidatas_de_la_ronda prov texto numero_ronda
             (Convergencia.referencias_totales st)) ->
   exists st' rr,
     Convergencia._ejecutar_ronda prov texto numero_ronda st = Ok (st', rr))
  /\ (forall e',
         Convergencia._ejecutar_ronda prov texto numero_ronda st = Raise e' ->
         e' = AttributeError
         /\ Exists (fun r => campo_texto_completo r = Nulo)
                   (candidatas_de_la_ronda prov texto numero_ronda
                      (Convergencia.referencias_totales st)))
  /\ (forall st' rr,
         Convergencia._ejecutar_ronda prov texto numero_ronda st = Ok (st', rr) ->
         (ra_referencias (resultado_del_agente nombre rr) = []
          /\ ra_total (resultado_del_agente nombre rr) = 0
          /\ ra_error (resultado_del_agente nombre rr) = Some e)
         /\ Forall2 salvo_procedencia
              (lote_de prov texto numero_ronda (Convergencia.referencias_totales st)
                 Extractor.nombre_a Extractor._filtrar_duplicados_a)
              (ra_referencias (Convergencia.resultado_agente_a rr))
         /\ Forall2 salvo_procedencia
              (lote_de prov texto numero_ronda (Convergencia.referencias_totales st)
                 Extractor.nombre_b Extractor._filtrar_duplicados_b)
              (ra_referencias (Convergencia.resultado_agente_b rr))
         /\ Forall2 salvo_procedencia
              (lote_de prov texto numero_ronda (Convergencia.referencias_totales st)
                 Extractor.nombre_c Extractor._filtrar_duplicados_c)
              (ra_referencias (Convergencia.resultado_agente_c rr))
         /\ Convergencia.total_candidatas rr
            = Z.of_nat (length (candidatas_de_la_ronda prov texto numero_ronda
                                  (Convergencia.referencias_totales st)))
         /\ (exists nuevas,
                Convergencia.referencias_totales st'
                = Convergencia.referencias_totales st ++ nuevas
                /\ Convergencia.referencias_nuevas rr = Z.of_nat (length nuevas)
                /\ Forall (fun r' =>
                             (exists r,
                                 r ∈ candidatas_de_la_ronda prov texto numero_ronda
                                       (Convergencia.referencias_totales st)
                                 /\ salvo_procedencia r r')
                             /\ exists m,
                                 _metadata r' = Some m
                                 /\ ronda m = numero_ronda
                                 /\ encontrado_por m ∈ nombres_de_agentes
                                 /\ encontrado_por m <> nombre)
                          nuevas)
         /\ (exists unicas,
                Convergencia._deduplicar_semanticamente (fun r => r)
                  (ia_deduplicar prov numero_ronda)
                  (candidatas_de_la_ronda prov texto numero_ronda
                     (Convergencia.referencias_totales st)) = Ok unicas
                /\ Convergencia.referencias_unicas rr = Z.of_nat (length unicas)
                /\ Forall (fun r =>
                             Convergencia._es_duplicado
                               (Convergencia.referencias_totales st') r = true
                             \/ exists r',
                                 r' ∈ Convergencia.referencias_totales st'
                                 /\ salvo_procedencia r r')
                          unicas))
  /\ ((exists ea, generar prov Extractor.nombre_a texto numero_ronda
                    (Convergencia.referencias_totales st) = Raise ea) ->
      (exists eb, generar prov Extractor.nombre_b texto numero_ronda
                    (Convergencia.referencias_totales st) = Raise eb) ->
      (exists ec, generar prov Extractor.nombre_c texto numero_ronda
                    (Convergencia.referencias_totales st) = Raise ec) ->
      exists rr,
        Convergencia._ejecutar_ronda prov texto numero_ronda st
        = Ok ({| Convergencia.referencias_totales :=
                   Convergencia.referencias_totales st;
                 Convergencia.historial_rondas :=
                   Convergencia.historial_rondas st |}, rr)
        /\ Convergencia.total_candidatas rr = 0
        /\ Convergencia.referencias_nuevas rr = 0
        /\ Convergencia.rr_convergencia_alcanzada rr = true
        /\ (forall pendientes,
               Convergencia.bucle_rondas prov texto (S pendientes) numero_ronda st
               = Ok {| Convergencia.referencias_totales :=
                         Convergencia.referencias_totales st;
                       Convergencia.historial_rondas :=
                         Convergencia.historial_rondas st ++ [rr] |})
        /\ (forall max_rondas umbral,
               1 <= max_rondas -> numero_ronda = 1 ->
               st = Convergencia.estado_inicial ->
               Convergencia.ejecutar prov max_rondas umbral texto
               = Ok {| Convergencia.referencias := [];
                       Convergencia.total_referencias := 0;
                       Convergencia.total_rondas := 1;
                       Convergencia.convergencia_alcanzada := true;
                       Convergencia.historial := [rr] |})).
Proof.
  intros Hn He. unfold candidatas_de_la_ronda.
  split; [apply ronda_devuelve|]. split; [intros e'; apply ronda_raise|].
  split.
  - intros st' rr H.
    split; [exact (ronda_agente_caido prov texto _ _ _ _ _ _ Hn He H)|].
    destruct (ronda_lotes prov texto _ _ _ _ H) as (Ha & Hb & Hc).
    split; [exact Ha|]. split; [exact Hb|]. split; [exact Hc|].
    destruct (ronda_inversion prov texto _ _ _ _ H)
      as (indices & _ & _ & _ & _ & _ & _ & _ & Htc & _).
    split; [exact Htc|]. split.
    + destruct (ronda_nuevas prov texto _ _ _ _ H) as (nuevas & Ht & Hnu).
      destruct (ronda_spec prov texto _ _ _ _ H) as (nuevas' & Ht' & Hnn & _).
      exists nuevas. split; [exact Ht|]. split.
      { rewrite Hnn. f_equal. rewrite Ht in Ht'.
        apply (f_equal length) in Ht'. rewrite !length_app in Ht'. lia. }
      eapply Forall_impl; [exact Hnu|]. intros r' [Hr Hs]. split; [exact Hr|].
      exact (sello_sin_agente_caido prov texto _ _ _ _ _ He Hs).
    + destruct (ronda_unicas prov texto _ _ _ _ H) as (unicas & Hd & Hu).
      exists unicas. split; [exact Hd|]. split; [exact Hu|].
      exact (ronda_sin_perdida prov texto _ _ _ _ _ H Hd).
  - intros [ea Ha] [eb Hb] [ec Hc].
    destruct (ronda_sin_agentes prov texto numero_ronda st ea eb ec Ha Hb Hc)
      as (rr & H & H1 & H2 & H3).
    exists rr. split; [exact H|]. split; [exact H1|]. split; [exact H2|].
    split; [exact H3|].
    assert (Hbucle : forall pendientes,
               Convergencia.bucle_rondas prov texto (S pendientes) numero_ronda st
               = Ok {| Convergencia.referencias_totales :=
                         Convergencia.referencias_totales st;
                       Convergencia.historial_rondas :=
                         Convergencia.historial_rondas st ++ [rr] |}).
    { intros pendientes. cbn [Convergencia.bucle_rondas]. rewrite H, H3.
      reflexivity. }
    split; [exact Hbucle|].
    intros max_rondas umbral Hmax -> ->.
    unfold Convergencia.ejecutar.
    destruct (Z.to_nat max_rondas) as [|n] eqn:En; [lia|].
    rewrite Hbucle. cbn. now rewrite H3.
Qed.

(** Round one with agent B down. *)
Lemma C4_fallo_de_agentes_witness :
  Extractor.nombre_b ∈ nombres_de_agentes
  /\ generar Escenarios.proveedor_b_caido Extractor.nombre_b "tema" 1
       (Convergencia.referencias_totales Convergencia.estado_inicial)
     = Raise (ErrorProveedor "timeout")
  /\ exists st' rr,
      Convergencia._ejecutar_ronda Escenarios.proveedor_b_caido "tema" 1
        Convergencia.estado_inicial = Ok (st', rr)
      /\ ra_referencias (resultado_del_agente Extractor.nombre_b rr) = []
      /\ ra_total (resultado_del_agente Extractor.nombre_b rr) = 0
      /\ ra_error (resultado_del_agente Extractor.nombre_b rr)
         = Some (ErrorProveedor "timeout")
      /\ length (Convergencia.referencias_totales st') = 2%nat.
Proof.
  split; [repeat constructor|]. split; [reflexivity|].
  eexists _, _. split; [vm_compute; reflexivity|].
  destruct (C4_fallo_de_agentes Escenarios.proveedor_b_caido "tema" 1
              Convergencia.estado_inicial Extractor.nombre_b
              (ErrorProveedor "timeout"))
    as (_ & _ & Hr & _); [repeat constructor|reflexivity|].
  destruct (Hr _ _ eq_refl) as ((H1 & H2 & H3) & _).
  split; [exact H1|]. split; [exact H2|]. split; [exact H3|]. reflexivity.
Defined.

Example proveedor_caido_converge_en_la_primera_ronda :
  exists rr,
    Convergencia.ejecutar Escenarios.proveedor_caido 7 60 "tema"
    = Ok {| Convergencia.referencias := [];
            Convergencia.total_referencias := 0;
            Convergencia.total_rondas := 1;
            Convergencia.convergencia_alcanzada := true;
            Convergencia.historial := [rr] |}.
Proof. eexists. vm_compute. reflexivity. Qed.

(* ===================================================================== *)
(** ** Deduplication in the accumulated list *)
(* ===================================================================== *)

(** C3, as the code has it.  In the list returned by a run of the
    convergence engine no two references share a non-empty folded full text
    and no two share a non-empty folded law; articles and registry ids are
    not compared. *)
Theorem C3_sin_duplicados_por_texto_o_ley (prov : Proveedor)
        (max_rondas umbral : Z) (texto : string) (res : Convergencia.Resultado) :
  Convergencia.ejecutar prov max_rondas umbral texto = Ok res ->
  ForallOrdPairs distintas_para_el_motor (Convergencia.referencias res).
Proof.
  intros H.
  destruct (ejecutar_inversion _ _ _ _ _ H) as (st & ultima & Hb & Hf & _).
  apply filtrar_por_confianza_sublista in Hf. rewrite Hf.
  apply ForallOrdPairs_filter.
  destruct (bucle_rondas_inv prov texto
              (fun _ s => ForallOrdPairs distintas_para_el_motor
                            (Convergencia.referencias_totales s)))
    with (pendientes := Z.to_nat max_rondas) (r := 1)
         (st := Convergencia.estado_inicial) (st' := st) as [_ Hp];
    try assumption.
  - intros r s s1 rr Hs Hr. cbn [Convergencia.referencias_totales].
    exact (ronda_conserva prov texto _ _ _ _ Hr Hs).
  - constructor.
Qed.

Lemma C3_sin_duplicados_por_texto_o_ley_witness :
  exists res,
    Convergencia.ejecutar Escenarios.proveedor_b_caido 7 60 "tema" = Ok res
    /\ ForallOrdPairs distintas_para_el_motor (Convergencia.referencias res).
Proof.
  eexists. split; [vm_compute; reflexivity|].
  apply (C3_sin_duplicados_por_texto_o_ley Escenarios.proveedor_b_caido 7 60 "tema").
  vm_compute. reflexivity.
Defined.

(** C3 as stated fails: "artículo 24" and "art. 24 de dicha norma" name
    no law and the same article, carry no registry id, and both are in the
    list the run returns. *)
Lemma C3_contraejemplo :
  exists res r1 r2,
    Convergencia.ejecutar Escenarios.proveedor_b_caido 7 60 "tema" = Ok res
    /\ Convergencia.referencias res = [r1; r2]
    /\ boe_id r1 = None /\ boe_id r2 = None
    /\ clave_semantica r1 = clave_semantica r2
    /\ ~ ForallOrdPairs semanticamente_distintas (Convergencia.referencias res).
Proof.
  eexists _, _, _. split; [vm_compute; reflexivity|].
  split; [reflexivity|]. split; [reflexivity|]. split; [reflexivity|].
  split; [reflexivity|].
  intros H. inversion H as [|a l Ha Hl]; subst.
  inversion Ha as [|b l' Hb _]; subst.
  apply Hb. reflexivity.
Qed.
(* ===================================================================== *)
(** ** Confidence thresholds *)
(* ===================================================================== *)

Section Umbrales.

Lemma get_confianza_de (ref : Referencia) (c por_defecto : Z) :
  confianza ref = Some c -> get_confianza ref por_defecto = c.
Proof.
  intros H. unfold get_confianza. now rewrite H.
Qed.

(** The orchestrator hands its own threshold to the convergence engine,
    so in a pipeline run the extraction filter uses that value instead of
    the engine's default. *)
Lemma fase_convergencia_umbral (prov : Proveedor) (max_rondas umbral : Z)
      (texto : string) (res : Convergencia.Resultado) (ref : Referencia) :
  Pipeline.fase_convergencia prov max_rondas umbral texto = Ok res ->
  In ref (Convergencia.referencias res) -> umbral <= get_confianza ref 100.
Proof.
  unfold Pipeline.fase_convergencia. intros H Hin.
  destruct (ejecutar_inversion _ _ _ _ _ H) as (st & ultima & _ & Hf & _).
  now apply (filtrar_por_confianza_spec _ _ _ ref Hf) in Hin.
Qed.

End Umbrales.



Example filtros_sobre_seis_referencias :
  exists finales extraidas,
    Pipeline.filtrar_por_umbral 70 Escenarios.seis_referencias = Ok finales
    /\ Convergencia._filtrar_por_confianza 60 Escenarios.seis_referencias
       = Ok extraidas
    /\ List.map confianza finales = [Some 100; Some 70]
    /\ List.map confianza extraidas
       = [Some 100; Some 69; Some 70; None; Some 60].
Proof. eexists _, _. repeat split; vm_compute; reflexivity. Qed.

(** A [null] confidence stops both filters: the comparison of [None] with
    the threshold raises. *)
Example filtros_con_confianza_nula :
  Pipeline.filtrar_por_umbral 70 [set_confianza Nulo ref_vacia] = Raise TypeError
  /\ Convergencia._filtrar_por_confianza 60 [set_confianza Nulo ref_vacia]
     = Raise TypeError.
Proof. split; reflexivity. Qed.

(* ===================================================================== *)
(** ** The validator *)
(* ===================================================================== *)

Section Validador.
Import PyStr BOEDownloader Validator.

Lemma paso_verificacion_confianza (ag : Agente) (id art : string)
      (rv : Referencia) (val : MetadataValidacion) (w : Mundo) :
  campo_confianza (fst (fst (paso_verificacion ag id art rv val w)))
  = campo_confianza rv.
Proof.
  unfold paso_verificacion.
  destruct (_verificar_articulo_en_boe ag id art w) as [v w1].
  destruct (existe v) as [[|]|]; destruct (verdadero (v_error v)); reflexivity.
Qed.

(** The validator never writes [confianza]. *)
Lemma validar_referencia_confianza (ag : Agente) (ref : Referencia) (w : Mundo)
      (validada : Referencia) :
  fst (_validar_referencia ag ref w) = Ok validada ->
  campo_confianza validada = campo_confianza ref.
Proof.
  unfold _validar_referencia.
  destruct (_extraer_info_ley ref) as [[info|]|e]; cbn [fst];
    [| now intros [= <-] | discriminate].
  destruct (verdadero (_buscar_boe_id ag info)); cbn [articulo set_validada set_boe_id].
  - destruct (verdadero (articulo ref)); [|now intros [= <-]].
    destruct (verificar_articulos ag); cbn [andb]; [|now intros [= <-]].
    match goal with
    | |- context [paso_verificacion ?a ?i ?t ?r ?v ?w] =>
        pose proof (paso_verificacion_confianza a i t r v w) as Hp;
        destruct (paso_verificacion a i t r v w) as [[rv3 val3] w1]
    end.
    cbn [fst] in *. intros [= <-]. exact Hp.
  - destruct (verdadero (articulo ref)); now intros [= <-].
Qed.

(** [_validar_referencia] fails exactly when [_extraer_info_ley] does:
    on a reference that names no law and whose text is [null]. *)
Lemma extraer_info_ley_casos (ref : Referencia) :
  match _extraer_info_ley ref with
  | Raise e =>
      e = TypeError
      /\ verdadero (o_bien (ley_normalizada ref) (ley ref)) = false
      /\ campo_texto_completo ref = Nulo
  | Ok _ =>
      verdadero (o_bien (ley_normalizada ref) (ley ref)) = true
      \/ campo_texto_completo ref <> Nulo
  end.
Proof.
  unfold _extraer_info_ley.
  destruct (verdadero (o_bien (ley_normalizada ref) (ley ref))) eqn:Hl;
    cbn [exc_bind].
  - rewrite Hl. cbv iota. now left.
  - destruct (campo_texto_completo ref) as [| |t] eqn:Ht;
      cbn [campo_get_o campo_get exc_bind].
    + destruct (verdadero (_extraer_ley_de_texto "")); right; discriminate.
    + now repeat split.
    + destruct (verdadero (_extraer_ley_de_texto t)); right; discriminate.
Qed.

Lemma validar_referencia_raise (ag : Agente) (ref : Referencia) (w : Mundo) :
  match fst (_validar_referencia ag ref w) with
  | Raise e =>
      e = TypeError
      /\ verdadero (o_bien (ley_normalizada ref) (ley ref)) = false
      /\ campo_texto_completo ref = Nulo
      /\ snd (_validar_referencia ag ref w) = w
  | Ok _ =>
      verdadero (o_bien (ley_normalizada ref) (ley ref)) = true
      \/ campo_texto_completo ref <> Nulo
  end.
Proof.
  pose proof (extraer_info_ley_casos ref) as H.
  unfold _validar_referencia.
  destruct (_extraer_info_ley ref) as [[info|]|e]; cbn [fst snd];
    [| exact H | now destruct H as (? & ? & ?)].
  destruct (verdadero (_buscar_boe_id ag info)); cbn [articulo set_validada set_boe_id].
  - destruct (verdadero (articulo ref)); [|exact H].
    destruct (verificar_articulos ag); cbn [andb]; [|exact H].
    match goal with
    | |- context [paso_verificacion ?a ?i ?t ?r ?v ?w] =>
        destruct (paso_verificacion a i t r v w) as [[rv3 val3] w1]
    end.
    exact H.
  - destruct (verdadero (articulo ref)); exact H.
Qed.

(** The lookup answers [False] when the law cannot be downloaded. *)
Lemma descargar_ley_fallida (env : Entorno) (id : string) (w : Mundo) :
  _get_from_cache env w id = Ok None ->
  descarga_fallida (requests_get env (peticiones w) (base_url +:+ "?id=" +:+ id)) ->
  fst (descargar_ley env id false w) = Ok None.
Proof.
  intros Hc Hf. unfold descargar_ley. rewrite Hc.
  destruct (requests_get env (peticiones w) (base_url +:+ "?id=" +:+ id))
    as [msg|status_code html]; [reflexivity|].
  simpl in Hf. destruct (status_code =? 200) eqn:E; [|reflexivity].
  apply Z.eqb_eq in E. contradiction.
Qed.

Lemma verificar_articulo_sin_ley (env : Entorno) (id art : string) (w : Mundo) :
  fst (descargar_ley env id false w) = Ok None ->
  fst (verificar_articulo_existe env id art w) = Ok false.
Proof.
  intros H. unfold verificar_articulo_existe.
  destruct (descargar_ley env id false w) as [[[ley_data|]|e] w1];
    try discriminate.
  reflexivity.
Qed.

(** The path of [_validar_referencia] on which the article is reported
    absent. *)
Lemma validar_referencia_articulo_ausente (ag : Agente) (ref : Referencia)
      (w : Mundo) (info : LeyInfo) (id art : string) :
  _extraer_info_ley ref = Ok (Some info) ->
  _buscar_boe_id ag info = Some id ->
  no_vacia id = true ->
  articulo ref = Some art ->
  no_vacia art = true ->
  verificar_articulos ag = true ->
  fst (verificar_articulo_existe (downloader ag) id art w) = Ok false ->
  fst (_validar_referencia ag ref w) = Ok (referencia_degradada ref id art).
Proof.
  intros Hinfo Hid Hidne Hart Hartne Hver Hex.
  unfold _validar_referencia. rewrite Hinfo, Hid.
  cbn [verdadero]. rewrite Hidne.
  cbn [articulo set_validada set_boe_id o_cadena from_option Datatypes.id].
  rewrite Hart. cbn [verdadero o_cadena from_option Datatypes.id].
  rewrite Hartne, Hver.
  cbn [andb]. unfold paso_verificacion, _verificar_articulo_en_boe.
  rewrite Hver. cbn [negb].
  destruct (verificar_articulo_existe (downloader ag) id art w) as [hay w1].
  cbn [fst] in Hex. subst hay. reflexivity.
Qed.

End Validador.

(** C1, as the code has it.  The validator never changes the confidence of
    a reference: the reference it returns has the confidence entry of the
    one it was given, and it returns one unless the reference names no law
    and has a [null] text.  For a reference whose article is set, with
    article verification enabled and a BOE id resolved, a lookup that
    reports the article absent makes the validator set [_validada] to
    false and record "Artículo <n> NO existe en el BOE oficial" as the
    reason; no hallucination mark is written and the confidence stays as
    it was. *)
Theorem C1_validador_conserva_confianza (ag : Validator.Agente)
        (ref : Referencia) (w : BOEDownloader.Mundo) :
  (forall validada,
      fst (Validator._validar_referencia ag ref w) = Ok validada ->
      campo_confianza validada = campo_confianza ref
      /\ confianza validada = confianza ref)
  /\ (forall e,
         fst (Validator._validar_referencia ag ref w) = Raise e ->
         e = TypeError
         /\ verdadero (o_bien (ley_normalizada ref) (ley ref)) = false
         /\ campo_texto_completo ref = Nulo)
  /\ (verdadero (o_bien (ley_normalizada ref) (ley ref)) = true
      \/ campo_texto_completo ref <> Nulo ->
      exists validada, fst (Validator._validar_referencia ag ref w) = Ok validada)
  /\ forall info id art,
      Validator._extraer_info_ley ref = Ok (Some info) ->
      Validator._buscar_boe_id ag info = Some id ->
      PyStr.no_vacia id = true ->
      articulo ref = Some art ->
      PyStr.no_vacia art = true ->
      Validator.verificar_articulos ag = true ->
      fst (BOEDownloader.verificar_articulo_existe (Validator.downloader ag) id art w)
        = Ok false ->
      exists degradada,
        fst (Validator._validar_referencia ag ref w) = Ok degradada
        /\ _validada degradada = Some false
        /\ campo_confianza degradada = campo_confianza ref
        /\ exists mv,
            _metadata_validacion degradada = Some mv
            /\ validada mv = Some false
            /\ motivo mv = Some (Validator.motivo_articulo_inexistente art)
            /\ articulo_existe_boe mv = Some false.
Proof.
  split.
  { intros r' H. apply validar_referencia_confianza in H.
    split; [exact H|]. unfold confianza. now rewrite H. }
  split.
  { intros e H. pose proof (validar_referencia_raise ag ref w) as Hr.
    rewrite H in Hr. now destruct Hr as (? & ? & ? & _). }
  split.
  { intros H. pose proof (validar_referencia_raise ag ref w) as Hr.
    destruct (fst (Validator._validar_referencia ag ref w)) as [r'|e]; [eauto|].
    destruct Hr as (_ & Hl & Ht & _). destruct H as [H|H]; congruence. }
  intros info id art Hinfo Hid Hidne Hart Hartne Hver Hex.
  exists (referencia_degradada ref id art).
  split; [now apply validar_referencia_articulo_ausente with (info := info)|].
  split; [reflexivity|]. split; [reflexivity|].
  eexists. split; [reflexivity|]. repeat split.
Qed.

(** Article 999 of the Penal Code, extracted with confidence 95. *)
Lemma C1_validador_conserva_confianza_witness :
  exists degradada,
    fst (Validator._validar_referencia Escenarios.validador_en_linea
           Escenarios.ref_cp_999 Escenarios.mundo_inicial) = Ok degradada
    /\ confianza degradada = confianza Escenarios.ref_cp_999
    /\ _validada degradada = Some false.
Proof.
  destruct (C1_validador_conserva_confianza Escenarios.validador_en_linea
              Escenarios.ref_cp_999 Escenarios.mundo_inicial) as (Hc & _ & _ & Hd).
  destruct (Hd {| Validator.li_referencia := "Código Penal";
                  Validator.li_anio := None;
                  Validator.li_tipo := "desconocido";
                  Validator.li_titulo_completo := None |}
               "BOE-A-1995-25444" "999")
    as (r' & Hr & Hv & _); try (vm_compute; reflexivity).
  exists r'. split; [exact Hr|]. split; [|exact Hv].
  now destruct (Hc r' Hr).
Defined.

(** C1 as stated fails twice.  Article 999 is not in the Penal Code: the
    validator demotes the reference and its confidence is still 95, not 0.
    And outside that case a confidence can decrease: the context resolver
    replaces the 95 of "art. 2" by the 90 it assumes for a resolution that
    states no confidence. *)
Lemma C1_contraejemplo :
  articulo Escenarios.ref_cp_999 = Some "999"
  /\ Validator.verificar_articulos Escenarios.validador_en_linea = true
  /\ fst (BOEDownloader.verificar_articulo_existe Escenarios.boe_en_linea
            "BOE-A-1995-25444" "999" Escenarios.mundo_inicial) = Ok false
  /\ fst (BOEDownloader.verificar_articulo_existe Escenarios.boe_en_linea
            "BOE-A-1995-25444" "138" Escenarios.mundo_inicial) = Ok true
  /\ (exists degradada,
        fst (Validator._validar_referencia Escenarios.validador_en_linea
               Escenarios.ref_cp_999 Escenarios.mundo_inicial) = Ok degradada
        /\ _validada degradada = Some false
        /\ confianza degradada = Some 95
        /\ confianza degradada <> Some 0)
  /\ confianza Escenarios.ref_art_2 = Some 95
  /\ List.map confianza
       (ContextResolver._parsear_respuesta
          (Some [Escenarios.resolucion_sin_confianza]) [Escenarios.ref_art_2])
     = [Some 90].
Proof.
  split; [reflexivity|]. split; [reflexivity|].
  split; [vm_compute; reflexivity|]. split; [vm_compute; reflexivity|].
  split.
  { eexists. split; [vm_compute; reflexivity|].
    split; [reflexivity|]. split; [reflexivity|discriminate]. }
  split; [reflexivity|]. vm_compute. reflexivity.
Qed.

(** C10.  When the law is not in the cache and its download fails (network
    error or a status other than 200), [descargar_ley] returns nothing and
    [verificar_articulo_existe] returns [False].  The validator then marks
    the reference not validated with the reason "Artículo <n> NO existe en
    el BOE oficial", and the reference it returns is the one it returns for
    any lookup that answers [False], a law that was downloaded and lacks
    the article included. *)
Theorem C10_descarga_fallida_como_articulo_ausente (ag : Validator.Agente)
        (ref : Referencia) (w : BOEDownloader.Mundo)
        (info : Validator.LeyInfo) (id art : string) :
  Validator._extraer_info_ley ref = Ok (Some info) ->
  Validator._buscar_boe_id ag info = Some id ->
  PyStr.no_vacia id = true ->
  articulo ref = Some art ->
  PyStr.no_vacia art = true ->
  Validator.verificar_articulos ag = true ->
  BOEDownloader._get_from_cache (Validator.downloader ag) w id = Ok None ->
  descarga_fallida
    (BOEDownloader.requests_get (Validator.downloader ag) (BOEDownloader.peticiones w)
       (BOEDownloader.base_url +:+ "?id=" +:+ id)) ->
  fst (BOEDownloader.descargar_ley (Validator.downloader ag) id false w) = Ok None
  /\ fst (BOEDownloader.verificar_articulo_existe (Validator.downloader ag) id art w)
     = Ok false
  /\ exists degradada,
      fst (Validator._validar_referencia ag ref w) = Ok degradada
      /\ _validada degradada = Some false
      /\ (exists mv,
            _metadata_validacion degradada = Some mv
            /\ validada mv = Some false
            /\ motivo mv = Some ("Artículo " +:+ art +:+ " NO existe en el BOE oficial")
            /\ articulo_existe_boe mv = Some false
            /\ articulo_verificado_boe mv = Some true)
      /\ (forall ag2 w2,
            Validator._buscar_boe_id ag2 info = Some id ->
            Validator.verificar_articulos ag2 = true ->
            fst (BOEDownloader.verificar_articulo_existe (Validator.downloader ag2)
                   id art w2) = Ok false ->
            fst (Validator._validar_referencia ag2 ref w2) = Ok degradada).
Proof.
  intros Hinfo Hid Hidne Hart Hartne Hver Hcache Hfail.
  pose proof (descargar_ley_fallida (Validator.downloader ag) id w Hcache Hfail) as Hd.
  pose proof (verificar_articulo_sin_ley (Validator.downloader ag) id art w Hd) as Hv.
  pose proof (validar_referencia_articulo_ausente ag ref w info id art
                Hinfo Hid Hidne Hart Hartne Hver Hv) as Hr.
  split; [exact Hd|]. split; [exact Hv|].
  exists (referencia_degradada ref id art). split; [exact Hr|].
  split; [reflexivity|]. split.
  - eexists. split; [reflexivity|]. repeat split.
  - intros ag2 w2 Hid2 Hver2 Hv2.
    now apply validar_referencia_articulo_ausente with (info := info).
Qed.

(** Article 138 of the Penal Code while the BOE site answers 503. *)
Lemma C10_descarga_fallida_como_articulo_ausente_witness :
  fst (BOEDownloader.verificar_articulo_existe Escenarios.boe_caido
         "BOE-A-1995-25444" "138" Escenarios.mundo_inicial) = Ok false
  /\ exists degradada,
      fst (Validator._validar_referencia Escenarios.validador_boe_caido
             Escenarios.ref_cp_138 Escenarios.mundo_inicial) = Ok degradada
      /\ _validada degradada = Some false.
Proof.
  assert (Hinfo : Validator._extraer_info_ley Escenarios.ref_cp_138
                  = Ok (Some {| Validator.li_referencia := "Código Penal";
                                Validator.li_anio := None;
                                Validator.li_tipo := "desconocido";
                                Validator.li_titulo_completo := None |}))
    by (vm_compute; reflexivity).
  destruct (C10_descarga_fallida_como_articulo_ausente
              Escenarios.validador_boe_caido Escenarios.ref_cp_138
              Escenarios.mundo_inicial _ "BOE-A-1995-25444" "138" Hinfo)
    as (_ & Hv & r' & Hr & Hval & _); try (vm_compute; reflexivity).
  - vm_compute. discriminate.
  - split; [exact Hv|]. exists r'. split; [exact Hr|exact Hval].
Defined.

(** The existing article 138 with the site down and the missing article
    999 with the site up leave the same marks on the reference. *)
Example descarga_fallida_y_articulo_ausente :
  exists caido ausente presente,
    fst (Validator._validar_referencia Escenarios.validador_boe_caido
           Escenarios.ref_cp_138 Escenarios.mundo_inicial) = Ok caido
    /\ fst (Validator._validar_referencia Escenarios.validador_en_linea
              Escenarios.ref_cp_999 Escenarios.mundo_inicial) = Ok ausente
    /\ fst (Validator._validar_referencia Escenarios.validador_en_linea
              Escenarios.ref_cp_138 Escenarios.mundo_inicial) = Ok presente
    /\ _validada caido = Some false /\ _validada ausente = Some false
    /\ (motivo <$> _metadata_validacion caido)
       = Some (Some "Artículo 138 NO existe en el BOE oficial")
    /\ (motivo <$> _metadata_validacion ausente)
       = Some (Some "Artículo 999 NO existe en el BOE oficial")
    /\ (articulo_existe_boe <$> _metadata_validacion caido)
       = (articulo_existe_boe <$> _metadata_validacion ausente)
    /\ _validada presente = Some true.
Proof.
  eexists _, _, _. split; [vm_compute; reflexivity|].
  split; [vm_compute; reflexivity|]. split; [vm_compute; reflexivity|].
  vm_compute. repeat split.
Qed.

(** Nothing compares registry ids either: two citations of article 138 of
    the Penal Code, one through the abbreviation, leave the engine as two
    references and leave the validator with the same BOE id. *)
Example duplicados_por_boe_id_tras_validar :
  exists res r1 r2 w,
    Convergencia.ejecutar Escenarios.proveedor_cp 7 60 "tema" = Ok res
    /\ Validator.validar_todas Escenarios.validador_en_linea
         (Convergencia.referencias res) Escenarios.mundo_inicial
       = (Ok [r1; r2], w)
    /\ boe_id r1 = Some "BOE-A-1995-25444"
    /\ boe_id r2 = Some "BOE-A-1995-25444"
    /\ articulo r1 = articulo r2
    /\ _validada r1 = Some true /\ _validada r2 = Some true
    /\ ~ semanticamente_distintas r1 r2.
Proof.
  eexists _, _, _, _. split; [vm_compute; reflexivity|].
  split; [vm_compute; reflexivity|].
  repeat (split; [reflexivity|]).
  intros H. apply H. reflexivity.
Qed.

(** When the cache file cannot be examined the lookup raises inside the
    [try] of [_verificar_articulo_en_boe]: nothing is known about the
    article and the reference stays validated. *)
Example cache_ilegible_deja_validada :
  exists validada mv,
    fst (Validator._validar_referencia Escenarios.validador_cache_ilegible
           Escenarios.ref_cp_999 Escenarios.mundo_inicial) = Ok validada
    /\ _validada validada = Some true
    /\ _metadata_validacion validada = Some mv
    /\ articulo_existe_boe mv = None
    /\ articulo_verificado_boe mv = Some false
    /\ error_verificacion mv = Some "Permission denied".
Proof. eexists _, _. split; [vm_compute; reflexivity|]. repeat split. Qed.
(* ===================================================================== *)
(** ** Order of the parallel stages *)
(* ===================================================================== *)

Section OrdenParalelo.
Import Pipeline.
Variable et : Etapas.

Lemma recoger_validada_length (refs : list Referencia)
      (res : list (option Referencia)) (idx : nat) :
  length (recoger_validada et refs res idx) = length res.
Proof.
  unfold recoger_validada. destruct (refs !! idx); [|reflexivity].
  apply length_insert.
Qed.

(** After the tasks of [orden] have completed, index [i] holds the
    result of task [i] if it is among them, and is untouched otherwise. *)
Lemma recoger_validadas_lookup (refs : list Referencia) (orden : list nat)
      (res : list (option Referencia)) (i : nat) :
  length res = length refs ->
  fold_left (recoger_validada et refs) orden res !! i
  = match refs !! i with
    | Some r => if decide (i ∈ orden) then Some (Some (validada_o_original et r))
                else res !! i
    | None => res !! i
    end.
Proof.
  revert res. induction orden as [|x xs IH]; intros res Hlen; cbn [fold_left].
  - destruct (refs !! i); [|reflexivity].
    destruct (decide (i ∈ [])) as [H|_]; [|reflexivity].
    now apply elem_of_nil in H.
  - rewrite IH by now rewrite recoger_validada_length.
    destruct (refs !! i) as [r|] eqn:Hi.
    + destruct (decide (i ∈ xs)) as [Hin|Hnin].
      * destruct (decide (i ∈ x :: xs)) as [_|Hn]; [reflexivity|].
        exfalso. apply Hn. now right.
      * unfold recoger_validada. destruct (decide (i = x)) as [->|Hne].
        -- rewrite Hi. rewrite list_lookup_insert_eq.
           ++ destruct (decide (x ∈ x :: xs)) as [_|Hn]; [reflexivity|].
              exfalso. apply Hn. now left.
           ++ rewrite Hlen. now apply lookup_lt_Some in Hi.
        -- destruct (decide (i ∈ x :: xs)) as [Hin|_].
           ++ apply elem_of_cons in Hin as [?|?]; contradiction.
           ++ destruct (refs !! x); [|reflexivity].
              now rewrite list_lookup_insert_ne by congruence.
    + unfold recoger_validada. destruct (refs !! x) eqn:Hx; [|reflexivity].
      rewrite list_lookup_insert_ne; [reflexivity|]. congruence.
Qed.

Lemma omap_id_some {A B : Type} (f : A -> B) (l : list A) :
  omap id (List.map (fun a => Some (f a)) l) = List.map f l.
Proof.
  induction l as [|a l IH]; [reflexivity|].
  cbn. f_equal. exact IH.
Qed.

(** The validation fan-out restores input order whatever the completion
    order: each position holds the result of its own reference. *)
Lemma validar_paralelo_en_orden (max_workers : Z) (orden : list nat)
      (refs : list Referencia) :
  (5 <= length refs)%nat ->
  0 < max_workers ->
  orden ≡ₚ seq 0 (length refs) ->
  _validar_paralelo et max_workers orden refs
  = Ok (List.map (validada_o_original et) refs).
Proof.
  intros Hn Hw Hperm. unfold _validar_paralelo.
  destruct (length refs <? 5)%nat eqn:E; [apply Nat.ltb_lt in E; lia|].
  destruct (max_workers <=? 0) eqn:E2; [lia|].
  f_equal. rewrite <- omap_id_some. f_equal.
  apply list_eq. intros i.
  rewrite recoger_validadas_lookup by apply length_replicate.
  change (List.map (fun a => Some (validada_o_original et a)) refs)
    with ((fun a => Some (validada_o_original et a)) <$> refs).
  rewrite list_lookup_fmap.
  destruct (refs !! i) as [r|] eqn:Hi; simpl.
  - destruct (decide (i ∈ orden)) as [_|Hnin]; [reflexivity|].
    exfalso. apply Hnin. rewrite Hperm. apply elem_of_seq.
    apply lookup_lt_Some in Hi. lia.
  - apply lookup_replicate_None. apply lookup_ge_None in Hi. lia.
Qed.

Lemma exc_mapM_ok (f : Referencia -> Exc Referencia) (g : Referencia -> Referencia)
      (refs : list Referencia) :
  (forall r, In r refs -> f r = Ok (g r)) ->
  exc_mapM f refs = Ok (List.map g refs).
Proof.
  induction refs as [|r refs IH]; intros H; simpl; [reflexivity|].
  rewrite (H r) by now left.
  rewrite IH; [reflexivity|]. intros r' Hr'. apply H. now right.
Qed.

(** With a validator that raises on none of the references the fan-out
    returns what the sequential [procesar] returns. *)
Lemma validar_paralelo_como_secuencial (max_workers : Z) (orden : list nat)
      (refs : list Referencia) (g : Referencia -> Referencia) :
  (5 <= length refs)%nat ->
  0 < max_workers ->
  orden ≡ₚ seq 0 (length refs) ->
  (forall r, In r refs -> validar_ref et r = Ok (g r)) ->
  _validar_paralelo et max_workers orden refs = procesar_validador et refs
  /\ procesar_validador et refs = Ok (List.map g refs).
Proof.
  intros Hn Hw Hperm Hok.
  assert (Hseq : procesar_validador et refs = Ok (List.map g refs)).
  { unfold procesar_validador. rewrite (exc_mapM_ok _ g) by assumption.
    simpl. destruct refs; [simpl in Hn; lia|reflexivity]. }
  split; [|exact Hseq].
  rewrite validar_paralelo_en_orden, Hseq by assumption.
  f_equal. apply List.map_ext_in. intros r Hr.
  unfold validada_o_original, _validar_referencia, procesar_validador.
  simpl. rewrite (Hok r Hr). reflexivity.
Qed.

End OrdenParalelo.

(** C8.  Eight references, four workers, so four batches of two; the
    second batch completes first.  The validation fan-out still returns the
    references in input order, but [_normalizar_paralelo] appends the
    batches as they complete: its output starts with the third and fourth
    references and differs from the sequential normalization of the list. *)
Theorem C8_normalizacion_en_orden_de_llegada :
  [1; 0; 2; 3]%nat ≡ₚ seq 0 4
  /\ Pipeline.procesar_normalizador Escenarios.etapas_marcadoras
       Escenarios.ocho_referencias
     = Ok (List.map (fun r => set_texto_oficial_boe (ley r) r)
             Escenarios.ocho_referencias)
  /\ (exists salida,
        Pipeline._normalizar_paralelo Escenarios.etapas_marcadoras 4 [1; 0; 2; 3]%nat
          Escenarios.ocho_referencias = Ok salida
        /\ List.map ley salida
           = [Some "Ley 3/2000"; Some "Ley 4/2000"; Some "Ley 1/2000";
              Some "Ley 2/2000"; Some "Ley 5/2000"; Some "Ley 6/2000";
              Some "Ley 7/2000"; Some "Ley 8/2000"]
        /\ Ok salida <> Pipeline.procesar_normalizador Escenarios.etapas_marcadoras
                          Escenarios.ocho_referencias)
  /\ Pipeline._validar_paralelo Escenarios.etapas_marcadoras 4
       [5; 1; 0; 7; 2; 3; 6; 4]%nat Escenarios.ocho_referencias
     = Pipeline.procesar_validador Escenarios.etapas_marcadoras
         Escenarios.ocho_referencias.
Proof.
  split.
  { change (seq 0 4) with [0; 1; 2; 3]%nat. apply Permutation_swap. }
  split; [vm_compute; reflexivity|].
  split.
  { eexists. split; [vm_compute; reflexivity|].
    split; [reflexivity|]. vm_compute. discriminate. }
  vm_compute. reflexivity.
Qed.

(* ===================================================================== *)
(** ** Provenance of the references of a run *)
(* ===================================================================== *)

Section Procedencia.
Import Convergencia.
Variable prov : Proveedor.
Variable texto : string.

Lemma con_procedencia_mono (a b : Z) (r : Referencia) :
  a <= b -> con_procedencia a r -> con_procedencia b r.
Proof.
  intros Hab (m & Hm & Hag & Hr). exists m. repeat split; try assumption; lia.
Qed.

Lemma sello_con_procedencia (n_a n_b n_c : nat) (numero_ronda : Z) (r : Referencia) :
  1 <= numero_ronda ->
  sello_de_la_ronda n_a n_b n_c numero_ronda r ->
  con_procedencia numero_ronda r.
Proof.
  intros Hn (m & Hm & Hr & Hag). exists m. split; [exact Hm|]. split; [|lia].
  destruct Hag as [[-> _]|[[-> _]|[-> _]]]; set_solver.
Qed.

(** The references a round appends carry the round's number. *)
Lemma ronda_procedencia (numero_ronda : Z) (st st' : Estado) (rr : ResultadoRonda) :
  1 <= numero_ronda ->
  _ejecutar_ronda prov texto numero_ronda st = Ok (st', rr) ->
  Forall (con_procedencia numero_ronda) (referencias_totales st) ->
  Forall (con_procedencia numero_ronda) (referencias_totales st').
Proof.
  intros Hn H Hp. destruct (ronda_nuevas prov texto _ _ _ _ H) as (nuevas & -> & Hs).
  apply Forall_app. split; [exact Hp|].
  eapply Forall_impl; [exact Hs|]. intros r [_ Hr].
  eapply sello_con_procedencia; eassumption.
Qed.

Lemma ronda_numerada (r : Z) (st st1 : Estado) (rr : ResultadoRonda) :
  con_rondas_numeradas r st ->
  _ejecutar_ronda prov texto r st = Ok (st1, rr) ->
  con_rondas_numeradas (r + 1)
    {| referencias_totales := referencias_totales st1;
       historial_rondas := historial_rondas st1 ++ [rr] |}.
Proof.
  intros (Hr & Hp & Hh) H.
  destruct (ronda_spec prov texto _ _ _ _ H) as (_ & _ & _ & _ & _ & Hh1 & Hn1).
  assert (Hlen : Z.of_nat (length (historial_rondas st1 ++ [rr])) = r).
  { rewrite length_app, Hh1. cbn. lia. }
  unfold con_rondas_numeradas. cbn [historial_rondas referencias_totales].
  rewrite Hlen. split; [lia|]. split.
  - apply (ronda_procedencia r st st1 rr); [lia|exact H|].
    eapply Forall_impl; [exact Hp|]. intros x. apply con_procedencia_mono. lia.
  - intros i x Hx. rewrite Hh1 in Hx.
    apply lookup_app_Some in Hx as [Hx|[Hge Hx]]; [now apply Hh|].
    apply list_lookup_singleton_Some in Hx as [Hi <-].
    rewrite Hn1. lia.
Qed.

Lemma bucle_procedencia (pendientes : nat) (st' : Estado) :
  bucle_rondas prov texto pendientes 1 estado_inicial = Ok st' ->
  Forall (con_procedencia (Z.of_nat (length (historial_rondas st'))))
         (referencias_totales st')
  /\ (forall i rr, historial_rondas st' !! i = Some rr ->
                   rr_ronda rr = Z.of_nat i + 1).
Proof.
  intros Hb.
  destruct (bucle_rondas_inv prov texto con_rondas_numeradas ronda_numerada
              pendientes 1 estado_inicial st') as (r' & _ & Hp & Hh).
  - split; [reflexivity|]. split; [constructor|].
    intros i rr Hi. cbn in Hi. now rewrite lookup_nil in Hi.
  - exact Hb.
  - now split.
Qed.

End Procedencia.

(** X7.  Every reference returned by a run of the convergence engine
    carries a provenance stamp that names one of the three extractor
    agents and a round between 1 and the number of rounds run; the rounds
    of the history are numbered 1, 2, ... in order; and the two totals of
    the result are the lengths of its two lists. *)
Theorem X7_procedencia_de_las_referencias (prov : Proveedor)
        (max_rondas umbral : Z) (texto : string) (res : Convergencia.Resultado) :
  Convergencia.ejecutar prov max_rondas umbral texto = Ok res ->
  Forall (con_procedencia (Convergencia.total_rondas res))
         (Convergencia.referencias res)
  /\ (forall i rr, Convergencia.historial res !! i = Some rr ->
                   Convergencia.rr_ronda rr = Z.of_nat i + 1)
  /\ Convergencia.total_referencias res
     = Z.of_nat (length (Convergencia.referencias res))
  /\ Convergencia.total_rondas res
     = Z.of_nat (length (Convergencia.historial res)).
Proof.
  intros H.
  destruct (ejecutar_inversion _ _ _ _ _ H)
    as (st & ultima & Hb & Hf & _ & Htr & Hr & _ & Hh).
  destruct (bucle_procedencia prov texto _ _ Hb) as [Hp Hn].
  rewrite Hh, Hr, Htr. split; [|now repeat split].
  apply filtrar_por_confianza_sublista in Hf. rewrite Hf.
  apply Forall_forall. intros x Hx.
  rewrite Forall_forall in Hp. apply Hp.
  apply list_elem_of_In in Hx. apply List.filter_In in Hx as [Hx _].
  now apply list_elem_of_In.
Qed.

Lemma X7_procedencia_de_las_referencias_witness :
  exists res,
    Convergencia.ejecutar Escenarios.proveedor_seis 7 60 "tema" = Ok res
    /\ Convergencia.referencias res <> []
    /\ Forall (con_procedencia (Convergencia.total_rondas res))
              (Convergencia.referencias res).
Proof.
  eexists. split; [vm_compute; reflexivity|]. split; [discriminate|].
  apply (X7_procedencia_de_las_referencias Escenarios.proveedor_seis 7 60 "tema").
  vm_compute. reflexivity.
Defined.

(* ===================================================================== *)
(** ** The validator *)
(* ===================================================================== *)

Section ValidadorExtra.
Import PyStr BOEDownloader Validator.

(** One call of [descargar_ley] sends at most one request, and none on a
    cache hit or when the cache file cannot be examined. *)
Lemma descargar_ley_peticiones (env : Entorno) (id : string) (fr : bool) (w : Mundo) :
  (peticiones w <= peticiones (snd (descargar_ley env id fr w)) <= S (peticiones w))%nat.
Proof.
  unfold descargar_ley, _save_to_cache.
  destruct (if fr then Ok None else _) as [[d|]|e]; [cbn; lia| |cbn; lia].
  destruct (requests_get env (peticiones w) _) as [m|st html]; [cbn; lia|].
  destruct (negb (st =? 200)); [cbn; lia|].
  destruct (escritura_posible env id); cbn; lia.
Qed.

Lemma descargar_ley_raise (env : Entorno) (id : string) (fr : bool) (w : Mundo)
      (e : excepcion) :
  fst (descargar_ley env id fr w) = Raise e ->
  fr = false
  /\ error_de_cache env id = Some (match e with OSError m => m | _ => "" end)
  /\ e = OSError (match e with OSError m => m | _ => "" end)
  /\ snd (descargar_ley env id fr w) = w.
Proof.
  unfold descargar_ley, _save_to_cache, _get_from_cache.
  destruct fr.
  - destruct (requests_get env (peticiones w) _) as [m|st html]; [discriminate|].
    destruct (negb (st =? 200)); discriminate.
  - destruct (error_de_cache env id) as [m|]; [intros [= <-]; now repeat split|].
    destruct (cache w !! id); [discriminate|].
    destruct (requests_get env (peticiones w) _) as [m|st html]; [discriminate|].
    destruct (negb (st =? 200)); discriminate.
Qed.

(** After a successful call with a writable cache the law is cached. *)
Lemma descargar_ley_deja_en_cache (env : Entorno) (id : string) (w : Mundo)
      (d : LeyData) (w1 : Mundo) :
  escritura_posible env id = true ->
  descargar_ley env id false w = (Ok (Some d), w1) ->
  error_de_cache env id = None
  /\ exists d0, cache w1 !! id = Some d0 /\ ld_articulos d0 = ld_articulos d
                /\ ld_boe_id d0 = ld_boe_id d /\ ld_url d0 = ld_url d.
Proof.
  intros He. unfold descargar_ley, _save_to_cache, _get_from_cache.
  destruct (error_de_cache env id) as [m|]; [discriminate|].
  destruct (cache w !! id) as [d0|] eqn:Hc.
  - intros H. inversion H; subst. split; [reflexivity|].
    exists d0. now repeat split.
  - destruct (requests_get env (peticiones w) _) as [m|st html]; [discriminate|].
    destruct (negb (st =? 200)); [discriminate|].
    rewrite He. intros H. inversion H; subst. split; [reflexivity|].
    eexists. cbn [cache].
    rewrite lookup_insert_eq. now repeat split.
Qed.

Lemma descargar_ley_en_cache (env : Entorno) (id : string) (w : Mundo) (d0 : LeyData) :
  error_de_cache env id = None ->
  cache w !! id = Some d0 ->
  descargar_ley env id false w
  = (Ok (Some {| ld_boe_id := ld_boe_id d0; ld_articulos := ld_articulos d0;
                 ld_cached := true; ld_url := ld_url d0 |}), w).
Proof.
  intros He Hc. unfold descargar_ley, _get_from_cache. now rewrite He, Hc.
Qed.

Lemma verificar_peticiones (env : Entorno) (id art : string) (w : Mundo) :
  (peticiones w <= peticiones (snd (verificar_articulo_existe env id art w))
   <= S (peticiones w))%nat.
Proof.
  unfold verificar_articulo_existe.
  pose proof (descargar_ley_peticiones env id false w) as H.
  destruct (descargar_ley env id false w) as [[[d|]|e] w1]; exact H.
Qed.

Lemma verificar_raise (env : Entorno) (id art : string) (w : Mundo) (e : excepcion) :
  fst (verificar_articulo_existe env id art w) = Raise e ->
  snd (verificar_articulo_existe env id art w) = w.
Proof.
  unfold verificar_articulo_existe.
  pose proof (descargar_ley_raise env id false w) as H.
  destruct (descargar_ley env id false w) as [[[d|]|e'] w1]; try discriminate.
  cbn [fst snd] in *. intros _. now destruct (H e' eq_refl) as (_ & _ & _ & ?).
Qed.

Lemma obtener_texto_peticiones (env : Entorno) (id art : string) (w : Mundo) :
  (peticiones w <= peticiones (snd (obtener_texto_articulo env id art w))
   <= S (peticiones w))%nat.
Proof.
  unfold obtener_texto_articulo.
  pose proof (descargar_ley_peticiones env id false w) as H.
  destruct (descargar_ley env id false w) as [[[d|]|e] w1]; try exact H.
  destruct (ld_articulos d !! _); exact H.
Qed.

(** With a writable cache, the text of an article found is read from the
    cache entry the existence check left. *)
Lemma obtener_texto_tras_verificar (env : Entorno) (id art : string) (w : Mundo) :
  escritura_posible env id = true ->
  fst (verificar_articulo_existe env id art w) = Ok true ->
  snd (obtener_texto_articulo env id art
         (snd (verificar_articulo_existe env id art w)))
  = snd (verificar_articulo_existe env id art w).
Proof.
  intros He. unfold verificar_articulo_existe.
  destruct (descargar_ley env id false w) as [[[d|]|e] w1] eqn:Hd;
    try discriminate.
  cbn [fst snd]. intros _.
  destruct (descargar_ley_deja_en_cache env id w d w1 He Hd) as (He0 & d0 & Hc & _).
  unfold obtener_texto_articulo. rewrite (descargar_ley_en_cache env id w1 d0 He0 Hc).
  cbn [ld_articulos]. now destruct (ld_articulos d0 !! _).
Qed.

(** What [_verificar_articulo_en_boe] answers and what it costs. *)
Lemma verificar_articulo_en_boe_casos (ag : Agente) (id art : string) (w : Mundo) :
  verificar_articulos ag = true ->
  let v := fst (_verificar_articulo_en_boe ag id art w) in
  let w1 := snd (_verificar_articulo_en_boe ag id art w) in
  (peticiones w <= peticiones w1 <= peticiones w + 2)%nat
  /\ (escritura_posible (downloader ag) id = true ->
      (peticiones w1 <= peticiones w + 1)%nat)
  /\ match existe v with
     | Some true =>
         fst (verificar_articulo_existe (downloader ag) id art w) = Ok true
         /\ verificado_boe v = true
     | Some false =>
         fst (verificar_articulo_existe (downloader ag) id art w) = Ok false
         /\ verificado_boe v = true /\ texto_oficial v = None
     | None =>
         ((exists e, fst (verificar_articulo_existe (downloader ag) id art w)
                     = Raise e)
          \/ fst (verificar_articulo_existe (downloader ag) id art w) = Ok true)
         /\ verificado_boe v = false /\ texto_oficial v = None
     end.
Proof.
  intros Hv. cbn zeta. unfold _verificar_articulo_en_boe. rewrite Hv. cbn [negb].
  pose proof (verificar_peticiones (downloader ag) id art w) as H1.
  pose proof (obtener_texto_peticiones (downloader ag) id art
                (snd (verificar_articulo_existe (downloader ag) id art w))) as H2.
  pose proof (obtener_texto_tras_verificar (downloader ag) id art w) as H3.
  destruct (verificar_articulo_existe (downloader ag) id art w) as [[[|]|e] w1];
    cbn [fst snd] in *.
  - destruct (obtener_texto_articulo (downloader ag) id art w1) as [[t|e] w2];
      cbn [fst snd existe verificacion_fallida verificado_boe texto_oficial] in *.
    + split; [lia|]. split; [|now split].
      intros He. rewrite (H3 He eq_refl). lia.
    + split; [lia|]. split; [|split; [now right|now split]].
      intros He. rewrite (H3 He eq_refl). lia.
  - cbn. split; [lia|]. split; [intros _; lia|now repeat split].
  - cbn. split; [lia|]. split; [intros _; lia|].
    split; [left; eauto|now split].
Qed.

(** The ways [_validar_referencia] ends. *)
Lemma validar_referencia_casos (ag : Agente) (ref : Referencia) (w : Mundo) :
  (* the law cannot be read off: the call fails, nothing requested *)
  (exists e, _extraer_info_ley ref = Raise e
             /\ _validar_referencia ag ref w = (Raise e, w))
  (* no law, or no BOE id: not validated, nothing requested *)
  \/ ((_extraer_info_ley ref = Ok None
       \/ exists info, _extraer_info_ley ref = Ok (Some info)
                       /\ verdadero (_buscar_boe_id ag info) = false)
      /\ exists val, _validar_referencia ag ref w
                     = (Ok (set_metadata_validacion (Some val)
                              (set_validada (Some false) ref)), w))
  (* BOE id found, article not checked: validated, nothing requested *)
  \/ (exists info id val,
         _extraer_info_ley ref = Ok (Some info)
         /\ _buscar_boe_id ag info = Some id /\ id <> ""
         /\ (verdadero (articulo ref) = false \/ verificar_articulos ag = false)
         /\ _validar_referencia ag ref w
            = (Ok (set_metadata_validacion (Some val)
                     (set_validada (Some true) (set_boe_id (Some id) ref))), w))
  (* BOE id found, article checked against the BOE *)
  \/ (exists info id art val,
         _extraer_info_ley ref = Ok (Some info)
         /\ _buscar_boe_id ag info = Some id /\ id <> ""
         /\ articulo ref = Some art /\ art <> ""
         /\ verificar_articulos ag = true
         /\ let v := fst (_verificar_articulo_en_boe ag id art w) in
            let rv1 := set_validada (Some true) (set_boe_id (Some id) ref) in
            _validar_referencia ag ref w
            = (Ok (set_metadata_validacion (Some val)
                     match existe v with
                     | Some true => set_texto_oficial_boe (texto_oficial v) rv1
                     | Some false => set_validada (Some false) rv1
                     | None => rv1
                     end),
               snd (_verificar_articulo_en_boe ag id art w))).
Proof.
  unfold _validar_referencia.
  destruct (_extraer_info_ley ref) as [[info|]|e] eqn:Hinfo.
  3:{ left. eauto. }
  2:{ right. left. split; [now left|]. eexists. reflexivity. }
  right.
  destruct (_buscar_boe_id ag info) as [id|] eqn:Hid; cbn [verdadero].
  2:{ left. split; [right; exists info; rewrite Hid; now split|].
      cbn [articulo set_validada andb].
      destruct (verdadero (articulo ref)); eexists; reflexivity. }
  destruct (no_vacia id) eqn:Hne.
  2:{ left. split; [right; exists info; rewrite Hid; cbn; now split|].
      cbn [articulo set_validada andb].
      destruct (verdadero (articulo ref)); eexists; reflexivity. }
  apply no_vacia_true in Hne.
  cbn [articulo set_validada set_boe_id o_cadena from_option Datatypes.id andb].
  destruct (verdadero (articulo ref)) eqn:Hart.
  2:{ right. left. exists info, id. eexists. repeat split; try assumption.
      now left. }
  destruct (verificar_articulos ag) eqn:Hver.
  2:{ right. left. exists info, id. eexists. repeat split; try assumption.
      now right. }
  right. right.
  destruct (articulo ref) as [art|] eqn:Ha; [|discriminate].
  cbn [verdadero] in Hart. apply no_vacia_true in Hart.
  cbn [o_cadena from_option Datatypes.id].
  exists info, id, art. unfold paso_verificacion.
  destruct (_verificar_articulo_en_boe ag id art w) as [v w1].
  cbn [fst snd].
  destruct (existe v) as [[|]|]; eexists; repeat split; try assumption;
    reflexivity.
Qed.

Lemma validar_todas_una_a_una (ag : Agente) (refs : list Referencia) (w : Mundo) :
  match fst (validar_todas ag refs w) with
  | Ok validadas =>
      Forall2 (fun r v => exists w0, fst (_validar_referencia ag r w0) = Ok v)
              refs validadas
  | Raise e =>
      Exists (fun r => exists w0, fst (_validar_referencia ag r w0) = Raise e) refs
  end.
Proof.
  revert w. induction refs as [|r refs IH]; intros w; [constructor|].
  cbn [validar_todas].
  destruct (_validar_referencia ag r w) as [[rv|e] w1] eqn:Hr; cbn [fst].
  - specialize (IH w1). destruct (validar_todas ag refs w1) as [[vs|e] w2];
      cbn [fst] in *.
    + constructor; [|exact IH]. exists w. now rewrite Hr.
    + now apply Exists_cons_tl.
  - apply Exists_cons_hd. exists w. now rewrite Hr.
Qed.

End ValidadorExtra.

(** X8.  [_validar_referencia] fails only on a reference that names no law
    and whose text is [null], with the [TypeError] of the search in that
    text.  Otherwise it decides: [_validada] is set on the reference it
    returns.  The reference comes back validated only if the BOE search
    gave a non-empty id, which is then its [boe_id], and, when the
    reference names an article and article verification is enabled, only
    if the BOE lookup found that article in the law or failed; a lookup
    that fails leaves the reference validated. *)
Theorem X8_validada_solo_con_boe_id (ag : Validator.Agente) (ref : Referencia)
        (w : BOEDownloader.Mundo) :
  match fst (Validator._validar_referencia ag ref w) with
  | Raise e =>
      e = TypeError
      /\ verdadero (o_bien (ley_normalizada ref) (ley ref)) = false
      /\ campo_texto_completo ref = Nulo
  | Ok validada =>
      (verdadero (o_bien (ley_normalizada ref) (ley ref)) = true
       \/ campo_texto_completo ref <> Nulo)
      /\ (exists b, _validada validada = Some b)
      /\ (_validada validada = Some true ->
          exists info id,
            Validator._extraer_info_ley ref = Ok (Some info)
            /\ Validator._buscar_boe_id ag info = Some id /\ id <> ""
            /\ boe_id validada = Some id
            /\ (forall art, articulo ref = Some art -> art <> "" ->
                  Validator.verificar_articulos ag = true ->
                  fst (BOEDownloader.verificar_articulo_existe
                         (Validator.downloader ag) id art w) = Ok true
                  \/ exists e,
                      fst (BOEDownloader.verificar_articulo_existe
                             (Validator.downloader ag) id art w) = Raise e))
      /\ (forall info id art e,
            Validator._extraer_info_ley ref = Ok (Some info) ->
            Validator._buscar_boe_id ag info = Some id -> id <> "" ->
            articulo ref = Some art -> art <> "" ->
            Validator.verificar_articulos ag = true ->
            fst (BOEDownloader.verificar_articulo_existe
                   (Validator.downloader ag) id art w) = Raise e ->
            _validada validada = Some true)
  end.
Proof.
  pose proof (validar_referencia_raise ag ref w) as Hr.
  destruct (validar_referencia_casos ag ref w)
    as [(e & Hi & E)
       |[[Hno (val & E)]
        |[(info & id & val & Hi & Hb & Hne & Hor & E)
         |(info & id & art & val & Hi & Hb & Hne & Ha & Hane & Hv & E)]]];
    cbn zeta in E; rewrite E in *; cbn [fst] in *.
  - now destruct Hr as (? & ? & ? & _).
  - split; [exact Hr|]. split; [now exists false|]. split; [cbn; discriminate|].
    intros info id art e Hi Hb Hne _ _ _ _. exfalso.
    destruct Hno as [Hno|(info' & Hi' & Hb')]; [congruence|].
    rewrite Hi in Hi'. injection Hi' as <-. rewrite Hb in Hb'. cbn in Hb'.
    apply no_vacia_true in Hne. congruence.
  - split; [exact Hr|]. split; [now exists true|]. split; [|reflexivity].
    intros _. exists info, id.
    repeat split; try assumption.
    intros art Ha Hane Hv. destruct Hor as [Hor|Hor]; [|congruence].
    rewrite Ha in Hor. cbn in Hor. apply no_vacia_true in Hane. congruence.
  - split; [exact Hr|].
    destruct (verificar_articulo_en_boe_casos ag id art w Hv) as (_ & _ & Hc).
    cbn zeta in Hc.
    destruct (Validator.existe
                (fst (Validator._verificar_articulo_en_boe ag id art w)))
      as [[|]|].
    + split; [now exists true|]. split; [|reflexivity].
      intros _. exists info, id. repeat split; try assumption.
      intros art' Ha'. rewrite Ha in Ha'. injection Ha' as <-.
      intros _ _. left. now destruct Hc.
    + split; [now exists false|]. split; [cbn; discriminate|].
      intros info' id' art' e Hi' Hb' _ Ha' _ _ He. exfalso.
      rewrite Hi in Hi'. injection Hi' as <-. rewrite Hb in Hb'.
      injection Hb' as <-. rewrite Ha in Ha'. injection Ha' as <-.
      destruct Hc as [Hc _]. congruence.
    + split; [now exists true|]. split; [|reflexivity].
      intros _. exists info, id. repeat split; try assumption.
      intros art' Ha'. rewrite Ha in Ha'. injection Ha' as <-.
      intros _ _. destruct Hc as [[Hc|Hc] _]; [now right|now left].
Qed.

(** X9.  Validating one reference makes the BOE downloader send at most
    two requests, and at most one when the cache can be written.  The
    downloader sends none, and its cache stays as it was, when the law or
    its BOE id is not found, when the reference names no article, when
    article verification is disabled, and when the validation fails.  The
    requests of the law search, which belongs to another module, are not
    counted. *)
Theorem X9_peticiones_por_referencia (ag : Validator.Agente) (ref : Referencia)
        (w : BOEDownloader.Mundo) :
  let w' := snd (Validator._validar_referencia ag ref w) in
  (BOEDownloader.peticiones w <= BOEDownloader.peticiones w' <= BOEDownloader.peticiones w + 2)%nat
  /\ ((forall id, BOEDownloader.escritura_posible (Validator.downloader ag) id = true) ->
      (BOEDownloader.peticiones w' <= BOEDownloader.peticiones w + 1)%nat)
  /\ (Validator.verificar_articulos ag = false -> w' = w)
  /\ (verdadero (articulo ref) = false -> w' = w)
  /\ ((forall info, Validator._extraer_info_ley ref = Ok (Some info) ->
                    verdadero (Validator._buscar_boe_id ag info) = false) -> w' = w)
  /\ (forall e, fst (Validator._validar_referencia ag ref w) = Raise e -> w' = w).
Proof.
  cbn zeta.
  destruct (validar_referencia_casos ag ref w)
    as [(e & Hi & E)
       |[[Hno (val & E)]
        |[(info & id & val & Hi & Hb & Hne & Hor & E)
         |(info & id & art & val & Hi & Hb & Hne & Ha & Hane & Hv & E)]]];
    cbn zeta in E; rewrite E; cbn [fst snd].
  - repeat split; auto; lia.
  - repeat split; auto; lia.
  - repeat split; auto; lia.
  - destruct (verificar_articulo_en_boe_casos ag id art w Hv) as (H1 & H2 & _).
    cbn zeta in H1, H2.
    assert (Hart : verdadero (articulo ref) = true).
    { rewrite Ha. cbn. now apply no_vacia_true. }
    assert (Hid : verdadero (Validator._buscar_boe_id ag info) = true).
    { rewrite Hb. cbn. now apply no_vacia_true. }
    split; [exact H1|]. split; [intros Hesc; apply H2, Hesc|].
    split; [congruence|]. split; [congruence|]. split; [|discriminate].
    intros Hno. specialize (Hno info Hi). congruence.
Qed.

(** Article 138 of the Penal Code costs one request when the cache can be
    written and two when it cannot. *)
Lemma X9_peticiones_por_referencia_witness :
  BOEDownloader.peticiones
    (snd (Validator._validar_referencia Escenarios.validador_en_linea
            Escenarios.ref_cp_138 Escenarios.mundo_inicial)) = 1%nat
  /\ BOEDownloader.peticiones
       (snd (Validator._validar_referencia Escenarios.validador_sin_disco
               Escenarios.ref_cp_138 Escenarios.mundo_inicial)) = 2%nat
  /\ (BOEDownloader.peticiones
        (snd (Validator._validar_referencia Escenarios.validador_sin_disco
                Escenarios.ref_cp_138 Escenarios.mundo_inicial))
      <= BOEDownloader.peticiones Escenarios.mundo_inicial + 2)%nat.
Proof.
  split; [vm_compute; reflexivity|]. split; [vm_compute; reflexivity|].
  exact (proj2 (proj1 (X9_peticiones_por_referencia Escenarios.validador_sin_disco
                         Escenarios.ref_cp_138 Escenarios.mundo_inicial))).
Defined.

(** X10.  The validator writes four keys and no other: [boe_id],
    [_validada], [texto_oficial_boe] and [_metadata_validacion].  The
    text, the kind, the law and its normalized forms, the article, the
    confidence, the context marks and the provenance stamp of the
    reference it returns are those of the reference it was given. *)
Theorem X10_validador_conserva_la_referencia (ag : Validator.Agente)
        (ref r : Referencia) (w : BOEDownloader.Mundo) :
  fst (Validator._validar_referencia ag ref w) = Ok r ->
  texto_completo r = texto_completo ref
  /\ texto r = texto ref
  /\ tipo r = tipo ref
  /\ ley r = ley ref
  /\ articulo r = articulo ref
  /\ confianza r = confianza ref
  /\ ley_normalizada r = ley_normalizada ref
  /\ ley_titulo_completo r = ley_titulo_completo ref
  /\ _contexto_resuelto r = _contexto_resuelto ref
  /\ _razonamiento_contexto r = _razonamiento_contexto ref
  /\ _metadata r = _metadata ref
  /\ campo_texto_completo r = campo_texto_completo ref
  /\ campo_confianza r = campo_confianza ref.
Proof.
  destruct (validar_referencia_casos ag ref w)
    as [(e & Hi & E)
       |[[Hno (val & E)]
        |[(info & id & val & Hi & Hb & Hne & Hor & E)
         |(info & id & art & val & Hi & Hb & Hne & Ha & Hane & Hv & E)]]];
    cbn zeta in E; rewrite E; cbn [fst]; intros [= <-];
    [now repeat split|now repeat split|].
  destruct (Validator.existe _) as [[|]|]; now repeat split.
Qed.

Lemma X10_validador_conserva_la_referencia_witness :
  exists r,
    fst (Validator._validar_referencia Escenarios.validador_en_linea
           Escenarios.ref_cp_138 Escenarios.mundo_inicial) = Ok r
    /\ confianza r = Some 95
    /\ articulo r = Some "138"
    /\ boe_id r = Some "BOE-A-1995-25444".
Proof.
  eexists. split; [vm_compute; reflexivity|].
  destruct (X10_validador_conserva_la_referencia Escenarios.validador_en_linea
              Escenarios.ref_cp_138 _ Escenarios.mundo_inicial eq_refl)
    as (_ & _ & _ & _ & Ha & Hc & _).
  split; [exact Hc|]. split; [exact Ha|reflexivity].
Defined.

(** X11.  [ValidatorAgent.procesar] fails on the empty list, with the
    [ZeroDivisionError] of its log line, and on a list with a reference
    that names no law and has a [null] text, with the [TypeError] of
    [_validar_referencia]; on any other list it returns one validated
    reference per input reference, in the same order. *)
Theorem X11_procesar_del_validador (ag : Validator.Agente)
        (refs : list Referencia) (w : BOEDownloader.Mundo) :
  match fst (Validator.procesar ag refs w) with
  | Raise e =>
      (refs = [] /\ e = ZeroDivisionError)
      \/ (e = TypeError
          /\ Exists (fun r =>
                       verdadero (o_bien (ley_normalizada r) (ley r)) = false
                       /\ campo_texto_completo r = Nulo) refs)
  | Ok validadas =>
      refs <> []
      /\ Forall (fun r =>
                   verdadero (o_bien (ley_normalizada r) (ley r)) = true
                   \/ campo_texto_completo r <> Nulo) refs
      /\ Forall2 (fun r v =>
                    exists w0, fst (Validator._validar_referencia ag r w0) = Ok v)
                 refs validadas
  end.
Proof.
  unfold Validator.procesar.
  pose proof (validar_todas_una_a_una ag refs w) as H.
  destruct (Validator.validar_todas ag refs w) as [[vs|e] w1]; cbn [fst] in *.
  - destruct refs as [|r refs]; cbn [fst]; [left; now split|].
    split; [discriminate|]. split; [|exact H].
    clear -H. induction H as [|x v l vs (w0 & Hx) _ IH]; constructor; [|exact IH].
    pose proof (validar_referencia_raise ag x w0) as Hr. now rewrite Hx in Hr.
  - right. apply Exists_exists in H as (r & Hin & w0 & Hr).
    pose proof (validar_referencia_raise ag r w0) as Hc. rewrite Hr in Hc.
    destruct Hc as (-> & Hl & Ht & _). split; [reflexivity|].
    apply Exists_exists. exists r. now repeat split.
Qed.

(** A list whose second reference has no law and a [null] text. *)
Example procesar_con_texto_nulo :
  fst (Validator.procesar Escenarios.validador_en_linea
         [Escenarios.ref_cp_138; set_texto_completo Nulo ref_vacia]
         Escenarios.mundo_inicial) = Raise TypeError.
Proof. vm_compute. reflexivity. Qed.

(* ===================================================================== *)
(** ** The BOE downloader and its cache *)
(* ===================================================================== *)

(** X12.  A law that [descargar_ley] returned is served from the cache
    afterwards, when the cache file could be written: the next call
    returns the same id, articles and URL, marked as cached, and sends no
    request. *)
Theorem X12_descarga_y_relectura (env : BOEDownloader.Entorno) (id : string)
        (w w1 : BOEDownloader.Mundo) (d : BOEDownloader.LeyData) :
  BOEDownloader.escritura_posible env id = true ->
  BOEDownloader.descargar_ley env id false w = (Ok (Some d), w1) ->
  BOEDownloader.descargar_ley env id false w1
  = (Ok (Some {| BOEDownloader.ld_boe_id := BOEDownloader.ld_boe_id d;
                 BOEDownloader.ld_articulos := BOEDownloader.ld_articulos d;
                 BOEDownloader.ld_cached := true;
                 BOEDownloader.ld_url := BOEDownloader.ld_url d |}), w1).
Proof.
  intros He Hd.
  destruct (descargar_ley_deja_en_cache env id w d w1 He Hd)
    as (He0 & d0 & Hc & Ha & Hb & Hu).
  rewrite (descargar_ley_en_cache env id w1 d0 He0 Hc). now rewrite Ha, Hb, Hu.
Qed.

Lemma X12_descarga_y_relectura_witness :
  exists d w1,
    BOEDownloader.descargar_ley Escenarios.boe_en_linea "BOE-A-1995-25444" false
      Escenarios.mundo_inicial = (Ok (Some d), w1)
    /\ BOEDownloader.ld_cached d = false
    /\ BOEDownloader.peticiones w1 = 1%nat
    /\ BOEDownloader.descargar_ley Escenarios.boe_en_linea "BOE-A-1995-25444" false w1
       = (Ok (Some {| BOEDownloader.ld_boe_id := BOEDownloader.ld_boe_id d;
                      BOEDownloader.ld_articulos := BOEDownloader.ld_articulos d;
                      BOEDownloader.ld_cached := true;
                      BOEDownloader.ld_url := BOEDownloader.ld_url d |}), w1).
Proof.
  eexists _, _. split; [reflexivity|]. split; [reflexivity|].
  split; [reflexivity|].
  apply (X12_descarga_y_relectura Escenarios.boe_en_linea "BOE-A-1995-25444"
           Escenarios.mundo_inicial); reflexivity.
Defined.

(** X13.  One call of [descargar_ley] sends at most one request and
    touches no cache entry but that of the law asked for.  A call that
    returns nothing has sent exactly one request and has cached nothing;
    without [force_refresh], a law that is cached is returned without any
    request, unless its cache file cannot be examined: the call then
    fails with that [OSError], as it does whenever it fails, and has sent
    no request. *)
Theorem X13_descargar_ley_y_la_cache (env : BOEDownloader.Entorno) (id : string)
        (force_refresh : bool) (w : BOEDownloader.Mundo) :
  let r := fst (BOEDownloader.descargar_ley env id force_refresh w) in
  let w1 := snd (BOEDownloader.descargar_ley env id force_refresh w) in
  (BOEDownloader.peticiones w <= BOEDownloader.peticiones w1
   <= S (BOEDownloader.peticiones w))%nat
  /\ (forall otra, otra <> id ->
        BOEDownloader.cache w1 !! otra = BOEDownloader.cache w !! otra)
  /\ (r = Ok None ->
      BOEDownloader.cache w1 = BOEDownloader.cache w
      /\ BOEDownloader.peticiones w1 = S (BOEDownloader.peticiones w))
  /\ (force_refresh = false -> is_Some (BOEDownloader.cache w !! id) ->
      w1 = w
      /\ match BOEDownloader.error_de_cache env id with
         | None => exists d, r = Ok (Some d)
         | Some mensaje => r = Raise (OSError mensaje)
         end)
  /\ (forall e, r = Raise e ->
        w1 = w /\ force_refresh = false
        /\ exists mensaje, e = OSError mensaje
                           /\ BOEDownloader.error_de_cache env id = Some mensaje).
Proof.
  cbn zeta. split; [apply descargar_ley_peticiones|].
  split; [|split; [|split]].
  4:{ intros e He. destruct (descargar_ley_raise env id force_refresh w e He)
        as (Hf & Hm & Hee & Hw). repeat split; try assumption. eauto. }
  all: unfold BOEDownloader.descargar_ley, BOEDownloader._save_to_cache,
    BOEDownloader._get_from_cache.
  all: destruct force_refresh;
    [|destruct (BOEDownloader.error_de_cache env id) as [mensaje|];
      [|destruct (BOEDownloader.cache w !! id) as [d0|] eqn:Hc]].
  all: try (destruct (BOEDownloader.requests_get env _ _) as [m|st html];
            [|destruct (negb (st =? 200));
              [|destruct (BOEDownloader.escritura_posible env id)]]).
  all: cbn [fst snd BOEDownloader.cache BOEDownloader.peticiones].
  all: try (intros otra Ho; now rewrite ?lookup_insert_ne).
  all: try (intros H; try discriminate; now split).
  all: try discriminate.
  all: try (intros _ [x Hx]; discriminate).
  all: try (intros _ _; split; [reflexivity|eauto]).
Qed.
(* ===================================================================== *)
(** ** The article fetcher *)
(* ===================================================================== *)

Section FormasEnPalabras.
Import PyStr Fetcher.

Lemma palabras_generales_mil (n : Z) :
  1000 <= n -> palabras_generales n = Raise IndexError.
Proof.
  intros H. unfold palabras_generales. cbn zeta.
  assert (Hc : 10 <= n / 100) by (apply Z.div_le_lower_bound; lia).
  replace (0 <? n / 100) with true by (symmetry; apply Z.ltb_lt; lia).
  replace (n =? 100) with false by (symmetry; apply Z.eqb_neq; lia).
  unfold indexar at 1.
  replace (n / 100 <? 0) with false by (symmetry; apply Z.ltb_ge; lia).
  replace (0 <=? n / 100) with true by (symmetry; apply Z.leb_le; lia).
  replace (n / 100 <? Z.of_nat (length centenas)) with false
    by (symmetry; apply Z.ltb_ge; cbn; lia).
  reflexivity.
Qed.

(** Below 100, and below zero, only the remainder matters. *)
Lemma palabras_generales_resto (n : Z) :
  n / 100 <= 0 -> palabras_generales n = palabras_generales (n mod 100).
Proof.
  intros H. unfold palabras_generales. cbn zeta.
  rewrite Zmod_mod.
  assert (Hr : 0 <= n mod 100 < 100) by (apply Z.mod_pos_bound; lia).
  replace (n mod 100 / 100) with 0 by (symmetry; apply Z.div_small; lia).
  replace (0 <? n / 100) with false by (symmetry; apply Z.ltb_ge; lia).
  reflexivity.
Qed.

Lemma forma_con_a_hasta_999 (n : Z) :
  0 <= n <= 999 -> forma_con_a (_numero_a_palabras_lopj n) = true.
Proof.
  intros H.
  assert (Hc : todos_en_rango (fun k => forma_con_a (_numero_a_palabras_lopj k))
                              0 1000 = true)
    by (vm_compute; reflexivity).
  apply (todos_en_rango_spec _ _ _ n) in Hc; [assumption|lia].
Qed.

Lemma forma_con_a_resto (m : Z) :
  0 <= m < 100 -> forma_con_a (palabras_generales m) = true.
Proof.
  intros H.
  assert (Hc : todos_en_rango (fun k => forma_con_a (palabras_generales k))
                              0 100 = true)
    by (vm_compute; reflexivity).
  apply (todos_en_rango_spec _ _ _ m) in Hc; [assumption|lia].
Qed.

Lemma forma_con_a_negativo (n : Z) :
  n < 0 -> forma_con_a (_numero_a_palabras_lopj n) = true.
Proof.
  intros H. unfold _numero_a_palabras_lopj.
  replace (n =? 0) with false by (symmetry; apply Z.eqb_neq; lia).
  replace (n <? 10) with true by (symmetry; apply Z.ltb_lt; lia).
  cbn [asociado ordinales_lopj].
  repeat match goal with
         | |- context [n =? ?k] =>
             replace (n =? k) with false by (symmetry; apply Z.eqb_neq; lia)
         end.
  rewrite palabras_generales_resto.
  - apply forma_con_a_resto. apply Z.mod_pos_bound. lia.
  - assert (n / 100 < 0) by (apply Z.div_lt_upper_bound; lia). lia.
Qed.

Lemma patrones_id_raise (b1 b2 s : string) (e : excepcion) :
  patrones_id b1 s = Raise e -> patrones_id b2 s = Raise e.
Proof.
  unfold patrones_id. cbv zeta.
  generalize (antes_de "." (_normalizar_numero_articulo s)). intros num_base.
  destruct (py_int num_base) as [num_int|]; [|discriminate].
  destruct (_numero_a_palabras_lopj num_int) as [palabra|e']; [discriminate|].
  exact (fun H => H).
Qed.

Lemma patrones_id_sin_forma (n : Z) (id_bloque : string) :
  articulo_sin_forma n = true ->
  patrones_id id_bloque (str_of_Z n) = Raise IndexError.
Proof.
  unfold articulo_sin_forma. intros H. apply bool_decide_eq_true in H.
  exact (patrones_id_raise "" id_bloque (str_of_Z n) IndexError H).
Qed.

Lemma articulo_sin_forma_desde_mil (n : Z) :
  1000 <= n <= 9999 -> articulo_sin_forma n = true.
Proof.
  intros H.
  assert (Hc : todos_en_rango articulo_sin_forma 1000 9000 = true)
    by (vm_compute; reflexivity).
  apply (todos_en_rango_spec _ _ _ n) in Hc; [assumption|lia].
Qed.

Lemma aparece_false (x : Exc string) (l : list (Exc string)) :
  aparece x l = false -> x ∉ l.
Proof.
  induction l as [|y l IH]; cbn [aparece]; intros H Hin; [inversion Hin|].
  apply orb_false_iff in H as [Hxy Hl].
  apply elem_of_cons in Hin as [<-|Hin]; [|now apply IH].
  destruct x as [a|e]; [|discriminate].
  now rewrite String.eqb_refl in Hxy.
Qed.

Lemma sin_repetidos_NoDup (l : list (Exc string)) :
  sin_repetidos l = true -> NoDup l.
Proof.
  induction l as [|x l IH]; cbn [sin_repetidos]; intros H; [constructor|].
  apply andb_true_iff in H as [Hx Hl]. apply negb_true_iff in Hx.
  constructor; [now apply aparece_false|now apply IH].
Qed.

Lemma formas_lopj_lookup (k : nat) :
  (k < 1000)%nat ->
  formas_lopj !! k = Some (_numero_a_palabras_lopj (Z.of_nat k)).
Proof.
  intros H. unfold formas_lopj.
  change (List.map ?f ?l) with (f <$> l).
  rewrite list_lookup_fmap, lookup_seq_lt by assumption. reflexivity.
Qed.

(** The base of a sub-point has neither a dot nor a closing parenthesis. *)
Lemma contiene_antes_de (c : ascii) (s : string) :
  contiene (String c "") (antes_de c s) = false.
Proof.
  induction s as [|x s IH]; [reflexivity|].
  cbn [antes_de]. destruct (codigo x =? codigo c)%N eqn:E; [reflexivity|].
  cbn [contiene String.prefix]. rewrite IH.
  destruct (ascii_dec c x) as [->|_]; [|reflexivity].
  apply N.eqb_neq in E. contradiction.
Qed.

Lemma contiene_antes_de_otro (c sep : ascii) (s : string) :
  contiene (String c "") s = false ->
  contiene (String c "") (antes_de sep s) = false.
Proof.
  induction s as [|x s IH]; [reflexivity|].
  cbn [contiene String.prefix]. intros H.
  apply orb_false_iff in H as [Hp Hs].
  cbn [antes_de]. destruct (codigo x =? codigo sep)%N; [reflexivity|].
  cbn [contiene String.prefix]. rewrite (IH Hs).
  destruct (ascii_dec c x); [|reflexivity].
  destruct s; cbn in Hp; discriminate.
Qed.

Lemma articulo_base_sin_separadores (s : string) :
  contiene "." (articulo_base s) || contiene ")" (articulo_base s) = false.
Proof.
  unfold articulo_base. apply orb_false_iff. split.
  - apply contiene_antes_de_otro. apply contiene_antes_de.
  - apply contiene_antes_de.
Qed.

(** Two levels of nesting are all [obtener_articulo] ever uses. *)
Lemma obtener_articulo_profundidad (p : nat)
      (indice : string -> string -> Exc (option Articulo))
      (env : Entorno) (id numero : string) :
  obtener_articulo (S (S p)) indice env id numero
  = obtener_articulo 2 indice env id numero.
Proof.
  cbn [obtener_articulo].
  rewrite (articulo_base_sin_separadores numero). reflexivity.
Qed.

End FormasEnPalabras.

(** X14.  [_numero_a_palabras_lopj] has a word form exactly for the
    integers below 1000: from 1000 on it raises [IndexError] (the
    hundreds table has ten entries), and for every smaller integer,
    negative ones included, it returns an id that starts with "a". *)
Theorem X14_forma_en_palabras_hasta_999 (n : Z) :
  (1000 <= n -> Fetcher._numero_a_palabras_lopj n = Raise IndexError)
  /\ (n < 1000 ->
      exists palabra, Fetcher._numero_a_palabras_lopj n = Ok palabra
                      /\ PyStr.startswith "a" palabra = true).
Proof.
  split.
  - intros H. unfold Fetcher._numero_a_palabras_lopj.
    replace (n =? 0) with false by (symmetry; apply Z.eqb_neq; lia).
    replace (n <? 10) with false by (symmetry; apply Z.ltb_ge; lia).
    now apply palabras_generales_mil.
  - intros H.
    assert (Hf : forma_con_a (Fetcher._numero_a_palabras_lopj n) = true).
    { destruct (Z_lt_le_dec n 0).
      - now apply forma_con_a_negativo.
      - apply forma_con_a_hasta_999. lia. }
    destruct (Fetcher._numero_a_palabras_lopj n) as [palabra|e]; [|discriminate].
    now exists palabra.
Qed.

(** X15.  For an article numbered 1000 to 9999 nothing is fetched: the
    [IndexError] of the word form leaves [_intentar_descarga_directa]
    before the first block is requested, and [obtener_articulo] turns it
    into [None] without consulting the index, whatever the index and the
    BOE API would have answered. *)
Theorem X15_articulos_desde_mil (n : Z) (profundidad : nat)
        (indice : string -> string -> Exc (option Fetcher.Articulo))
        (env : Fetcher.Entorno) (id id_bloque : string) :
  1000 <= n <= 9999 ->
  Fetcher._intentar_descarga_directa env id id_bloque (PyStr.str_of_Z n)
  = Raise IndexError
  /\ Fetcher.obtener_articulo profundidad indice env id (PyStr.str_of_Z n) = None.
Proof.
  intros H. apply articulo_sin_forma_desde_mil in H.
  assert (Hd : forall b, Fetcher._intentar_descarga_directa env id b (PyStr.str_of_Z n)
                         = Raise IndexError).
  { intros b. unfold Fetcher._intentar_descarga_directa.
    now rewrite (patrones_id_sin_forma n b H). }
  split; [apply Hd|].
  destruct profundidad as [|p]; [reflexivity|].
  cbn [Fetcher.obtener_articulo]. now rewrite Hd.
Qed.

Lemma X15_articulos_desde_mil_witness :
  Fetcher._intentar_descarga_directa Escenarios.api_lopj "BOE-A-1889-4763"
    "a1902" (PyStr.str_of_Z 1902) = Raise IndexError
  /\ Fetcher.obtener_articulo 2 (fun _ _ => Ok None) Escenarios.api_lopj
       "BOE-A-1889-4763" (PyStr.str_of_Z 1902) = None.
Proof.
  apply (X15_articulos_desde_mil 1902 2 (fun _ _ => Ok None) Escenarios.api_lopj
           "BOE-A-1889-4763" "a1902").
  lia.
Defined.

(** X16.  On 0 to 999 the word forms are pairwise different: two article
    numbers never share a word-form block id. *)
Theorem X16_formas_en_palabras_distintas (n m : Z) :
  0 <= n <= 999 -> 0 <= m <= 999 -> n <> m ->
  Fetcher._numero_a_palabras_lopj n <> Fetcher._numero_a_palabras_lopj m.
Proof.
  intros Hn Hm Hne He. apply Hne.
  assert (Hnd : NoDup formas_lopj).
  { apply sin_repetidos_NoDup. vm_compute. reflexivity. }
  pose proof (formas_lopj_lookup (Z.to_nat n) ltac:(lia)) as H1.
  pose proof (formas_lopj_lookup (Z.to_nat m) ltac:(lia)) as H2.
  rewrite Z2Nat.id in H1, H2 by lia. rewrite He in H1.
  pose proof (NoDup_lookup _ _ _ _ Hnd H1 H2). lia.
Qed.

Lemma X16_formas_en_palabras_distintas_witness :
  Fetcher._numero_a_palabras_lopj 17 = Ok "adiecisiete"
  /\ Fetcher._numero_a_palabras_lopj 117 = Ok "acientodiecisiete"
  /\ Fetcher._numero_a_palabras_lopj 17 <> Fetcher._numero_a_palabras_lopj 117.
Proof.
  split; [vm_compute; reflexivity|]. split; [vm_compute; reflexivity|].
  apply (X16_formas_en_palabras_distintas 17 117); lia.
Defined.

(** X17.  [_normalizar_numero_articulo] removes "Art. " and "art " in
    front of a number but not "artículo ": the alternative [art\.?] of the
    prefix pattern matches first, so "artículo 14" becomes "ículo 14",
    and the direct attempt then asks for the blocks "aículo 14" and
    "artículo 14", with and without "bis", and for no word form. *)
Theorem X17_prefijo_articulo (n : Z) (id_bloque : string) :
  0 <= n <= 999 ->
  let s := PyStr.str_of_Z n in
  Fetcher._normalizar_numero_articulo ("artículo " +:+ s) = "ículo " +:+ s
  /\ Fetcher._normalizar_numero_articulo ("Artículo " +:+ s) = "ículo " +:+ s
  /\ Fetcher._normalizar_numero_articulo ("Art. " +:+ s) = s
  /\ Fetcher._normalizar_numero_articulo ("art " +:+ s) = s
  /\ Fetcher._normalizar_numero_articulo s = s
  /\ Fetcher.patrones_id id_bloque ("artículo " +:+ s)
     = Ok ["aículo " +:+ s; "artículo " +:+ s; "aículo " +:+ s +:+ "bis";
           "artículo " +:+ s +:+ "bis"; id_bloque].
Proof.
  intros H. cbn zeta.
  assert (Hc : todos_en_rango prefijos_de_articulo 0 1000 = true)
    by (vm_compute; reflexivity).
  apply (todos_en_rango_spec _ _ _ n) in Hc; [|lia].
  unfold prefijos_de_articulo in Hc. cbn zeta in Hc.
  apply andb_true_iff in Hc as [Hc Hint]. apply bool_decide_eq_true in Hint.
  apply andb_true_iff in Hc as [Hc Hbase]. apply String.eqb_eq in Hbase.
  apply andb_true_iff in Hc as [Hc H5]. apply String.eqb_eq in H5.
  apply andb_true_iff in Hc as [Hc H4]. apply String.eqb_eq in H4.
  apply andb_true_iff in Hc as [Hc H3]. apply String.eqb_eq in H3.
  apply andb_true_iff in Hc as [H1 H2].
  apply String.eqb_eq in H1. apply String.eqb_eq in H2.
  repeat (split; [assumption|]).
  unfold Fetcher.patrones_id. cbv zeta. rewrite H1, Hbase, Hint. reflexivity.
Qed.

Lemma X17_prefijo_articulo_witness :
  PyStr.str_of_Z 14 = "14"
  /\ Fetcher._normalizar_numero_articulo ("artículo " +:+ PyStr.str_of_Z 14)
     = "ículo " +:+ PyStr.str_of_Z 14
  /\ Fetcher._normalizar_numero_articulo ("Art. " +:+ PyStr.str_of_Z 14)
     = PyStr.str_of_Z 14.
Proof.
  split; [reflexivity|].
  pose proof (X17_prefijo_articulo 14 "a14" ltac:(lia)) as H.
  cbn zeta in H. destruct H as (H1 & _ & H3 & _). now split.
Defined.

(* ===================================================================== *)
(** ** CELEX identifiers *)
(* ===================================================================== *)

Section CelexExtra.
Import PyStr Eurlex.

Lemma parsear_generar (tipo : string) (anio numero : Z) :
  tipo ∈ ["R"; "L"; "D"] -> 1000 <= anio <= 9999 -> 0 <= numero ->
  parsear_celex (generar_celex tipo anio numero) = Some (tipo, anio, numero).
Proof.
  intros Ht Ha Hn. rewrite generar_celex_tipo_valido by assumption.
  apply parsear_celex_de_partes; auto.
  - now apply longitud_anio.
  - apply valor_digitos_str_of_Z. lia.
  - now apply valor_formato_04d.
  - now apply longitud_formato_04d.
Qed.

Lemma longitud_tipo (tipo : string) :
  tipo ∈ ["R"; "L"; "D"] -> String.length tipo = 1%nat.
Proof.
  intros Ht. repeat (apply elem_of_cons in Ht as [-> | Ht]); try reflexivity.
  now apply elem_of_nil in Ht.
Qed.

End CelexExtra.

(** X18.  On the kinds R, L and D and four-digit years, [generar_celex]
    gives different identifiers to different acts, and an identifier of
    exactly ten characters when the act number is below 10000. *)
Theorem X18_celex_distintos (tipo1 tipo2 : string) (anio1 anio2 numero1 numero2 : Z) :
  tipo1 ∈ ["R"; "L"; "D"] -> tipo2 ∈ ["R"; "L"; "D"] ->
  1000 <= anio1 <= 9999 -> 1000 <= anio2 <= 9999 ->
  0 <= numero1 -> 0 <= numero2 ->
  (Eurlex.generar_celex tipo1 anio1 numero1 = Eurlex.generar_celex tipo2 anio2 numero2 ->
   tipo1 = tipo2 /\ anio1 = anio2 /\ numero1 = numero2)
  /\ (numero1 <= 9999 ->
      String.length (Eurlex.generar_celex tipo1 anio1 numero1) = 10%nat).
Proof.
  intros Ht1 Ht2 Ha1 Ha2 Hn1 Hn2. split.
  - intros He.
    pose proof (parsear_generar tipo1 anio1 numero1 Ht1 Ha1 Hn1) as H1.
    pose proof (parsear_generar tipo2 anio2 numero2 Ht2 Ha2 Hn2) as H2.
    rewrite He, H2 in H1. inversion H1. now repeat split.
  - intros Hn. rewrite generar_celex_tipo_valido by assumption.
    rewrite !longitud_append.
    rewrite (longitud_anio anio1 Ha1), (longitud_tipo tipo1 Ht1).
    rewrite longitud_formato_04d_corto by lia. reflexivity.
Qed.

Lemma X18_celex_distintos_witness :
  Eurlex.generar_celex "R" 2016 679 = "32016R0679"
  /\ Eurlex.generar_celex "L" 2016 679 = "32016L0679"
  /\ (Eurlex.generar_celex "R" 2016 679 = Eurlex.generar_celex "L" 2016 679 ->
      "R" = "L" /\ 2016 = 2016 /\ 679 = 679)
  /\ String.length (Eurlex.generar_celex "R" 2016 679) = 10%nat.
Proof.
  split; [vm_compute; reflexivity|]. split; [vm_compute; reflexivity|].
  assert (Hr : "R" ∈ ["R"; "L"; "D"]) by (apply elem_of_cons; now left).
  assert (Hl : "L" ∈ ["R"; "L"; "D"])
    by (apply elem_of_cons; right; apply elem_of_cons; now left).
  destruct (X18_celex_distintos "R" "L" 2016 2016 679 679 Hr Hl
              ltac:(lia) ltac:(lia) ltac:(lia) ltac:(lia)) as [H1 H2].
  split; [exact H1|]. apply H2. lia.
Defined.

(* ===================================================================== *)
(** ** The parallel stages of the orchestrator *)
(* ===================================================================== *)

Section ParaleloExtra.
Import Pipeline.
Variable et : Etapas.

Lemma concat_Permutation {A : Type} (l1 l2 : list (list A)) :
  l1 ≡ₚ l2 -> concat l1 ≡ₚ concat l2.
Proof.
  induction 1 as [|x l1 l2 _ IH|x y l|l1 l2 l3 _ IH1 _ IH2]; cbn.
  - reflexivity.
  - now rewrite IH.
  - rewrite !app_assoc. f_equiv. apply Permutation_app_comm.
  - now rewrite IH1.
Qed.

(** The fold of [_normalizar_paralelo] appends the contributions of the
    batches in the order in which they complete. *)
Lemma recoger_batches (batches : list (list Referencia)) (orden : list nat)
      (acumuladas : list Referencia) :
  fold_left (recoger_batch et batches) orden acumuladas
  = acumuladas ++ concat (List.map (aporte_del_lote et batches) orden).
Proof.
  revert acumuladas. induction orden as [|idx orden IH]; intros acumuladas; cbn.
  - now rewrite app_nil_r.
  - rewrite IH. unfold recoger_batch, aporte_del_lote.
    destruct (batches !! idx) as [batch|]; [|reflexivity].
    destruct (_normalizar_batch et batch) as [r|e]; cbn.
    + now rewrite app_assoc.
    + reflexivity.
Qed.

Lemma trocear_concat (n batch_size : nat) (refs : list Referencia) :
  (0 < batch_size)%nat -> (length refs <= n)%nat ->
  concat (trocear n batch_size refs) = refs.
Proof.
  intros Hb. revert refs.
  induction n as [|n IH]; intros refs Hn.
  - destruct refs; [reflexivity|cbn in Hn; lia].
  - destruct refs as [|r refs]; [reflexivity|].
    cbn [trocear concat]. rewrite IH.
    + apply take_drop.
    + rewrite length_drop. cbn [length] in *. lia.
Qed.

Lemma trocear_elem (n batch_size : nat) (refs batch : list Referencia) (r : Referencia) :
  batch ∈ trocear n batch_size refs -> r ∈ batch -> r ∈ refs.
Proof.
  revert refs. induction n as [|n IH]; intros refs Hb Hr.
  - destruct refs; inversion Hb.
  - destruct refs as [|x refs]; [inversion Hb|].
    cbn [trocear] in Hb. apply elem_of_cons in Hb as [->|Hb].
    + eapply elem_of_sublist; [exact Hr|]. apply sublist_take.
    + specialize (IH _ Hb Hr).
      eapply elem_of_sublist; [exact IH|]. apply sublist_drop.
Qed.

Lemma aportes_en_orden (f : list Referencia -> list Referencia)
      (batches : list (list Referencia)) :
  (forall i batch, batches !! i = Some batch ->
                   aporte_del_lote et batches i = f batch) ->
  List.map (aporte_del_lote et batches) (seq 0 (length batches))
  = List.map f batches.
Proof.
  intros H. apply list_eq. intros i.
  change (List.map ?g ?l) with (g <$> l). rewrite !list_lookup_fmap.
  destruct (batches !! i) as [batch|] eqn:Hi.
  - rewrite lookup_seq_lt by (now apply lookup_lt_Some in Hi).
    cbn. now rewrite (H i batch Hi).
  - rewrite lookup_seq_ge by (now apply lookup_ge_None in Hi). reflexivity.
Qed.

Lemma concat_map_map {A B : Type} (g : A -> B) (ls : list (list A)) :
  concat (List.map (List.map g) ls) = List.map g (concat ls).
Proof.
  induction ls as [|l ls IH]; [reflexivity|].
  cbn. now rewrite IH, List.map_app.
Qed.

Lemma exc_mapM_raise {A B : Type} (f : A -> Exc B) (l : list A) (a : A)
      (e : excepcion) :
  a ∈ l -> f a = Raise e -> exists e', exc_mapM f l = Raise e'.
Proof.
  intros Ha He. induction l as [|x l IH]; [inversion Ha|].
  cbn [exc_mapM]. apply elem_of_cons in Ha as [<-|Ha].
  - rewrite He. now exists e.
  - destruct (f x) as [y|e0]; [|now exists e0].
    destruct (IH Ha) as [e' ->]. now exists e'.
Qed.

Lemma normalizar_paralelo_formula (max_workers : Z) (orden : list nat)
      (refs : list Referencia) :
  (5 <= length refs)%nat -> 0 < max_workers ->
  _normalizar_paralelo et max_workers orden refs
  = Ok (concat (List.map (aporte_del_lote et (lotes max_workers refs)) orden)).
Proof.
  intros Hn Hw. unfold _normalizar_paralelo.
  replace (length refs <? 5)%nat with false by (symmetry; apply Nat.ltb_ge; lia).
  replace (max_workers =? 0) with false by (symmetry; apply Z.eqb_neq; lia).
  replace (max_workers <=? 0) with false by (symmetry; apply Z.leb_gt; lia).
  cbv zeta. now rewrite recoger_batches.
Qed.

End ParaleloExtra.

(** X19.  [_validar_paralelo] returns, for every order in which the
    validation tasks complete, exactly one result per reference and in
    input order: position [i] holds what [_validar_referencia] returned
    for the [i]-th reference, or that reference itself when the task
    raised. *)
Theorem X19_validar_paralelo_en_orden_de_entrada (et : Pipeline.Etapas)
        (max_workers : Z) (orden : list nat) (refs : list Referencia) :
  (5 <= length refs)%nat ->
  0 < max_workers ->
  orden ≡ₚ seq 0 (length refs) ->
  exists salida,
    Pipeline._validar_paralelo et max_workers orden refs = Ok salida
    /\ length salida = length refs
    /\ forall i r, refs !! i = Some r ->
         salida !! i = Some (match Pipeline._validar_referencia et r with
                             | Ok validada => validada
                             | Raise _ => r
                             end).
Proof.
  intros Hn Hw Hp. eexists. split; [now apply validar_paralelo_en_orden|].
  split; [apply length_map|].
  intros i r Hi. change (List.map ?g ?l) with (g <$> l).
  rewrite list_lookup_fmap, Hi. reflexivity.
Qed.

Lemma X19_validar_paralelo_en_orden_de_entrada_witness :
  exists salida,
    Pipeline._validar_paralelo Escenarios.etapas_marcadoras 4
      [5; 1; 0; 7; 2; 3; 6; 4]%nat Escenarios.ocho_referencias = Ok salida
    /\ length salida = length Escenarios.ocho_referencias
    /\ List.map ley salida = List.map ley Escenarios.ocho_referencias.
Proof.
  destruct (X19_validar_paralelo_en_orden_de_entrada Escenarios.etapas_marcadoras 4
              [5; 1; 0; 7; 2; 3; 6; 4]%nat Escenarios.ocho_referencias)
    as (salida & Hs & Hl & _).
  - cbn. lia.
  - lia.
  - apply (bool_decide_eq_true_1 _). vm_compute. reflexivity.
  - exists salida. split; [exact Hs|]. split; [exact Hl|].
    assert (He : Pipeline._validar_paralelo Escenarios.etapas_marcadoras 4
                   [5; 1; 0; 7; 2; 3; 6; 4]%nat Escenarios.ocho_referencias
                 = Ok (List.map (validada_o_original Escenarios.etapas_marcadoras)
                         Escenarios.ocho_referencias))
      by (vm_compute; reflexivity).
    rewrite He in Hs. inversion Hs. vm_compute. reflexivity.
Defined.

(** X20.  When no reference makes the normalizer raise,
    [_normalizar_paralelo] loses and duplicates nothing: for every order
    in which the batches complete its output is a permutation of the
    sequential normalization of the list, and it is that very list when
    the batches complete in the order in which they were submitted. *)
Theorem X20_normalizar_paralelo_sin_perdidas (et : Pipeline.Etapas)
        (max_workers : Z) (orden : list nat) (refs : list Referencia)
        (g : Referencia -> Referencia) :
  (5 <= length refs)%nat ->
  0 < max_workers ->
  (forall r, r ∈ refs -> Pipeline.normalizar_ref et r = Ok (g r)) ->
  orden ≡ₚ seq 0 (length (lotes max_workers refs)) ->
  exists salida,
    Pipeline._normalizar_paralelo et max_workers orden refs = Ok salida
    /\ salida ≡ₚ List.map g refs
    /\ (orden = seq 0 (length (lotes max_workers refs)) -> salida = List.map g refs).
Proof.
  intros Hn Hw Hok Hp.
  rewrite normalizar_paralelo_formula by assumption.
  eexists. split; [reflexivity|].
  assert (Hen : List.map (aporte_del_lote et (lotes max_workers refs))
                         (seq 0 (length (lotes max_workers refs)))
                = List.map (List.map g) (lotes max_workers refs)).
  { apply aportes_en_orden. intros i batch Hi.
    unfold aporte_del_lote. rewrite Hi.
    unfold Pipeline._normalizar_batch, Pipeline.procesar_normalizador.
    rewrite (exc_mapM_ok _ g); [reflexivity|].
    intros r Hr. apply Hok. apply list_elem_of_In in Hr.
    eapply trocear_elem; [|exact Hr].
    eapply list_elem_of_lookup_2. exact Hi. }
  assert (Hc : concat (List.map (List.map g) (lotes max_workers refs))
               = List.map g refs).
  { rewrite concat_map_map. f_equal. apply trocear_concat; lia. }
  split.
  - rewrite <- Hc, <- Hen. apply concat_Permutation.
    change (List.map ?f ?l) with (f <$> l). now rewrite Hp.
  - intros ->. now rewrite Hen.
Qed.

Lemma X20_normalizar_paralelo_sin_perdidas_witness :
  exists salida,
    Pipeline._normalizar_paralelo Escenarios.etapas_marcadoras 4 [1; 0; 2; 3]%nat
      Escenarios.ocho_referencias = Ok salida
    /\ salida ≡ₚ List.map (fun r => set_texto_oficial_boe (ley r) r)
                   Escenarios.ocho_referencias.
Proof.
  destruct (X20_normalizar_paralelo_sin_perdidas Escenarios.etapas_marcadoras 4
              [1; 0; 2; 3]%nat Escenarios.ocho_referencias
              (fun r => set_texto_oficial_boe (ley r) r))
    as (salida & Hs & Hp & _).
  - cbn. lia.
  - lia.
  - intros r _. reflexivity.
  - apply (bool_decide_eq_true_1 _). vm_compute. reflexivity.
  - exists salida. now split.
Defined.

(** X21.  A batch in which one reference makes the normalizer raise
    contributes nothing to the output of [_normalizar_paralelo]: the
    result is what it would be had that batch never completed, so the
    other references of the batch are lost with it. *)
Theorem X21_lote_fallido_se_pierde (et : Pipeline.Etapas)
        (max_workers : Z) (orden : list nat) (refs : list Referencia)
        (i : nat) (batch : list Referencia) (r : Referencia) (e : excepcion) :
  (5 <= length refs)%nat ->
  0 < max_workers ->
  lotes max_workers refs !! i = Some batch ->
  r ∈ batch ->
  Pipeline.normalizar_ref et r = Raise e ->
  Pipeline._normalizar_paralelo et max_workers orden refs
  = Pipeline._normalizar_paralelo et max_workers
      (List.filter (fun idx => negb (idx =? i)%nat) orden) refs.
Proof.
  intros Hn Hw Hi Hr He.
  rewrite !normalizar_paralelo_formula by assumption. f_equal.
  assert (Hnada : aporte_del_lote et (lotes max_workers refs) i = []).
  { unfold aporte_del_lote. rewrite Hi.
    unfold Pipeline._normalizar_batch, Pipeline.procesar_normalizador.
    destruct (exc_mapM_raise (Pipeline.normalizar_ref et) batch r e Hr He)
      as [e' ->].
    reflexivity. }
  induction orden as [|idx orden IH]; [reflexivity|].
  cbn [List.map List.filter concat].
  destruct (idx =? i)%nat eqn:E; cbn [negb].
  - apply Nat.eqb_eq in E. subst idx. rewrite Hnada. exact IH.
  - cbn [List.map concat]. now rewrite IH.
Qed.

(** Eight references in four batches of two; the normalizer fails on
    the third reference, and the fourth is lost with it. *)
Lemma X21_lote_fallido_se_pierde_witness :
  Pipeline._normalizar_paralelo Escenarios.etapas_con_fallo 4 [0; 1; 2; 3]%nat
    Escenarios.ocho_referencias
  = Pipeline._normalizar_paralelo Escenarios.etapas_con_fallo 4 [0; 2; 3]%nat
      Escenarios.ocho_referencias
  /\ exists salida,
       Pipeline._normalizar_paralelo Escenarios.etapas_con_fallo 4 [0; 1; 2; 3]%nat
         Escenarios.ocho_referencias = Ok salida
       /\ List.map ley salida
          = [Some "Ley 1/2000"; Some "Ley 2/2000"; Some "Ley 5/2000";
             Some "Ley 6/2000"; Some "Ley 7/2000"; Some "Ley 8/2000"].
Proof.
  split.
  - apply (X21_lote_fallido_se_pierde Escenarios.etapas_con_fallo 4 [0; 1; 2; 3]%nat
             Escenarios.ocho_referencias 1
             [mk_ref (Some "Ley 3/2000") (Some "Ley 3/2000") None (Some 100);
              mk_ref (Some "Ley 4/2000") (Some "Ley 4/2000") None (Some 100)]
             (mk_ref (Some "Ley 3/2000") (Some "Ley 3/2000") None (Some 100))
             (ErrorProveedor "429")).
    + cbn. lia.
    + lia.
    + vm_compute. reflexivity.
    + apply elem_of_cons. now left.
    + vm_compute. reflexivity.
  - eexists. split; vm_compute; reflexivity.
Defined.

(* ===================================================================== *)
(** ** The context resolver *)
(* ===================================================================== *)

Section ResolutorDeContexto.
Import PyStr ContextResolver ResolucionContexto.
Variable env : Entorno.
Variable texto_original : string.

Lemma registrar_texto_casos (ref : Referencia) :
  match registrar_texto ref with
  | Ok _ => campo_texto_completo ref <> Nulo
  | Raise e => e = TypeError /\ campo_texto_completo ref = Nulo
  end.
Proof.
  unfold registrar_texto. now destruct (campo_texto_completo ref).
Qed.

Lemma igual_salvo_refl (r : Referencia) : igual_salvo_ley_y_confianza r r.
Proof. now repeat split. Qed.

Lemma igual_salvo_trans (a b c : Referencia) :
  igual_salvo_ley_y_confianza a b -> igual_salvo_ley_y_confianza b c ->
  igual_salvo_ley_y_confianza a c.
Proof.
  unfold igual_salvo_ley_y_confianza. intros H1 H2.
  destruct H1 as (?&?&?&?&?&?&?&?&?&?&?), H2 as (?&?&?&?&?&?&?&?&?&?&?).
  repeat split; congruence.
Qed.

(** What the loop body of [_parsear_respuesta] writes. *)
Lemma actualizar_conserva (resoluciones : list Resolucion) (i : nat)
      (ref : Referencia) :
  igual_salvo_ley_y_confianza ref (actualizar resoluciones i ref)
  /\ (actualizar resoluciones i ref = ref
      \/ exists resolucion,
          buscar_resolucion resoluciones i = Some resolucion
          /\ verdadero (ley_identificada resolucion) = true
          /\ ley (actualizar resoluciones i ref) = ley_identificada resolucion
          /\ campo_confianza (actualizar resoluciones i ref)
             = campo_escrito (res_confianza resolucion) 90
          /\ _contexto_resuelto (actualizar resoluciones i ref) = Some true
          /\ _razonamiento_contexto (actualizar resoluciones i ref)
             = campo_get (campo_escrito (razonamiento resolucion) "")).
Proof.
  unfold actualizar.
  destruct (buscar_resolucion resoluciones i) as [res|];
    [|split; [now repeat split|now left]].
  destruct (verdadero (ley_identificada res)) eqn:Hl;
    [|split; [now repeat split|now left]].
  cbn [articulo ley set_contexto set_confianza set_ley].
  rewrite Hl. rewrite andb_false_r.
  split; [now repeat split|]. right. exists res. now repeat split.
Qed.

Lemma actualizar_resuelta (resoluciones : list Resolucion) (i : nat)
      (ref : Referencia) (resolucion : Resolucion) :
  buscar_resolucion resoluciones i = Some resolucion ->
  verdadero (ley_identificada resolucion) = true ->
  ley (actualizar resoluciones i ref) = ley_identificada resolucion
  /\ campo_confianza (actualizar resoluciones i ref)
     = campo_escrito (res_confianza resolucion) 90.
Proof.
  intros Hb Hl. unfold actualizar. rewrite Hb, Hl.
  cbn [articulo ley set_contexto set_confianza set_ley].
  rewrite Hl, andb_false_r. now split.
Qed.

(** The loop of [_parsear_respuesta]: it fails on the first [null] text,
    and otherwise updates every reference at its position. *)
Lemma actualizar_desde_casos (resoluciones : list Resolucion) (i : nat)
      (refs : list Referencia) :
  match actualizar_desde resoluciones i refs with
  | Ok actualizadas =>
      Forall con_texto_no_nulo refs
      /\ actualizadas = imap (fun k => actualizar resoluciones (i + k)) refs
  | Raise e =>
      e = TypeError /\ Exists (fun r => campo_texto_completo r = Nulo) refs
  end.
Proof.
  revert i. induction refs as [|r refs IH]; intros i; cbn [actualizar_desde].
  - now split.
  - unfold con_registro. pose proof (registrar_texto_casos r) as Hr.
    destruct (registrar_texto r) as [[]|e]; cbn [exc_bind].
    + specialize (IH (S i)).
      destruct (actualizar_desde resoluciones (S i) refs) as [l|e];
        cbn [exc_bind].
      * destruct IH as [Hf ->]. split; [now constructor|].
        cbn [imap]. rewrite Nat.add_0_r. f_equal.
        apply imap_ext. intros k x _. cbn. f_equal. lia.
      * destruct IH as [-> He]. split; [reflexivity|now apply Exists_cons_tl].
    + destruct Hr as [-> Hr]. split; [reflexivity|now apply Exists_cons_hd].
Qed.

Lemma parsear_respuesta_casos (respuesta : option (list Resolucion))
      (refs : list Referencia) :
  _parsear_respuesta respuesta refs = refs
  \/ exists resoluciones,
      respuesta = Some resoluciones
      /\ Forall con_texto_no_nulo refs
      /\ _parsear_respuesta respuesta refs
         = imap (fun k => actualizar resoluciones k) refs.
Proof.
  unfold _parsear_respuesta. destruct respuesta as [resoluciones|]; [|now left].
  pose proof (actualizar_desde_casos resoluciones 0 refs) as H.
  destruct (actualizar_desde resoluciones 0 refs) as [l|e]; cbn [try_except];
    [|now left].
  destruct H as [Hf ->]. right. exists resoluciones. now repeat split.
Qed.

Lemma tras_la_resolucion_refl (r : Referencia) : tras_la_resolucion env r r.
Proof. split; [apply igual_salvo_refl|now left]. Qed.

Lemma procesar_batch_conserva (batch : list Referencia) :
  Forall2 (tras_la_resolucion env) batch (procesar_batch env texto_original batch).
Proof.
  assert (Hrefl : Forall2 (tras_la_resolucion env) batch batch).
  { apply Forall_Forall2_diag, Forall_forall. intros; apply tras_la_resolucion_refl. }
  unfold procesar_batch.
  destruct (_extraer_contextos env batch texto_original) as [[|c cs]|e];
    cbn [exc_bind try_except]; try exact Hrefl.
  destruct (resolver env (c :: cs)) as [respuesta|e] eqn:Hres;
    cbn [exc_bind try_except]; try exact Hrefl.
  destruct (parsear_respuesta_casos respuesta batch)
    as [->|(resoluciones & -> & _ & ->)]; [exact Hrefl|].
  apply Forall2_same_length_lookup_2; [now rewrite length_imap|].
  intros i o u Ho Hu. rewrite list_lookup_imap, Ho in Hu.
  cbn in Hu. injection Hu as <-.
  destruct (actualizar_conserva resoluciones i o)
    as [Hi [He|(res & Hb & Hl & _ & Hc & _)]].
  - rewrite He. apply tras_la_resolucion_refl.
  - split; [exact Hi|]. right. exists resoluciones, i, res.
    repeat split; try assumption. eauto.
Qed.

Lemma mejoradas_conserva (n batch_size : nat) (refs : list Referencia) :
  (0 < batch_size)%nat -> (length refs <= n)%nat ->
  Forall2 (tras_la_resolucion env) refs
          (concat (List.map (procesar_batch env texto_original)
                     (Pipeline.trocear n batch_size refs))).
Proof.
  intros Hb. revert refs. induction n as [|n IH]; intros refs Hn.
  - destruct refs; [constructor|cbn in Hn; lia].
  - destruct refs as [|r refs]; [constructor|].
    cbn [Pipeline.trocear List.map concat].
    rewrite <- (take_drop batch_size (r :: refs)) at 1.
    apply Forall2_app; [apply procesar_batch_conserva|].
    apply IH. rewrite length_drop. cbn [length] in *. lia.
Qed.

Lemma filter_vacio {A : Type} (p : A -> bool) (l : list A) :
  List.filter p l = [] -> Forall (fun x => p x = false) l.
Proof.
  induction l as [|x l IH]; cbn; [constructor|].
  destruct (p x) eqn:Hp; [discriminate|]. intros H. constructor; auto.
Qed.

Lemma filter_todo {A : Type} (p : A -> bool) (l : list A) :
  Forall (fun x => p x = true) l -> List.filter p l = l.
Proof.
  induction 1 as [|x l Hx _ IH]; cbn; [reflexivity|]. now rewrite Hx, IH.
Qed.

(** The confidence of a reference after the second pass. *)
Lemma segunda_pasada_confianza (ley_principal : option string) (ref : Referencia) (c : Z) :
  confianza (segunda_pasada ley_principal ref) = Some c -> c < 95 \/ 100 <= c.
Proof.
  unfold segunda_pasada.
  destruct (verdadero ley_principal && negb (verdadero (ley ref))).
  - cbn. intros H. inversion H. lia.
  - destruct (95 <=? get_confianza ref 0) eqn:E.
    + cbn. intros H. inversion H. lia.
    + intros H. unfold get_confianza in E. rewrite H in E. cbn in E.
      apply Z.leb_gt in E. lia.
Qed.

Lemma segunda_pasada_texto (ley_principal : option string) (ref : Referencia) :
  campo_texto_completo (segunda_pasada ley_principal ref)
  = campo_texto_completo ref.
Proof.
  unfold segunda_pasada.
  destruct (verdadero ley_principal && negb (verdadero (ley ref)));
    [reflexivity|].
  now destruct (95 <=? get_confianza ref 0).
Qed.

(** The loop of the second pass: what it appended is a prefix of the
    state it leaves; without a failure it has visited every reference;
    and it fails only on a [null] text. *)
Lemma bucle_segunda_pasada_spec (ley_principal : option string)
      (refs : list Referencia) :
  let '(anexadas, estado, fallo) := bucle_segunda_pasada ley_principal refs in
  length estado = length refs
  /\ (length anexadas <= length refs)%nat
  /\ (fallo = false ->
      anexadas = List.map (segunda_pasada ley_principal) refs
      /\ estado = anexadas)
  /\ (fallo = true -> Exists (fun r => campo_texto_completo r = Nulo) refs)
  /\ Forall (fun r => forall c, confianza r = Some c -> c < 95 \/ 100 <= c)
            anexadas.
Proof.
  induction refs as [|r refs IH]; cbn [bucle_segunda_pasada].
  - repeat split; try reflexivity; try discriminate; constructor.
  - pose proof (registrar_texto_casos r) as Hr.
    destruct (if con_linea_de_registro ley_principal r
              then registrar_texto r else Ok tt) as [[]|e] eqn:Hreg.
    + destruct (bucle_segunda_pasada ley_principal refs)
        as [[anexadas estado] fallo].
      destruct IH as (H1 & H2 & H3 & H4 & H5). cbn [length List.map].
      split; [lia|]. split; [lia|]. split.
      { intros Hf. destruct (H3 Hf) as [-> ->]. now split. }
      split; [intros Hf; apply Exists_cons_tl; now apply H4|].
      constructor; [apply segunda_pasada_confianza|exact H5].
    + cbn [length]. split; [reflexivity|]. split; [lia|].
      split; [discriminate|]. split; [|constructor].
      intros _. apply Exists_cons_hd.
      destruct (con_linea_de_registro ley_principal r); [|discriminate].
      rewrite Hreg in Hr. now destruct Hr.
Qed.

End ResolutorDeContexto.

Section ResolutorEntero.
Import PyStr ContextResolver ResolucionContexto.
Variable env : Entorno.
Variable texto_original : string.

Lemma tras_la_resolucion_texto (o u : Referencia) :
  tras_la_resolucion env o u -> campo_texto_completo u = campo_texto_completo o.
Proof. now intros [(H & _) _]. Qed.

Lemma Forall2_Forall_texto (l l' : list Referencia) :
  Forall2 (tras_la_resolucion env) l l' ->
  Forall con_texto_no_nulo l -> Forall con_texto_no_nulo l'.
Proof.
  induction 1 as [|o u l l' H _ IH]; intros Hf; [constructor|].
  inversion Hf; subst. constructor; [|now apply IH].
  unfold con_texto_no_nulo. now rewrite (tras_la_resolucion_texto o u H).
Qed.

(** What [procesar] returns is built from the partition of its input, the
    LLM pass over the incomplete references and the second pass. *)
Lemma procesar_inversion (referencias : list Referencia) (res : Resultado) :
  procesar env referencias texto_original = Ok res ->
  let completas :=
    List.filter (fun ref => negb (get_confianza ref 100 <? 100)) referencias in
  let incompletas :=
    List.filter (fun ref => get_confianza ref 100 <? 100) referencias in
  (incompletas = [] /\ referencias_resueltas res = referencias)
  \/ exists mejoradas ley_principal anexadas estado fallo,
      incompletas <> []
      /\ Forall2 (tras_la_resolucion env) incompletas mejoradas
      /\ bucle_segunda_pasada ley_principal
           (List.filter (fun ref => get_confianza ref 0 <? 100) mejoradas)
         = (anexadas, estado, fallo)
      /\ referencias_resueltas res
         = completas
             ++ List.filter (fun ref => negb (get_confianza ref 0 <? 100)) mejoradas
             ++ anexadas ++ (if fallo then estado else []).
Proof.
  cbn zeta. unfold procesar.
  destruct referencias as [|r0 refs0] eqn:Hrefs.
  { intros [= <-]. now left. }
  rewrite <- Hrefs. clear Hrefs r0 refs0.
  pose proof (filtro_de_confianza_casos (fun c => c <? 100) 100 referencias) as H1.
  cbn beta in H1.
  destruct (exc_filter _ referencias) as [incompletas|e]; cbn [exc_bind];
    [|discriminate].
  destruct H1 as [-> _].
  destruct (List.filter (fun ref => get_confianza ref 100 <? 100) referencias)
    as [|i0 is0] eqn:Hinc.
  { intros [= <-]. now left. }
  rewrite <- Hinc.
  match goal with
  | |- context [concat ?ls] => set (mejoradas := concat ls)
  end.
  pose proof (filtro_de_confianza_casos (fun c => c <? 100) 0 mejoradas) as H2.
  cbn beta in H2.
  destruct (exc_filter _ mejoradas) as [aun|e]; cbn [exc_bind]; [|discriminate].
  destruct H2 as [-> _].
  match goal with
  | |- context [bucle_segunda_pasada ?lp ?l] =>
      destruct (bucle_segunda_pasada lp l) as [[anexadas estado] fallo] eqn:Hb;
      intros [= <-]; right; exists mejoradas, lp, anexadas, estado, fallo
  end.
  split; [rewrite Hinc; discriminate|]. split.
  { subst mejoradas. apply mejoradas_conserva; lia. }
  split; [exact Hb|]. reflexivity.
Qed.

(** [procesar] fails only in a comparison of a [null] confidence, which
    the input carried or a resolution of the LLM wrote. *)
Lemma procesar_raise (referencias : list Referencia) (e : excepcion) :
  procesar env referencias texto_original = Raise e ->
  e = TypeError
  /\ (Exists (fun r => campo_confianza r = Nulo) referencias
      \/ exists contextos resoluciones resolucion,
          resolver env contextos = Ok (Some resoluciones)
          /\ resolucion ∈ resoluciones
          /\ res_confianza resolucion = Nulo).
Proof.
  unfold procesar.
  destruct referencias as [|r0 refs0] eqn:Hrefs; [discriminate|].
  rewrite <- Hrefs. clear Hrefs r0 refs0.
  pose proof (filtro_de_confianza_casos (fun c => c <? 100) 100 referencias) as H1.
  cbn beta in H1.
  destruct (exc_filter _ referencias) as [incompletas|e1]; cbn [exc_bind].
  2:{ intros [= <-]. destruct H1 as [-> H1]. split; [reflexivity|now left]. }
  destruct H1 as [-> Hnn].
  destruct (List.filter (fun ref => get_confianza ref 100 <? 100) referencias)
    as [|i0 is0] eqn:Hinc; [discriminate|].
  rewrite <- Hinc.
  match goal with
  | |- context [concat ?ls] => set (mejoradas := concat ls)
  end.
  assert (Hm : Forall2 (tras_la_resolucion env)
                 (List.filter (fun ref => get_confianza ref 100 <? 100) referencias)
                 mejoradas).
  { subst mejoradas. apply mejoradas_conserva; [lia|]. rewrite Hinc. lia. }
  pose proof (filtro_de_confianza_casos (fun c => c <? 100) 0 mejoradas) as H2.
  cbn beta in H2.
  destruct (exc_filter _ mejoradas) as [aun|e2]; cbn [exc_bind].
  { destruct (bucle_segunda_pasada _ _) as [[anexadas estado] fallo]. discriminate. }
  intros [= <-]. destruct H2 as [-> H2]. split; [reflexivity|].
  apply Exists_exists in H2 as (u & Hu & Hnul).
  apply list_elem_of_lookup in Hu as [k Hk].
  destruct (Forall2_lookup_r _ _ _ _ _ Hm Hk) as (o & Ho & [_ Hc]).
  destruct Hc as [->|(resoluciones & i & res & _ & Hb & _ & Hconf & ctxs & Hres)].
  - left. apply Exists_exists. exists o. split; [|exact Hnul].
    apply list_elem_of_lookup_2 in Ho. apply list_elem_of_In in Ho.
    apply List.filter_In in Ho as [Ho _]. now apply list_elem_of_In.
  - right. exists ctxs, resoluciones, res. split; [exact Hres|].
    unfold buscar_resolucion in Hb. apply List.find_some in Hb as [Hb _].
    split; [now apply list_elem_of_In|].
    rewrite Hnul in Hconf. now destruct (res_confianza res).
Qed.

End ResolutorEntero.

(** X22.  The context resolver fails only with the [TypeError] of a
    comparison with a [null] confidence, carried by the input or written
    from a resolution of the LLM.  When it returns, it returns at least as
    many references as it received, and as many when no input reference
    has a [null] text; it puts first, unchanged and in their order, those
    that came in with confidence 100 or more or with none; the references
    it worked on follow them, so the output is in input order only when
    nothing precedes a complete reference. *)
Theorem X22_resolutor_conserva_el_numero (env : ResolucionContexto.Entorno)
        (referencias : list Referencia) (texto_original : string) :
  match ResolucionContexto.procesar env referencias texto_original with
  | Raise e =>
      e = TypeError
      /\ (Exists (fun r => campo_confianza r = Nulo) referencias
          \/ exists contextos resoluciones resolucion,
              ResolucionContexto.resolver env contextos = Ok (Some resoluciones)
              /\ resolucion ∈ resoluciones
              /\ ContextResolver.res_confianza resolucion = Nulo)
  | Ok res =>
      let salida := ResolucionContexto.referencias_resueltas res in
      let completas :=
        List.filter (fun ref => negb (get_confianza ref 100 <? 100)) referencias in
      (length referencias <= length salida <= 2 * length referencias)%nat
      /\ (Forall con_texto_no_nulo referencias ->
          length salida = length referencias)
      /\ completas `prefix_of` salida
      /\ (completas = referencias -> salida = referencias)
  end.
Proof.
  destruct (ResolucionContexto.procesar env referencias texto_original)
    as [res|e] eqn:E; [|now apply (procesar_raise env texto_original)].
  cbn zeta.
  pose proof (List.filter_length (fun ref => get_confianza ref 100 <? 100) referencias)
    as Hpart.
  cbn beta in Hpart.
  destruct (procesar_inversion env texto_original referencias res E)
    as [[Hinc ->]
       |(mejoradas & lp & anexadas & estado & fallo & Hinc & Hm & Hb & ->)].
  - assert (Hc : List.filter (fun ref => negb (get_confianza ref 100 <? 100))
                             referencias = referencias).
    { apply filter_todo. apply filter_vacio in Hinc.
      eapply Forall_impl; [exact Hinc|]. cbn. intros x ->. reflexivity. }
    rewrite Hc. split; [lia|]. split; [reflexivity|].
    split; [exists []; now rewrite app_nil_r|reflexivity].
  - pose proof (Forall2_length _ _ _ Hm) as Hlen.
    pose proof (List.filter_length (fun ref => get_confianza ref 0 <? 100) mejoradas)
      as Hpart2.
    pose proof (bucle_segunda_pasada_spec lp
                  (List.filter (fun ref => get_confianza ref 0 <? 100) mejoradas))
      as Hs.
    rewrite Hb in Hs. destruct Hs as (H1 & H2 & H3 & H4 & _).
    cbn beta in Hpart, Hpart2.
    split; [|split; [|split]].
    + rewrite !length_app. destruct fallo.
      * lia.
      * destruct (H3 eq_refl) as [-> _]. rewrite length_map, length_nil. lia.
    + intros Hf.
      assert (Hfallo : fallo = false).
      { destruct fallo; [|reflexivity]. exfalso.
        pose proof (H4 eq_refl) as Hex.
        apply Exists_exists in Hex as (x & Hx & Hnul).
        apply list_elem_of_In, List.filter_In in Hx as [Hx _].
        apply list_elem_of_In in Hx.
        assert (Hinc_f : Forall con_texto_no_nulo
                           (List.filter (fun ref => get_confianza ref 100 <? 100)
                                        referencias)).
        { apply Forall_forall. intros y Hy.
          apply list_elem_of_In, List.filter_In in Hy as [Hy _].
          rewrite Forall_forall in Hf. apply Hf. now apply list_elem_of_In. }
        pose proof (Forall2_Forall_texto env _ _ Hm Hinc_f) as Hmf.
        rewrite Forall_forall in Hmf. now apply (Hmf x Hx). }
      subst fallo. destruct (H3 eq_refl) as [-> _].
      rewrite !length_app, length_map, length_nil. lia.
    + eexists. reflexivity.
    + intros Hc. exfalso. rewrite Hc in Hpart.
      destruct (List.filter (fun ref => get_confianza ref 100 <? 100) referencias);
        [contradiction|cbn [length] in Hpart; lia].
Qed.

(** Two references come back as three: the log line of the second pass
    fails on the [null] text of the second one, after the first was
    appended, and the handler appends both again. *)
Example resolutor_devuelve_tres_de_dos :
  exists res,
    ResolucionContexto.procesar Escenarios.resolutor_mudo
      [Escenarios.ref_art_2;
       set_confianza (Valor 96) (set_texto_completo Nulo Escenarios.ref_art_7)]
      "tema" = Ok res
    /\ List.map articulo (ResolucionContexto.referencias_resueltas res)
       = [Some "2"; Some "2"; Some "7"]
    /\ List.map confianza (ResolucionContexto.referencias_resueltas res)
       = [Some 100; Some 100; Some 100].
Proof. eexists. split; [|split]; vm_compute; reflexivity. Qed.

(** When the [null] text comes first the loop stops there, and the 96 of
    the reference after it is returned as it was. *)
Example resolutor_deja_un_96 :
  exists res,
    ResolucionContexto.procesar Escenarios.resolutor_mudo
      [set_texto_completo Nulo Escenarios.ref_art_2;
       set_confianza (Valor 96) Escenarios.ref_art_7] "tema" = Ok res
    /\ List.map confianza (ResolucionContexto.referencias_resueltas res)
       = [Some 100; Some 96].
Proof. eexists. split; vm_compute; reflexivity. Qed.

(** X23.  When no input reference has a [null] text, no reference leaves
    the context resolver with a confidence from 95 to 99: a reference that
    is still below 100 after the LLM pass is raised to 100 when its
    confidence is 95 or more (or when the document's main law is assigned
    to it), so what stays below 100 is below 95. *)
Theorem X23_sin_confianzas_de_95_a_99 (env : ResolucionContexto.Entorno)
        (referencias : list Referencia) (texto_original : string)
        (res : ResolucionContexto.Resultado) :
  ResolucionContexto.procesar env referencias texto_original = Ok res ->
  Forall con_texto_no_nulo referencias ->
  Forall (fun r => forall c, confianza r = Some c -> c < 95 \/ 100 <= c)
         (ResolucionContexto.referencias_resueltas res).
Proof.
  intros E Hf.
  assert (Hcompleta : forall (d : Z) (r : Referencia),
             negb (get_confianza r d <? 100) = true ->
             forall c, confianza r = Some c -> c < 95 \/ 100 <= c).
  { intros d r Hr c Hc. unfold get_confianza in Hr. rewrite Hc in Hr. cbn in Hr.
    apply negb_true_iff, Z.ltb_ge in Hr. lia. }
  destruct (procesar_inversion env texto_original referencias res E)
    as [[Hinc ->]
       |(mejoradas & lp & anexadas & estado & fallo & Hinc & Hm & Hb & ->)].
  - apply filter_vacio in Hinc. eapply Forall_impl; [exact Hinc|].
    cbn. intros r Hr. apply (Hcompleta 100). now rewrite Hr.
  - pose proof (bucle_segunda_pasada_spec lp
                  (List.filter (fun ref => get_confianza ref 0 <? 100) mejoradas))
      as Hs.
    rewrite Hb in Hs. destruct Hs as (_ & _ & H3 & H4 & H5).
    assert (Hfallo : fallo = false).
    { destruct fallo; [|reflexivity]. exfalso.
      pose proof (H4 eq_refl) as Hex.
        apply Exists_exists in Hex as (x & Hx & Hnul).
      apply list_elem_of_In, List.filter_In in Hx as [Hx _].
      apply list_elem_of_In in Hx.
      assert (Hinc_f : Forall con_texto_no_nulo
                         (List.filter (fun ref => get_confianza ref 100 <? 100)
                                      referencias)).
      { apply Forall_forall. intros y Hy.
        apply list_elem_of_In, List.filter_In in Hy as [Hy _].
        rewrite Forall_forall in Hf. apply Hf. now apply list_elem_of_In. }
      pose proof (Forall2_Forall_texto env _ _ Hm Hinc_f) as Hmf.
      rewrite Forall_forall in Hmf. now apply (Hmf x Hx). }
    subst fallo. rewrite app_nil_r.
    repeat apply Forall_app_2.
    + apply Forall_forall. intros r Hr. apply list_elem_of_In in Hr.
      apply List.filter_In in Hr as [_ Hr]. now apply (Hcompleta 100).
    + apply Forall_forall. intros r Hr. apply list_elem_of_In in Hr.
      apply List.filter_In in Hr as [_ Hr]. now apply (Hcompleta 0).
    + exact H5.
Qed.

Lemma X23_sin_confianzas_de_95_a_99_witness :
  exists res,
    ResolucionContexto.procesar Escenarios.resolutor_mudo
      [Escenarios.ref_art_2; set_confianza (Valor 96) Escenarios.ref_art_7]
      "tema" = Ok res
    /\ List.map confianza (ResolucionContexto.referencias_resueltas res)
       = [Some 100; Some 100]
    /\ Forall (fun r => forall c, confianza r = Some c -> c < 95 \/ 100 <= c)
              (ResolucionContexto.referencias_resueltas res).
Proof.
  eexists. split; [vm_compute; reflexivity|]. split; [vm_compute; reflexivity|].
  apply (X23_sin_confianzas_de_95_a_99 Escenarios.resolutor_mudo
           [Escenarios.ref_art_2; set_confianza (Valor 96) Escenarios.ref_art_7]
           "tema").
  - vm_compute. reflexivity.
  - repeat constructor; discriminate.
Defined.

(** X24.  The resolutions of the LLM are matched by position in the
    batch, while the prompt numbers only the references that could be
    located in the text.  When the first reference of a batch cannot be
    located and the second can, the prompt shows the second one as
    "Referencia 1", and the law and the confidence that the reply gives
    for index 1 are written on the first reference; the second stays as
    it was.  That is so when the text of the first reference is not
    [null]; when it is, the log line for the reference that was not
    located fails and the batch comes back as it was. *)
Theorem X24_resoluciones_por_posicion_en_el_lote
        (env : ResolucionContexto.Entorno) (texto_original : string)
        (r1 r2 : Referencia) (p : nat) (res : ContextResolver.Resolucion) :
  let contexto_r2 :=
    {| ResolucionContexto.ctx_referencia := r2;
       ResolucionContexto.ctx_contexto :=
         ResolucionContexto._extraer_chunk texto_original p 1500;
       ResolucionContexto.ctx_posicion := p |} in
  ResolucionContexto._encontrar_posicion env r1 texto_original = Ok None ->
  ResolucionContexto._encontrar_posicion env r2 texto_original = Ok (Some p) ->
  ResolucionContexto.resolver env [contexto_r2] = Ok (Some [res]) ->
  ContextResolver.index res = Some 1 ->
  verdadero (ContextResolver.ley_identificada res) = true ->
  (campo_texto_completo r1 <> Nulo ->
   ResolucionContexto._extraer_contextos env [r1; r2] texto_original
   = Ok [contexto_r2]
   /\ exists r1', ResolucionContexto.procesar_batch env texto_original [r1; r2]
                  = [r1'; r2]
                  /\ ley r1' = ContextResolver.ley_identificada res
                  /\ campo_confianza r1'
                     = ContextResolver.campo_escrito
                         (ContextResolver.res_confianza res) 90)
  /\ (campo_texto_completo r1 = Nulo ->
      ResolucionContexto._extraer_contextos env [r1; r2] texto_original
      = Raise TypeError
      /\ ResolucionContexto.procesar_batch env texto_original [r1; r2]
         = [r1; r2]).
Proof.
  cbn zeta. intros H1 H2 Hres Hidx Hley.
  assert (Hr2 : campo_texto_completo r2 <> Nulo).
  { intros Hn. unfold ResolucionContexto._encontrar_posicion in H2.
    rewrite Hn in H2. discriminate. }
  split.
  - intros Hr1.
    assert (Hreg1 : registrar_texto r1 = Ok tt).
    { unfold registrar_texto. now destruct (campo_texto_completo r1). }
    assert (Hreg2 : registrar_texto r2 = Ok tt).
    { unfold registrar_texto. now destruct (campo_texto_completo r2). }
    assert (Hctx : ResolucionContexto._extraer_contextos env [r1; r2] texto_original
                   = Ok [{| ResolucionContexto.ctx_referencia := r2;
                            ResolucionContexto.ctx_contexto :=
                              ResolucionContexto._extraer_chunk texto_original p 1500;
                            ResolucionContexto.ctx_posicion := p |}]).
    { cbn [ResolucionContexto._extraer_contextos]. rewrite H1, H2.
      cbn [exc_bind]. rewrite Hreg1. reflexivity. }
    split; [exact Hctx|].
    unfold ResolucionContexto.procesar_batch. rewrite Hctx. cbn [exc_bind].
    rewrite Hres.
    cbn [exc_bind try_except ContextResolver._parsear_respuesta
           ContextResolver.actualizar_desde].
    unfold ContextResolver.con_registro. rewrite Hreg1, Hreg2.
    cbn [exc_bind try_except].
    unfold ContextResolver.actualizar at 2.
    unfold ContextResolver.buscar_resolucion. cbn [List.find]. rewrite Hidx.
    cbn [default from_option Datatypes.id].
    change (1 =? Z.of_nat 1 + 1) with false. cbn iota.
    eexists. split; [reflexivity|].
    unfold ContextResolver.actualizar, ContextResolver.buscar_resolucion.
    cbn [List.find]. rewrite Hidx. cbn [default from_option Datatypes.id].
    change (1 =? Z.of_nat 0 + 1) with true. cbn iota. rewrite Hley.
    cbn [articulo ley set_contexto set_confianza set_ley].
    rewrite Hley, andb_false_r. cbn. now split.
  - intros Hr1.
    assert (Hctx : ResolucionContexto._extraer_contextos env [r1; r2] texto_original
                   = Raise TypeError).
    { cbn [ResolucionContexto._extraer_contextos]. rewrite H1.
      cbn [exc_bind]. unfold registrar_texto. now rewrite Hr1. }
    split; [exact Hctx|].
    unfold ResolucionContexto.procesar_batch. now rewrite Hctx.
Qed.

Lemma X24_resoluciones_por_posicion_en_el_lote_witness :
  ResolucionContexto._extraer_contextos Escenarios.resolutor_art_7
    [Escenarios.ref_art_5; Escenarios.ref_art_7] "Según el art. 7 de la LPAC"
  = Ok [{| ResolucionContexto.ctx_referencia := Escenarios.ref_art_7;
           ResolucionContexto.ctx_contexto :=
             ResolucionContexto._extraer_chunk "Según el art. 7 de la LPAC" 10 1500;
           ResolucionContexto.ctx_posicion := 10 |}]
  /\ exists r1',
       ResolucionContexto.procesar_batch Escenarios.resolutor_art_7
         "Según el art. 7 de la LPAC" [Escenarios.ref_art_5; Escenarios.ref_art_7]
       = [r1'; Escenarios.ref_art_7]
       /\ ley r1' = Some "Ley 39/2015"
       /\ campo_confianza r1' = Valor 100.
Proof.
  apply (X24_resoluciones_por_posicion_en_el_lote Escenarios.resolutor_art_7
           "Según el art. 7 de la LPAC" Escenarios.ref_art_5 Escenarios.ref_art_7
           10 Escenarios.resolucion_de_la_primera); try reflexivity.
  discriminate.
Defined.

(** X25.  [_parsear_respuesta] of the context resolver returns one
    reference per original, in order, and writes only the law, the
    confidence and the two context marks: the text of the reference is
    never rewritten, because the rewrite is guarded by the absence of the
    law that has just been assigned.  A reference it changes has a
    non-empty law, the mark [_contexto_resuelto] and a confidence entry,
    which is the one of the resolution, 90 when the resolution has none
    and [null] when the resolution says [null].  When an original has a
    [null] text the log line of the loop fails and the originals come
    back as they were. *)
Theorem X25_parseo_del_resolutor
        (respuesta : option (list ContextResolver.Resolucion))
        (referencias_originales : list Referencia) :
  Forall2 (fun o u =>
             igual_salvo_ley_y_confianza o u
             /\ (u = o
                 \/ (verdadero (ley u) = true
                     /\ _contexto_resuelto u = Some true
                     /\ campo_confianza u <> Ausente)))
          referencias_originales
          (ContextResolver._parsear_respuesta respuesta referencias_originales)
  /\ (Exists (fun r => campo_texto_completo r = Nulo) referencias_originales ->
      ContextResolver._parsear_respuesta respuesta referencias_originales
      = referencias_originales)
  /\ (forall resoluciones i o resolucion,
         respuesta = Some resoluciones ->
         Forall con_texto_no_nulo referencias_originales ->
         referencias_originales !! i = Some o ->
         ContextResolver.buscar_resolucion resoluciones i = Some resolucion ->
         verdadero (ContextResolver.ley_identificada resolucion) = true ->
         exists u,
           ContextResolver._parsear_respuesta respuesta referencias_originales !! i
           = Some u
           /\ ley u = ContextResolver.ley_identificada resolucion
           /\ campo_confianza u
              = ContextResolver.campo_escrito
                  (ContextResolver.res_confianza resolucion) 90).
Proof.
  split; [|split].
  - destruct (parsear_respuesta_casos respuesta referencias_originales)
      as [->|(resoluciones & -> & _ & ->)].
    + apply Forall_Forall2_diag, Forall_forall. intros r _.
      split; [apply igual_salvo_refl|now left].
    + apply Forall2_same_length_lookup_2; [now rewrite length_imap|].
      intros i o u Ho Hu. rewrite list_lookup_imap, Ho in Hu.
      cbn in Hu. injection Hu as <-.
      destruct (actualizar_conserva resoluciones i o)
        as [Hi [He|(res & Hb & Hl & Hley & Hc & Hm & _)]].
      * split; [exact Hi|now left].
      * split; [exact Hi|]. right. rewrite Hley. split; [exact Hl|].
        split; [exact Hm|]. rewrite Hc.
        now destruct (ContextResolver.res_confianza res).
  - intros Hex.
    destruct (parsear_respuesta_casos respuesta referencias_originales)
      as [->|(resoluciones & _ & Hf & _)]; [reflexivity|].
    exfalso. apply Exists_exists in Hex as (r & Hr & Hnul).
    rewrite Forall_forall in Hf. now apply (Hf r Hr).
  - intros resoluciones i o res -> Hf Ho Hb Hl.
    unfold ContextResolver._parsear_respuesta.
    pose proof (actualizar_desde_casos resoluciones 0 referencias_originales) as H.
    destruct (ContextResolver.actualizar_desde resoluciones 0 referencias_originales)
      as [l|e]; cbn [try_except].
    + destruct H as [_ ->]. rewrite list_lookup_imap, Ho. cbn.
      eexists. split; [reflexivity|].
      now apply actualizar_resuelta.
    + exfalso. destruct H as [_ Hex].
      apply Exists_exists in Hex as (r & Hr & Hnul).
      rewrite Forall_forall in Hf. now apply (Hf r Hr).
Qed.
(* ===================================================================== *)
(** ** The title resolver *)
(* ===================================================================== *)

Section ResolutorDeTitulos.
Import Titulos.
Variable env : Entorno.
Variable texto_original : string.

Lemma actualizar_titulada (titulos : list TituloInfo) (i : nat) (ref : Referencia) :
  titulada_de ref (actualizar titulos i ref).
Proof.
  unfold actualizar, titulada_de.
  destruct (List.find _ titulos) as [t|]; [|cbn; repeat split; congruence].
  destruct (verdadero (titulo_completo t)) eqn:Ht; cbn;
    repeat split; congruence.
Qed.

Lemma procesar_batch_titulada (batch : list Referencia) :
  Forall2 titulada_de batch (procesar_batch env texto_original batch).
Proof.
  unfold procesar_batch.
  assert (Hsin : Forall2 titulada_de batch (List.map sin_titulo batch)).
  { induction batch as [|r batch IH]; constructor; [|exact IH].
    unfold titulada_de, sin_titulo. cbn. repeat split; congruence. }
  destruct (titular env batch _) as [[titulos|]|e]; cbn; try exact Hsin.
  apply Forall2_same_length_lookup_2; [now rewrite length_imap|].
  intros i o t Ho Ht. rewrite list_lookup_imap, Ho in Ht. cbn in Ht.
  inversion Ht; subst t. apply actualizar_titulada.
Qed.

Lemma por_lotes_Forall2 {B : Type} (R : Referencia -> B -> Prop)
      (f : list Referencia -> list B) (n batch_size : nat) (refs : list Referencia) :
  (forall batch, Forall2 R batch (f batch)) ->
  (0 < batch_size)%nat -> (length refs <= n)%nat ->
  Forall2 R refs (concat (List.map f (Pipeline.trocear n batch_size refs))).
Proof.
  intros Hf Hb. revert refs. induction n as [|n IH]; intros refs Hn.
  - destruct refs; [constructor|cbn in Hn; lia].
  - destruct refs as [|r refs]; [constructor|].
    cbn [Pipeline.trocear List.map concat].
    rewrite <- (take_drop batch_size (r :: refs)) at 1.
    apply Forall2_app; [apply Hf|].
    apply IH. rewrite length_drop. cbn [length] in *. lia.
Qed.

End ResolutorDeTitulos.


(* ===================================================================== *)
(** ** [procesar_tema] *)
(* ===================================================================== *)

(** X27.  With [use_context_agent=False], [procesar_tema] never reaches
    the title phase: the dict it builds for the skipped phase has the key
    'referencias', and the next statement reads 'referencias_resueltas'.
    Every run that gets through the convergence phase ends in that
    [KeyError], whatever the text, the agents and the thresholds; and a
    run gets through that phase whenever the bound on the rounds is at
    least one and the references of the provider carry no [null] text or
    confidence. *)
Theorem X27_tema_sin_agente_de_contexto (prov : Proveedor)
        (ctx : ResolucionContexto.Entorno) (tit : Titulos.Entorno)
        (et : Pipeline.Etapas)
        (max_rondas_convergencia umbral_confianza_init max_workers : Z)
        (orden_n orden_v : list nat) (umbral_confianza : Z)
        (texto_procesado : string) :
  (forall res,
      Pipeline.fase_convergencia prov max_rondas_convergencia
        umbral_confianza_init texto_procesado = Ok res ->
      Orquestador.procesar_tema prov ctx tit et max_rondas_convergencia
        umbral_confianza_init max_workers orden_n orden_v false umbral_confianza
        texto_procesado
      = inl (Orquestador.KeyError "referencias_resueltas"))
  /\ (1 <= max_rondas_convergencia ->
      proveedor_sin_nulos prov texto_procesado ->
      Orquestador.procesar_tema prov ctx tit et max_rondas_convergencia
        umbral_confianza_init max_workers orden_n orden_v false umbral_confianza
        texto_procesado
      = inl (Orquestador.KeyError "referencias_resueltas")).
Proof.
  assert (H : forall res,
             Pipeline.fase_convergencia prov max_rondas_convergencia
               umbral_confianza_init texto_procesado = Ok res ->
             Orquestador.procesar_tema prov ctx tit et max_rondas_convergencia
               umbral_confianza_init max_workers orden_n orden_v false
               umbral_confianza texto_procesado
             = inl (Orquestador.KeyError "referencias_resueltas")).
  { intros res Hc. unfold Orquestador.procesar_tema. rewrite Hc. reflexivity. }
  split; [exact H|].
  intros Hmax Hp.
  destruct (ejecutar_devuelve prov texto_procesado max_rondas_convergencia
              umbral_confianza_init Hmax Hp) as [res Hres].
  now apply (H res).
Qed.

Lemma X27_tema_sin_agente_de_contexto_witness :
  (exists res, Pipeline.fase_convergencia Escenarios.proveedor_seis
                 Pipeline.max_rondas_convergencia_defecto
                 Pipeline.umbral_confianza_init_defecto "tema" = Ok res
               /\ Convergencia.referencias res <> [])
  /\ Orquestador.procesar_tema Escenarios.proveedor_seis Escenarios.resolutor_mudo
       Escenarios.titulos_en_linea Escenarios.etapas_marcadoras
       Pipeline.max_rondas_convergencia_defecto
       Pipeline.umbral_confianza_init_defecto Pipeline.max_workers_defecto
       [0; 1; 2; 3]%nat [0; 1; 2; 3; 4]%nat false
       Pipeline.umbral_confianza_defecto "tema"
     = inl (Orquestador.KeyError "referencias_resueltas").
Proof.
  split.
  - eexists. split; [vm_compute; reflexivity|discriminate].
  - eapply (proj1 (X27_tema_sin_agente_de_contexto _ _ _ _ _ _ _ _ _ _ _)).
    vm_compute. reflexivity.
Defined.

(** X28.  A text in which the convergence phase finds no reference makes
    [procesar_tema] fail with the context agent enabled: the title
    resolver returns an empty 'metricas' for an empty list, and the log
    line of the title phase reads 'confianza_promedio' from it. *)
Theorem X28_tema_sin_referencias (prov : Proveedor)
        (ctx : ResolucionContexto.Entorno) (tit : Titulos.Entorno)
        (et : Pipeline.Etapas)
        (max_rondas_convergencia umbral_confianza_init max_workers : Z)
        (orden_n orden_v : list nat) (umbral_confianza : Z)
        (texto_procesado : string) (res : Convergencia.Resultado) :
  Pipeline.fase_convergencia prov max_rondas_convergencia umbral_confianza_init
    texto_procesado = Ok res ->
  Convergencia.referencias res = [] ->
  Orquestador.procesar_tema prov ctx tit et max_rondas_convergencia
    umbral_confianza_init max_workers orden_n orden_v true umbral_confianza
    texto_procesado
  = inl (Orquestador.KeyError "confianza_promedio").
Proof.
  intros Hc Hr. unfold Orquestador.procesar_tema. rewrite Hc.
  cbn [Orquestador.elevar Orquestador.ligar]. rewrite Hr. reflexivity.
Qed.

(** The three agents are down: the convergence phase returns an empty
    list and the run ends in the [KeyError]. *)
Lemma X28_tema_sin_referencias_witness :
  exists res,
    Pipeline.fase_convergencia Escenarios.proveedor_caido
      Pipeline.max_rondas_convergencia_defecto
      Pipeline.umbral_confianza_init_defecto "tema" = Ok res
    /\ Convergencia.referencias res = []
    /\ Orquestador.procesar_tema Escenarios.proveedor_caido Escenarios.resolutor_mudo
         Escenarios.titulos_en_linea Escenarios.etapas_marcadoras
         Pipeline.max_rondas_convergencia_defecto
         Pipeline.umbral_confianza_init_defecto Pipeline.max_workers_defecto
         [] [] true Pipeline.umbral_confianza_defecto "tema"
       = inl (Orquestador.KeyError "confianza_promedio").
Proof.
  eexists. split; [vm_compute; reflexivity|]. split; [reflexivity|].
  eapply X28_tema_sin_referencias; [vm_compute; reflexivity|reflexivity].
Defined.

(** With the context agent enabled and references to work on, the run
    reaches the filter of phase 4: the six references of the scenario,
    less the two below the threshold. *)
Example tema_con_referencias :
  exists informe,
    Orquestador.procesar_tema Escenarios.proveedor_seis Escenarios.resolutor_mudo
      Escenarios.titulos_en_linea Escenarios.etapas_marcadoras
      Pipeline.max_rondas_convergencia_defecto
      Pipeline.umbral_confianza_init_defecto Pipeline.max_workers_defecto
      [0; 1; 2; 3]%nat [0; 1; 2; 3; 4]%nat true
      Pipeline.umbral_confianza_defecto "tema"
    = inr informe
    /\ informe <> [].
Proof. eexists. split; [vm_compute; reflexivity|discriminate]. Qed.

(* ===================================================================== *)
(** ** The response cache *)
(* ===================================================================== *)


(* ===================================================================== *)

(* ===================================================================== *)
(** ** The counts of the rounds *)
(* ===================================================================== *)

Section CuentasDeLasRondas.
Import Convergencia.
Variable prov : Proveedor.
Variable texto : string.

Lemma ultimo_total_snoc (previas : Z) (hs : list ResultadoRonda) (rr : ResultadoRonda) :
  ultimo_total previas (hs ++ [rr]) = total_acumuladas rr.
Proof. unfold ultimo_total. now rewrite last_snoc. Qed.

Lemma cuentas_desde_snoc (previas : Z) (hs : list ResultadoRonda) (rr : ResultadoRonda) :
  cuentas_desde previas hs ->
  0 <= referencias_nuevas rr ->
  total_acumuladas rr = ultimo_total previas hs + referencias_nuevas rr ->
  cuentas_desde previas (hs ++ [rr]).
Proof.
  revert previas. induction hs as [|h hs IH]; intros previas Hc Hn Ht.
  - cbn in *. now repeat split.
  - cbn [app cuentas_desde] in *. destruct Hc as (H0 & H1 & H2).
    repeat split; try assumption. apply IH; try assumption.
    rewrite Ht. f_equal. unfold ultimo_total. rewrite last_cons.
    now destruct (last hs).
Qed.

(** A round keeps the books: the last total recorded is the length of the
    accumulated list. *)
Lemma ronda_cuentas (r : Z) (st st1 : Estado) (rr : ResultadoRonda) :
  cuentas_desde 0 (historial_rondas st)
  /\ ultimo_total 0 (historial_rondas st)
     = Z.of_nat (length (referencias_totales st)) ->
  _ejecutar_ronda prov texto r st = Ok (st1, rr) ->
  cuentas_desde 0 (historial_rondas st1 ++ [rr])
  /\ ultimo_total 0 (historial_rondas st1 ++ [rr])
     = Z.of_nat (length (referencias_totales st1)).
Proof.
  intros [Hc Hu] H.
  destruct (ronda_spec prov texto _ _ _ _ H) as (nuevas & Ht & Hn & Ha & _ & Hh & _).
  split.
  - rewrite Hh. apply cuentas_desde_snoc; [assumption|lia|].
    rewrite Hu, Ha, Hn, length_app. lia.
  - rewrite ultimo_total_snoc, Ha, Ht. reflexivity.
Qed.

Lemma bucle_cuentas (pendientes : nat) (st' : Estado) :
  bucle_rondas prov texto pendientes 1 estado_inicial = Ok st' ->
  cuentas_desde 0 (historial_rondas st')
  /\ ultimo_total 0 (historial_rondas st')
     = Z.of_nat (length (referencias_totales st')).
Proof.
  intros Hb.
  destruct (bucle_rondas_inv prov texto
              (fun _ s => cuentas_desde 0 (historial_rondas s)
                          /\ ultimo_total 0 (historial_rondas s)
                             = Z.of_nat (length (referencias_totales s))))
    with (pendientes := pendientes) (r := 1) (st := estado_inicial) (st' := st')
    as [_ H]; try assumption.
  - intros r s s1 rr Hs Hr. cbn [historial_rondas referencias_totales].
    exact (ronda_cuentas r s s1 rr Hs Hr).
  - now split.
Qed.

End CuentasDeLasRondas.

(** X30.  The history returned by a run keeps the books of the
    accumulated list: every round reports a number of new references that
    is not negative and a running total equal to the total of the round
    before plus that number, starting from zero; and the number of
    references returned, which is counted after the confidence filter, is
    at most the last running total. *)
Theorem X30_cuentas_de_las_rondas (prov : Proveedor)
        (max_rondas umbral : Z) (texto : string) (res : Convergencia.Resultado) :
  Convergencia.ejecutar prov max_rondas umbral texto = Ok res ->
  cuentas_desde 0 (Convergencia.historial res)
  /\ 0 <= Convergencia.total_referencias res
       <= ultimo_total 0 (Convergencia.historial res).
Proof.
  intros H.
  destruct (ejecutar_inversion _ _ _ _ _ H)
    as (st & ultima & Hb & Hf & _ & Htr & _ & _ & Hh).
  destruct (bucle_cuentas prov texto _ _ Hb) as [Hc Hu].
  rewrite Hh, Htr. split; [exact Hc|]. rewrite Hu.
  apply filtrar_por_confianza_sublista in Hf. rewrite Hf.
  match goal with
  | |- context [List.filter ?p ?l] => pose proof (List.filter_length_le p l)
  end.
  lia.
Qed.

Lemma X30_cuentas_de_las_rondas_witness :
  exists res,
    Convergencia.ejecutar Escenarios.proveedor_seis 7 60 "tema" = Ok res
    /\ cuentas_desde 0 (Convergencia.historial res)
    /\ Convergencia.total_referencias res = 5
    /\ ultimo_total 0 (Convergencia.historial res) = 6.
Proof.
  eexists. split; [vm_compute; reflexivity|].
  split; [|split; vm_compute; reflexivity].
  apply (X30_cuentas_de_las_rondas Escenarios.proveedor_seis 7 60 "tema").
  vm_compute. reflexivity.
Defined.
